(** * CleanDesk-ACRM: the consolidation, classification and report pipeline

    A shallow embedding of [src/main.py] (the Ollama workflow) and
    [src/gemini_process.py] (the Gemini workflow), with the properties their
    specification states about them, and of the two earlier scripts
    [src/dsa.py] and [src/Main2.py].

    Python [str] values are [string]s whose characters are read as the code
    points below 256.  A pandas table is a [DataFrame] (column labels and
    positional rows); files, log records and LLM requests live in a [World]
    that every operation threads through the monad [M], where a Python
    exception is the [Raise] result. *)

From Stdlib Require Import Ascii String.
From stdpp Require Import base decidable option list strings pretty gmap.

Local Open Scope nat_scope.

(** ** Text: the [str] methods the pipeline calls *)

Module Text.

(** [c.lower()] on one code point: A-Z and the upper-case letters of the
    Latin-1 block move 32 places up, everything else stays. *)
Definition char_lower (c : ascii) : ascii :=
  let n := nat_of_ascii c in
  if ((65 <=? n) && (n <=? 90)) || ((192 <=? n) && (n <=? 222) && negb (n =? 215))
  then ascii_of_nat (n + 32) else c.

(** [s.lower()] *)
Fixpoint lower (s : string) : string :=
  match s with
  | EmptyString => EmptyString
  | String c t => String (char_lower c) (lower t)
  end.

(** [c.isspace()] for code points below 256. *)
Definition isspace (c : ascii) : bool :=
  let n := nat_of_ascii c in
  ((9 <=? n) && (n <=? 13)) || ((28 <=? n) && (n <=? 32)) || (n =? 133) || (n =? 160).

Fixpoint lstrip (s : string) : string :=
  match s with
  | EmptyString => EmptyString
  | String c t => if isspace c then lstrip t else s
  end.

Fixpoint rstrip (s : string) : string :=
  match s with
  | EmptyString => EmptyString
  | String c t =>
      match rstrip t with
      | EmptyString => if isspace c then EmptyString else String c EmptyString
      | t' => String c t'
      end
  end.

(** [s.strip()] *)
Definition strip (s : string) : string := rstrip (lstrip s).

(** [s.startswith(p)] *)
Fixpoint startswith (p s : string) : bool :=
  match p, s with
  | EmptyString, _ => true
  | String a p', String b s' => if Ascii.eqb a b then startswith p' s' else false
  | String _ _, EmptyString => false
  end.

(** [needle in hay] *)
Fixpoint contains (needle hay : string) : bool :=
  if startswith needle hay then true
  else match hay with
       | EmptyString => false
       | String _ t => contains needle t
       end.

(** [s.replace(a, b)] for one-character [a] and [b]. *)
Fixpoint replace (a b : ascii) (s : string) : string :=
  match s with
  | EmptyString => EmptyString
  | String c t => String (if Ascii.eqb c a then b else c) (replace a b t)
  end.

(** [s.split(sep)] for a one-character separator. *)
Fixpoint split (sep : ascii) (s : string) : list string :=
  match s with
  | EmptyString => [EmptyString]
  | String c t =>
      if Ascii.eqb c sep then EmptyString :: split sep t
      else match split sep t with
           | h :: r => String c h :: r
           | [] => [String c EmptyString]
           end
  end.

(** [bool(s)]: a string is truthy when it is not empty. *)
Definition truthy (s : string) : bool :=
  match s with EmptyString => false | String _ _ => true end.

(** ["['a', 'b']"], the text of [list(data.columns)] in a log line. *)
Definition repr_list (l : list string) : string :=
  "[" +:+ String.concat ", " (map (fun s => "'" +:+ s +:+ "'") l) +:+ "]".

End Text.

(** ** Calendar dates: [datetime.strptime], [strftime] and [pd.to_datetime] *)

Record Date := mkDate { year : nat; month : nat; day : nat }.

#[global] Instance Date_eq_dec : EqDecision Date.
Proof. solve_decision. Defined.

Module Calendar.

Definition is_leap (y : nat) : bool :=
  ((y mod 4 =? 0) && negb (y mod 100 =? 0)) || (y mod 400 =? 0).

Definition days_in_month (y m : nat) : nat :=
  match m with
  | 2 => if is_leap y then 29 else 28
  | 4 | 6 | 9 | 11 => 30
  | _ => 31
  end.

(** The check of the [datetime] constructor: years 1 to 9999, months 1 to
    12, a day that exists in the month. *)
Definition valid (d : Date) : bool :=
  (1 <=? year d) && (year d <? 100 * 100) && (1 <=? month d) && (month d <=? 12)
  && (1 <=? day d) && (day d <=? days_in_month (year d) (month d)).

Definition digit (c : ascii) : option nat :=
  let n := nat_of_ascii c in
  if (48 <=? n) && (n <=? 57) then Some (n - 48) else None.

(** [%m]: the regular expression [1[0-2]|0[1-9]|[1-9]]. *)
Definition directive_m (tok : string) : option nat :=
  match tok with
  | String a EmptyString =>
      d ← digit a; if 1 <=? d then Some d else None
  | String a (String b EmptyString) =>
      da ← digit a; db ← digit b;
      let v := 10 * da + db in
      if (1 <=? v) && (v <=? 12) then Some v else None
  | _ => None
  end.

(** [%d]: the regular expression [3[0-1]|[1-2]\d|0[1-9]|[1-9]| [1-9]]. *)
Definition directive_d (tok : string) : option nat :=
  match tok with
  | String a EmptyString =>
      d ← digit a; if 1 <=? d then Some d else None
  | String a (String b EmptyString) =>
      if Ascii.eqb a " "%char
      then d ← digit b; if 1 <=? d then Some d else None
      else da ← digit a; db ← digit b;
           let v := 10 * da + db in
           if (1 <=? v) && (v <=? 31) then Some v else None
  | _ => None
  end.

(** [%Y]: the regular expression [\d\d\d\d]. *)
Definition directive_Y (tok : string) : option nat :=
  match tok with
  | String a (String b (String c (String d EmptyString))) =>
      da ← digit a; db ← digit b; dc ← digit c; dd ← digit d;
      Some (1000 * da + 100 * db + 10 * dc + dd)
  | _ => None
  end.

Definition checked (d : Date) : option Date :=
  if valid d then Some d else None.

(** [datetime.strptime(s, "%m-%d-%Y")]; [None] is the [ValueError].  The
    three directives cannot match a dash, so the full match of the format's
    regular expression is the match of the three dash-separated tokens. *)
Definition strptime_mdY (s : string) : option Date :=
  match Text.split "-" s with
  | [m; d; y] =>
      m ← directive_m m; d ← directive_d d; y ← directive_Y y;
      checked (mkDate y m d)
  | _ => None
  end.

(** [datetime.strptime(s, "%Y-%m-%d")] *)
Definition strptime_Ymd (s : string) : option Date :=
  match Text.split "-" s with
  | [y; m; d] =>
      y ← directive_Y y; m ← directive_m m; d ← directive_d d;
      checked (mkDate y m d)
  | _ => None
  end.

(** [datetime.strptime(s, "%d/%m/%Y")]: no directive matches a slash. *)
Definition strptime_dmY (s : string) : option Date :=
  match Text.split "/" s with
  | [d; m; y] =>
      d ← directive_d d; m ← directive_m m; y ← directive_Y y;
      checked (mkDate y m d)
  | _ => None
  end.

Definition digit_char (n : nat) : ascii := ascii_of_nat (48 + n mod 10).

Definition pad2 (n : nat) : string :=
  String (digit_char (n / 10)) (String (digit_char n) EmptyString).

Definition pad4 (n : nat) : string :=
  String (digit_char (n / 1000)) (String (digit_char (n / 100))
    (String (digit_char (n / 10)) (String (digit_char n) EmptyString))).

(** [d.strftime("%m-%d-%Y")], the year zero-filled to four digits. *)
Definition strftime_mdY (d : Date) : string :=
  pad2 (month d) +:+ "-" +:+ pad2 (day d) +:+ "-" +:+ pad4 (year d).

(** The text pandas writes for a midnight timestamp, [%Y-%m-%d]. *)
Definition isoformat (d : Date) : string :=
  pad4 (year d) +:+ "-" +:+ pad2 (month d) +:+ "-" +:+ pad2 (day d).

(** [a <= b] on [datetime] values at midnight. *)
Definition leb (a b : Date) : bool :=
  (year a <? year b)
  || ((year a =? year b)
      && ((month a <? month b) || ((month a =? month b) && (day a <=? day b)))).

End Calendar.

(** ** Tables *)

(** A value in a table: a missing value, a missing timestamp, a text, or a
    timestamp (at midnight).  Numbers read from a file are carried as their
    text. *)
Inductive cell :=
  | NaN
  | NaT
  | Str (s : string)
  | Timestamp (d : Date).

#[global] Instance cell_eq_dec : EqDecision cell.
Proof. solve_decision. Defined.

(** [columns] are the labels in order (duplicates are possible after a
    rename); a row holds the values by column position, and a position past
    the end of a row reads as [NaN].  Row labels are the positions
    0, 1, ..., as [pd.read_csv] and [ignore_index=True] produce them. *)
Record DataFrame := mkDataFrame {
  columns : list string;
  rows : list (list cell)
}.

Module Frame.

(** [str(v)], as an f-string prints a value. *)
Definition to_text (v : cell) : string :=
  match v with
  | NaN => "nan"
  | NaT => "NaT"
  | Str s => s
  | Timestamp d => Calendar.isoformat d +:+ " 00:00:00"
  end.

Definition cell_at (row : list cell) (j : nat) : cell := default NaN (row !! j).

Definition row_set (j : nat) (v : cell) (row : list cell) : list cell :=
  <[j := v]> (row ++ replicate (S j - length row) NaN).

(** Position of the first column labelled [c]. *)
Fixpoint index_of (c : string) (cols : list string) : option nat :=
  match cols with
  | [] => None
  | h :: t => if decide (h = c) then Some 0 else S <$> index_of c t
  end.

(** Positions of all columns labelled [c]. *)
Fixpoint positions_from (k : nat) (c : string) (cols : list string) : list nat :=
  match cols with
  | [] => []
  | h :: t =>
      if decide (h = c) then k :: positions_from (S k) c t
      else positions_from (S k) c t
  end.

Definition positions (c : string) (cols : list string) : list nat :=
  positions_from 0 c cols.

(** [c in df.columns] *)
Definition has_column (c : string) (df : DataFrame) : bool :=
  bool_decide (c ∈ columns df).

(** [len(df)] *)
Definition len (df : DataFrame) : nat := length (rows df).

(** [df.empty]: some axis has length zero. *)
Definition empty (df : DataFrame) : bool :=
  match rows df, columns df with
  | [], _ | _, [] => true
  | _, _ => false
  end.

(** [pd.DataFrame(columns=cols)] *)
Definition new (cols : list string) : DataFrame := mkDataFrame cols [].

(** The value at row [i] of the first column labelled [c]. *)
Definition get_at (i : nat) (c : string) (df : DataFrame) : option cell :=
  row ← rows df !! i; j ← index_of c (columns df); Some (cell_at row j).

(** [df.at[i, c] = v] for an existing row label [i]: the value is stored in
    column [c], which is appended (missing in the other rows) when the
    table has no such column. *)
Definition set_at (i : nat) (c : string) (v : cell) (df : DataFrame) : DataFrame :=
  match index_of c (columns df) with
  | Some j => mkDataFrame (columns df) (alter (row_set j v) i (rows df))
  | None =>
      mkDataFrame (columns df ++ [c])
                  (alter (row_set (length (columns df)) v) i (rows df))
  end.

(** [df[c] = v] for a scalar [v]: every column labelled [c] is overwritten,
    or one is appended. *)
Definition assign (c : string) (v : cell) (df : DataFrame) : DataFrame :=
  match positions c (columns df) with
  | [] =>
      mkDataFrame (columns df ++ [c])
                  (map (row_set (length (columns df)) v) (rows df))
  | ps =>
      mkDataFrame (columns df)
                  (map (fun row => foldr (fun j r => row_set j v r) row ps) (rows df))
  end.

(** [df.insert(0, c, v)] for a label [c] the table does not have. *)
Definition insert_first (c : string) (v : cell) (df : DataFrame) : DataFrame :=
  mkDataFrame (c :: columns df)
              (map (fun row => v :: map (cell_at row) (seq 0 (length (columns df)))) (rows df)).

(** [df[c] = df[c].map(f)] on the first column labelled [c]. *)
Definition map_column (c : string) (f : cell -> cell) (df : DataFrame) : option DataFrame :=
  j ← index_of c (columns df);
  Some (mkDataFrame (columns df)
                    (map (fun row => row_set j (f (cell_at row j)) row) (rows df))).

(** [df.rename(columns={old: new})] *)
Definition rename (old new : string) (df : DataFrame) : DataFrame :=
  mkDataFrame (map (fun c => if decide (c = old) then new else c) (columns df)) (rows df).

(** [df[labels]]: for each label in turn, all the columns that carry it;
    [None] is the [KeyError] for a label the table lacks. *)
Fixpoint select_positions (labels : list string) (cols : list string) : option (list nat) :=
  match labels with
  | [] => Some []
  | l :: rest =>
      match positions l cols with
      | [] => None
      | ps => (ps ++.) <$> select_positions rest cols
      end
  end.

Definition select (labels : list string) (df : DataFrame) : option DataFrame :=
  ps ← select_positions labels (columns df);
  Some (mkDataFrame (map (fun j => default EmptyString (columns df !! j)) ps)
                    (map (fun row => map (cell_at row) ps) (rows df))).

(** [df[mask]] for a row predicate. *)
Definition filter_rows (keep : list cell -> bool) (df : DataFrame) : DataFrame :=
  mkDataFrame (columns df) (List.filter keep (rows df)).

(** A row of [src] laid out along the labels [cols]. *)
Definition realign (src cols : list string) (row : list cell) : list cell :=
  map (fun c => match index_of c src with
                | Some j => cell_at row j
                | None => NaN
                end) cols.

(** [pd.concat([a, b], ignore_index=True)] *)
Definition concat (a b : DataFrame) : DataFrame :=
  let cols := columns a ++ List.filter (fun c => negb (bool_decide (c ∈ columns a))) (columns b) in
  mkDataFrame cols (map (realign (columns a) cols) (rows a)
                    ++ map (realign (columns b) cols) (rows b)).

(** [row.get(c, default)] on a row yielded by [df.iterrows()]. *)
Definition row_get (cols : list string) (row : list cell) (c : string) (dflt : cell) : cell :=
  match index_of c cols with
  | Some j => cell_at row j
  | None => dflt
  end.

End Frame.

(** ** Exceptions, the world, and the monad of the pipeline *)

Inductive exn_class :=
  | KeyError | IndexError | AttributeError | TypeError | ValueError
  | OSError | FileNotFoundError | RequestException.

#[global] Instance exn_class_eq_dec : EqDecision exn_class.
Proof. solve_decision. Defined.

Record exn := mkExn { exn_kind : exn_class; exn_msg : string }.

Inductive result (A : Type) :=
  | Ok (a : A)
  | Raise (e : exn).
Arguments Ok {A} a.
Arguments Raise {A} e.

Inductive level := INFO | WARNING | ERROR | CONSOLE.

#[global] Instance level_eq_dec : EqDecision level.
Proof. solve_decision. Defined.

(** What a path holds: a delimited table or a rendered document (its text
    cells, top to bottom). *)
Inductive file :=
  | Csv (df : DataFrame)
  | Pdf (cells : list string).

(** One HTTP POST to an LLM endpoint. *)
Record request := mkRequest {
  url : string;
  authorization : option string;
  payload : list (string * string)
}.

Record World := mkWorld {
  fs : gmap string file;          (* files written so far, and the input tables *)
  dirs : list string;             (* directories created by [os.makedirs] *)
  logs : list (level * string);   (* [logging] records and console lines, oldest first *)
  sent : list request             (* LLM requests made so far, oldest first *)
}.

(** The value of a ["response"] or ["content"] field: a JSON string or some
    other JSON value. *)
Inductive json_text :=
  | Text (s : string)
  | NotText.

(** One line of the Ollama stream. *)
Inductive ndjson_line :=
  | NotJson                                (* blank, or [json.loads] fails *)
  | NotObject                              (* JSON, but not an object *)
  | Message (response : option json_text). (* an object and its ["response"] field *)

Inductive ollama_response :=
  | OllamaFailed (msg : string)            (* a [RequestException] *)
  | OllamaStream (lines : list ndjson_line).

(** The Gemini reply: the ["candidates"] array of the decoded object, each
    candidate an object with an optional ["content"] field. *)
Inductive gemini_response :=
  | GeminiFailed (msg : string)            (* a [RequestException] *)
  | GeminiJson (candidates : option (list (option json_text))).

(** A per-employee note file as the CSV tokenizer sees it: the fields of each
    line, a blank line being the empty list; or a file on which
    [pd.read_csv] raises. *)
Inductive note_file :=
  | Unreadable (e : exn)
  | Lines (records : list (list string)).

Inductive entry_kind :=
  | NotADirectory
  | Directory (cdnotes : option note_file) (wfboxfile : option (result string)).

Record dir_entry := mkEntry { entry_name : string; entry_kind_of : entry_kind }.

(** Everything outside the program: the two LLM services (the outcome of the
    n-th request of a run), the disk (the paths at which a write fails), the
    folder tree under a root, [dateutil.parser.parse], the texts pandas reads
    as missing values, and the dates a pandas timestamp can hold. *)
Class Env := {
  ollama_post : nat -> request -> ollama_response;
  gemini_post : nat -> request -> gemini_response;
  disk_error : string -> option string;
  listdir : string -> option (list dir_entry);
  dateutil_parse : string -> option Date;
  na_value : string -> bool;
  timestamp_range : Date -> bool
}.

Definition M (A : Type) : Type := World -> result A * World.

#[global] Instance M_ret : MRet M := fun A a w => (Ok a, w).

#[global] Instance M_bind : MBind M := fun A B f m w =>
  match m w with
  | (Ok a, w') => f a w'
  | (Raise e, w') => (Raise e, w')
  end.

Definition raise {A : Type} (k : exn_class) (msg : string) : M A :=
  fun w => (Raise (mkExn k msg), w).

(** A computation that touches nothing in the world. *)
Definition from_result {A : Type} (r : result A) : M A := fun w => (r, w).

(** [try: body  except <classes>: handler] *)
Definition try_except {A : Type} (body : M A) (catches : exn -> bool) (handler : exn -> M A) : M A :=
  fun w =>
    match body w with
    | (Raise e, w') => if catches e then handler e w' else (Raise e, w')
    | r => r
    end.

Definition Exception (e : exn) : bool := true.

Definition is_class (ks : list exn_class) (e : exn) : bool :=
  bool_decide (exn_kind e ∈ ks).

Definition logging (l : level) (msg : string) : M unit :=
  fun w => (Ok tt, mkWorld (fs w) (dirs w) (logs w ++ [(l, msg)]) (sent w)).

(** [log_to_console(console_output, msg)], the console being the form's
    scrolled-text widget. *)
Definition log_to_console (msg : string) : M unit := logging CONSOLE msg.

(** [print(msg)]: a line on the terminal of a script, kept with the console
    lines. *)
Definition print (msg : string) : M unit := logging CONSOLE msg.

(** [os.path.exists(d)] for a directory. *)
Definition os_path_exists (d : string) : M bool :=
  fun w => (Ok (bool_decide (d ∈ dirs w)), w).

Definition os_makedirs (d : string) : M unit :=
  fun w => (Ok tt, mkWorld (fs w) (if bool_decide (d ∈ dirs w) then dirs w else dirs w ++ [d])
                           (logs w) (sent w)).

Definition path_join (d name : string) : string := d +:+ "/" +:+ name.

Section primitives.
Context `{Env}.

(** Writing [f] at [path]: an [OSError] where the disk refuses. *)
Definition write_file (path : string) (f : file) : M unit :=
  fun w =>
    match disk_error path with
    | Some msg => (Raise (mkExn OSError msg), w)
    | None => (Ok tt, mkWorld (<[path := f]> (fs w)) (dirs w) (logs w) (sent w))
    end.

(** A value after a trip through a delimited file: timestamps come back as
    their [%Y-%m-%d] text, missing values and the texts pandas takes for
    them come back missing. *)
Definition reload (v : cell) : cell :=
  match v with
  | NaN | NaT => NaN
  | Str s => if na_value s then NaN else Str s
  | Timestamp d => Str (Calendar.isoformat d)
  end.

(** [pd.read_csv(path)] *)
Definition read_csv (path : string) : M DataFrame :=
  fun w =>
    match fs w !! path with
    | Some (Csv df) => (Ok (mkDataFrame (columns df) (map (map reload) (rows df))), w)
    | _ => (Raise (mkExn FileNotFoundError path), w)
    end.

(** [df.to_csv(path, index=False)] *)
Definition to_csv (df : DataFrame) (path : string) : M unit :=
  write_file path (Csv df).

(** [pd.to_datetime(v, format="%m-%d-%Y", errors="coerce")] on one value *)
Definition to_datetime (v : cell) : cell :=
  match v with
  | Str s =>
      match Calendar.strptime_mdY s with
      | Some d => if timestamp_range d then Timestamp d else NaT
      | None => NaT
      end
  | Timestamp d => Timestamp d
  | NaN | NaT => NaT
  end.

End primitives.

(** [for index, row in data.iterrows(): body]: the rows are those of the
    table when the loop starts; the body updates the table. *)
Fixpoint iterrows (body : nat -> list cell -> DataFrame -> M DataFrame)
    (index : nat) (snapshot : list (list cell)) (data : DataFrame) : M DataFrame :=
  match snapshot with
  | [] => mret data
  | row :: rest => data' ← body index row data; iterrows body (S index) rest data'
  end.

(** A lookup by label that raises [KeyError] when the label is missing. *)
Definition or_key_error {A : Type} (label : string) (o : option A) : M A :=
  match o with
  | Some a => mret a
  | None => raise KeyError label
  end.

Definition or_value_error {A : Type} (msg : string) (o : option A) : M A :=
  match o with
  | Some a => mret a
  | None => raise ValueError msg
  end.

(** The boilerplate paragraph of the acknowledgment document. *)
Definition acknowledgment : string :=
  "I, the undersigned employee, acknowledge receipt of this notice regarding the "
  +:+ "violation of the clean desk policy. I understand the nature of the failure outlined "
  +:+ "above and agree to take immediate corrective actions to ensure compliance in the future.".

(** The text cells [generate_pdf] places on the page, top to bottom. *)
Definition page (employee_name record_date notes : cell) (ai_response : string) : list string :=
  [ "Employee Acknowledgment of Desk Policy Violation";
    "Employee Name: " +:+ Frame.to_text employee_name;
    "Record Date: " +:+ Frame.to_text record_date;
    "Notes: " +:+ Frame.to_text notes;
    "AI Response: " +:+ ai_response;
    acknowledgment;
    "Signature: ___________________________";
    "Date: ______________________________" ].

(** [employee_name.replace(' ', '_')]: a value that is not a [str] has no
    such method. *)
Definition replace_spaces (employee_name : cell) : M string :=
  match employee_name with
  | Str s => mret (Text.replace " " "_" s)
  | _ => raise AttributeError "'float' object has no attribute 'replace'"
  end.

(** The fixed prompt of [main.py] and [gemini_process.py]. *)
Definition prompt_of (record : cell) : string :=
  "This is a strict Clean Desk report. Anything found on the desk is considered a fail, except when "
  +:+ "the desk is explicitly described as 'Desk clean - meets compliance', which should be marked as a pass. "
  +:+ "Determine if the following record is a 'Pass' or 'Fail': " +:+ Frame.to_text record.

Section notes.
Context `{Env}.

Definition os_listdir (root_directory : string) : M (list dir_entry) :=
  match listdir root_directory with
  | Some entries => mret entries
  | None => raise FileNotFoundError root_directory
  end.

(** A field as pandas stores it. *)
Definition parse_field (s : string) : cell :=
  if na_value s then NaN else Str s.

Definition is_blank (record : list string) : bool :=
  match record with [] => true | _ => false end.

(** The number of fields the parser expects: that of the first line, and
    at least the two names passed. *)
Definition table_width (records : list (list string)) : nat :=
  match records with
  | [] => 2
  | first :: _ => 2 `max` length first
  end.

(** A line with more fields than expected is a bad line. *)
Definition bad_line (width : nat) (record : list string) : bool :=
  width <? length record.

(** The two named columns of a kept line: a short line is filled with
    missing fields, and when the first line is wider than two fields the
    leading ones become the row label. *)
Definition named_fields (width : nat) (record : list string) : list cell :=
  map parse_field (drop (width - 2) (record ++ replicate (width - length record) EmptyString)).

(** [pd.read_csv(path, header=None, names=["Record Date", "Note"],
    on_bad_lines="skip")] *)
Definition read_csv_notes (f : note_file) : M DataFrame :=
  match f with
  | Unreadable e => raise (exn_kind e) (exn_msg e)
  | Lines records =>
      let records := List.filter (fun r => negb (is_blank r)) records in
      let width := table_width records in
      let kept := List.filter (fun r => negb (bad_line width r)) records in
      mret (mkDataFrame ["Record Date"; "Note"] (map (named_fields width) kept))
  end.

(** [df[c] = df[c].astype(str)] *)
Definition astype_str (c : string) (df : DataFrame) : M DataFrame :=
  or_key_error c (Frame.map_column c (fun v => Str (Frame.to_text v)) df).

End notes.

(** ** The date filter of [run_ai_on_csv] *)

(** [(data["Record Date"] >= start_date) & (data["Record Date"] <= end_date)]
    on one row: a comparison with a missing timestamp is false. *)
Definition in_range (j : nat) (start_date end_date : Date) (row : list cell) : bool :=
  match Frame.cell_at row j with
  | Timestamp d => Calendar.leb start_date d && Calendar.leb d end_date
  | _ => false
  end.

(** [datetime.strptime(s, "%m-%d-%Y")] *)
Definition strptime (s : string) : M Date :=
  or_value_error ("time data '" +:+ s +:+ "' does not match format '%m-%d-%Y'")
                 (Calendar.strptime_mdY s).

Section date_filter.
Context `{Env}.

(** The lines of [run_ai_on_csv] that parse the date column, parse the two
    bounds and keep the rows in range. *)
Definition filter_by_date (data : DataFrame) (start_date end_date : string) : M DataFrame :=
  data ← or_key_error "Record Date" (Frame.map_column "Record Date" to_datetime data);
  start_date ← strptime start_date;
  end_date ← strptime end_date;
  j ← or_key_error "Record Date" (Frame.index_of "Record Date" (columns data));
  mret (Frame.filter_rows (in_range j start_date end_date) data).

End date_filter.

(** ** [main.py]: the Ollama workflow *)

Module Main.
Section defs.
Context `{Env}.

(** The body of the walk over [os.listdir(root_directory)]. *)
Fixpoint walk (root_directory : string) (entries : list dir_entry)
    (consolidated_data : DataFrame) : M DataFrame :=
  match entries with
  | [] => mret consolidated_data
  | entry :: rest =>
      let subfolder := entry_name entry in
      let subfolder_path := path_join root_directory subfolder in
      match entry_kind_of entry with
      | NotADirectory =>
          logging INFO ("Skipping non-directory item: " +:+ subfolder_path);;
          walk root_directory rest consolidated_data
      | Directory None _ =>
          logging WARNING ("cdnotes.csv not found in " +:+ subfolder_path +:+ ", skipping...");;
          walk root_directory rest consolidated_data
      | Directory (Some f) _ =>
          let employee_name := subfolder in
          let cdnotes_path := path_join subfolder_path "cdnotes.csv" in
          read ← try_except
                   (logging INFO ("Processing file: " +:+ cdnotes_path);;
                    cdnotes_data ← read_csv_notes f;
                    mret (Some cdnotes_data))
                   Exception
                   (fun e =>
                      logging ERROR ("Error reading " +:+ cdnotes_path +:+ ": " +:+ exn_msg e);;
                      mret None);
          match read with
          | None => walk root_directory rest consolidated_data
          | Some cdnotes_data =>
              cdnotes_data ← astype_str "Record Date" cdnotes_data;
              let cdnotes_data :=
                Frame.insert_first "Employee Name" (Str employee_name) cdnotes_data in
              let consolidated_data := Frame.concat consolidated_data cdnotes_data in
              logging INFO ("Successfully processed " +:+ cdnotes_path +:+ ", added "
                            +:+ pretty (Frame.len cdnotes_data) +:+ " records.");;
              walk root_directory rest consolidated_data
          end
      end
  end.

Definition consolidate_cdnotes (root_directory output_csv : string) : M unit :=
  let consolidated_data := Frame.new ["Employee Name"; "Record Date"; "Note"] in
  logging INFO ("Starting to process the root directory: " +:+ root_directory);;
  entries ← os_listdir root_directory;
  consolidated_data ← walk root_directory entries consolidated_data;
  if Frame.empty consolidated_data
  then logging INFO "No data found to consolidate. No file will be generated."
  else try_except
         (to_csv consolidated_data output_csv;;
          logging INFO ("Consolidated data saved to " +:+ output_csv))
         Exception
         (fun e => logging ERROR ("Error saving the consolidated file: " +:+ exn_msg e)).

(** [requests.post(url, json=payload, stream=True)] and the iteration over
    the lines of the reply. *)
Definition requests_post (req : request) : M (list ndjson_line) :=
  fun w =>
    let w' := mkWorld (fs w) (dirs w) (logs w) (sent w ++ [req]) in
    match ollama_post (length (sent w)) req with
    | OllamaFailed msg => (Raise (mkExn RequestException msg), w')
    | OllamaStream lines => (Ok lines, w')
    end.

(** [for line in response.iter_lines(): ... full_response += message.get("response", "")] *)
Fixpoint read_stream (lines : list ndjson_line) (full_response : string) : result string :=
  match lines with
  | [] => Ok full_response
  | NotJson :: rest => read_stream rest full_response
  | NotObject :: _ => Raise (mkExn AttributeError "object has no attribute 'get'")
  | Message None :: rest => read_stream rest (full_response +:+ "")
  | Message (Some (Text s)) :: rest => read_stream rest (full_response +:+ s)
  | Message (Some NotText) :: _ => Raise (mkExn TypeError "can only concatenate str to str")
  end.

Definition ollama_request (endpoint model prompt : string) : request :=
  let url := endpoint +:+ "/api/generate" in
  let payload := [("model", model); ("prompt", prompt)] in
  mkRequest url None payload.

Definition query_ollama (endpoint model prompt : string) : M (option string) :=
  try_except
    (lines ← requests_post (ollama_request endpoint model prompt);
     full_response ← from_result (read_stream lines "");
     mret (Some (Text.strip full_response)))
    (is_class [RequestException])
    (fun e => logging ERROR ("An error occurred: " +:+ exn_msg e);; mret None).

(** [parse(record_date)] of [dateutil]. *)
Definition parse (record_date : cell) : M Date :=
  match record_date with
  | Str s => or_value_error ("Unknown string format: " +:+ s) (dateutil_parse s)
  | _ => raise TypeError "Parser must be a string or character stream"
  end.

Definition generate_pdf (employee_name record_date notes : cell) (ai_response output_dir : string)
    : M unit :=
  os_makedirs output_dir;;
  let pdf := page employee_name record_date notes ai_response in
  formatted_date ← try_except
                     (d ← parse record_date; mret (Calendar.strftime_mdY d))
                     Exception
                     (fun _ =>
                        logging WARNING ("Invalid or missing date for " +:+ Frame.to_text employee_name
                                         +:+ ", using 'Unknown_Date'. Original value: "
                                         +:+ Frame.to_text record_date);;
                        mret "Unknown_Date");
  underscored ← replace_spaces employee_name;
  let file_name := formatted_date +:+ "-" +:+ underscored +:+ "-CD.PDF" in
  let pdf_path := path_join output_dir file_name in
  write_file pdf_path (Pdf pdf);;
  logging INFO ("PDF generated: " +:+ pdf_path).

(** The verdict read off a non-empty reply. *)
Definition pass_fail_of (ai_response : string) : string :=
  if Text.contains "pass" (Text.lower ai_response) then "PASSED"
  else if Text.contains "fail" (Text.lower ai_response) then "FAILED"
  else "UNKNOWN".

(** The body of the loop over the rows; [query_ollama] returns [None] or a
    text, and both [None] and the empty text are falsy. *)
Definition classify_row (endpoint model analysis_column pdf_output_dir : string)
    (cols : list string) (index : nat) (row : list cell) (data : DataFrame) : M DataFrame :=
  record ← or_key_error analysis_column
             (j ← Frame.index_of analysis_column cols; Some (Frame.cell_at row j));
  let prompt := prompt_of record in
  logging INFO ("Querying LLM for row " +:+ pretty (index + 1) +:+ ": " +:+ prompt);;
  log_to_console ("Querying LLM for row " +:+ pretty (index + 1) +:+ "...");;
  ai_response ← query_ollama endpoint model prompt;
  let ai_response := default EmptyString ai_response in
  if Text.truthy ai_response then
    let pass_fail := pass_fail_of ai_response in
    let data := Frame.set_at index "AI_Response" (Str (Text.strip ai_response)) data in
    let data := Frame.set_at index "AI_P_F" (Str pass_fail) data in
    (if bool_decide (pass_fail = "FAILED") then
       let employee_name := Frame.row_get cols row "Employee Name" (Str "Unknown") in
       let record_date := Frame.row_get cols row "Record Date" (Str "Unknown") in
       let notes := Frame.row_get cols row "Note" (Str "No Notes") in
       generate_pdf employee_name record_date notes (Text.strip ai_response) pdf_output_dir
     else mret tt);;
    logging INFO ("Response for row " +:+ pretty (index + 1) +:+ ": " +:+ ai_response
                  +:+ " (Determined: " +:+ pass_fail +:+ ")");;
    log_to_console ("Response for row " +:+ pretty (index + 1) +:+ ": " +:+ pass_fail);;
    mret data
  else
    let data := Frame.set_at index "AI_Response" (Str "Error or No Response") data in
    let data := Frame.set_at index "AI_P_F" (Str "UNKNOWN") data in
    logging WARNING ("No valid response for row " +:+ pretty (index + 1));;
    log_to_console ("No valid response for row " +:+ pretty (index + 1));;
    mret data.

(** The table as the loop starts: the two result columns exist. *)
Definition with_result_columns (data : DataFrame) : DataFrame :=
  let data := if Frame.has_column "AI_P_F" data then data
              else Frame.assign "AI_P_F" (Str "") data in
  if Frame.has_column "AI_Response" data then data
  else Frame.assign "AI_Response" (Str "") data.

Definition classify_rows (endpoint model analysis_column pdf_output_dir : string)
    (data : DataFrame) : M DataFrame :=
  iterrows (classify_row endpoint model analysis_column pdf_output_dir (columns data))
           0 (rows data) data.

Definition process_csv_for_pass_fail_and_generate_pdfs
    (csv_path endpoint model analysis_column output_path pdf_output_dir : string) : M unit :=
  data ← read_csv csv_path;
  logging INFO ("Available columns in the CSV: " +:+ Text.repr_list (columns data));;
  log_to_console ("Available columns in the CSV: " +:+ Text.repr_list (columns data));;
  if negb (Frame.has_column analysis_column data)
  then raise KeyError ("The specified column '" +:+ analysis_column
                       +:+ "' does not exist in the CSV.")
  else
    let data := with_result_columns data in
    log_to_console ("Processing " +:+ pretty (Frame.len data) +:+ " records...");;
    data ← classify_rows endpoint model analysis_column pdf_output_dir data;
    let column_order :=
      ["AI_P_F"; "AI_Response"]
      ++ List.filter (fun col => negb (bool_decide (col ∈ ["AI_P_F"; "AI_Response"])))
                     (columns data) in
    data ← or_key_error "column_order" (Frame.select column_order data);
    to_csv data output_path;;
    logging INFO ("Results saved to " +:+ output_path);;
    log_to_console ("Results saved to " +:+ output_path).

Definition run_ai_on_csv (input_csv start_date end_date : string) : M unit :=
  try_except
    (data ← read_csv input_csv;
     log_to_console ("Loaded data from " +:+ input_csv);;
     logging INFO ("Loaded data from " +:+ input_csv);;
     filtered_data ← filter_by_date data start_date end_date;
     if Frame.empty filtered_data
     then log_to_console "No records found in the specified date range.";;
          logging INFO "No records found in the specified date range."
     else
       log_to_console ("Filtered data to " +:+ pretty (Frame.len filtered_data)
                       +:+ " records within date range.");;
       logging INFO ("Filtered data to " +:+ pretty (Frame.len filtered_data)
                     +:+ " records within date range.");;
       let filtered_csv_path := "ai_processed_data.csv" in
       to_csv filtered_data filtered_csv_path;;
       let pdf_output_dir := "pdf_reports" in
       let endpoint := "http://172.16.2.222:11434" in
       let model := "llama3.2-vision" in
       let analysis_column := "Note" in
       process_csv_for_pass_fail_and_generate_pdfs
         filtered_csv_path endpoint model analysis_column "output_with_ai.csv" pdf_output_dir)
    Exception
    (fun e => log_to_console ("Error: " +:+ exn_msg e);;
              logging ERROR ("Error: " +:+ exn_msg e)).

(** The two buttons of [run_gui]: the text of each date entry is what the
    widget holds when the button is pressed. *)
Definition run_ai (start_date end_date : string) : M unit :=
  let input_csv := "consolidated_cdnotes.csv" in
  run_ai_on_csv input_csv start_date end_date.

Definition consolidate_and_log : M unit :=
  let root_directory :=
    "M:\\IT\\IT - Ramez -\\00 - Sam\\Compliance Tool\\Database\\Templates" in
  let output_csv := "consolidated_cdnotes.csv" in
  log_to_console ("Using hardcoded directory: " +:+ root_directory
                  +:+ String "010"%char EmptyString);;
  logging INFO ("Using hardcoded directory: " +:+ root_directory);;
  consolidate_cdnotes root_directory output_csv.

End defs.
End Main.

(** ** [gemini_process.py]: the Gemini workflow *)

Module Gemini.
Section defs.
Context `{Env}.

(** The location of an employee: the text of [wfboxfile.txt] when the file
    exists and can be read. *)
Definition read_location (subfolder_path : string) (wfboxfile : option (result string))
    : M string :=
  let location := "Unknown Location" in
  match wfboxfile with
  | None => mret location
  | Some (Ok text) => mret (Text.strip text)
  | Some (Raise e) =>
      logging ERROR ("Error reading wfboxfile.txt in " +:+ subfolder_path +:+ ": " +:+ exn_msg e);;
      mret location
  end.

Fixpoint walk (root_directory : string) (entries : list dir_entry)
    (consolidated_data : DataFrame) : M DataFrame :=
  match entries with
  | [] => mret consolidated_data
  | entry :: rest =>
      let subfolder := entry_name entry in
      let subfolder_path := path_join root_directory subfolder in
      match entry_kind_of entry with
      | NotADirectory =>
          logging INFO ("Skipping non-directory item: " +:+ subfolder_path);;
          walk root_directory rest consolidated_data
      | Directory None _ =>
          logging WARNING ("cdnotes.csv not found in " +:+ subfolder_path +:+ ", skipping...");;
          walk root_directory rest consolidated_data
      | Directory (Some f) wfboxfile =>
          let employee_name := subfolder in
          let cdnotes_path := path_join subfolder_path "cdnotes.csv" in
          location ← read_location subfolder_path wfboxfile;
          consolidated_data ←
            try_except
              (logging INFO ("Processing file: " +:+ cdnotes_path);;
               cdnotes_data ← read_csv_notes f;
               cdnotes_data ← astype_str "Record Date" cdnotes_data;
               let cdnotes_data := Frame.assign "Employee Name" (Str employee_name) cdnotes_data in
               let cdnotes_data := Frame.assign "Location" (Str location) cdnotes_data in
               let consolidated_data := Frame.concat consolidated_data cdnotes_data in
               logging INFO ("Successfully processed " +:+ cdnotes_path +:+ ", added "
                             +:+ pretty (Frame.len cdnotes_data) +:+ " records.");;
               mret consolidated_data)
              Exception
              (fun e =>
                 logging ERROR ("Error reading " +:+ cdnotes_path +:+ ": " +:+ exn_msg e);;
                 mret consolidated_data);
          walk root_directory rest consolidated_data
      end
  end.

Definition consolidate_cdnotes (root_directory output_csv : string) : M unit :=
  let consolidated_data :=
    Frame.new ["Employee Name"; "Record Date"; "Note"; "Location"] in
  logging INFO ("Starting to process the root directory: " +:+ root_directory);;
  entries ← os_listdir root_directory;
  consolidated_data ← walk root_directory entries consolidated_data;
  if Frame.empty consolidated_data
  then logging INFO "No data found to consolidate. No file will be generated."
  else try_except
         (to_csv consolidated_data output_csv;;
          logging INFO ("Consolidated data saved to " +:+ output_csv))
         Exception
         (fun e => logging ERROR ("Error saving the consolidated file: " +:+ exn_msg e)).

(** [requests.post(url, headers=headers, json=payload)], [raise_for_status]
    and [response.json()]. *)
Definition requests_post (req : request) : M (option (list (option json_text))) :=
  fun w =>
    let w' := mkWorld (fs w) (dirs w) (logs w) (sent w ++ [req]) in
    match gemini_post (length (sent w)) req with
    | GeminiFailed msg => (Raise (mkExn RequestException msg), w')
    | GeminiJson candidates => (Ok candidates, w')
    end.

(** [result.get("candidates", [{}])[0].get("content", "").strip()] *)
Definition first_content (candidates : option (list (option json_text))) : result string :=
  match candidates with
  | None => Ok (Text.strip "")
  | Some [] => Raise (mkExn IndexError "list index out of range")
  | Some (None :: _) => Ok (Text.strip "")
  | Some (Some (Text s) :: _) => Ok (Text.strip s)
  | Some (Some NotText :: _) => Raise (mkExn AttributeError "object has no attribute 'strip'")
  end.

Definition gemini_request (endpoint api_key model prompt : string) : request :=
  let url := endpoint +:+ "/v1beta/models/" +:+ model +:+ ":generateContent" in
  let payload := [("prompt", prompt)] in
  mkRequest url (Some ("Bearer " +:+ api_key)) payload.

Definition query_gemini (endpoint api_key model prompt : string) : M (option string) :=
  try_except
    (result ← requests_post (gemini_request endpoint api_key model prompt);
     text ← from_result (first_content result);
     mret (Some text))
    (is_class [RequestException])
    (fun e => logging ERROR ("Error querying Gemini: " +:+ exn_msg e);; mret None).

(** [datetime.strptime(record_date, "%Y-%m-%d")] *)
Definition strptime_Ymd (record_date : cell) : M Date :=
  match record_date with
  | Str s => or_value_error ("time data '" +:+ s +:+ "' does not match format '%Y-%m-%d'")
                            (Calendar.strptime_Ymd s)
  | _ => raise TypeError "strptime() argument 1 must be str"
  end.

Definition generate_pdf (employee_name record_date notes : cell) (ai_response output_dir : string)
    : M unit :=
  os_makedirs output_dir;;
  let pdf := page employee_name record_date notes ai_response in
  formatted_date ← try_except
                     (d ← strptime_Ymd record_date; mret (Calendar.strftime_mdY d))
                     (is_class [ValueError; TypeError])
                     (fun _ =>
                        logging WARNING ("Invalid or missing date for " +:+ Frame.to_text employee_name
                                         +:+ ", using 'Unknown_Date'. Original value: "
                                         +:+ Frame.to_text record_date);;
                        mret "Unknown_Date");
  underscored ← replace_spaces employee_name;
  let file_name := formatted_date +:+ "-" +:+ underscored +:+ "-CD.PDF" in
  let pdf_path := path_join output_dir file_name in
  write_file pdf_path (Pdf pdf);;
  logging INFO ("PDF generated: " +:+ pdf_path).

(** The verdict and the compliance flag read off a non-empty reply. *)
Definition pass_fail_of (ai_response : string) : string * string :=
  if Text.contains "pass" (Text.lower ai_response) then ("PASSED", "YES")
  else if Text.contains "fail" (Text.lower ai_response) then ("FAILED", "NO")
  else ("UNKNOWN", "UNKNOWN").

Definition classify_row (endpoint model analysis_column pdf_output_dir : string)
    (generate_pdfs : bool) (api_key : string)
    (cols : list string) (index : nat) (row : list cell) (data : DataFrame) : M DataFrame :=
  record ← or_key_error analysis_column
             (j ← Frame.index_of analysis_column cols; Some (Frame.cell_at row j));
  let prompt := prompt_of record in
  logging INFO ("Querying Gemini for row " +:+ pretty (index + 1) +:+ ": " +:+ prompt);;
  log_to_console ("Querying Gemini for record " +:+ pretty (index + 1) +:+ " out of "
                  +:+ pretty (Frame.len data) +:+ "...");;
  ai_response ← query_gemini endpoint api_key model prompt;
  let ai_response := default EmptyString ai_response in
  if Text.truthy ai_response then
    let '(pass_fail, compliant) := pass_fail_of ai_response in
    let data := Frame.set_at index "AI_Response" (Str (Text.strip ai_response)) data in
    let data := Frame.set_at index "AI_P_F" (Str pass_fail) data in
    let data := Frame.set_at index "Compliant" (Str compliant) data in
    (if bool_decide (pass_fail = "FAILED") && generate_pdfs then
       let employee_name := Frame.row_get cols row "Employee Name" (Str "Unknown") in
       let record_date := Frame.row_get cols row "Record Date" (Str "Unknown") in
       let notes := Frame.row_get cols row "Note" (Str "No Notes") in
       generate_pdf employee_name record_date notes (Text.strip ai_response) pdf_output_dir
     else mret tt);;
    log_to_console ("Response for record " +:+ pretty (index + 1) +:+ ": " +:+ ai_response
                    +:+ " (Determined: " +:+ pass_fail +:+ ")");;
    mret data
  else
    let data := Frame.set_at index "AI_Response" (Str "Error or No Response") data in
    let data := Frame.set_at index "AI_P_F" (Str "UNKNOWN") data in
    let data := Frame.set_at index "Compliant" (Str "UNKNOWN") data in
    log_to_console ("No valid response for record " +:+ pretty (index + 1));;
    mret data.

Definition with_result_columns (data : DataFrame) : DataFrame :=
  let data := if Frame.has_column "AI_P_F" data then data
              else Frame.assign "AI_P_F" (Str "") data in
  if Frame.has_column "AI_Response" data then data
  else Frame.assign "AI_Response" (Str "") data.

Definition classify_rows (endpoint model analysis_column pdf_output_dir : string)
    (generate_pdfs : bool) (api_key : string) (data : DataFrame) : M DataFrame :=
  iterrows (classify_row endpoint model analysis_column pdf_output_dir generate_pdfs api_key
                         (columns data))
           0 (rows data) data.

Definition required_columns : list string :=
  ["Employee Name"; "Last Clean Desk Date"; "Location"; "Compliant"; "Note"; "AI_Response"].

(** [for column in required_columns: if column not in data.columns:
    data[column] = placeholder(column)] *)
Fixpoint fill_missing (placeholder : string -> string) (required : list string)
    (data : DataFrame) : DataFrame :=
  match required with
  | [] => data
  | column :: rest =>
      fill_missing placeholder rest
        (if Frame.has_column column data then data
         else Frame.assign column (Str (placeholder column)) data)
  end.

(** The first projection of the classified table onto the report schema. *)
Definition first_projection (data : DataFrame) : M DataFrame :=
  let data := Frame.rename "Record Date" "Last Clean Desk Date" data in
  let data := fill_missing (fun _ => "Unknown") required_columns data in
  or_key_error "required_columns" (Frame.select required_columns data).

(** The second one, on the table the first one produced. *)
Definition second_projection (data : DataFrame) : M DataFrame :=
  let data := if Frame.has_column "Record Date" data
              then Frame.rename "Record Date" "Last Clean Desk Date" data
              else data in
  let data := fill_missing
                (fun column => if bool_decide (column ∈ ["Location"; "Compliant"])
                               then "Unknown" else "")
                required_columns data in
  or_key_error "required_columns" (Frame.select required_columns data).

Definition process_csv_for_pass_fail_and_generate_pdfs
    (csv_path endpoint model analysis_column output_path pdf_output_dir : string)
    (generate_pdfs : bool) (api_key : string) : M unit :=
  data ← read_csv csv_path;
  logging INFO ("Available columns in the CSV: " +:+ Text.repr_list (columns data));;
  log_to_console ("Available columns in the CSV: " +:+ Text.repr_list (columns data));;
  if negb (Frame.has_column analysis_column data)
  then raise KeyError ("The specified column '" +:+ analysis_column
                       +:+ "' does not exist in the CSV.")
  else
    let data := with_result_columns data in
    log_to_console ("Processing " +:+ pretty (Frame.len data) +:+ " records...");;
    data ← classify_rows endpoint model analysis_column pdf_output_dir generate_pdfs api_key data;
    data ← first_projection data;
    try_except
      (to_csv data output_path;;
       logging INFO ("Results saved to " +:+ output_path);;
       log_to_console ("Results saved to " +:+ output_path))
      Exception
      (fun e => log_to_console ("Error saving the file: " +:+ exn_msg e));;
    data ← second_projection data;
    try_except
      (to_csv data output_path;;
       logging INFO ("Results saved to " +:+ output_path);;
       log_to_console ("Results saved to " +:+ output_path))
      Exception
      (fun e => log_to_console ("Error saving the processed file: " +:+ exn_msg e)).

Definition run_ai_on_csv (input_csv start_date end_date : string) (generate_pdfs : bool)
    (gemini_endpoint gemini_model api_key : string) : M unit :=
  try_except
    (data ← read_csv input_csv;
     log_to_console ("Loaded data from " +:+ input_csv);;
     logging INFO ("Loaded data from " +:+ input_csv);;
     filtered_data ← filter_by_date data start_date end_date;
     if Frame.empty filtered_data
     then log_to_console "No records found in the specified date range.";;
          logging INFO "No records found in the specified date range."
     else
       log_to_console ("Filtered data to " +:+ pretty (Frame.len filtered_data)
                       +:+ " records within date range.");;
       logging INFO ("Filtered data to " +:+ pretty (Frame.len filtered_data)
                     +:+ " records within date range.");;
       let filtered_csv_path := "ai_processed_data.csv" in
       to_csv filtered_data filtered_csv_path;;
       process_csv_for_pass_fail_and_generate_pdfs
         filtered_csv_path gemini_endpoint gemini_model "Note" "output_with_ai.csv"
         "pdf_reports" generate_pdfs api_key)
    Exception
    (fun e => log_to_console ("Error: " +:+ exn_msg e);;
              logging ERROR ("Error: " +:+ exn_msg e)).

Section report.

(** [subprocess.run(args, shell=True, check=True)]: the exception it raises,
    if any.  The viewer it starts is outside the world. *)
Variable subprocess_run : list string -> option exn.

(** The "Save Report" buttons: [data] is not used, the report is read back
    from [output_with_ai.csv]. *)
Definition save_csv_report (data : option DataFrame) (start_date end_date : string)
    (open_file : bool) : M unit :=
  let filename := "Clean_Desk_Report-" +:+ Text.replace "/" "-" start_date +:+ "-"
                  +:+ Text.replace "/" "-" end_date +:+ ".csv" in
  try_except
    (output_data ← read_csv "output_with_ai.csv";
     to_csv output_data filename;;
     log_to_console ("Results saved to " +:+ filename);;
     if open_file then
       match subprocess_run ["start"; filename] with
       | Some e => raise (exn_kind e) (exn_msg e)
       | None => log_to_console ("Opening file: " +:+ filename)
       end
     else mret tt)
    Exception
    (fun e => log_to_console ("Error saving or opening the file: " +:+ exn_msg e)).

End report.

End defs.
End Gemini.

(** ** [dsa.py]: the first form, with a simulated analysis *)

Module Dsa.
Section defs.
Context `{Env}.

(** The walk of [consolidate_cdnotes], which reports on the terminal. *)
Fixpoint walk (root_directory : string) (entries : list dir_entry)
    (consolidated_data : DataFrame) : M DataFrame :=
  match entries with
  | [] => mret consolidated_data
  | entry :: rest =>
      let subfolder := entry_name entry in
      let subfolder_path := path_join root_directory subfolder in
      match entry_kind_of entry with
      | NotADirectory =>
          print ("Skipping non-directory item: " +:+ subfolder_path);;
          walk root_directory rest consolidated_data
      | Directory None _ =>
          print ("cdnotes.csv not found in " +:+ subfolder_path +:+ ", skipping...");;
          walk root_directory rest consolidated_data
      | Directory (Some f) _ =>
          let employee_name := subfolder in
          let cdnotes_path := path_join subfolder_path "cdnotes.csv" in
          read ← try_except
                   (print ("Processing file: " +:+ cdnotes_path);;
                    cdnotes_data ← read_csv_notes f;
                    mret (Some cdnotes_data))
                   Exception
                   (fun e =>
                      print ("Error reading " +:+ cdnotes_path +:+ ": " +:+ exn_msg e);;
                      mret None);
          match read with
          | None => walk root_directory rest consolidated_data
          | Some cdnotes_data =>
              cdnotes_data ← astype_str "Record Date" cdnotes_data;
              let cdnotes_data :=
                Frame.insert_first "Employee Name" (Str employee_name) cdnotes_data in
              let consolidated_data := Frame.concat consolidated_data cdnotes_data in
              print ("Successfully processed " +:+ cdnotes_path +:+ ", added "
                     +:+ pretty (Frame.len cdnotes_data) +:+ " records.");;
              walk root_directory rest consolidated_data
          end
      end
  end.

Definition consolidate_cdnotes (root_directory output_csv : string) : M unit :=
  let consolidated_data := Frame.new ["Employee Name"; "Record Date"; "Note"] in
  print ("Starting to process the root directory: " +:+ root_directory);;
  entries ← os_listdir root_directory;
  consolidated_data ← walk root_directory entries consolidated_data;
  if Frame.empty consolidated_data
  then print "No data found to consolidate. No file will be generated."
  else try_except
         (to_csv consolidated_data output_csv;;
          print ("Consolidated data saved to " +:+ output_csv))
         Exception
         (fun e => print ("Error saving the consolidated file: " +:+ exn_msg e)).

(** [run_ai_on_csv]: the analysis is simulated, every row in range is
    marked as processed. *)
Definition run_ai_on_csv (input_csv start_date end_date : string) : M unit :=
  try_except
    (data ← read_csv input_csv;
     log_to_console ("Loaded data from " +:+ input_csv);;
     filtered_data ← filter_by_date data start_date end_date;
     if Frame.empty filtered_data
     then log_to_console "No records found in the specified date range."
     else
       log_to_console ("Filtered data to " +:+ pretty (Frame.len filtered_data)
                       +:+ " records within date range.");;
       let filtered_data := Frame.assign "AI_Result" (Str "Processed by AI") filtered_data in
       let output_file := "ai_processed_data.csv" in
       to_csv filtered_data output_file;;
       log_to_console ("AI processed data saved to " +:+ output_file))
    Exception
    (fun e => log_to_console ("Error: " +:+ exn_msg e)).

End defs.
End Dsa.

(** ** [Main2.py]: the classifier as a script *)

Module Main2.
Section defs.
Context `{Env}.

(** As in [main.py], but a transport error is printed. *)
Definition query_ollama (endpoint model prompt : string) : M (option string) :=
  try_except
    (lines ← Main.requests_post (Main.ollama_request endpoint model prompt);
     full_response ← from_result (Main.read_stream lines "");
     mret (Some (Text.strip full_response)))
    (is_class [RequestException])
    (fun e => print ("An error occurred: " +:+ exn_msg e);; mret None).

(** [datetime.strptime(record_date, "%d/%m/%Y")] *)
Definition strptime_dmY (record_date : cell) : M Date :=
  match record_date with
  | Str s => or_value_error ("time data '" +:+ s +:+ "' does not match format '%d/%m/%Y'")
                            (Calendar.strptime_dmY s)
  | _ => raise TypeError "strptime() argument 1 must be str"
  end.

Definition generate_pdf (employee_name record_date notes : cell) (ai_response output_dir : string)
    : M unit :=
  there ← os_path_exists output_dir;
  (if negb there then os_makedirs output_dir else mret tt);;
  let pdf := page employee_name record_date notes ai_response in
  formatted_date ← try_except
                     (d ← strptime_dmY record_date; mret (Calendar.strftime_mdY d))
                     (is_class [ValueError])
                     (fun _ => mret "Unknown_Date");
  underscored ← replace_spaces employee_name;
  let file_name := formatted_date +:+ "-" +:+ underscored +:+ "-CD.PDF" in
  let pdf_path := path_join output_dir file_name in
  write_file pdf_path (Pdf pdf);;
  print ("PDF generated: " +:+ pdf_path);;
  write_file pdf_path (Pdf pdf);;
  print ("PDF generated: " +:+ pdf_path).

(** The prompt of the script. *)
Definition prompt_of (record : cell) : string :=
  "This is a strict Clean Desk report, anything found on the desk is considered a fail, "
  +:+ "Determine if the following record is a 'Pass' or 'Fail': " +:+ Frame.to_text record.

Definition classify_row (endpoint model analysis_column pdf_output_dir : string)
    (cols : list string) (index : nat) (row : list cell) (data : DataFrame) : M DataFrame :=
  record ← or_key_error analysis_column
             (j ← Frame.index_of analysis_column cols; Some (Frame.cell_at row j));
  let prompt := prompt_of record in
  print ("Querying LLM for row " +:+ pretty (index + 1) +:+ ": " +:+ prompt);;
  ai_response ← query_ollama endpoint model prompt;
  let ai_response := default EmptyString ai_response in
  if Text.truthy ai_response then
    let pass_fail := Main.pass_fail_of ai_response in
    let data := Frame.set_at index "AI_Response" (Str (Text.strip ai_response)) data in
    let data := Frame.set_at index "AI_P_F" (Str pass_fail) data in
    (if bool_decide (pass_fail = "FAILED") then
       let employee_name := Frame.row_get cols row "Employee_Name" (Str "Unknown") in
       let record_date := Frame.row_get cols row "Record_Date" (Str "Unknown") in
       let notes := Frame.row_get cols row "Notes" (Str "No Notes") in
       generate_pdf employee_name record_date notes (Text.strip ai_response) pdf_output_dir
     else mret tt);;
    print ("Response for row " +:+ pretty (index + 1) +:+ ": " +:+ ai_response
           +:+ " (Determined: " +:+ pass_fail +:+ ")");;
    mret data
  else
    let data := Frame.set_at index "AI_Response" (Str "Error or No Response") data in
    let data := Frame.set_at index "AI_P_F" (Str "UNKNOWN") data in
    print ("No valid response for row " +:+ pretty (index + 1));;
    mret data.

Definition classify_rows (endpoint model analysis_column pdf_output_dir : string)
    (data : DataFrame) : M DataFrame :=
  iterrows (classify_row endpoint model analysis_column pdf_output_dir (columns data))
           0 (rows data) data.

Definition process_csv_for_pass_fail_and_generate_pdfs
    (csv_path endpoint model analysis_column output_path pdf_output_dir : string) : M unit :=
  data ← read_csv csv_path;
  print ("Available columns in the CSV: " +:+ Text.repr_list (columns data));;
  if negb (Frame.has_column analysis_column data)
  then raise KeyError ("The specified column '" +:+ analysis_column
                       +:+ "' does not exist in the CSV.")
  else
    let data := Main.with_result_columns data in
    data ← classify_rows endpoint model analysis_column pdf_output_dir data;
    let column_order :=
      ["AI_P_F"; "AI_Response"]
      ++ List.filter (fun col => negb (bool_decide (col ∈ ["AI_P_F"; "AI_Response"])))
                     (columns data) in
    data ← or_key_error "column_order" (Frame.select column_order data);
    to_csv data output_path;;
    print ("Results saved to " +:+ output_path).

End defs.
End Main2.

(** ** Vocabulary of the statements *)

(** [needle] occurs in [hay]. *)
Definition substring (needle hay : string) : Prop :=
  exists before after, hay = before +:+ needle +:+ after.

(** A reply the classifier treats as no reply: [None] or the empty text. *)
Definition no_reply (reply : option string) : Prop :=
  reply = None \/ reply = Some EmptyString.

(** The note text of a row, as the loop reads it. *)
Definition record_of (analysis_column : string) (cols : list string) (row : list cell) : cell :=
  Frame.row_get cols row analysis_column NaN.

Section vocabulary.
Context `{Env}.

(** What [Main.query_ollama] returns when the service answers [r]. *)
Definition ollama_answer (r : ollama_response) : result (option string) :=
  match r with
  | OllamaFailed _ => Ok None
  | OllamaStream lines =>
      match Main.read_stream lines "" with
      | Ok full_response => Ok (Some (Text.strip full_response))
      | Raise e => Raise e
      end
  end.

(** What [Gemini.query_gemini] returns when the service answers [r]. *)
Definition gemini_answer (r : gemini_response) : result (option string) :=
  match r with
  | GeminiFailed _ => Ok None
  | GeminiJson candidates =>
      match Gemini.first_content candidates with
      | Ok text => Ok (Some text)
      | Raise e => Raise e
      end
  end.

(** The reply to the [n]-th request of a run of [main.py], sent for [row]. *)
Definition ollama_reply (endpoint model analysis_column : string) (cols : list string)
    (n : nat) (row : list cell) : result (option string) :=
  ollama_answer
    (ollama_post n (Main.ollama_request endpoint model
                      (prompt_of (record_of analysis_column cols row)))).

Definition gemini_reply (endpoint api_key model analysis_column : string) (cols : list string)
    (n : nat) (row : list cell) : result (option string) :=
  gemini_answer
    (gemini_post n (Gemini.gemini_request endpoint api_key model
                      (prompt_of (record_of analysis_column cols row)))).

(** The verdict, the stored reply text and the compliance flag of a row,
    from the reply to its request. *)
Definition main_verdict (reply : option string) : string :=
  let r := default EmptyString reply in
  if Text.truthy r then Main.pass_fail_of r else "UNKNOWN".

Definition gemini_verdict (reply : option string) : string :=
  let r := default EmptyString reply in
  if Text.truthy r then fst (Gemini.pass_fail_of r) else "UNKNOWN".

Definition gemini_compliant (reply : option string) : string :=
  let r := default EmptyString reply in
  if Text.truthy r then snd (Gemini.pass_fail_of r) else "UNKNOWN".

Definition stored_response (reply : option string) : string :=
  let r := default EmptyString reply in
  if Text.truthy r then Text.strip r else "Error or No Response".

(** The non-blank lines of a note file, the lines among them that
    [pd.read_csv] keeps, and the two-field lines. *)
Definition nonblank (records : list (list string)) : list (list string) :=
  List.filter (fun r => negb (is_blank r)) records.

Definition kept_lines (records : list (list string)) : list (list string) :=
  List.filter (fun r => negb (bad_line (table_width (nonblank records)) r)) (nonblank records).

Definition well_formed (record : list string) : bool := length record =? 2.

(** The rows an entry of the root directory contributes to the table of
    [main.py]: none unless it is a folder with a readable note file, else
    one row per kept line, in the order of the file. *)
Definition contribution (entry : dir_entry) : list (list cell) :=
  match entry_kind_of entry with
  | Directory (Some (Lines records)) _ =>
      map (fun r => let fields := named_fields (table_width (nonblank records)) r in
                    [ Str (entry_name entry);
                      Str (Frame.to_text (Frame.cell_at fields 0));
                      Frame.cell_at fields 1 ])
          (kept_lines records)
  | _ => []
  end.

(** The same for [gemini_process.py], whose rows carry the location. *)
Definition location_of (wfboxfile : option (result string)) : string :=
  match wfboxfile with
  | Some (Ok text) => Text.strip text
  | _ => "Unknown Location"
  end.

Definition gemini_contribution (entry : dir_entry) : list (list cell) :=
  match entry_kind_of entry with
  | Directory (Some (Lines records)) wfboxfile =>
      map (fun r => let fields := named_fields (table_width (nonblank records)) r in
                    [ Str (entry_name entry);
                      Str (Frame.to_text (Frame.cell_at fields 0));
                      Frame.cell_at fields 1;
                      Str (location_of wfboxfile) ])
          (kept_lines records)
  | _ => []
  end.

(** Where the rows of the [j]-th entry start in the consolidated table. *)
Definition offset (entries : list dir_entry) (j : nat) : nat :=
  length (flat_map contribution (take j entries)).

End vocabulary.

Definition main_columns : list string := ["Employee Name"; "Record Date"; "Note"].

Definition gemini_columns : list string :=
  ["Employee Name"; "Record Date"; "Note"; "Location"].

(** The world once [consolidate_cdnotes] has logged its first line. *)
Definition start_of (root_directory : string) (w : World) : World :=
  snd (logging INFO ("Starting to process the root directory: " +:+ root_directory) w).

Definition nothing_to_consolidate : level * string :=
  (INFO, "No data found to consolidate. No file will be generated.").

(** How a verdict relates to the reply it was read from. *)
Definition verdict_rule (reply verdict : string) : Prop :=
  let text := Text.lower reply in
  (verdict = "PASSED" <-> substring "pass" text)
  /\ (verdict = "FAILED" <-> substring "fail" text /\ ~ substring "pass" text)
  /\ (verdict = "UNKNOWN" <-> ~ substring "pass" text /\ ~ substring "fail" text)
  /\ (substring "pass" text -> substring "fail" text -> verdict = "PASSED").

(** How the compliance flag relates to the verdict. *)
Definition compliance_rule (verdict compliant : string) : Prop :=
  (compliant = "YES" <-> verdict = "PASSED")
  /\ (compliant = "NO" <-> verdict = "FAILED")
  /\ (compliant = "UNKNOWN" <-> verdict = "UNKNOWN").

(** The world with more log records. *)
Definition logged (entries : list (level * string)) (w : World) : World :=
  mkWorld (fs w) (dirs w) (logs w ++ entries) (sent w).

Section filter_vocabulary.
Context `{Env}.

(** The table [pd.read_csv] returns for a stored one. *)
Definition loaded (df : DataFrame) : DataFrame :=
  mkDataFrame (columns df) (map (map reload) (rows df)).

(** A row with the date at position [j] parsed. *)
Definition stamp (j : nat) (row : list cell) : list cell :=
  Frame.row_set j (to_datetime (Frame.cell_at row j)) row.

(** The date value [v] parses to a timestamp between [s] and [e]. *)
Definition dated_within (s e : Date) (v : cell) : bool :=
  match to_datetime v with
  | Timestamp d => Calendar.leb s d && Calendar.leb d e
  | _ => false
  end.

(** The name of the acknowledgment document of a row. *)
Definition document_name (date_part employee_name : string) : string :=
  date_part +:+ "-" +:+ Text.replace " " "_" employee_name +:+ "-CD.PDF".

(** Its date part in [main.py], from [dateutil]'s parse of the row's date. *)
Definition main_date_part (record_date : cell) : string :=
  match record_date with
  | Str s =>
      match dateutil_parse s with
      | Some d => Calendar.strftime_mdY d
      | None => "Unknown_Date"
      end
  | _ => "Unknown_Date"
  end.

End filter_vocabulary.

(** Its date part in [gemini_process.py], from the [%Y-%m-%d] parse. *)
Definition gemini_date_part (record_date : cell) : string :=
  match record_date with
  | Str s =>
      match Calendar.strptime_Ymd s with
      | Some d => Calendar.strftime_mdY d
      | None => "Unknown_Date"
      end
  | _ => "Unknown_Date"
  end.

(** A part of the world that a computation leaves as it found it. *)
Definition keeps {A T : Type} (proj : World -> T) (m : M A) : Prop :=
  forall w r w', m w = (r, w') -> proj w' = proj w.

(** The stores of one pass of a row loop: [df.at[k, c] = f c] for each label
    [c], the first label last. *)
Definition store (k : nat) (f : string -> cell) (labels : list string) (d : DataFrame)
    : DataFrame :=
  foldr (fun c d => Frame.set_at k c (f c) d) d labels.

(** [out] is a report over the rows of [source]: it has every required
    column, in the order of [Gemini.required_columns]; a required column of
    [source] keeps its values, and one that [source] lacks holds the
    placeholder in every row. *)
Definition report_of (placeholder : string -> string) (source out : DataFrame) : Prop :=
  Frame.len out = Frame.len source
  /\ (forall c, c ∈ Gemini.required_columns -> c ∈ columns out)
  /\ remove_dups (columns out) = Gemini.required_columns
  /\ (NoDup (columns source) -> columns out = Gemini.required_columns)
  /\ (forall i c, c ∈ Gemini.required_columns -> c ∈ columns source ->
        Frame.get_at i c out = Frame.get_at i c source)
  /\ (forall i c, c ∈ Gemini.required_columns -> c ∉ columns source ->
        i < Frame.len source ->
        Frame.get_at i c out = Some (Str (placeholder c))).

(** ** A sample installation, for the examples *)

Module Sample.

Definition folders : list dir_entry :=
  [ mkEntry "readme.txt" NotADirectory;
    mkEntry "Acme"
      (Directory (Some (Lines [ ["03-01-2024"; "pens on desk"];
                                ["03-02-2024"; "Desk clean - meets compliance"] ]))
                 None);
    mkEntry "Jo Doe"
      (Directory (Some (Lines [ ["03-02-2024"; "mug"] ])) (Some (Ok " Annex ")));
    mkEntry "Empty" (Directory None None) ].

(** Both services answer "Fail", then "Pass", then drop the connection. *)
Definition answers : Env := {|
  ollama_post n r :=
    match n with
    | 0 => OllamaStream [Message (Some (Text "Fail, ")); NotJson;
                         Message (Some (Text "items present "))]
    | 1 => OllamaStream [Message (Some (Text "Pass, compliant"))]
    | _ => OllamaFailed "connection refused"
    end;
  gemini_post n r :=
    match n with
    | 0 => GeminiJson (Some [Some (Text "Fail, items present")])
    | 1 => GeminiJson (Some [Some (Text "Pass, compliant")])
    | _ => GeminiFailed "connection refused"
    end;
  disk_error p := None;
  listdir r := if decide (r = "root") then Some folders else None;
  dateutil_parse s := Calendar.strptime_Ymd s;
  na_value s := bool_decide (s ∈ [""; "NA"; "NaN"; "nan"]);
  timestamp_range d := (1678 <=? year d) && (year d <=? 2261)
|}.

(** A root directory in which no folder holds a note file. *)
Definition bare_folders : list dir_entry :=
  [ mkEntry "readme.txt" NotADirectory; mkEntry "Empty" (Directory None None) ].

Definition bare : Env := {|
  ollama_post n r := OllamaFailed "connection refused";
  gemini_post n r := GeminiFailed "connection refused";
  disk_error p := None;
  listdir r := if decide (r = "root") then Some bare_folders else None;
  dateutil_parse s := Calendar.strptime_Ymd s;
  na_value s := bool_decide (s ∈ [""; "NA"; "NaN"; "nan"]);
  timestamp_range d := (1678 <=? year d) && (year d <=? 2261)
|}.

(** A note file with a line that has a date only, and one with a line of
    three fields as well. *)
Definition short_note : list (list string) :=
  [ ["03-01-2024"; "pens on desk"]; ["03-02-2024"] ].

Definition ragged_note : list (list string) :=
  [ ["03-01-2024"; "pens on desk"]; ["03-02-2024"]; ["a"; "b"; "c"] ].

Definition world : World := mkWorld ∅ [] [] [].

(** A consolidated table with one date that parses, one with slashes and
    one that is not in the calendar, and a world that stores it. *)
Definition consolidated : DataFrame :=
  mkDataFrame ["Employee Name"; "Record Date"; "Note"]
              [ [Str "Acme"; Str "03-01-2024"; Str "pens on desk"];
                [Str "Acme"; Str "03/02/2024"; Str "Desk clean - meets compliance"];
                [Str "Jo Doe"; Str "02-30-2024"; Str "mug"] ].

Definition stocked : World :=
  mkWorld {[ "consolidated_cdnotes.csv" := Csv consolidated ]} [] [] [].

(** The world after the walk over [bare_folders]. *)
Definition bare_walked : World :=
  mkWorld ∅ [] [ (INFO, "Starting to process the root directory: root");
                 (INFO, "Skipping non-directory item: root/readme.txt");
                 (WARNING, "cdnotes.csv not found in root/Empty, skipping...") ] [].

(** A world in which two requests have been sent already. *)
Definition ping : request := mkRequest "ep" None [].
Definition later : World := mkWorld ∅ [] [] [ping; ping].

(** A table as [run_ai_on_csv] hands it to the classifier. *)
Definition table : DataFrame :=
  mkDataFrame ["Employee Name"; "Record Date"; "Note"]
              [ [Str "Acme"; Str "2024-03-01"; Str "pens on desk"];
                [Str "Acme"; Str "2024-03-02"; Str "Desk clean - meets compliance"];
                [Str "Jo Doe"; Str "2024-03-02"; Str "mug"] ].

(** A disk that takes no document, services that say "Fail" to every note,
    and a world with two records of March 2024 on file. *)
Definition full_disk : Env := {|
  ollama_post n r := OllamaStream [Message (Some (Text "Fail, items present"))];
  gemini_post n r := GeminiJson (Some [Some (Text "Fail, items present")]);
  disk_error p :=
    if Text.startswith "pdf_reports/" p then Some "No space left on device" else None;
  listdir r := None;
  dateutil_parse s := Calendar.strptime_Ymd s;
  na_value s := bool_decide (s ∈ [""; "NA"; "NaN"; "nan"]);
  timestamp_range d := (1678 <=? year d) && (year d <=? 2261)
|}.

Definition march : DataFrame :=
  mkDataFrame ["Employee Name"; "Record Date"; "Note"]
              [ [Str "Acme"; Str "03-01-2024"; Str "pens on desk"];
                [Str "Jo Doe"; Str "03-02-2024"; Str "mug"] ].

Definition filed : World :=
  mkWorld {[ "consolidated_cdnotes.csv" := Csv march ]} [] [] [].

(** The run of [main.py] over these records, for March 1 and 2. *)
Definition halted : result unit * World :=
  @Main.run_ai_on_csv full_disk "consolidated_cdnotes.csv" "03-01-2024" "03-02-2024" filed.

(** A table that has the date under both of its names. *)
Definition twice_dated : DataFrame :=
  mkDataFrame ["Employee Name"; "Record Date"; "Last Clean Desk Date"; "Note"]
              [ [Str "Acme"; Str "2024-03-01"; Str "2024-02-01"; Str "pens on desk"] ].

End Sample.

(** ** Vocabulary of the further properties *)

(** What a line of the Ollama stream adds to the reply: nothing for a line
    that is not JSON or has no ["response"], the text of a textual one; a
    line that is JSON but no object, or whose ["response"] is no text, has
    none. *)
Definition line_text (line : ndjson_line) : option string :=
  match line with
  | NotJson | Message None => Some EmptyString
  | Message (Some (Text s)) => Some s
  | NotObject | Message (Some NotText) => None
  end.

(** The files [docs] written one after the other over [files]. *)
Definition written (docs : list (string * file)) (files : gmap string file)
    : gmap string file :=
  foldl (fun files doc => <[doc.1 := doc.2]> files) files docs.

Section documents_vocabulary.
Context `{Env}.

(** The request of [main.py] for a row, and that of [gemini_process.py]. *)
Definition main_request (endpoint model analysis_column : string) (cols : list string)
    (row : list cell) : request :=
  mkRequest (endpoint +:+ "/api/generate") None
            [("model", model); ("prompt", prompt_of (record_of analysis_column cols row))].

Definition gemini_row_request (endpoint api_key model analysis_column : string)
    (cols : list string) (row : list cell) : request :=
  mkRequest (endpoint +:+ "/v1beta/models/" +:+ model +:+ ":generateContent")
            (Some ("Bearer " +:+ api_key))
            [("prompt", prompt_of (record_of analysis_column cols row))].

(** The acknowledgment document of a row with the reply [reply], as
    [date_part] names it: none unless the verdict is FAILED and the name a
    text. *)
Definition document (date_part : cell -> string) (verdict : option string -> string)
    (pdf_output_dir : string) (cols : list string) (row : list cell)
    (reply : option string) : list (string * file) :=
  if bool_decide (verdict reply = "FAILED") then
    match Frame.row_get cols row "Employee Name" (Str "Unknown") with
    | Str name =>
        [ (path_join pdf_output_dir
             (document_name (date_part (Frame.row_get cols row "Record Date" (Str "Unknown")))
                            name),
           Pdf (page (Str name)
                     (Frame.row_get cols row "Record Date" (Str "Unknown"))
                     (Frame.row_get cols row "Note" (Str "No Notes"))
                     (Text.strip (default EmptyString reply)))) ]
    | _ => []
    end
  else [].

(** The documents of the rows of a table, in row order, the first row being
    answered by the [n]-th request. *)
Fixpoint main_documents (endpoint model analysis_column pdf_output_dir : string)
    (cols : list string) (n : nat) (snapshot : list (list cell)) : list (string * file) :=
  match snapshot with
  | [] => []
  | row :: rest =>
      match ollama_reply endpoint model analysis_column cols n row with
      | Ok reply => document main_date_part main_verdict pdf_output_dir cols row reply
      | Raise _ => []
      end
      ++ main_documents endpoint model analysis_column pdf_output_dir cols (S n) rest
  end.

Fixpoint gemini_documents (endpoint api_key model analysis_column pdf_output_dir : string)
    (generate_pdfs : bool) (cols : list string) (n : nat) (snapshot : list (list cell))
    : list (string * file) :=
  match snapshot with
  | [] => []
  | row :: rest =>
      match gemini_reply endpoint api_key model analysis_column cols n row with
      | Ok reply =>
          if generate_pdfs
          then document gemini_date_part gemini_verdict pdf_output_dir cols row reply
          else []
      | Raise _ => []
      end
      ++ gemini_documents endpoint api_key model analysis_column pdf_output_dir
           generate_pdfs cols (S n) rest
  end.

End documents_vocabulary.

(** A computation that changes no file outside the paths [P]. *)
Definition writes_within {A : Type} (P : string -> Prop) (m : M A) : Prop :=
  forall w r w', m w = (r, w') -> forall p, ~ P p -> fs w' !! p = fs w !! p.

(** The path [p] lies in the directory [dir]. *)
Definition under (dir : string) (p : string) : Prop :=
  Text.startswith (dir +:+ "/") p = true.

(** The date part of a document's name in [Main2.py], from the day-first
    reading of the row's date. *)
Definition main2_date_part (record_date : string) : string :=
  match Calendar.strptime_dmY record_date with
  | Some d => Calendar.strftime_mdY d
  | None => "Unknown_Date"
  end.

(** The name [save_csv_report] gives the copy of the report. *)
Definition report_name (start_date end_date : string) : string :=
  "Clean_Desk_Report-" +:+ Text.replace "/" "-" start_date +:+ "-"
  +:+ Text.replace "/" "-" end_date +:+ ".csv".

(** ** Further sample installations *)

Module Fixtures.

(** A disk that takes no file at all. *)
Definition locked : Env := {|
  ollama_post n r := OllamaFailed "connection refused";
  gemini_post n r := GeminiFailed "connection refused";
  disk_error p := Some "Permission denied";
  listdir r := if decide (r = "root") then Some Sample.folders else None;
  dateutil_parse s := Calendar.strptime_Ymd s;
  na_value s := bool_decide (s ∈ [""; "NA"; "NaN"; "nan"]);
  timestamp_range d := (1678 <=? year d) && (year d <=? 2261)
|}.

(** Services whose replies have an unexpected shape. *)
Definition garbled : Env := {|
  ollama_post n r := OllamaStream [Message (Some (Text "Fail")); NotObject];
  gemini_post n r := GeminiJson (Some []);
  disk_error p := None;
  listdir r := None;
  dateutil_parse s := Calendar.strptime_Ymd s;
  na_value s := bool_decide (s ∈ [""; "NA"; "NaN"; "nan"]);
  timestamp_range d := (1678 <=? year d) && (year d <=? 2261)
|}.

End Fixtures.

(** * Properties *)

(** ** Text *)

Module TextFacts.

Lemma app_cons c s t : String c s +:+ t = String c (s +:+ t).
Proof. reflexivity. Qed.

Lemma app_nil_l s : EmptyString +:+ s = s.
Proof. reflexivity. Qed.

Lemma startswith_spec p s :
  Text.startswith p s = true <-> exists t, s = p +:+ t.
Proof.
  revert s. induction p as [|a p IH]; intros s; simpl.
  - split; [intros _; exists s; reflexivity | reflexivity].
  - destruct s as [|b s].
    + split; [discriminate | intros [t Ht]; rewrite app_cons in Ht; discriminate].
    + destruct (Ascii.eqb_spec a b) as [->|Hne].
      * rewrite IH. split; intros [t Ht]; exists t.
        -- rewrite app_cons. congruence.
        -- rewrite app_cons in Ht. congruence.
      * split; [discriminate | intros [t Ht]; rewrite app_cons in Ht; congruence].
Qed.

Lemma contains_spec needle hay :
  Text.contains needle hay = true <-> substring needle hay.
Proof.
  unfold substring. split.
  - induction hay as [|c hay IH]; simpl.
    + destruct (Text.startswith needle EmptyString) eqn:E; [|discriminate].
      intros _. apply startswith_spec in E as [t Ht]. exists EmptyString, t. exact Ht.
    + destruct (Text.startswith needle (String c hay)) eqn:E.
      * intros _. apply startswith_spec in E as [t Ht]. exists EmptyString, t. exact Ht.
      * intros Hc. destruct (IH Hc) as (b & a & ->). exists (String c b), a. reflexivity.
  - intros (before & after & ->). induction before as [|c before IH].
    + rewrite app_nil_l.
      assert (Text.startswith needle (needle +:+ after) = true) as E
        by (apply startswith_spec; eauto).
      destruct (needle +:+ after); simpl in *; rewrite E; reflexivity.
    + rewrite app_cons. simpl.
      destruct (Text.startswith needle (String c (before +:+ needle +:+ after))); [reflexivity|].
      exact IH.
Qed.

Lemma contains_false needle hay :
  Text.contains needle hay = false <-> ~ substring needle hay.
Proof.
  rewrite <- contains_spec. destruct (Text.contains needle hay); split; congruence.
Qed.

(** [replace a b] rewrites the characters one by one. *)
Lemma replace_get a b s n :
  String.get n (Text.replace a b s)
  = (fun c => if Ascii.eqb c a then b else c) <$> String.get n s.
Proof.
  revert n. induction s as [|c s IH]; intros n; simpl; [reflexivity|].
  destruct n; simpl; [reflexivity | apply IH].
Qed.

Lemma replace_length a b s : String.length (Text.replace a b s) = String.length s.
Proof. induction s; simpl; congruence. Qed.

(** After [replace(' ', '_')] no space is left. *)
Lemma replace_no_space s n : String.get n (Text.replace " " "_" s) <> Some " "%char.
Proof.
  rewrite replace_get. destruct (String.get n s) as [c|]; simpl; [|discriminate].
  destruct (Ascii.eqb_spec c " "); [discriminate | congruence].
Qed.

End TextFacts.

(** ** Tables *)

Module FrameFacts.

Lemma cell_at_row_set j v row k :
  Frame.cell_at (Frame.row_set j v row) k
  = if decide (k = j) then v else Frame.cell_at row k.
Proof.
  unfold Frame.cell_at, Frame.row_set.
  destruct (decide (k = j)) as [->|Hne].
  - rewrite list_lookup_insert_eq; [reflexivity|].
    rewrite length_app, length_replicate. lia.
  - rewrite list_lookup_insert_ne by congruence.
    destruct (decide (k < length row)) as [Hlt|Hge].
    + rewrite lookup_app_l by exact Hlt. reflexivity.
    + rewrite lookup_app_r by lia.
      rewrite (lookup_ge_None_2 row k) by lia. simpl.
      destruct (replicate (S j - length row) NaN !! (k - length row)) as [x|] eqn:E;
        [|reflexivity].
      apply lookup_replicate in E as [-> _]. reflexivity.
Qed.

Lemma index_of_Some c cols j :
  Frame.index_of c cols = Some j -> cols !! j = Some c.
Proof.
  revert j. induction cols as [|h t IH]; intros j; simpl; [discriminate|].
  destruct (decide (h = c)) as [->|Hne].
  - intros [= <-]. reflexivity.
  - destruct (Frame.index_of c t) as [k|]; simpl; [|discriminate].
    intros [= <-]. simpl. apply IH. reflexivity.
Qed.

Lemma index_of_None c cols :
  Frame.index_of c cols = None <-> c ∉ cols.
Proof.
  induction cols as [|h t IH]; simpl.
  - split; [intros _; apply not_elem_of_nil | reflexivity].
  - destruct (decide (h = c)) as [->|Hne].
    + split; [discriminate | intros Hn; exfalso; apply Hn; left].
    + rewrite not_elem_of_cons, <- IH.
      destruct (Frame.index_of c t); simpl; split; try discriminate; intuition congruence.
Qed.

Lemma index_of_is_Some c cols :
  c ∈ cols -> exists j, Frame.index_of c cols = Some j.
Proof.
  intros Hin. destruct (Frame.index_of c cols) as [j|] eqn:E; [eauto|].
  apply index_of_None in E. contradiction.
Qed.

Lemma index_of_app_l c cols more j :
  Frame.index_of c cols = Some j -> Frame.index_of c (cols ++ more) = Some j.
Proof.
  revert j. induction cols as [|h t IH]; intros j; simpl; [discriminate|].
  destruct (decide (h = c)); [trivial|].
  destruct (Frame.index_of c t) as [k|]; simpl; [|discriminate].
  intros [= <-]. rewrite (IH k eq_refl). reflexivity.
Qed.

Lemma index_of_app_fresh c cols :
  c ∉ cols -> Frame.index_of c (cols ++ [c]) = Some (length cols).
Proof.
  induction cols as [|h t IH]; simpl; intros Hn.
  - destruct (decide (c = c)); [reflexivity | congruence].
  - apply not_elem_of_cons in Hn as [Hne Hn].
    destruct (decide (h = c)); [congruence|]. rewrite (IH Hn). reflexivity.
Qed.

Lemma index_of_app_other c c' cols :
  c <> c' -> Frame.index_of c (cols ++ [c']) = Frame.index_of c cols.
Proof.
  intros Hne. induction cols as [|h t IH]; simpl.
  - destruct (decide (c' = c)); [congruence | reflexivity].
  - destruct (decide (h = c)); [reflexivity|]. rewrite IH. reflexivity.
Qed.

Lemma len_set_at i c v df : Frame.len (Frame.set_at i c v df) = Frame.len df.
Proof.
  unfold Frame.len, Frame.set_at.
  destruct (Frame.index_of c (columns df)); simpl; apply length_alter.
Qed.

Lemma columns_set_at i c v df :
  columns (Frame.set_at i c v df)
  = if bool_decide (c ∈ columns df) then columns df else columns df ++ [c].
Proof.
  unfold Frame.set_at. case_bool_decide as Hin.
  - destruct (index_of_is_Some _ _ Hin) as [j ->]. reflexivity.
  - apply index_of_None in Hin. rewrite Hin. reflexivity.
Qed.

Lemma elem_of_columns_set_at i c v df c' :
  c' ∈ columns df -> c' ∈ columns (Frame.set_at i c v df).
Proof.
  rewrite columns_set_at. case_bool_decide; [trivial|].
  intros. apply elem_of_app. left. assumption.
Qed.

Lemma set_at_has_column i c v df : c ∈ columns (Frame.set_at i c v df).
Proof.
  rewrite columns_set_at. case_bool_decide; [assumption|].
  apply elem_of_app. right. left.
Qed.

(** Reading back the value just stored. *)
Lemma get_at_set_at_eq i c v df :
  i < Frame.len df -> Frame.get_at i c (Frame.set_at i c v df) = Some v.
Proof.
  unfold Frame.len, Frame.get_at, Frame.set_at. intros Hi.
  destruct (lookup_lt_is_Some_2 _ _ Hi) as [row Hrow].
  destruct (Frame.index_of c (columns df)) as [j|] eqn:E; simpl.
  - rewrite list_lookup_alter_eq, Hrow. simpl. rewrite E. simpl.
    rewrite cell_at_row_set. destruct (decide (j = j)); congruence.
  - rewrite list_lookup_alter_eq, Hrow. simpl.
    rewrite index_of_app_fresh by (apply index_of_None; exact E). simpl.
    rewrite cell_at_row_set. case_decide; congruence.
Qed.

(** A store in another column does not show. *)
Lemma get_at_set_at_column i c i' c' v df :
  c <> c' -> Frame.get_at i c (Frame.set_at i' c' v df) = Frame.get_at i c df.
Proof.
  unfold Frame.get_at, Frame.set_at. intros Hne.
  destruct (Frame.index_of c' (columns df)) as [j'|] eqn:E'; simpl.
  - destruct (decide (i' = i)) as [->|Hi].
    + rewrite list_lookup_alter_eq. destruct (rows df !! i) as [row|]; simpl; [|reflexivity].
      destruct (Frame.index_of c (columns df)) as [j|] eqn:E; simpl; [|reflexivity].
      rewrite cell_at_row_set. case_decide as Hj; [|reflexivity]. subst j'.
      apply index_of_Some in E, E'. congruence.
    + rewrite list_lookup_alter_ne by exact Hi. reflexivity.
  - rewrite index_of_app_other by exact Hne.
    destruct (decide (i' = i)) as [->|Hi].
    + rewrite list_lookup_alter_eq. destruct (rows df !! i) as [row|]; simpl; [|reflexivity].
      destruct (Frame.index_of c (columns df)) as [j|] eqn:E; simpl; [|reflexivity].
      rewrite cell_at_row_set. case_decide as Hj; [|reflexivity]. subst j.
      apply index_of_Some in E. apply lookup_lt_Some in E. lia.
    + rewrite list_lookup_alter_ne by exact Hi. reflexivity.
Qed.

(** A store in another row of an existing column does not show. *)
Lemma get_at_set_at_row i i' c v df :
  i <> i' -> c ∈ columns df ->
  Frame.get_at i c (Frame.set_at i' c v df) = Frame.get_at i c df.
Proof.
  unfold Frame.get_at, Frame.set_at. intros Hi Hin.
  destruct (index_of_is_Some _ _ Hin) as [j E]. rewrite E. simpl. rewrite E.
  rewrite list_lookup_alter_ne by congruence. reflexivity.
Qed.

Lemma get_at_is_Some i c df :
  i < Frame.len df -> c ∈ columns df -> is_Some (Frame.get_at i c df).
Proof.
  unfold Frame.len, Frame.get_at. intros Hi Hin.
  destruct (lookup_lt_is_Some_2 _ _ Hi) as [row ->].
  destruct (index_of_is_Some _ _ Hin) as [j ->]. simpl. eauto.
Qed.

End FrameFacts.

(** ** Running a computation *)

Module Run.

Lemma bind_run {A B} (m : M A) (f : A -> M B) w :
  (m ≫= f) w = match m w with
               | (Ok a, w') => f a w'
               | (Raise e, w') => (Raise e, w')
               end.
Proof. reflexivity. Qed.

Lemma bind_ok {A B} (m : M A) (f : A -> M B) w b w' :
  (m ≫= f) w = (Ok b, w') -> exists a w1, m w = (Ok a, w1) /\ f a w1 = (Ok b, w').
Proof.
  rewrite bind_run. destruct (m w) as [[a|e] w1]; [eauto | discriminate].
Qed.

Lemma bind_raise {A B} (m : M A) (f : A -> M B) w e w' :
  m w = (Raise e, w') -> (m ≫= f) w = (Raise e, w').
Proof. intros Hm. rewrite bind_run, Hm. reflexivity. Qed.

Lemma bind_step {A B} (m : M A) (f : A -> M B) w a w' :
  m w = (Ok a, w') -> (m ≫= f) w = f a w'.
Proof. intros Hm. rewrite bind_run, Hm. reflexivity. Qed.

Lemma keeps_ret {A T} (proj : World -> T) (a : A) : keeps proj (mret a).
Proof. intros w r w' [= _ <-]. reflexivity. Qed.

Lemma keeps_bind {A B T} (proj : World -> T) (m : M A) (f : A -> M B) :
  keeps proj m -> (forall a, keeps proj (f a)) -> keeps proj (m ≫= f).
Proof.
  intros Hm Hf w r w'. rewrite bind_run.
  destruct (m w) as [[a|e] w1] eqn:E.
  - intros Hk. rewrite (Hf _ _ _ _ Hk). eapply Hm; eassumption.
  - intros [= _ <-]. eapply Hm; eassumption.
Qed.

Lemma keeps_try {A T} (proj : World -> T) (m : M A) catches handler :
  keeps proj m -> (forall e, keeps proj (handler e)) ->
  keeps proj (try_except m catches handler).
Proof.
  intros Hm Hh w r w'. unfold try_except.
  destruct (m w) as [[a|e] w1] eqn:E.
  - intros [= _ <-]. eapply Hm; eassumption.
  - destruct (catches e).
    + intros Hk. rewrite (Hh _ _ _ _ Hk). eapply Hm; eassumption.
    + intros [= _ <-]. eapply Hm; eassumption.
Qed.

Lemma keeps_raise {A T} (proj : World -> T) k msg : keeps proj (@raise A k msg).
Proof. intros w r w' [= _ <-]. reflexivity. Qed.

Lemma keeps_from_result {A T} (proj : World -> T) (r : result A) :
  keeps proj (from_result r).
Proof. intros w r' w' [= _ <-]. reflexivity. Qed.

Lemma keeps_or_key_error {A T} (proj : World -> T) l (o : option A) :
  keeps proj (or_key_error l o).
Proof. destruct o; [apply keeps_ret | apply keeps_raise]. Qed.

Lemma keeps_or_value_error {A T} (proj : World -> T) l (o : option A) :
  keeps proj (or_value_error l o).
Proof. destruct o; [apply keeps_ret | apply keeps_raise]. Qed.

Lemma logging_sent l msg : keeps sent (logging l msg).
Proof. intros w r w' [= _ <-]. reflexivity. Qed.

Lemma logging_fs l msg : keeps fs (logging l msg).
Proof. intros w r w' [= _ <-]. reflexivity. Qed.

Lemma makedirs_sent d : keeps sent (os_makedirs d).
Proof. intros w r w' [= _ <-]. reflexivity. Qed.

Lemma makedirs_fs d : keeps fs (os_makedirs d).
Proof. intros w r w' [= _ <-]. reflexivity. Qed.

Lemma write_file_sent `{Env} path f : keeps sent (write_file path f).
Proof.
  intros w r w'. unfold write_file.
  destruct (disk_error path); intros [= _ <-]; reflexivity.
Qed.

Lemma logging_ok l msg w a w' :
  logging l msg w = (Ok a, w') -> sent w' = sent w /\ fs w' = fs w.
Proof. intros [= _ <-]. split; reflexivity. Qed.

End Run.

Ltac keeps_step :=
first
  [ apply Run.keeps_bind; [|intros ?]
  | apply Run.keeps_try; [|intros ?]
  | apply Run.keeps_ret
  | apply Run.keeps_raise
  | apply Run.keeps_from_result
  | apply Run.keeps_or_key_error
  | apply Run.keeps_or_value_error
  | apply Run.logging_sent
  | apply Run.logging_fs
  | apply Run.makedirs_sent
  | apply Run.makedirs_fs
  | apply Run.write_file_sent ].

(** ** The loop over the rows *)

Module Loop.
Import FrameFacts.

Lemma len_store k f labels d : Frame.len (store k f labels d) = Frame.len d.
Proof.
  induction labels as [|c l IH]; simpl; [reflexivity|]. rewrite len_set_at. exact IH.
Qed.

Lemma columns_store_mono k f labels d c :
  c ∈ columns d -> c ∈ columns (store k f labels d).
Proof.
  induction labels as [|c' l IH]; simpl; [trivial|].
  intros. apply elem_of_columns_set_at. auto.
Qed.

Lemma columns_store_labels k f labels d c :
  c ∈ labels -> c ∈ columns (store k f labels d).
Proof.
  induction labels as [|c' l IH]; simpl; intros Hin.
  - apply elem_of_nil in Hin as [].
  - apply elem_of_cons in Hin as [->|Hin].
    + apply set_at_has_column.
    + apply elem_of_columns_set_at. auto.
Qed.

Lemma get_at_store_eq k f labels d c :
  NoDup labels -> c ∈ labels -> k < Frame.len d ->
  Frame.get_at k c (store k f labels d) = Some (f c).
Proof.
  intros Hnd Hin Hk. induction Hnd as [|c' l Hnotin Hnd IH]; simpl.
  - apply elem_of_nil in Hin as [].
  - apply elem_of_cons in Hin as [->|Hin].
    + apply get_at_set_at_eq. rewrite len_store. exact Hk.
    + rewrite get_at_set_at_column by (intros ->; contradiction). auto.
Qed.

Lemma get_at_store_row i k f labels d c :
  i <> k -> c ∈ columns d ->
  Frame.get_at i c (store k f labels d) = Frame.get_at i c d.
Proof.
  intros Hne Hin. induction labels as [|c' l IH]; simpl; [reflexivity|].
  destruct (decide (c = c')) as [<-|Hc].
  - rewrite get_at_set_at_row by (try apply columns_store_mono; assumption). exact IH.
  - rewrite get_at_set_at_column by exact Hc. exact IH.
Qed.

Section loop.
Variable body : nat -> list cell -> DataFrame -> M DataFrame.
Variable labels : list string.
Variable outcome : nat -> list cell -> (string -> cell) -> Prop.
Hypothesis labels_nodup : NoDup labels.
Hypothesis body_ok : forall k row d w d' w',
  body k row d w = (Ok d', w') ->
  exists f, outcome (length (sent w)) row f
            /\ d' = store k f labels d
            /\ length (sent w') = S (length (sent w)).

(** An invariant of the passes carries over the whole loop. *)
Lemma iterrows_inv (I : nat -> DataFrame -> World -> Prop) snapshot :
  forall k d w d' w',
    (forall j row d1 w1 d2 w2,
        snapshot !! j = Some row -> I (k + j) d1 w1 ->
        body (k + j) row d1 w1 = (Ok d2, w2) -> I (S (k + j)) d2 w2) ->
    I k d w -> iterrows body k snapshot d w = (Ok d', w') ->
    I (k + length snapshot) d' w'.
Proof.
  induction snapshot as [|row rest IH]; intros k d w d' w' Hstep Hk Hrun; simpl in *.
  - injection Hrun as <- <-. rewrite Nat.add_0_r. exact Hk.
  - apply Run.bind_ok in Hrun as (d1 & w1 & Hb & Hrun).
    replace (k + S (length rest)) with (S k + length rest) by lia.
    apply (IH (S k) d1 w1); [|..|exact Hrun].
    + intros j row' d2 w2 d3 w3 Hj. replace (S k + j) with (k + S j) by lia.
      apply (Hstep (S j)). exact Hj.
    + specialize (Hstep 0 row d w d1 w1 eq_refl). rewrite Nat.add_0_r in Hstep. auto.
Qed.

(** A loop that completes has made one request per row, in order, and
    the table holds for every row what its pass stored. *)
Lemma iterrows_spec data w data' w' :
  iterrows body 0 (rows data) data w = (Ok data', w') ->
  Frame.len data' = Frame.len data
  /\ length (sent w') = length (sent w) + Frame.len data
  /\ (forall c, c ∈ columns data -> c ∈ columns data')
  /\ forall i row, rows data !! i = Some row ->
       exists f, outcome (length (sent w) + i) row f
                 /\ forall c, c ∈ labels -> Frame.get_at i c data' = Some (f c).
Proof.
  intros Hrun.
  pose (I := fun (k : nat) (d : DataFrame) (w1 : World) =>
    Frame.len d = Frame.len data
    /\ length (sent w1) = length (sent w) + k
    /\ (forall c, c ∈ columns data -> c ∈ columns d)
    /\ (0 < k -> forall c, c ∈ labels -> c ∈ columns d)
    /\ forall i row, i < k -> rows data !! i = Some row ->
         exists f, outcome (length (sent w) + i) row f
                   /\ forall c, c ∈ labels -> Frame.get_at i c d = Some (f c)).
  assert (I (0 + length (rows data)) data' w') as (Hlen & Hsent & Hcols & _ & Hrows).
  { apply (iterrows_inv I (rows data) 0 data w); [|..|exact Hrun].
    - intros j row d1 w1 d2 w2 Hj (Hlen & Hsent & Hcols & Hlab & Hrows) Hb. simpl in *.
      destruct (body_ok _ _ _ _ _ _ Hb) as (f & Hout & -> & Hs).
      split; [rewrite len_store; exact Hlen|].
      split; [lia|].
      split; [intros c Hc; apply columns_store_mono; auto|].
      split; [intros _ c Hc; apply columns_store_labels; exact Hc|].
      intros i row' Hi Hrow'.
      destruct (decide (i = j)) as [->|Hne].
      + exists f. assert (row' = row) as -> by congruence.
        split; [rewrite <- Hsent; exact Hout|].
        intros c Hc. apply get_at_store_eq; [exact labels_nodup | exact Hc|].
        rewrite Hlen. unfold Frame.len. eapply lookup_lt_Some. exact Hj.
      + destruct (Hrows i row') as (f' & Hout' & Hget); [lia | exact Hrow' |].
        exists f'. split; [exact Hout'|].
        intros c Hc. rewrite get_at_store_row; [auto | exact Hne |].
        apply Hlab; [lia | exact Hc].
    - split; [reflexivity|]. split; [lia|]. split; [auto|]. split; [lia|]. intros; lia. }
  split; [exact Hlen|]. split; [exact Hsent|]. split; [exact Hcols|].
  intros i row Hrow. apply Hrows; [|exact Hrow]. simpl. eapply lookup_lt_Some. exact Hrow.
Qed.
End loop.

End Loop.

(** ** The classification loop of [main.py] *)

Section main_loop.
Context `{Env}.

(** An exception out of the stream is never a transport error. *)
Lemma read_stream_raise lines acc e :
  Main.read_stream lines acc = Raise e -> is_class [RequestException] e = false.
Proof.
  revert acc. induction lines as [|[| |[[s|]|]] rest IH]; intros acc; simpl;
    try discriminate; try apply IH; intros [= <-]; reflexivity.
Qed.

Lemma query_ollama_run endpoint model prompt w :
  exists w',
    Main.query_ollama endpoint model prompt w
    = (ollama_answer (ollama_post (length (sent w))
                        (Main.ollama_request endpoint model prompt)), w')
    /\ sent w' = sent w ++ [Main.ollama_request endpoint model prompt]
    /\ fs w' = fs w.
Proof.
  unfold Main.query_ollama, try_except. rewrite Run.bind_run.
  unfold Main.requests_post, ollama_answer.
  destruct (ollama_post _ _) as [msg|lines]; simpl.
  - eexists. split; [reflexivity|]. split; reflexivity.
  - rewrite Run.bind_run. unfold from_result.
    destruct (Main.read_stream lines "") as [full|e] eqn:E; simpl.
    + eexists. split; [reflexivity|]. split; reflexivity.
    + rewrite (read_stream_raise _ _ _ E).
      eexists. split; [reflexivity|]. split; reflexivity.
Qed.

Lemma main_generate_pdf_sent name date notes resp dir :
  keeps sent (Main.generate_pdf name date notes resp dir).
Proof.
  unfold Main.generate_pdf, Main.parse, replace_spaces.
  repeat keeps_step.
  - destruct date; repeat keeps_step.
  - destruct name; repeat keeps_step.
Qed.

(** A pass that completes has sent one request and stored the verdict and
    the reply text of its row. *)
Lemma main_classify_row_ok e m col dir cols k row d w d' w' :
  Main.classify_row e m col dir cols k row d w = (Ok d', w') ->
  exists reply,
    ollama_reply e m col cols (length (sent w)) row = Ok reply
    /\ d' = Frame.set_at k "AI_P_F" (Str (main_verdict reply))
              (Frame.set_at k "AI_Response" (Str (stored_response reply)) d)
    /\ length (sent w') = S (length (sent w)).
Proof.
  unfold Main.classify_row. intros Hrun.
  apply Run.bind_ok in Hrun as (record & w1 & Hrec & Hrun).
  assert (record = record_of col cols row /\ w1 = w) as [-> ->].
  { unfold record_of, Frame.row_get. destruct (Frame.index_of col cols); simpl in Hrec.
    - injection Hrec as <- <-. split; reflexivity.
    - discriminate. }
  clear Hrec.
  apply Run.bind_ok in Hrun as (? & w2 & Hl1 & Hrun). apply Run.logging_ok in Hl1 as [Hs2 _].
  apply Run.bind_ok in Hrun as (? & w3 & Hl2 & Hrun). apply Run.logging_ok in Hl2 as [Hs3 _].
  apply Run.bind_ok in Hrun as (reply & w4 & Hq & Hrun).
  destruct (query_ollama_run e m (prompt_of (record_of col cols row)) w3)
    as (w4' & Hq' & Hs4 & _).
  rewrite Hq in Hq'. injection Hq' as Hans <-.
  exists reply. split.
  { unfold ollama_reply. rewrite <- Hs2, <- Hs3. symmetry. exact Hans. }
  cbv zeta in Hrun. unfold main_verdict, stored_response. cbv zeta.
  destruct (Text.truthy (default EmptyString reply)).
  - apply Run.bind_ok in Hrun as (? & w5 & Hpdf & Hrun).
    assert (sent w5 = sent w4) as Hs5.
    { destruct (bool_decide _).
      - eapply main_generate_pdf_sent. exact Hpdf.
      - injection Hpdf as _ <-. reflexivity. }
    apply Run.bind_ok in Hrun as (? & w6 & Hl3 & Hrun). apply Run.logging_ok in Hl3 as [Hs6 _].
    apply Run.bind_ok in Hrun as (? & w7 & Hl4 & Hrun). apply Run.logging_ok in Hl4 as [Hs7 _].
    injection Hrun as <- <-. split; [reflexivity|].
    rewrite Hs7, Hs6, Hs5, Hs4, length_app, Hs3, Hs2. simpl. lia.
  - apply Run.bind_ok in Hrun as (? & w6 & Hl3 & Hrun). apply Run.logging_ok in Hl3 as [Hs6 _].
    apply Run.bind_ok in Hrun as (? & w7 & Hl4 & Hrun). apply Run.logging_ok in Hl4 as [Hs7 _].
    injection Hrun as <- <-. split; [reflexivity|].
    rewrite Hs7, Hs6, Hs4, length_app, Hs3, Hs2. simpl. lia.
Qed.

(** The table of a loop that completes. *)
Lemma main_classify_rows_spec e m col dir data w data' w' :
  Main.classify_rows e m col dir data w = (Ok data', w') ->
  Frame.len data' = Frame.len data
  /\ length (sent w') = length (sent w) + Frame.len data
  /\ forall i row, rows data !! i = Some row ->
       exists reply,
         ollama_reply e m col (columns data) (length (sent w) + i) row = Ok reply
         /\ Frame.get_at i "AI_P_F" data' = Some (Str (main_verdict reply))
         /\ Frame.get_at i "AI_Response" data' = Some (Str (stored_response reply)).
Proof.
  unfold Main.classify_rows. intros Hrun.
  pose (outcome := fun (n : nat) (row : list cell) (f : string -> cell) =>
    exists reply, ollama_reply e m col (columns data) n row = Ok reply
                  /\ f "AI_P_F" = Str (main_verdict reply)
                  /\ f "AI_Response" = Str (stored_response reply)).
  assert (NoDup ["AI_P_F"; "AI_Response"]) as Hnd
    by (apply (bool_decide_unpack _); reflexivity).
  assert (forall k row d w1 d1 w2,
             Main.classify_row e m col dir (columns data) k row d w1 = (Ok d1, w2) ->
             exists f, outcome (length (sent w1)) row f
                       /\ d1 = store k f ["AI_P_F"; "AI_Response"] d
                       /\ length (sent w2) = S (length (sent w1))) as Hbody.
  { intros k row d w1 d1 w2 Hb.
    destruct (main_classify_row_ok _ _ _ _ _ _ _ _ _ _ _ Hb) as (reply & Hr & -> & Hs).
    exists (fun c => if decide (c = "AI_P_F") then Str (main_verdict reply)
                     else Str (stored_response reply)).
    split; [exists reply; split; [exact Hr|split; reflexivity]|].
    split; [reflexivity | exact Hs]. }
  destruct (Loop.iterrows_spec _ _ outcome Hnd Hbody _ _ _ _ Hrun)
    as (Hlen & Hsent & _ & Hrows).
  split; [exact Hlen|]. split; [exact Hsent|].
  intros i row Hrow. destruct (Hrows i row Hrow) as (f & (reply & Hr & Hv & Hs) & Hget).
  exists reply. split; [exact Hr|].
  rewrite <- Hv, <- Hs. split; apply Hget; set_solver.
Qed.

End main_loop.

(** ** The classification loop of [gemini_process.py] *)

Section gemini_loop.
Context `{Env}.

Lemma first_content_raise candidates e :
  Gemini.first_content candidates = Raise e -> is_class [RequestException] e = false.
Proof.
  destruct candidates as [[|[[s|]|] rest]|]; simpl; try discriminate;
    intros [= <-]; reflexivity.
Qed.

Lemma query_gemini_run endpoint api_key model prompt w :
  exists w',
    Gemini.query_gemini endpoint api_key model prompt w
    = (gemini_answer (gemini_post (length (sent w))
                        (Gemini.gemini_request endpoint api_key model prompt)), w')
    /\ sent w' = sent w ++ [Gemini.gemini_request endpoint api_key model prompt]
    /\ fs w' = fs w.
Proof.
  unfold Gemini.query_gemini, try_except. rewrite Run.bind_run.
  unfold Gemini.requests_post, gemini_answer.
  destruct (gemini_post _ _) as [msg|candidates]; simpl.
  - eexists. split; [reflexivity|]. split; reflexivity.
  - rewrite Run.bind_run. unfold from_result.
    destruct (Gemini.first_content candidates) as [text|e] eqn:E; simpl.
    + eexists. split; [reflexivity|]. split; reflexivity.
    + rewrite (first_content_raise _ _ E).
      eexists. split; [reflexivity|]. split; reflexivity.
Qed.

Lemma gemini_generate_pdf_sent name date notes resp dir :
  keeps sent (Gemini.generate_pdf name date notes resp dir).
Proof.
  unfold Gemini.generate_pdf, Gemini.strptime_Ymd, replace_spaces.
  repeat keeps_step.
  - destruct date; repeat keeps_step.
  - destruct name; repeat keeps_step.
Qed.

Lemma gemini_classify_row_ok e m col dir flag key cols k row d w d' w' :
  Gemini.classify_row e m col dir flag key cols k row d w = (Ok d', w') ->
  exists reply,
    gemini_reply e key m col cols (length (sent w)) row = Ok reply
    /\ d' = Frame.set_at k "Compliant" (Str (gemini_compliant reply))
              (Frame.set_at k "AI_P_F" (Str (gemini_verdict reply))
                 (Frame.set_at k "AI_Response" (Str (stored_response reply)) d))
    /\ length (sent w') = S (length (sent w)).
Proof.
  unfold Gemini.classify_row. intros Hrun.
  apply Run.bind_ok in Hrun as (record & w1 & Hrec & Hrun).
  assert (record = record_of col cols row /\ w1 = w) as [-> ->].
  { unfold record_of, Frame.row_get. destruct (Frame.index_of col cols); simpl in Hrec.
    - injection Hrec as <- <-. split; reflexivity.
    - discriminate. }
  clear Hrec.
  apply Run.bind_ok in Hrun as (? & w2 & Hl1 & Hrun). apply Run.logging_ok in Hl1 as [Hs2 _].
  apply Run.bind_ok in Hrun as (? & w3 & Hl2 & Hrun). apply Run.logging_ok in Hl2 as [Hs3 _].
  apply Run.bind_ok in Hrun as (reply & w4 & Hq & Hrun).
  destruct (query_gemini_run e key m (prompt_of (record_of col cols row)) w3)
    as (w4' & Hq' & Hs4 & _).
  rewrite Hq in Hq'. injection Hq' as Hans <-.
  exists reply. split.
  { unfold gemini_reply. rewrite <- Hs2, <- Hs3. symmetry. exact Hans. }
  cbv zeta in Hrun. unfold gemini_verdict, gemini_compliant, stored_response. cbv zeta.
  destruct (Text.truthy (default EmptyString reply)).
  - destruct (Gemini.pass_fail_of (default EmptyString reply)) as [pass_fail compliant].
    apply Run.bind_ok in Hrun as (? & w5 & Hpdf & Hrun).
    assert (sent w5 = sent w4) as Hs5.
    { destruct (bool_decide _ && flag).
      - eapply gemini_generate_pdf_sent. exact Hpdf.
      - injection Hpdf as _ <-. reflexivity. }
    apply Run.bind_ok in Hrun as (? & w6 & Hl3 & Hrun). apply Run.logging_ok in Hl3 as [Hs6 _].
    injection Hrun as <- <-. split; [reflexivity|].
    rewrite Hs6, Hs5, Hs4, length_app, Hs3, Hs2. simpl. lia.
  - apply Run.bind_ok in Hrun as (? & w6 & Hl3 & Hrun). apply Run.logging_ok in Hl3 as [Hs6 _].
    injection Hrun as <- <-. split; [reflexivity|].
    rewrite Hs6, Hs4, length_app, Hs3, Hs2. simpl. lia.
Qed.

Lemma gemini_classify_rows_spec e m col dir flag key data w data' w' :
  Gemini.classify_rows e m col dir flag key data w = (Ok data', w') ->
  Frame.len data' = Frame.len data
  /\ length (sent w') = length (sent w) + Frame.len data
  /\ forall i row, rows data !! i = Some row ->
       exists reply,
         gemini_reply e key m col (columns data) (length (sent w) + i) row = Ok reply
         /\ Frame.get_at i "AI_P_F" data' = Some (Str (gemini_verdict reply))
         /\ Frame.get_at i "Compliant" data' = Some (Str (gemini_compliant reply))
         /\ Frame.get_at i "AI_Response" data' = Some (Str (stored_response reply)).
Proof.
  unfold Gemini.classify_rows. intros Hrun.
  pose (outcome := fun (n : nat) (row : list cell) (f : string -> cell) =>
    exists reply, gemini_reply e key m col (columns data) n row = Ok reply
                  /\ f "AI_P_F" = Str (gemini_verdict reply)
                  /\ f "Compliant" = Str (gemini_compliant reply)
                  /\ f "AI_Response" = Str (stored_response reply)).
  assert (NoDup ["Compliant"; "AI_P_F"; "AI_Response"]) as Hnd
    by (apply (bool_decide_unpack _); reflexivity).
  assert (forall k row d w1 d1 w2,
             Gemini.classify_row e m col dir flag key (columns data) k row d w1 = (Ok d1, w2) ->
             exists f, outcome (length (sent w1)) row f
                       /\ d1 = store k f ["Compliant"; "AI_P_F"; "AI_Response"] d
                       /\ length (sent w2) = S (length (sent w1))) as Hbody.
  { intros k row d w1 d1 w2 Hb.
    destruct (gemini_classify_row_ok _ _ _ _ _ _ _ _ _ _ _ _ _ Hb) as (reply & Hr & -> & Hs).
    exists (fun c => if decide (c = "AI_P_F") then Str (gemini_verdict reply)
                     else if decide (c = "Compliant") then Str (gemini_compliant reply)
                     else Str (stored_response reply)).
    split; [exists reply; split; [exact Hr|repeat split; reflexivity]|].
    split; [reflexivity | exact Hs]. }
  destruct (Loop.iterrows_spec _ _ outcome Hnd Hbody _ _ _ _ Hrun)
    as (Hlen & Hsent & _ & Hrows).
  split; [exact Hlen|]. split; [exact Hsent|].
  intros i row Hrow.
  destruct (Hrows i row Hrow) as (f & (reply & Hr & Hv & Hc & Hs) & Hget).
  exists reply. split; [exact Hr|].
  rewrite <- Hv, <- Hc, <- Hs. repeat split; apply Hget; set_solver.
Qed.

End gemini_loop.

(** ** Verdicts *)

Section verdicts.
Context `{Env}.
Import TextFacts.

Lemma truthy_empty r : Text.truthy r = false -> r = EmptyString.
Proof. destruct r; [reflexivity | discriminate]. Qed.

Lemma no_reply_falsy reply :
  no_reply reply -> Text.truthy (default EmptyString reply) = false.
Proof. intros [->| ->]; reflexivity. Qed.

Lemma main_pass_fail_rule r : verdict_rule r (Main.pass_fail_of r).
Proof.
  unfold verdict_rule, Main.pass_fail_of. cbv zeta.
  destruct (Text.contains "pass" (Text.lower r)) eqn:Ep;
    [apply contains_spec in Ep | apply contains_false in Ep];
    (destruct (Text.contains "fail" (Text.lower r)) eqn:Ef;
     [apply contains_spec in Ef | apply contains_false in Ef]);
    repeat split; intros; try discriminate; try tauto.
Qed.

Lemma gemini_pass_fail_rule r : verdict_rule r (fst (Gemini.pass_fail_of r)).
Proof.
  unfold verdict_rule, Gemini.pass_fail_of. cbv zeta.
  destruct (Text.contains "pass" (Text.lower r)) eqn:Ep;
    [apply contains_spec in Ep | apply contains_false in Ep];
    (destruct (Text.contains "fail" (Text.lower r)) eqn:Ef;
     [apply contains_spec in Ef | apply contains_false in Ef]);
    repeat split; simpl; intros; try discriminate; try tauto.
Qed.

Lemma main_verdict_rule reply :
  verdict_rule (default EmptyString reply) (main_verdict reply).
Proof.
  unfold main_verdict. cbv zeta.
  destruct (Text.truthy (default EmptyString reply)) eqn:E.
  - apply main_pass_fail_rule.
  - rewrite (truthy_empty _ E). exact (main_pass_fail_rule EmptyString).
Qed.

Lemma gemini_verdict_rule reply :
  verdict_rule (default EmptyString reply) (gemini_verdict reply).
Proof.
  unfold gemini_verdict. cbv zeta.
  destruct (Text.truthy (default EmptyString reply)) eqn:E.
  - apply gemini_pass_fail_rule.
  - rewrite (truthy_empty _ E). exact (gemini_pass_fail_rule EmptyString).
Qed.

Lemma gemini_compliance_rule reply :
  compliance_rule (gemini_verdict reply) (gemini_compliant reply).
Proof.
  unfold compliance_rule, gemini_verdict, gemini_compliant, Gemini.pass_fail_of. cbv zeta.
  destruct (Text.truthy _); [|repeat split; intros; (reflexivity || discriminate)].
  destruct (Text.contains "pass" _); [|destruct (Text.contains "fail" _)];
    repeat split; simpl; intros; (reflexivity || discriminate).
Qed.

(** C1. In both workflows, once the classification loop has run over a
    table, the verdict stored for every row is PASSED exactly when the
    lower-cased reply to that row's request contains "pass", FAILED exactly
    when it contains "fail" and not "pass", and UNKNOWN exactly when it
    contains neither; a reply with both is PASSED. *)
Theorem verdict_from_reply :
  (forall endpoint model analysis_column pdf_output_dir data w data' w',
      Main.classify_rows endpoint model analysis_column pdf_output_dir data w
      = (Ok data', w') ->
      forall i row, rows data !! i = Some row ->
        exists reply verdict,
          ollama_reply endpoint model analysis_column (columns data)
                       (length (sent w) + i) row = Ok reply
          /\ Frame.get_at i "AI_P_F" data' = Some (Str verdict)
          /\ verdict_rule (default EmptyString reply) verdict)
  /\ (forall endpoint model analysis_column pdf_output_dir generate_pdfs api_key
             data w data' w',
      Gemini.classify_rows endpoint model analysis_column pdf_output_dir
                           generate_pdfs api_key data w = (Ok data', w') ->
      forall i row, rows data !! i = Some row ->
        exists reply verdict,
          gemini_reply endpoint api_key model analysis_column (columns data)
                       (length (sent w) + i) row = Ok reply
          /\ Frame.get_at i "AI_P_F" data' = Some (Str verdict)
          /\ verdict_rule (default EmptyString reply) verdict).
Proof.
  split.
  - intros e m col dir data w data' w' Hrun i row Hrow.
    destruct (main_classify_rows_spec _ _ _ _ _ _ _ _ Hrun) as (_ & _ & Hrows).
    destruct (Hrows i row Hrow) as (reply & Hr & Hv & _).
    exists reply, (main_verdict reply). split; [exact Hr|]. split; [exact Hv|].
    apply main_verdict_rule.
  - intros e m col dir flag key data w data' w' Hrun i row Hrow.
    destruct (gemini_classify_rows_spec _ _ _ _ _ _ _ _ _ _ Hrun) as (_ & _ & Hrows).
    destruct (Hrows i row Hrow) as (reply & Hr & Hv & _).
    exists reply, (gemini_verdict reply). split; [exact Hr|]. split; [exact Hv|].
    apply gemini_verdict_rule.
Qed.

End verdicts.

(** The sample table classified by both workflows: its first row, answered
    "Fail, items present". *)
Lemma verdict_from_reply_witness :
  (exists data' w',
      @Main.classify_rows Sample.answers "ep" "m" "Note" "pdf" Sample.table Sample.world
      = (Ok data', w')
      /\ exists reply verdict,
           @ollama_reply Sample.answers "ep" "m" "Note" (columns Sample.table) 0
                         [Str "Acme"; Str "2024-03-01"; Str "pens on desk"] = Ok reply
           /\ Frame.get_at 0 "AI_P_F" data' = Some (Str verdict)
           /\ verdict_rule (default EmptyString reply) verdict)
  /\ (exists data' w',
      @Gemini.classify_rows Sample.answers "ep" "m" "Note" "pdf" true "key"
                            Sample.table Sample.world = (Ok data', w')
      /\ exists reply verdict,
           @gemini_reply Sample.answers "ep" "key" "m" "Note" (columns Sample.table) 0
                         [Str "Acme"; Str "2024-03-01"; Str "pens on desk"] = Ok reply
           /\ Frame.get_at 0 "AI_P_F" data' = Some (Str verdict)
           /\ verdict_rule (default EmptyString reply) verdict).
Proof.
  split.
  - eexists _, _. split; [vm_compute; reflexivity|].
    eapply (proj1 (@verdict_from_reply Sample.answers)
              "ep" "m" "Note" "pdf" Sample.table Sample.world _ _);
      [vm_compute; reflexivity | reflexivity].
  - eexists _, _. split; [vm_compute; reflexivity|].
    eapply (proj2 (@verdict_from_reply Sample.answers)
              "ep" "m" "Note" "pdf" true "key" Sample.table Sample.world _ _);
      [vm_compute; reflexivity | reflexivity].
Defined.

(** ** Rows without a reply *)

Section no_replies.
Context `{Env}.
Import FrameFacts.

(** A pass over a row without a reply: no exception, the sentinel and
    UNKNOWN stored, no file touched. *)
Lemma main_classify_row_no_reply e m col dir cols k row d w reply :
  col ∈ cols ->
  ollama_reply e m col cols (length (sent w)) row = Ok reply ->
  no_reply reply ->
  exists w',
    Main.classify_row e m col dir cols k row d w
    = (Ok (Frame.set_at k "AI_P_F" (Str "UNKNOWN")
             (Frame.set_at k "AI_Response" (Str "Error or No Response") d)), w')
    /\ fs w' = fs w
    /\ length (sent w') = S (length (sent w)).
Proof.
  intros Hcol Hreply Hno. unfold Main.classify_row.
  destruct (index_of_is_Some _ _ Hcol) as [j Hj].
  assert (record_of col cols row = Frame.cell_at row j) as Hrec
    by (unfold record_of, Frame.row_get; rewrite Hj; reflexivity).
  rewrite Hj. simpl or_key_error.
  erewrite Run.bind_step by reflexivity.
  erewrite Run.bind_step by reflexivity.
  erewrite Run.bind_step by reflexivity.
  rewrite Run.bind_run.
  match goal with |- context [Main.query_ollama ?a ?b ?c ?w0] =>
    destruct (query_ollama_run a b c w0) as (w4 & Hq & Hs4 & Hf4); rewrite Hq end.
  unfold ollama_reply in Hreply. rewrite Hrec in Hreply.
  match goal with |- context [ollama_answer ?r] =>
    replace (ollama_answer r) with (@Ok (option string) reply)
      by (symmetry; exact Hreply) end.
  cbv zeta. rewrite (no_reply_falsy _ Hno).
  erewrite Run.bind_step by reflexivity.
  erewrite Run.bind_step by reflexivity.
  eexists. split; [reflexivity|]. simpl. split; [exact Hf4|].
  rewrite Hs4, length_app. simpl. lia.
Qed.

Lemma gemini_classify_row_no_reply e m col dir flag key cols k row d w reply :
  col ∈ cols ->
  gemini_reply e key m col cols (length (sent w)) row = Ok reply ->
  no_reply reply ->
  exists w',
    Gemini.classify_row e m col dir flag key cols k row d w
    = (Ok (Frame.set_at k "Compliant" (Str "UNKNOWN")
             (Frame.set_at k "AI_P_F" (Str "UNKNOWN")
                (Frame.set_at k "AI_Response" (Str "Error or No Response") d))), w')
    /\ fs w' = fs w
    /\ length (sent w') = S (length (sent w)).
Proof.
  intros Hcol Hreply Hno. unfold Gemini.classify_row.
  destruct (index_of_is_Some _ _ Hcol) as [j Hj].
  assert (record_of col cols row = Frame.cell_at row j) as Hrec
    by (unfold record_of, Frame.row_get; rewrite Hj; reflexivity).
  rewrite Hj. simpl or_key_error.
  erewrite Run.bind_step by reflexivity.
  erewrite Run.bind_step by reflexivity.
  erewrite Run.bind_step by reflexivity.
  rewrite Run.bind_run.
  match goal with |- context [Gemini.query_gemini ?a ?b ?c ?p ?w0] =>
    destruct (query_gemini_run a b c p w0) as (w4 & Hq & Hs4 & Hf4); rewrite Hq end.
  unfold gemini_reply in Hreply. rewrite Hrec in Hreply.
  match goal with |- context [gemini_answer ?r] =>
    replace (gemini_answer r) with (@Ok (option string) reply)
      by (symmetry; exact Hreply) end.
  cbv zeta. rewrite (no_reply_falsy _ Hno).
  erewrite Run.bind_step by reflexivity.
  eexists. split; [reflexivity|]. simpl. split; [exact Hf4|].
  rewrite Hs4, length_app. simpl. lia.
Qed.

Lemma stored_no_reply reply :
  no_reply reply -> stored_response reply = "Error or No Response".
Proof. intros Hno. unfold stored_response. cbv zeta. rewrite (no_reply_falsy _ Hno). reflexivity. Qed.

Lemma main_verdict_no_reply reply : no_reply reply -> main_verdict reply = "UNKNOWN".
Proof. intros Hno. unfold main_verdict. cbv zeta. rewrite (no_reply_falsy _ Hno). reflexivity. Qed.

Lemma gemini_verdict_no_reply reply : no_reply reply -> gemini_verdict reply = "UNKNOWN".
Proof. intros Hno. unfold gemini_verdict. cbv zeta. rewrite (no_reply_falsy _ Hno). reflexivity. Qed.

Lemma gemini_compliant_no_reply reply : no_reply reply -> gemini_compliant reply = "UNKNOWN".
Proof. intros Hno. unfold gemini_compliant. cbv zeta. rewrite (no_reply_falsy _ Hno). reflexivity. Qed.

(** C2. In both workflows a row whose request fails at the transport level
    (the reply is [None]) or returns no text (the reply is empty) is passed
    without an exception: its reply text becomes "Error or No Response" and
    its verdict UNKNOWN, no file is written, and the loop goes on with the
    next row from there.  When the loop has completed, every such row
    carries the sentinel and UNKNOWN in the table. *)
Theorem failed_call_marks_row_unknown :
  (forall endpoint model analysis_column pdf_output_dir cols index row rest data w reply,
      analysis_column ∈ cols -> index < Frame.len data ->
      ollama_reply endpoint model analysis_column cols (length (sent w)) row = Ok reply ->
      no_reply reply ->
      exists data' w',
        Main.classify_row endpoint model analysis_column pdf_output_dir cols index row data w
        = (Ok data', w')
        /\ Frame.get_at index "AI_Response" data' = Some (Str "Error or No Response")
        /\ Frame.get_at index "AI_P_F" data' = Some (Str "UNKNOWN")
        /\ fs w' = fs w
        /\ iterrows (Main.classify_row endpoint model analysis_column pdf_output_dir cols)
                    index (row :: rest) data w
           = iterrows (Main.classify_row endpoint model analysis_column pdf_output_dir cols)
                      (S index) rest data' w')
  /\ (forall endpoint model analysis_column pdf_output_dir data w data' w',
      Main.classify_rows endpoint model analysis_column pdf_output_dir data w
      = (Ok data', w') ->
      forall i row reply, rows data !! i = Some row ->
        ollama_reply endpoint model analysis_column (columns data)
                     (length (sent w) + i) row = Ok reply ->
        no_reply reply ->
        Frame.get_at i "AI_Response" data' = Some (Str "Error or No Response")
        /\ Frame.get_at i "AI_P_F" data' = Some (Str "UNKNOWN"))
  /\ (forall endpoint model analysis_column pdf_output_dir generate_pdfs api_key
             cols index row rest data w reply,
      analysis_column ∈ cols -> index < Frame.len data ->
      gemini_reply endpoint api_key model analysis_column cols (length (sent w)) row
      = Ok reply ->
      no_reply reply ->
      exists data' w',
        Gemini.classify_row endpoint model analysis_column pdf_output_dir generate_pdfs
                            api_key cols index row data w = (Ok data', w')
        /\ Frame.get_at index "AI_Response" data' = Some (Str "Error or No Response")
        /\ Frame.get_at index "AI_P_F" data' = Some (Str "UNKNOWN")
        /\ fs w' = fs w
        /\ iterrows (Gemini.classify_row endpoint model analysis_column pdf_output_dir
                       generate_pdfs api_key cols) index (row :: rest) data w
           = iterrows (Gemini.classify_row endpoint model analysis_column pdf_output_dir
                         generate_pdfs api_key cols) (S index) rest data' w')
  /\ (forall endpoint model analysis_column pdf_output_dir generate_pdfs api_key
             data w data' w',
      Gemini.classify_rows endpoint model analysis_column pdf_output_dir
                           generate_pdfs api_key data w = (Ok data', w') ->
      forall i row reply, rows data !! i = Some row ->
        gemini_reply endpoint api_key model analysis_column (columns data)
                     (length (sent w) + i) row = Ok reply ->
        no_reply reply ->
        Frame.get_at i "AI_Response" data' = Some (Str "Error or No Response")
        /\ Frame.get_at i "AI_P_F" data' = Some (Str "UNKNOWN")).
Proof.
  split; [|split; [|split]].
  - intros e m col dir cols k row rest d w reply Hcol Hk Hreply Hno.
    destruct (main_classify_row_no_reply e m col dir cols k row d w reply Hcol Hreply Hno)
      as (w' & Hrun & Hfs & _).
    eexists _, w'. split; [exact Hrun|].
    split; [|split; [|split]].
    + rewrite get_at_set_at_column by discriminate.
      apply get_at_set_at_eq. exact Hk.
    + apply get_at_set_at_eq. rewrite len_set_at. exact Hk.
    + exact Hfs.
    + simpl. rewrite (Run.bind_step _ _ _ _ _ Hrun). reflexivity.
  - intros e m col dir data w data' w' Hrun i row reply Hrow Hreply Hno.
    destruct (main_classify_rows_spec _ _ _ _ _ _ _ _ Hrun) as (_ & _ & Hrows).
    destruct (Hrows i row Hrow) as (reply' & Hr & Hv & Hs).
    assert (reply' = reply) as -> by congruence.
    rewrite Hs, Hv, (stored_no_reply _ Hno), (main_verdict_no_reply _ Hno).
    split; reflexivity.
  - intros e m col dir flag key cols k row rest d w reply Hcol Hk Hreply Hno.
    destruct (gemini_classify_row_no_reply e m col dir flag key cols k row d w reply
                Hcol Hreply Hno) as (w' & Hrun & Hfs & _).
    eexists _, w'. split; [exact Hrun|].
    split; [|split; [|split]].
    + rewrite !get_at_set_at_column by discriminate.
      apply get_at_set_at_eq. exact Hk.
    + rewrite get_at_set_at_column by discriminate.
      apply get_at_set_at_eq. rewrite len_set_at. exact Hk.
    + exact Hfs.
    + simpl. rewrite (Run.bind_step _ _ _ _ _ Hrun). reflexivity.
  - intros e m col dir flag key data w data' w' Hrun i row reply Hrow Hreply Hno.
    destruct (gemini_classify_rows_spec _ _ _ _ _ _ _ _ _ _ Hrun) as (_ & _ & Hrows).
    destruct (Hrows i row Hrow) as (reply' & Hr & Hv & _ & Hs).
    assert (reply' = reply) as -> by congruence.
    rewrite Hs, Hv, (stored_no_reply _ Hno), (gemini_verdict_no_reply _ Hno).
    split; reflexivity.
Qed.

(** C10. In the Gemini workflow, once the loop has run over a table, every
    row carries a compliance flag and a verdict that agree: YES with
    PASSED, NO with FAILED, UNKNOWN with UNKNOWN; a row without a reply
    carries UNKNOWN together with the sentinel text. *)
Theorem compliant_mirrors_verdict :
  forall endpoint model analysis_column pdf_output_dir generate_pdfs api_key
         data w data' w',
    Gemini.classify_rows endpoint model analysis_column pdf_output_dir
                         generate_pdfs api_key data w = (Ok data', w') ->
    forall i row, rows data !! i = Some row ->
      exists reply verdict compliant,
        gemini_reply endpoint api_key model analysis_column (columns data)
                     (length (sent w) + i) row = Ok reply
        /\ Frame.get_at i "AI_P_F" data' = Some (Str verdict)
        /\ Frame.get_at i "Compliant" data' = Some (Str compliant)
        /\ verdict ∈ ["PASSED"; "FAILED"; "UNKNOWN"]
        /\ compliance_rule verdict compliant
        /\ (no_reply reply ->
            compliant = "UNKNOWN"
            /\ Frame.get_at i "AI_Response" data' = Some (Str "Error or No Response")).
Proof.
  intros e m col dir flag key data w data' w' Hrun i row Hrow.
  destruct (gemini_classify_rows_spec _ _ _ _ _ _ _ _ _ _ Hrun) as (_ & _ & Hrows).
  destruct (Hrows i row Hrow) as (reply & Hr & Hv & Hc & Hs).
  exists reply, (gemini_verdict reply), (gemini_compliant reply).
  split; [exact Hr|]. split; [exact Hv|]. split; [exact Hc|].
  split; [|split; [apply gemini_compliance_rule|]].
  - unfold gemini_verdict, Gemini.pass_fail_of. cbv zeta.
    destruct (Text.truthy _); [|set_solver].
    destruct (Text.contains "pass" _); [|destruct (Text.contains "fail" _)];
      simpl; set_solver.
  - intros Hno. rewrite Hs, (stored_no_reply _ Hno), (gemini_compliant_no_reply _ Hno).
    split; reflexivity.
Qed.

End no_replies.

(** The third request of the sample services is refused: the third row of
    the sample table, passed alone and within the whole loop. *)
Lemma failed_call_marks_row_unknown_witness :
  (no_reply None
   /\ exists data' w',
       @Main.classify_row Sample.answers "ep" "m" "Note" "pdf" (columns Sample.table) 2
         [Str "Jo Doe"; Str "2024-03-02"; Str "mug"] Sample.table Sample.later = (Ok data', w')
       /\ Frame.get_at 2 "AI_Response" data' = Some (Str "Error or No Response")
       /\ Frame.get_at 2 "AI_P_F" data' = Some (Str "UNKNOWN")
       /\ fs w' = fs Sample.later
       /\ iterrows (@Main.classify_row Sample.answers "ep" "m" "Note" "pdf" (columns Sample.table))
                   2 [[Str "Jo Doe"; Str "2024-03-02"; Str "mug"]] Sample.table Sample.later
          = iterrows (@Main.classify_row Sample.answers "ep" "m" "Note" "pdf"
                        (columns Sample.table)) 3 [] data' w')
  /\ (exists data' w',
       @Main.classify_rows Sample.answers "ep" "m" "Note" "pdf" Sample.table Sample.world
       = (Ok data', w')
       /\ Frame.get_at 2 "AI_Response" data' = Some (Str "Error or No Response")
       /\ Frame.get_at 2 "AI_P_F" data' = Some (Str "UNKNOWN"))
  /\ (exists data' w',
       @Gemini.classify_row Sample.answers "ep" "m" "Note" "pdf" true "key"
         (columns Sample.table) 2 [Str "Jo Doe"; Str "2024-03-02"; Str "mug"]
         Sample.table Sample.later = (Ok data', w')
       /\ Frame.get_at 2 "AI_Response" data' = Some (Str "Error or No Response")
       /\ Frame.get_at 2 "AI_P_F" data' = Some (Str "UNKNOWN")
       /\ fs w' = fs Sample.later
       /\ iterrows (@Gemini.classify_row Sample.answers "ep" "m" "Note" "pdf" true "key"
                      (columns Sample.table))
                   2 [[Str "Jo Doe"; Str "2024-03-02"; Str "mug"]] Sample.table Sample.later
          = iterrows (@Gemini.classify_row Sample.answers "ep" "m" "Note" "pdf" true "key"
                        (columns Sample.table)) 3 [] data' w')
  /\ (exists data' w',
       @Gemini.classify_rows Sample.answers "ep" "m" "Note" "pdf" true "key"
                             Sample.table Sample.world = (Ok data', w')
       /\ Frame.get_at 2 "AI_Response" data' = Some (Str "Error or No Response")
       /\ Frame.get_at 2 "AI_P_F" data' = Some (Str "UNKNOWN")).
Proof.
  pose proof (@failed_call_marks_row_unknown Sample.answers) as (Hm1 & Hm2 & Hg1 & Hg2).
  assert (no_reply None) as Hno by (left; reflexivity).
  split; [split; [exact Hno|]|split; [|split]].
  - apply (Hm1 "ep" "m" "Note" "pdf" (columns Sample.table) 2
             [Str "Jo Doe"; Str "2024-03-02"; Str "mug"] [] Sample.table Sample.later None);
      [apply (bool_decide_unpack _); reflexivity | vm_compute; lia
      | vm_compute; reflexivity | exact Hno].
  - eexists _, _. split; [vm_compute; reflexivity|].
    eapply (Hm2 "ep" "m" "Note" "pdf" Sample.table Sample.world _ _);
      [vm_compute; reflexivity | reflexivity | vm_compute; reflexivity | exact Hno].
  - apply (Hg1 "ep" "m" "Note" "pdf" true "key" (columns Sample.table) 2
             [Str "Jo Doe"; Str "2024-03-02"; Str "mug"] [] Sample.table Sample.later None);
      [apply (bool_decide_unpack _); reflexivity | vm_compute; lia
      | vm_compute; reflexivity | exact Hno].
  - eexists _, _. split; [vm_compute; reflexivity|].
    eapply (Hg2 "ep" "m" "Note" "pdf" true "key" Sample.table Sample.world _ _);
      [vm_compute; reflexivity | reflexivity | vm_compute; reflexivity | exact Hno].
Defined.

(** The sample table in the Gemini loop: its third row, left without
    a reply. *)
Lemma compliant_mirrors_verdict_witness :
  exists data' w',
    @Gemini.classify_rows Sample.answers "ep" "m" "Note" "pdf" true "key"
                          Sample.table Sample.world = (Ok data', w')
    /\ exists reply verdict compliant,
         @gemini_reply Sample.answers "ep" "key" "m" "Note" (columns Sample.table) 2
                       [Str "Jo Doe"; Str "2024-03-02"; Str "mug"] = Ok reply
         /\ Frame.get_at 2 "AI_P_F" data' = Some (Str verdict)
         /\ Frame.get_at 2 "Compliant" data' = Some (Str compliant)
         /\ verdict ∈ ["PASSED"; "FAILED"; "UNKNOWN"]
         /\ compliance_rule verdict compliant
         /\ (no_reply reply ->
             compliant = "UNKNOWN"
             /\ Frame.get_at 2 "AI_Response" data' = Some (Str "Error or No Response")).
Proof.
  eexists _, _. split; [vm_compute; reflexivity|].
  eapply (@compliant_mirrors_verdict Sample.answers
            "ep" "m" "Note" "pdf" true "key" Sample.table Sample.world _ _);
    [vm_compute; reflexivity | reflexivity].
Defined.

(** ** The walk over the employee folders *)

Section walks.
Context `{Env}.
Import FrameFacts.

Lemma try_ok {A} (body : M A) catches handler w a w' :
  body w = (Ok a, w') -> try_except body catches handler w = (Ok a, w').
Proof. unfold try_except. intros ->. reflexivity. Qed.

Lemma row3 (row : list cell) :
  length row = 3 -> [Frame.cell_at row 0; Frame.cell_at row 1; Frame.cell_at row 2] = row.
Proof. destruct row as [|a [|b [|c [|]]]]; simpl; intros; try discriminate; reflexivity. Qed.

Lemma row4 (row : list cell) :
  length row = 4 ->
  [Frame.cell_at row 0; Frame.cell_at row 1; Frame.cell_at row 2; Frame.cell_at row 3] = row.
Proof.
  destruct row as [|a [|b [|c [|d [|]]]]]; simpl; intros; try discriminate; reflexivity.
Qed.

Lemma realign_main row :
  Frame.realign main_columns main_columns row
  = [Frame.cell_at row 0; Frame.cell_at row 1; Frame.cell_at row 2].
Proof. reflexivity. Qed.

Lemma realign_notes row :
  Frame.realign ["Record Date"; "Note"; "Employee Name"; "Location"] gemini_columns row
  = [Frame.cell_at row 2; Frame.cell_at row 0; Frame.cell_at row 1; Frame.cell_at row 3].
Proof. reflexivity. Qed.

Lemma assign_fresh c v df :
  Frame.positions c (columns df) = [] ->
  Frame.assign c v df
  = mkDataFrame (columns df ++ [c]) (map (Frame.row_set (length (columns df)) v) (rows df)).
Proof. intros Hp. unfold Frame.assign. rewrite Hp. reflexivity. Qed.

(** What [pd.concat] appends for one note file in [main.py]. *)
Lemma main_concat acc name (cdnotes : list (list cell)) :
  columns acc = main_columns ->
  Forall (fun r => length r = 3) (rows acc) ->
  Frame.concat acc
    (Frame.insert_first "Employee Name" (Str name)
       (mkDataFrame ["Record Date"; "Note"]
          (map (fun row => Frame.row_set 0 (Str (Frame.to_text (Frame.cell_at row 0))) row)
               cdnotes)))
  = mkDataFrame main_columns
      (rows acc ++ map (fun row => [Str name; Str (Frame.to_text (Frame.cell_at row 0));
                                    Frame.cell_at row 1]) cdnotes).
Proof.
  intros Hcols Hrows. unfold Frame.concat, Frame.insert_first. cbn [columns rows].
  rewrite Hcols.
  change (main_columns ++ _) with main_columns. f_equal. f_equal.
  - induction Hrows as [|r rs Hr _ IH]; cbn [map]; [reflexivity|].
    rewrite realign_main, (row3 _ Hr), IH. reflexivity.
  - rewrite !map_map. apply map_ext. intros row.
    unfold main_columns, Frame.realign. cbn.
    rewrite !cell_at_row_set. reflexivity.
Qed.

(** And in [gemini_process.py]. *)
Lemma gemini_concat acc name loc (cdnotes : list (list cell)) :
  columns acc = gemini_columns ->
  Forall (fun r => length r = 4) (rows acc) ->
  Frame.concat acc
    (Frame.assign "Location" (Str loc)
       (Frame.assign "Employee Name" (Str name)
          (mkDataFrame ["Record Date"; "Note"]
             (map (fun row => Frame.row_set 0 (Str (Frame.to_text (Frame.cell_at row 0))) row)
                  cdnotes))))
  = mkDataFrame gemini_columns
      (rows acc ++ map (fun row => [Str name; Str (Frame.to_text (Frame.cell_at row 0));
                                    Frame.cell_at row 1; Str loc]) cdnotes).
Proof.
  intros Hcols Hrows.
  rewrite (assign_fresh "Employee Name") by reflexivity. cbn [columns rows app length].
  rewrite (assign_fresh "Location") by reflexivity. cbn [columns rows app length].
  unfold Frame.concat. cbn [columns rows]. rewrite Hcols.
  change (gemini_columns ++ _) with gemini_columns. f_equal. f_equal.
  - induction Hrows as [|r rs Hr _ IH]; cbn [map]; [reflexivity|].
    rewrite <- IH at 2. f_equal. rewrite <- (row4 _ Hr) at 2. reflexivity.
  - rewrite !map_map. apply map_ext. intros row.
    rewrite realign_notes. rewrite !cell_at_row_set. reflexivity.
Qed.

Lemma read_location_run path wf w :
  exists w', Gemini.read_location path wf w = (Ok (location_of wf), w')
             /\ fs w' = fs w /\ sent w' = sent w.
Proof.
  destruct wf as [[text|e]|]; simpl; eexists; (split; [reflexivity|]); split; reflexivity.
Qed.

(** The walk of [main.py] never raises, touches no file, and appends to the
    table the contributions of the entries in the order of the listing. *)
Lemma main_walk_spec root entries :
  forall acc w,
    columns acc = main_columns ->
    Forall (fun r => length r = 3) (rows acc) ->
    exists w',
      Main.walk root entries acc w
      = (Ok (mkDataFrame main_columns (rows acc ++ flat_map contribution entries)), w')
      /\ fs w' = fs w /\ sent w' = sent w.
Proof.
  induction entries as [|[name kind] rest IH]; intros acc w Hcols Hrows.
  - exists w. destruct acc as [cols rs]. simpl in *. subst cols. rewrite app_nil_r.
    repeat split; reflexivity.
  - cbn [Main.walk entry_name entry_kind_of flat_map].
    destruct kind as [|[[e|records]|] wf].
    + erewrite Run.bind_step by reflexivity.
      edestruct IH as (w' & -> & Hfs & Hs); [exact Hcols | exact Hrows |].
      exists w'. repeat split; assumption.
    + erewrite Run.bind_step by reflexivity.
      edestruct IH as (w' & -> & Hfs & Hs); [exact Hcols | exact Hrows |].
      exists w'. repeat split; assumption.
    + erewrite Run.bind_step by reflexivity. cbv beta iota.
      erewrite Run.bind_step by reflexivity. cbv beta iota.
      erewrite Run.bind_step by reflexivity. cbv beta iota.
      rewrite (main_concat acc name _ Hcols Hrows).
      edestruct IH as (w' & -> & Hfs & Hs); [reflexivity | |].
      * cbn [rows]. apply Forall_app. split; [exact Hrows|].
        apply Forall_forall. intros r Hr.
        apply list_elem_of_fmap in Hr as (x & -> & _). reflexivity.
      * exists w'. split; [|split; assumption].
        cbn [rows]. rewrite <- app_assoc. unfold contribution, kept_lines, nonblank.
        cbn [entry_kind_of entry_name]. rewrite map_map. reflexivity.
    + erewrite Run.bind_step by reflexivity.
      edestruct IH as (w' & -> & Hfs & Hs); [exact Hcols | exact Hrows |].
      exists w'. repeat split; assumption.
Qed.

Lemma gemini_walk_spec root entries :
  forall acc w,
    columns acc = gemini_columns ->
    Forall (fun r => length r = 4) (rows acc) ->
    exists w',
      Gemini.walk root entries acc w
      = (Ok (mkDataFrame gemini_columns (rows acc ++ flat_map gemini_contribution entries)), w')
      /\ fs w' = fs w /\ sent w' = sent w.
Proof.
  induction entries as [|[name kind] rest IH]; intros acc w Hcols Hrows.
  - exists w. destruct acc as [cols rs]. simpl in *. subst cols. rewrite app_nil_r.
    repeat split; reflexivity.
  - cbn [Gemini.walk entry_name entry_kind_of flat_map].
    destruct kind as [|[[e|records]|] wf].
    + erewrite Run.bind_step by reflexivity.
      edestruct IH as (w' & -> & Hfs & Hs); [exact Hcols | exact Hrows |].
      exists w'. repeat split; assumption.
    + destruct (read_location_run (path_join root name) wf w) as (w1 & Hloc & Hf1 & Hs1).
      erewrite Run.bind_step by exact Hloc. cbv beta iota.
      erewrite Run.bind_step by reflexivity. cbv beta iota.
      edestruct IH as (w' & -> & Hfs & Hs); [exact Hcols | exact Hrows |].
      exists w'. cbn in Hfs, Hs. split; [reflexivity|]. split; congruence.
    + destruct (read_location_run (path_join root name) wf w) as (w1 & Hloc & Hf1 & Hs1).
      erewrite Run.bind_step by exact Hloc. cbv beta iota.
      erewrite Run.bind_step; cycle 1.
      { apply try_ok.
        erewrite Run.bind_step by reflexivity. cbv beta iota.
        erewrite Run.bind_step by reflexivity. cbv beta iota.
        erewrite Run.bind_step by reflexivity. cbv beta iota. cbn [columns rows].
        erewrite Run.bind_step by reflexivity. cbv beta iota.
        rewrite (gemini_concat acc name _ _ Hcols Hrows). reflexivity. }
      cbv beta iota.
      edestruct IH as (w' & -> & Hfs & Hs); [reflexivity | |].
      * cbn [rows]. apply Forall_app. split; [exact Hrows|].
        apply Forall_forall. intros r Hr.
        apply list_elem_of_fmap in Hr as (x & -> & _). reflexivity.
      * exists w'. cbn in Hfs, Hs. split; [|split; congruence].
        cbn [rows]. rewrite <- app_assoc. unfold gemini_contribution, kept_lines, nonblank.
        cbn [entry_kind_of entry_name]. rewrite map_map. reflexivity.
    + erewrite Run.bind_step by reflexivity.
      edestruct IH as (w' & -> & Hfs & Hs); [exact Hcols | exact Hrows |].
      exists w'. repeat split; assumption.
Qed.

End walks.

(** ** Concatenations of blocks *)

Section blocks.
Context {A B : Type} (f : A -> list B).

Lemma flat_map_lookup l i x :
  flat_map f l !! i = Some x ->
  exists j y k, l !! j = Some y /\ f y !! k = Some x
                /\ i = length (flat_map f (take j l)) + k.
Proof.
  revert i. induction l as [|a l IH]; intros i; simpl; [discriminate|].
  destruct (decide (i < length (f a))) as [Hlt|Hge].
  - rewrite lookup_app_l by exact Hlt. intros Hx. exists 0, a, i. auto.
  - rewrite lookup_app_r by lia. intros Hx.
    destruct (IH _ Hx) as (j & y & k & Hj & Hk & Hi).
    exists (S j), y, k. simpl. rewrite length_app. repeat split; [exact Hj | exact Hk | lia].
Qed.

Lemma lookup_flat_map l j y k x :
  l !! j = Some y -> f y !! k = Some x ->
  flat_map f l !! (length (flat_map f (take j l)) + k) = Some x.
Proof.
  revert j. induction l as [|a l IH]; intros j; [discriminate|].
  destruct j as [|j]; simpl.
  - intros [= ->] Hk. apply lookup_app_l_Some. exact Hk.
  - intros Hj Hk. rewrite length_app, lookup_app_r by lia.
    replace (length (f a) + length (flat_map f (take j l)) + k - length (f a))
      with (length (flat_map f (take j l)) + k) by lia.
    apply IH; assumption.
Qed.

(** The blocks come one after the other. *)
Lemma block_before l j j' y :
  j < j' -> l !! j = Some y ->
  length (flat_map f (take j l)) + length (f y) <= length (flat_map f (take j' l)).
Proof.
  revert j j'. induction l as [|a l IH]; intros j j' Hlt; [discriminate|].
  destruct j as [|j], j' as [|j']; simpl; try lia.
  - intros [= ->]. rewrite length_app. lia.
  - intros Hj. rewrite !length_app. specialize (IH j j' ltac:(lia) Hj). lia.
Qed.

Lemma block_origin_unique l j j' y y' k k' :
  l !! j = Some y -> l !! j' = Some y' ->
  k < length (f y) -> k' < length (f y') ->
  length (flat_map f (take j l)) + k = length (flat_map f (take j' l)) + k' ->
  j = j' /\ k = k'.
Proof.
  intros Hj Hj' Hk Hk' Heq.
  destruct (Nat.lt_trichotomy j j') as [Hlt|[->|Hgt]].
  - pose proof (block_before l j j' y Hlt Hj). lia.
  - split; [reflexivity | lia].
  - pose proof (block_before l j' j y' Hgt Hj'). lia.
Qed.

End blocks.

(** ** The consolidator *)

Section consolidator.
Context `{Env}.

Lemma kept_lines_spec records line :
  line ∈ kept_lines records
  <-> line ∈ records /\ line <> [] /\ length line <= table_width (nonblank records).
Proof.
  unfold kept_lines. set (width := table_width (nonblank records)). unfold nonblank.
  rewrite !list_elem_of_In, !filter_In, <- !list_elem_of_In.
  unfold bad_line, is_blank.
  destruct (Nat.ltb_spec width (length line)) as [Hlt|Hle];
    destruct line; simpl in *; intuition (congruence || lia).
Qed.

Lemma table_width_least records : 2 <= table_width records.
Proof. unfold table_width. destruct records; lia. Qed.

Lemma kept_lines_sublist records : sublist (kept_lines records) records.
Proof.
  unfold kept_lines, nonblank.
  assert (forall (p : list string -> bool) l, sublist (List.filter p l) l) as Hsub.
  { intros p l. induction l as [|a l IH]; simpl; [constructor|].
    destruct (p a); [apply sublist_skip | apply sublist_cons]; exact IH. }
  etransitivity; apply Hsub.
Qed.

Lemma contribution_name entry row :
  row ∈ contribution entry -> Frame.cell_at row 0 = Str (entry_name entry).
Proof.
  unfold contribution. destruct (entry_kind_of entry) as [|[[e|records]|] wf];
    try (intros Hin; apply elem_of_nil in Hin as []).
  intros Hin. apply list_elem_of_fmap in Hin as (x & -> & _). reflexivity.
Qed.

Lemma contribution_none entry :
  (forall f wf, entry_kind_of entry <> Directory (Some f) wf) ->
  contribution entry = [] /\ gemini_contribution entry = [].
Proof.
  unfold contribution, gemini_contribution.
  destruct (entry_kind_of entry) as [|[f|] wf]; intros Hno; try (split; reflexivity).
  exfalso. apply (Hno f wf). reflexivity.
Qed.

Lemma flat_map_nil {X Y} (g : X -> list Y) l :
  (forall x, x ∈ l -> g x = []) -> flat_map g l = [].
Proof.
  induction l as [|a l IH]; intros Hall; simpl; [reflexivity|].
  rewrite (Hall a) by left. apply IH. intros x Hx. apply Hall. right. exact Hx.
Qed.

(** The whole of [consolidate_cdnotes] in [main.py], from the listing. *)
Lemma main_consolidate_run root out w entries :
  listdir root = Some entries ->
  let table := mkDataFrame main_columns (flat_map contribution entries) in
  exists w1,
    Main.walk root entries (Frame.new main_columns) (start_of root w) = (Ok table, w1)
    /\ fs w1 = fs w /\ sent w1 = sent w
    /\ Main.consolidate_cdnotes root out w
       = (Ok tt,
          match flat_map contribution entries, disk_error out with
          | [], _ => mkWorld (fs w1) (dirs w1) (logs w1 ++ [nothing_to_consolidate]) (sent w1)
          | _, None =>
              mkWorld (<[out := Csv table]> (fs w1)) (dirs w1)
                      (logs w1 ++ [(INFO, "Consolidated data saved to " +:+ out)]) (sent w1)
          | _, Some msg =>
              mkWorld (fs w1) (dirs w1)
                      (logs w1 ++ [(ERROR, "Error saving the consolidated file: " +:+ msg)])
                      (sent w1)
          end).
Proof.
  intros Hls table.
  destruct (main_walk_spec root entries (Frame.new main_columns) (start_of root w))
    as (w1 & Hwalk & Hfs & Hs); [reflexivity | constructor |].
  exists w1. split; [exact Hwalk|]. split; [exact Hfs|]. split; [exact Hs|].
  unfold Main.consolidate_cdnotes. cbv zeta.
  erewrite Run.bind_step by reflexivity. cbv beta iota.
  erewrite Run.bind_step by (unfold os_listdir; rewrite Hls; reflexivity). cbv beta iota.
  erewrite Run.bind_step by exact Hwalk. cbv beta iota.
  unfold Frame.new, Frame.empty. cbn [rows columns app].
  destruct (flat_map contribution entries) as [|r rs] eqn:E; [reflexivity|].
  unfold main_columns, try_except. cbv beta. rewrite Run.bind_run.
  unfold to_csv, write_file. destruct (disk_error out) as [msg|]; reflexivity.
Qed.

Lemma gemini_consolidate_run root out w entries :
  listdir root = Some entries ->
  let table := mkDataFrame gemini_columns (flat_map gemini_contribution entries) in
  exists w1,
    Gemini.walk root entries (Frame.new gemini_columns) (start_of root w) = (Ok table, w1)
    /\ fs w1 = fs w /\ sent w1 = sent w
    /\ Gemini.consolidate_cdnotes root out w
       = (Ok tt,
          match flat_map gemini_contribution entries, disk_error out with
          | [], _ => mkWorld (fs w1) (dirs w1) (logs w1 ++ [nothing_to_consolidate]) (sent w1)
          | _, None =>
              mkWorld (<[out := Csv table]> (fs w1)) (dirs w1)
                      (logs w1 ++ [(INFO, "Consolidated data saved to " +:+ out)]) (sent w1)
          | _, Some msg =>
              mkWorld (fs w1) (dirs w1)
                      (logs w1 ++ [(ERROR, "Error saving the consolidated file: " +:+ msg)])
                      (sent w1)
          end).
Proof.
  intros Hls table.
  destruct (gemini_walk_spec root entries (Frame.new gemini_columns) (start_of root w))
    as (w1 & Hwalk & Hfs & Hs); [reflexivity | constructor |].
  exists w1. split; [exact Hwalk|]. split; [exact Hfs|]. split; [exact Hs|].
  unfold Gemini.consolidate_cdnotes. cbv zeta.
  erewrite Run.bind_step by reflexivity. cbv beta iota.
  erewrite Run.bind_step by (unfold os_listdir; rewrite Hls; reflexivity). cbv beta iota.
  erewrite Run.bind_step by exact Hwalk. cbv beta iota.
  unfold Frame.new, Frame.empty. cbn [rows columns app].
  destruct (flat_map gemini_contribution entries) as [|r rs] eqn:E; [reflexivity|].
  unfold gemini_columns, try_except. cbv beta. rewrite Run.bind_run.
  unfold to_csv, write_file. destruct (disk_error out) as [msg|]; reflexivity.
Qed.

End consolidator.

Section consolidation_claims.
Context `{Env}.

(** C9. In a consolidation run of [main.py] over the listing of the root
    directory, the table is the contributions of the entries one after the
    other, in the order of the listing.  Every row of it comes from one
    position of one note file (there is exactly one entry and one kept line
    it stems from) and carries the name of that entry's folder; the rows of
    a folder follow the order of the lines of its file; and the rows of an
    entry listed earlier come before those of an entry listed later.  When
    the table has rows and the disk takes it, this table is what the run
    writes. *)
Theorem consolidated_rows_in_walk_order :
  forall root_directory output_csv w entries,
    listdir root_directory = Some entries ->
    exists table w1,
      Main.walk root_directory entries (Frame.new main_columns) (start_of root_directory w)
      = (Ok table, w1)
      /\ columns table = main_columns
      /\ rows table = flat_map contribution entries
      /\ (rows table <> [] -> disk_error output_csv = None ->
          exists w', Main.consolidate_cdnotes root_directory output_csv w = (Ok tt, w')
                     /\ fs w' = <[output_csv := Csv table]> (fs w))
      /\ (forall i row, rows table !! i = Some row ->
            exists j entry k,
              entries !! j = Some entry
              /\ contribution entry !! k = Some row
              /\ i = offset entries j + k
              /\ Frame.cell_at row 0 = Str (entry_name entry)
              /\ forall j' entry' k',
                   entries !! j' = Some entry' -> k' < length (contribution entry') ->
                   i = offset entries j' + k' -> j' = j /\ k' = k)
      /\ (forall entry records wf k row,
            entry ∈ entries ->
            entry_kind_of entry = Directory (Some (Lines records)) wf ->
            contribution entry !! k = Some row ->
            sublist (kept_lines records) records
            /\ exists line,
                 kept_lines records !! k = Some line
                 /\ row = [ Str (entry_name entry);
                            Str (Frame.to_text
                                   (Frame.cell_at
                                      (named_fields (table_width (nonblank records)) line) 0));
                            Frame.cell_at
                              (named_fields (table_width (nonblank records)) line) 1 ])
      /\ (forall j j' entry k k',
            j < j' -> entries !! j = Some entry -> k < length (contribution entry) ->
            offset entries j + k < offset entries j' + k').
Proof.
  intros root out w entries Hls.
  destruct (main_consolidate_run root out w entries Hls) as (w1 & Hwalk & Hfs & Hs & Hrun).
  eexists _, w1. split; [exact Hwalk|]. cbn [columns rows].
  split; [reflexivity|]. split; [reflexivity|].
  split; [|split; [|split]].
  - intros Hne Hdisk. rewrite Hrun, Hdisk.
    destruct (flat_map contribution entries) as [|r rs]; [congruence|].
    eexists. split; [reflexivity|]. cbn [fs]. rewrite Hfs. reflexivity.
  - intros i row Hrow.
    destruct (flat_map_lookup contribution entries i row Hrow) as (j & entry & k & Hj & Hk & Hi).
    exists j, entry, k. split; [exact Hj|]. split; [exact Hk|]. split; [exact Hi|].
    split; [apply contribution_name; eapply list_elem_of_lookup_2; exact Hk|].
    intros j' entry' k' Hj' Hk' Hi'.
    eapply (block_origin_unique contribution entries j' j entry' entry k' k);
      [exact Hj' | exact Hj | exact Hk' | eapply lookup_lt_Some; exact Hk |].
    unfold offset in Hi'. lia.
  - intros entry records wf k row Hin Hkind Hk.
    split; [apply kept_lines_sublist|].
    unfold contribution in Hk. rewrite Hkind in Hk.
    rewrite list_lookup_fmap in Hk.
    destruct (kept_lines records !! k) as [line|]; [|discriminate].
    exists line. split; [reflexivity|]. simpl in Hk. congruence.
  - intros j j' entry k k' Hlt Hj Hk. unfold offset.
    pose proof (block_before contribution entries j j' entry Hlt Hj). lia.
Qed.

(** C3. In both workflows, a consolidation run whose table ends with zero
    rows returns normally, leaves every file as it was (it writes none), and
    its last log record is the notice that there is nothing to consolidate.
    That is the case when no folder of the listing holds a note file. *)
Theorem empty_consolidation_writes_nothing :
  (forall root_directory output_csv w entries table w1,
      listdir root_directory = Some entries ->
      Main.walk root_directory entries (Frame.new main_columns) (start_of root_directory w)
      = (Ok table, w1) ->
      rows table = [] ->
      exists w',
        Main.consolidate_cdnotes root_directory output_csv w = (Ok tt, w')
        /\ fs w' = fs w
        /\ logs w' = logs w1 ++ [nothing_to_consolidate])
  /\ (forall root_directory output_csv w entries table w1,
      listdir root_directory = Some entries ->
      Gemini.walk root_directory entries (Frame.new gemini_columns) (start_of root_directory w)
      = (Ok table, w1) ->
      rows table = [] ->
      exists w',
        Gemini.consolidate_cdnotes root_directory output_csv w = (Ok tt, w')
        /\ fs w' = fs w
        /\ logs w' = logs w1 ++ [nothing_to_consolidate])
  /\ (forall root_directory output_csv w entries,
      listdir root_directory = Some entries ->
      (forall entry f wf, entry ∈ entries -> entry_kind_of entry <> Directory (Some f) wf) ->
      exists w' w'',
        Main.consolidate_cdnotes root_directory output_csv w = (Ok tt, w')
        /\ fs w' = fs w /\ last (logs w') = Some nothing_to_consolidate
        /\ Gemini.consolidate_cdnotes root_directory output_csv w = (Ok tt, w'')
        /\ fs w'' = fs w /\ last (logs w'') = Some nothing_to_consolidate).
Proof.
  split; [|split].
  - intros root out w entries table w1 Hls Hwalk Hrows.
    destruct (main_consolidate_run root out w entries Hls) as (w1' & Hwalk' & Hfs & _ & Hrun).
    rewrite Hwalk in Hwalk'. injection Hwalk' as -> <-. cbn [rows] in Hrows.
    rewrite Hrun, Hrows. eexists. split; [reflexivity|]. split; [exact Hfs | reflexivity].
  - intros root out w entries table w1 Hls Hwalk Hrows.
    destruct (gemini_consolidate_run root out w entries Hls) as (w1' & Hwalk' & Hfs & _ & Hrun).
    rewrite Hwalk in Hwalk'. injection Hwalk' as -> <-. cbn [rows] in Hrows.
    rewrite Hrun, Hrows. eexists. split; [reflexivity|]. split; [exact Hfs | reflexivity].
  - intros root out w entries Hls Hnone.
    destruct (main_consolidate_run root out w entries Hls) as (w1 & _ & Hfs & _ & Hrun).
    destruct (gemini_consolidate_run root out w entries Hls) as (w2 & _ & Hfs2 & _ & Hrun2).
    rewrite Hrun, Hrun2.
    rewrite (flat_map_nil contribution entries), (flat_map_nil gemini_contribution entries).
    + eexists _, _. split; [reflexivity|]. split; [exact Hfs|].
      split; [cbn [logs]; apply last_snoc|].
      split; [reflexivity|]. split; [exact Hfs2|]. cbn [logs]. apply last_snoc.
    + intros entry Hin. apply contribution_none. intros f wf. apply Hnone. exact Hin.
    + intros entry Hin. apply contribution_none. intros f wf. apply Hnone. exact Hin.
Qed.

(** The note of a line with fewer fields than the table is wide is what
    the parser makes of an empty field. *)
Lemma named_fields_short width record :
  2 <= width -> length record < width ->
  length (named_fields width record) = 2
  /\ Frame.cell_at (named_fields width record) 1 = parse_field EmptyString.
Proof.
  intros Hw Hlen. unfold named_fields, Frame.cell_at.
  rewrite length_map, length_drop, length_app, length_replicate.
  split; [lia|].
  rewrite list_lookup_fmap, lookup_drop, lookup_app_r by lia.
  rewrite lookup_replicate_2 by lia. reflexivity.
Qed.

(** C4, as the code has it.  Of a note file, [pd.read_csv] keeps every
    non-blank line that has no more fields than the table is wide, the width
    being that of the first non-blank line and at least two: a line with more
    fields is dropped, a two-field line is kept, and so is a line with one
    field.  The rows are the kept lines in the order of the file, and the
    folder contributes one row per kept line.  The note of a kept line that
    has fewer fields than the table is wide is missing: with the empty field
    among the texts pandas takes for a missing value, as it is by default,
    the row of that line reads [NaN] under [Note], in the table read and in
    the row the folder contributes. *)
Theorem read_keeps_lines_within_width :
  forall records,
    (forall w,
        read_csv_notes (Lines records) w
        = (Ok (mkDataFrame ["Record Date"; "Note"]
                 (map (named_fields (table_width (nonblank records))) (kept_lines records))), w))
    /\ (forall name wfboxfile,
          length (contribution (mkEntry name (Directory (Some (Lines records)) wfboxfile)))
          = length (kept_lines records))
    /\ (forall line,
          line ∈ kept_lines records
          <-> line ∈ records /\ line <> []
              /\ length line <= table_width (nonblank records))
    /\ table_width (nonblank records)
       = match nonblank records with
         | [] => 2
         | first :: _ => 2 `max` length first
         end
    /\ (forall line, line ∈ records -> well_formed line = true -> line ∈ kept_lines records)
    /\ (forall line, line ∈ records -> length line = 1 -> line ∈ kept_lines records)
    /\ sublist (kept_lines records) records
    /\ (na_value EmptyString = true ->
        forall i line,
          kept_lines records !! i = Some line ->
          length line < table_width (nonblank records) ->
          Frame.get_at i "Note"
            (mkDataFrame ["Record Date"; "Note"]
               (map (named_fields (table_width (nonblank records))) (kept_lines records)))
          = Some NaN
          /\ forall name wfboxfile,
               exists date,
                 contribution (mkEntry name (Directory (Some (Lines records)) wfboxfile)) !! i
                 = Some [Str name; Str date; NaN]).
Proof.
  intros records. split; [|split; [|split; [|split; [|split; [|split; [|split]]]]]].
  - intros w. reflexivity.
  - intros name wf. unfold contribution. cbn [entry_kind_of]. apply length_map.
  - apply kept_lines_spec.
  - reflexivity.
  - intros line Hin Hwf. apply kept_lines_spec. unfold well_formed in Hwf.
    apply Nat.eqb_eq in Hwf. pose proof (table_width_least (nonblank records)).
    split; [exact Hin|]. split; [destruct line; [discriminate | congruence] | lia].
  - intros line Hin Hone. apply kept_lines_spec.
    pose proof (table_width_least (nonblank records)).
    split; [exact Hin|]. split; [destruct line; [discriminate | congruence] | lia].
  - apply kept_lines_sublist.
  - intros Hna i line Hi Hshort.
    destruct (named_fields_short (table_width (nonblank records)) line
                (table_width_least _) Hshort) as [_ Hnote].
    unfold parse_field in Hnote. rewrite Hna in Hnote. split.
    + unfold Frame.get_at. cbn [rows columns].
      rewrite list_lookup_fmap, Hi.
      change (Frame.index_of "Note" ["Record Date"; "Note"]) with (Some 1).
      cbn [fmap option_fmap option_map mbind option_bind]. rewrite Hnote. reflexivity.
    + intros name wf. unfold contribution. cbn [entry_kind_of entry_name].
      rewrite list_lookup_fmap, Hi. cbn [fmap option_fmap option_map]. cbv zeta.
      rewrite Hnote. eexists. reflexivity.
Qed.

End consolidation_claims.

(** The sample folders consolidated by [main.py]. *)
Lemma consolidated_rows_in_walk_order_witness :
  @listdir Sample.answers "root" = Some Sample.folders
  /\ exists table w1,
       @Main.walk Sample.answers "root" Sample.folders (Frame.new main_columns)
                  (start_of "root" Sample.world) = (Ok table, w1)
       /\ columns table = main_columns
       /\ rows table = flat_map (@contribution Sample.answers) Sample.folders.
Proof.
  split; [reflexivity|].
  destruct (@consolidated_rows_in_walk_order Sample.answers "root" "out.csv" Sample.world
              Sample.folders eq_refl) as (table & w1 & Hwalk & Hcols & Hrows & _).
  exists table, w1. split; [exact Hwalk|]. split; [exact Hcols | exact Hrows].
Defined.

(** A root directory with one plain file and one folder without notes. *)
Lemma empty_consolidation_writes_nothing_witness :
  (@Main.walk Sample.bare "root" Sample.bare_folders (Frame.new main_columns)
              (start_of "root" Sample.world) = (Ok (Frame.new main_columns), Sample.bare_walked)
   /\ exists w',
        @Main.consolidate_cdnotes Sample.bare "root" "out.csv" Sample.world = (Ok tt, w')
        /\ fs w' = fs Sample.world
        /\ logs w' = logs Sample.bare_walked ++ [nothing_to_consolidate])
  /\ (@Gemini.walk Sample.bare "root" Sample.bare_folders (Frame.new gemini_columns)
                   (start_of "root" Sample.world)
       = (Ok (Frame.new gemini_columns), Sample.bare_walked)
   /\ exists w',
        @Gemini.consolidate_cdnotes Sample.bare "root" "out.csv" Sample.world = (Ok tt, w')
        /\ fs w' = fs Sample.world
        /\ logs w' = logs Sample.bare_walked ++ [nothing_to_consolidate])
  /\ (exists w' w'',
      @Main.consolidate_cdnotes Sample.bare "root" "out.csv" Sample.world = (Ok tt, w')
      /\ fs w' = fs Sample.world /\ last (logs w') = Some nothing_to_consolidate
      /\ @Gemini.consolidate_cdnotes Sample.bare "root" "out.csv" Sample.world = (Ok tt, w'')
      /\ fs w'' = fs Sample.world /\ last (logs w'') = Some nothing_to_consolidate).
Proof.
  pose proof (@empty_consolidation_writes_nothing Sample.bare) as (Hm & Hg & Hnone).
  assert (@Main.walk Sample.bare "root" Sample.bare_folders (Frame.new main_columns)
            (start_of "root" Sample.world) = (Ok (Frame.new main_columns), Sample.bare_walked))
    as Hwalk by (vm_compute; reflexivity).
  assert (@Gemini.walk Sample.bare "root" Sample.bare_folders (Frame.new gemini_columns)
            (start_of "root" Sample.world) = (Ok (Frame.new gemini_columns), Sample.bare_walked))
    as Hwalk' by (vm_compute; reflexivity).
  split; [|split].
  - split; [exact Hwalk|].
    exact (Hm "root" "out.csv" Sample.world Sample.bare_folders _ _ eq_refl Hwalk eq_refl).
  - split; [exact Hwalk'|].
    exact (Hg "root" "out.csv" Sample.world Sample.bare_folders _ _ eq_refl Hwalk' eq_refl).
  - apply (Hnone "root" "out.csv" Sample.world Sample.bare_folders); [reflexivity|].
    intros entry f wf Hin.
    apply elem_of_cons in Hin as [->|Hin]; [discriminate|].
    apply elem_of_cons in Hin as [->|Hin]; [discriminate|].
    apply elem_of_nil in Hin as [].
Defined.

(** C4 as stated fails: of a note file with one two-field line and one line
    with a date only, both lines are kept, so the file gives two rows while
    it has one well-formed line. *)
Lemma short_line_is_not_dropped :
  @read_csv_notes Sample.answers (Lines Sample.short_note) Sample.world
  = (Ok (mkDataFrame ["Record Date"; "Note"]
           [ [Str "03-01-2024"; Str "pens on desk"]; [Str "03-02-2024"; NaN] ]),
     Sample.world)
  /\ length (@contribution Sample.answers
               (mkEntry "Acme" (Directory (Some (Lines Sample.short_note)) None))) = 2
  /\ length (List.filter well_formed Sample.short_note) = 1
  /\ length (@contribution Sample.answers
               (mkEntry "Acme" (Directory (Some (Lines Sample.short_note)) None)))
     <> length (List.filter well_formed Sample.short_note).
Proof.
  split; [vm_compute; reflexivity|].
  split; [vm_compute; reflexivity|]. split; [vm_compute; reflexivity|].
  vm_compute. discriminate.
Qed.

(** The same note file, under the amended statement: the line with three
    fields is dropped, and the line with a date only is kept with a missing
    note. *)
Lemma read_keeps_lines_within_width_witness :
  ["03-01-2024"; "pens on desk"] ∈ kept_lines Sample.ragged_note
  /\ ["03-02-2024"] ∈ kept_lines Sample.ragged_note
  /\ ~ ["a"; "b"; "c"] ∈ kept_lines Sample.ragged_note
  /\ @contribution Sample.answers
       (mkEntry "Acme" (Directory (Some (Lines Sample.ragged_note)) None)) !! 1
     = Some [Str "Acme"; Str "03-02-2024"; NaN].
Proof.
  destruct (@read_keeps_lines_within_width Sample.answers Sample.ragged_note)
    as (_ & _ & Hspec & _ & Hwf & Hone & _ & Hnote).
  split; [|split; [|split]].
  - apply Hwf; [left | reflexivity].
  - apply Hone; [right; left | reflexivity].
  - intros Hin. apply Hspec in Hin as (_ & _ & Hle). vm_compute in Hle. lia.
  - destruct (Hnote eq_refl 1 ["03-02-2024"]) as [_ Hrow];
      [reflexivity | vm_compute; lia |].
    destruct (Hrow "Acme" None) as [date Hdate]. rewrite Hdate.
    vm_compute in Hdate. injection Hdate as <-. reflexivity.
Defined.


(** ** Dates *)

Module CalendarFacts.
Import Calendar.

Lemma digit_digit_char n : digit (digit_char n) = Some (n mod 10).
Proof.
  unfold digit, digit_char.
  assert (n mod 10 < 10) as Hlt by (apply Nat.mod_upper_bound; lia).
  rewrite nat_ascii_embedding by lia.
  destruct (Nat.leb_spec 48 (48 + n mod 10)); [|lia].
  destruct (Nat.leb_spec (48 + n mod 10) 57); [|lia].
  simpl. f_equal. lia.
Qed.

Lemma digit_char_not_dash n : Ascii.eqb (digit_char n) "-" = false.
Proof.
  apply Ascii.eqb_neq. intros Heq.
  pose proof (digit_digit_char n) as Hd. rewrite Heq in Hd. discriminate.
Qed.

Lemma split_other sep c t :
  Ascii.eqb c sep = false ->
  Text.split sep (String c t)
  = match Text.split sep t with
    | h :: r => String c h :: r
    | [] => [String c EmptyString]
    end.
Proof. intros E. simpl. rewrite E. reflexivity. Qed.

Lemma split_sep sep t : Text.split sep (String sep t) = EmptyString :: Text.split sep t.
Proof. simpl. rewrite Ascii.eqb_refl. reflexivity. Qed.

Lemma directive_m_pad2 m : 1 <= m <= 12 -> directive_m (pad2 m) = Some m.
Proof.
  intros [Hlo Hhi]. do 13 (destruct m as [|m]; [first [lia | reflexivity]|]). lia.
Qed.

Lemma directive_d_pad2 d : 1 <= d <= 31 -> directive_d (pad2 d) = Some d.
Proof.
  intros [Hlo Hhi]. do 32 (destruct d as [|d]; [first [lia | reflexivity]|]). lia.
Qed.

Lemma directive_Y_pad4 y : y < 100 * 100 -> directive_Y (pad4 y) = Some y.
Proof.
  intros Hy. unfold directive_Y, pad4. rewrite !digit_digit_char.
  cbn [mbind option_bind]. f_equal.
  pose proof (Nat.div_mod_eq y 10). pose proof (Nat.div_mod_eq (y / 10) 10).
  pose proof (Nat.div_mod_eq (y / 100) 10). pose proof (Nat.div_mod_eq (y / 1000) 10).
  assert (y / 10 / 10 = y / 100) by (rewrite Nat.Div0.div_div; reflexivity).
  assert (y / 100 / 10 = y / 1000) by (rewrite Nat.Div0.div_div; reflexivity).
  assert (y / 1000 / 10 = 0) by (rewrite Nat.Div0.div_div; apply Nat.div_small; lia).
  lia.
Qed.

Lemma valid_bounds d :
  valid d = true ->
  1 <= year d < 100 * 100 /\ 1 <= month d <= 12 /\ 1 <= day d <= 31.
Proof.
  unfold valid. rewrite !andb_true_iff, !Nat.leb_le, Nat.ltb_lt. intros [[[[[? ?] ?] ?] ?] Hd].
  assert (days_in_month (year d) (month d) <= 31).
  { unfold days_in_month. generalize (month d) as m. intros m.
    destruct (is_leap (year d)); do 13 (destruct m as [|m]; [lia|]); lia. }
  lia.
Qed.

Lemma strftime_mdY_text d :
  strftime_mdY d
  = String (digit_char (month d / 10)) (String (digit_char (month d))
      (String "-" (String (digit_char (day d / 10)) (String (digit_char (day d))
         (String "-" (pad4 (year d))))))).
Proof. reflexivity. Qed.

Lemma isoformat_text d :
  isoformat d
  = String (digit_char (year d / 1000)) (String (digit_char (year d / 100))
      (String (digit_char (year d / 10)) (String (digit_char (year d))
         (String "-" (String (digit_char (month d / 10)) (String (digit_char (month d))
            (String "-" (pad2 (day d))))))))).
Proof. reflexivity. Qed.

(** [%m-%d-%Y] reads back what it prints. *)
Lemma strptime_strftime_mdY d :
  valid d = true -> strptime_mdY (strftime_mdY d) = Some d.
Proof.
  intros Hv. destruct (valid_bounds d Hv) as (Hy & Hm & Hd).
  unfold strptime_mdY. rewrite strftime_mdY_text. unfold pad4.
  rewrite !split_other, split_sep, !split_other, split_sep, !split_other
    by apply digit_char_not_dash.
  cbn [Text.split].
  change (String (digit_char (month d / 10)) (String (digit_char (month d)) EmptyString))
    with (pad2 (month d)).
  change (String (digit_char (day d / 10)) (String (digit_char (day d)) EmptyString))
    with (pad2 (day d)).
  change (String (digit_char (year d / 1000)) _) with (pad4 (year d)).
  rewrite directive_m_pad2, directive_d_pad2, directive_Y_pad4 by lia.
  cbn [mbind option_bind]. unfold checked. destruct d as [y m dd]. simpl in *.
  rewrite Hv. reflexivity.
Qed.

Lemma strptime_isoformat d :
  valid d = true -> strptime_Ymd (isoformat d) = Some d.
Proof.
  intros Hv. destruct (valid_bounds d Hv) as (Hy & Hm & Hd).
  unfold strptime_Ymd. rewrite isoformat_text. unfold pad2.
  rewrite !split_other, split_sep, !split_other, split_sep, !split_other
    by apply digit_char_not_dash.
  cbn [Text.split].
  change (String (digit_char (month d / 10)) (String (digit_char (month d)) EmptyString))
    with (pad2 (month d)).
  change (String (digit_char (day d / 10)) (String (digit_char (day d)) EmptyString))
    with (pad2 (day d)).
  change (String (digit_char (year d / 1000)) _) with (pad4 (year d)).
  rewrite directive_m_pad2, directive_d_pad2, directive_Y_pad4 by lia.
  cbn [mbind option_bind]. unfold checked. destruct d as [y m dd]. simpl in *.
  rewrite Hv. reflexivity.
Qed.

Lemma leb_refl d : leb d d = true.
Proof.
  unfold leb. rewrite !Nat.eqb_refl, Nat.leb_refl, !Nat.ltb_irrefl. reflexivity.
Qed.



Lemma leb_spec a b :
  leb a b = true
  <-> year a < year b
      \/ (year a = year b /\ (month a < month b \/ (month a = month b /\ day a <= day b))).
Proof.
  unfold leb.
  rewrite !orb_true_iff, !andb_true_iff, !orb_true_iff, !andb_true_iff,
    !Nat.ltb_lt, !Nat.eqb_eq, Nat.leb_le.
  reflexivity.
Qed.

End CalendarFacts.

(** ** The date filter *)

Section date_filter_facts.
Context `{Env}.
Import FrameFacts.

Lemma filter_map_swap {X Y} (p : Y -> bool) (f : X -> Y) l :
  List.filter p (map f l) = map f (List.filter (fun x => p (f x)) l).
Proof.
  induction l as [|a l IH]; simpl; [reflexivity|].
  destruct (p (f a)); simpl; rewrite IH; reflexivity.
Qed.

Lemma in_range_stamp j s e row :
  in_range j s e (stamp j row) = dated_within s e (Frame.cell_at row j).
Proof.
  unfold in_range, stamp, dated_within. rewrite cell_at_row_set.
  destruct (decide (j = j)); [reflexivity | congruence].
Qed.

Lemma to_datetime_text s d :
  to_datetime (Str s) = Timestamp d
  <-> Calendar.strptime_mdY s = Some d /\ timestamp_range d = true.
Proof.
  simpl. destruct (Calendar.strptime_mdY s) as [d'|]; [|split; [discriminate | intros [? _]; discriminate]].
  destruct (timestamp_range d') eqn:E; split.
  - intros [= <-]. split; [reflexivity | exact E].
  - intros [[= <-] _]. reflexivity.
  - discriminate.
  - intros [[= <-] E']. congruence.
Qed.

Lemma dated_within_spec s e v :
  dated_within s e v = true
  <-> exists d, to_datetime v = Timestamp d
                /\ Calendar.leb s d = true /\ Calendar.leb d e = true.
Proof.
  unfold dated_within. destruct (to_datetime v) as [| |t|d]; split;
    try discriminate; try (intros (d' & Hd & _); discriminate).
  - intros Hb. apply andb_true_iff in Hb. exists d. tauto.
  - intros (d' & [= <-] & Hs & He). rewrite Hs, He. reflexivity.
Qed.

(** The filter keeps the rows dated within the bounds, in their order, each
    with its date parsed. *)
Lemma filter_by_date_run data start_date end_date s e j w :
  Frame.index_of "Record Date" (columns data) = Some j ->
  Calendar.strptime_mdY start_date = Some s ->
  Calendar.strptime_mdY end_date = Some e ->
  filter_by_date data start_date end_date w
  = (Ok (mkDataFrame (columns data)
           (map (stamp j)
                (List.filter (fun row => dated_within s e (Frame.cell_at row j)) (rows data)))),
     w).
Proof.
  intros Hj Hs He. unfold filter_by_date, Frame.map_column, strptime.
  rewrite Hj, Hs, He. cbn [mbind option_bind or_key_error or_value_error].
  erewrite Run.bind_step by reflexivity. cbv beta iota.
  erewrite Run.bind_step by reflexivity. cbv beta iota.
  erewrite Run.bind_step by reflexivity. cbv beta iota.
  cbn [columns]. rewrite Hj. cbn [or_key_error].
  erewrite Run.bind_step by reflexivity. cbv beta iota.
  unfold Frame.filter_rows. cbn [columns rows].
  change (fun row => Frame.row_set j (to_datetime (Frame.cell_at row j)) row) with (stamp j).
  rewrite filter_map_swap.
  erewrite (filter_ext (fun x => in_range j s e (stamp j x))); [reflexivity|].
  intros row. apply in_range_stamp.
Qed.

End date_filter_facts.

Section date_filter_claim.
Context `{Env}.

Lemma read_csv_run path df w :
  fs w !! path = Some (Csv df) -> read_csv path w = (Ok (loaded df), w).
Proof. intros Hf. unfold read_csv. rewrite Hf. reflexivity. Qed.

Lemma logged_logged l1 l2 w : logged l2 (logged l1 w) = logged (l1 ++ l2) w.
Proof. unfold logged. cbn [fs dirs logs sent]. rewrite app_assoc. reflexivity. Qed.

Lemma logging_run l msg w : logging l msg w = (Ok tt, logged [(l, msg)] w).
Proof. reflexivity. Qed.

Lemma log_to_console_run msg w : log_to_console msg w = (Ok tt, logged [(CONSOLE, msg)] w).
Proof. reflexivity. Qed.

(** With no row in range, [run_ai_on_csv] of [main.py] only logs. *)
Lemma main_run_empty input_csv start_date end_date w df s e j :
  fs w !! input_csv = Some (Csv df) ->
  Frame.index_of "Record Date" (columns df) = Some j ->
  Calendar.strptime_mdY start_date = Some s ->
  Calendar.strptime_mdY end_date = Some e ->
  List.filter (fun row => dated_within s e (Frame.cell_at row j)) (rows (loaded df)) = [] ->
  Main.run_ai_on_csv input_csv start_date end_date w
  = (Ok tt, logged [ (CONSOLE, "Loaded data from " +:+ input_csv);
                     (INFO, "Loaded data from " +:+ input_csv);
                     (CONSOLE, "No records found in the specified date range.");
                     (INFO, "No records found in the specified date range.") ] w).
Proof.
  intros Hf Hj Hs He Hnone. unfold Main.run_ai_on_csv. apply try_ok.
  erewrite Run.bind_step by (apply read_csv_run; exact Hf). cbv beta iota.
  erewrite Run.bind_step by apply log_to_console_run. cbv beta iota.
  erewrite Run.bind_step by apply logging_run. cbv beta iota.
  erewrite Run.bind_step by (apply (filter_by_date_run (loaded df)); eassumption).
  cbv beta iota. rewrite Hnone. cbn [map Frame.empty rows].
  erewrite Run.bind_step by apply log_to_console_run. cbv beta iota.
  rewrite logging_run, !logged_logged. reflexivity.
Qed.

Lemma gemini_run_empty input_csv start_date end_date flag endpoint model key w df s e j :
  fs w !! input_csv = Some (Csv df) ->
  Frame.index_of "Record Date" (columns df) = Some j ->
  Calendar.strptime_mdY start_date = Some s ->
  Calendar.strptime_mdY end_date = Some e ->
  List.filter (fun row => dated_within s e (Frame.cell_at row j)) (rows (loaded df)) = [] ->
  Gemini.run_ai_on_csv input_csv start_date end_date flag endpoint model key w
  = (Ok tt, logged [ (CONSOLE, "Loaded data from " +:+ input_csv);
                     (INFO, "Loaded data from " +:+ input_csv);
                     (CONSOLE, "No records found in the specified date range.");
                     (INFO, "No records found in the specified date range.") ] w).
Proof.
  intros Hf Hj Hs He Hnone. unfold Gemini.run_ai_on_csv. apply try_ok.
  erewrite Run.bind_step by (apply read_csv_run; exact Hf). cbv beta iota.
  erewrite Run.bind_step by apply log_to_console_run. cbv beta iota.
  erewrite Run.bind_step by apply logging_run. cbv beta iota.
  erewrite Run.bind_step by (apply (filter_by_date_run (loaded df)); eassumption).
  cbv beta iota. rewrite Hnone. cbn [map Frame.empty rows].
  erewrite Run.bind_step by apply log_to_console_run. cbv beta iota.
  rewrite logging_run, !logged_logged. reflexivity.
Qed.

(** C5. The date column is read in the month-day-year format: a text
    becomes a timestamp exactly when [%m-%d-%Y] parses it (the format reads
    back every date it prints), anything else becomes a missing timestamp.
    The filter keeps, in their order, exactly the rows whose date parsed to a
    timestamp [d] with [start <= d <= end], both bounds included.  When no
    row is in range, [run_ai_on_csv] of either workflow returns having only
    logged the load and the notice that no record is in range: no request is
    sent and no file is written. *)
Theorem date_filter_keeps_rows_in_range :
  (forall text d,
      to_datetime (Str text) = Timestamp d
      <-> Calendar.strptime_mdY text = Some d /\ timestamp_range d = true)
  /\ (forall d, Calendar.valid d = true ->
                Calendar.strptime_mdY (Calendar.strftime_mdY d) = Some d)
  /\ (forall text, Calendar.strptime_mdY text = None -> to_datetime (Str text) = NaT)
  /\ to_datetime NaN = NaT
  /\ (forall data start_date end_date s e j w,
        Frame.index_of "Record Date" (columns data) = Some j ->
        Calendar.strptime_mdY start_date = Some s ->
        Calendar.strptime_mdY end_date = Some e ->
        filter_by_date data start_date end_date w
        = (Ok (mkDataFrame (columns data)
                 (map (stamp j)
                      (List.filter (fun row => dated_within s e (Frame.cell_at row j))
                                   (rows data)))), w))
  /\ (forall s e v,
        dated_within s e v = true
        <-> exists d, to_datetime v = Timestamp d
                      /\ Calendar.leb s d = true /\ Calendar.leb d e = true)
  /\ (forall a b,
        Calendar.leb a b = true
        <-> year a < year b
            \/ (year a = year b
                /\ (month a < month b \/ (month a = month b /\ day a <= day b))))
  /\ (forall d, Calendar.leb d d = true)
  /\ (forall input_csv start_date end_date w df s e j,
        fs w !! input_csv = Some (Csv df) ->
        Frame.index_of "Record Date" (columns df) = Some j ->
        Calendar.strptime_mdY start_date = Some s ->
        Calendar.strptime_mdY end_date = Some e ->
        List.filter (fun row => dated_within s e (Frame.cell_at row j)) (rows (loaded df)) = [] ->
        let w' := logged [ (CONSOLE, "Loaded data from " +:+ input_csv);
                           (INFO, "Loaded data from " +:+ input_csv);
                           (CONSOLE, "No records found in the specified date range.");
                           (INFO, "No records found in the specified date range.") ] w in
        Main.run_ai_on_csv input_csv start_date end_date w = (Ok tt, w')
        /\ (forall generate_pdfs gemini_endpoint gemini_model api_key,
              Gemini.run_ai_on_csv input_csv start_date end_date generate_pdfs
                                   gemini_endpoint gemini_model api_key w = (Ok tt, w'))
        /\ sent w' = sent w /\ fs w' = fs w).
Proof.
  split; [apply to_datetime_text|].
  split; [apply CalendarFacts.strptime_strftime_mdY|].
  split; [intros text Hn; simpl; rewrite Hn; reflexivity|].
  split; [reflexivity|].
  split; [intros; apply filter_by_date_run; assumption|].
  split; [apply dated_within_spec|].
  split; [apply CalendarFacts.leb_spec|].
  split; [apply CalendarFacts.leb_refl|].
  intros input start_date end_date w df s e j Hf Hj Hs He Hnone. cbv zeta.
  split; [eapply main_run_empty; eassumption|].
  split; [intros; eapply gemini_run_empty; eassumption|].
  split; reflexivity.
Qed.

End date_filter_claim.

(** The stored sample table filtered on March 2024, and on a month without
    records. *)
Lemma date_filter_keeps_rows_in_range_witness :
  Calendar.strptime_mdY (Calendar.strftime_mdY (mkDate 2024 3 1)) = Some (mkDate 2024 3 1)
  /\ @filter_by_date Sample.answers (@loaded Sample.answers Sample.consolidated)
                     "03-01-2024" "03-02-2024" Sample.stocked
     = (Ok (mkDataFrame ["Employee Name"; "Record Date"; "Note"]
              [ [Str "Acme"; Timestamp (mkDate 2024 3 1); Str "pens on desk"] ]),
        Sample.stocked)
  /\ @Main.run_ai_on_csv Sample.answers "consolidated_cdnotes.csv" "01-01-2020" "01-31-2020"
                         Sample.stocked
     = (Ok tt, logged [ (CONSOLE, "Loaded data from consolidated_cdnotes.csv");
                        (INFO, "Loaded data from consolidated_cdnotes.csv");
                        (CONSOLE, "No records found in the specified date range.");
                        (INFO, "No records found in the specified date range.") ]
                      Sample.stocked).
Proof.
  pose proof (@date_filter_keeps_rows_in_range Sample.answers)
    as (_ & Hfmt & _ & _ & Hfilter & _ & _ & _ & Hempty).
  split; [apply Hfmt; reflexivity|]. split.
  - rewrite (Hfilter _ "03-01-2024" "03-02-2024" (mkDate 2024 3 1) (mkDate 2024 3 2) 1)
      by (vm_compute; reflexivity).
    vm_compute. reflexivity.
  - apply (Hempty "consolidated_cdnotes.csv" "01-01-2020" "01-31-2020" Sample.stocked
             Sample.consolidated (mkDate 2020 1 1) (mkDate 2020 1 31) 1);
      vm_compute; reflexivity.
Defined.

(** ** The acknowledgment documents *)

Section documents.
Context `{Env}.

Lemma checked_valid x d : Calendar.checked x = Some d -> Calendar.valid d = true.
Proof.
  unfold Calendar.checked. destruct (Calendar.valid x) eqn:E; [|discriminate].
  intros [= <-]. exact E.
Qed.

Lemma strptime_Ymd_valid s d :
  Calendar.strptime_Ymd s = Some d -> Calendar.valid d = true.
Proof.
  unfold Calendar.strptime_Ymd.
  destruct (Text.split "-" s) as [|a [|b [|c [|? ?]]]]; try discriminate.
  destruct (Calendar.directive_Y a); [|discriminate].
  destruct (Calendar.directive_m b); [|discriminate].
  destruct (Calendar.directive_d c); [|discriminate].
  cbn [mbind option_bind]. apply checked_valid.
Qed.

(** The date part of the name, as [gemini_process.py] computes it: an
    unparseable date is caught and logged, and costs nothing else. *)
Lemma gemini_date_part_run employee_name record_date w :
  exists w',
    try_except
      (d ← Gemini.strptime_Ymd record_date; mret (Calendar.strftime_mdY d))
      (is_class [ValueError; TypeError])
      (fun _ =>
         logging WARNING ("Invalid or missing date for " +:+ Frame.to_text employee_name
                          +:+ ", using 'Unknown_Date'. Original value: "
                          +:+ Frame.to_text record_date);;
         mret "Unknown_Date") w
    = (Ok (gemini_date_part record_date), w')
    /\ fs w' = fs w /\ sent w' = sent w /\ dirs w' = dirs w.
Proof.
  unfold try_except, Gemini.strptime_Ymd, gemini_date_part.
  destruct record_date as [| |s|d]; try (eexists; split; [reflexivity|]; repeat split).
  rewrite Run.bind_run. unfold or_value_error.
  destruct (Calendar.strptime_Ymd s) as [d|];
    eexists; (split; [reflexivity|]); repeat split.
Qed.

Lemma main_date_part_run employee_name record_date w :
  exists w',
    try_except
      (d ← Main.parse record_date; mret (Calendar.strftime_mdY d))
      Exception
      (fun _ =>
         logging WARNING ("Invalid or missing date for " +:+ Frame.to_text employee_name
                          +:+ ", using 'Unknown_Date'. Original value: "
                          +:+ Frame.to_text record_date);;
         mret "Unknown_Date") w
    = (Ok (main_date_part record_date), w')
    /\ fs w' = fs w /\ sent w' = sent w /\ dirs w' = dirs w.
Proof.
  unfold try_except, Main.parse, main_date_part.
  destruct record_date as [| |s|d]; try (eexists; split; [reflexivity|]; repeat split).
  rewrite Run.bind_run. unfold or_value_error.
  destruct (dateutil_parse s) as [d|];
    eexists; (split; [reflexivity|]); repeat split.
Qed.

(** [generate_pdf] of [gemini_process.py], case by case. *)
Lemma gemini_generate_pdf_run employee_name record_date notes ai_response output_dir w :
  exists w',
    fs w' = fs w /\ sent w' = sent w
    /\ Gemini.generate_pdf employee_name record_date notes ai_response output_dir w
       = match employee_name with
         | Str name =>
             let path := path_join output_dir
                                   (document_name (gemini_date_part record_date) name) in
             match disk_error path with
             | None =>
                 (Ok tt,
                  mkWorld (<[path := Pdf (page employee_name record_date notes ai_response)]>
                             (fs w'))
                          (dirs w') (logs w' ++ [(INFO, "PDF generated: " +:+ path)]) (sent w'))
             | Some msg => (Raise (mkExn OSError msg), w')
             end
         | _ => (Raise (mkExn AttributeError "'float' object has no attribute 'replace'"), w')
         end.
Proof.
  unfold Gemini.generate_pdf.
  erewrite Run.bind_step by reflexivity. cbv beta iota zeta.
  match goal with |- context [try_except ?b ?c ?h ≫= _] =>
    match goal with |- context [(_ ≫= _) ?w0] =>
      destruct (gemini_date_part_run employee_name record_date w0)
        as (w1 & Hd & Hfs & Hs & _) end end.
  exists w1. split; [exact Hfs|]. split; [exact Hs|].
  erewrite Run.bind_step by exact Hd. cbv beta iota.
  destruct employee_name as [| |name|d]; try reflexivity.
  cbn [replace_spaces]. erewrite Run.bind_step by reflexivity. cbv beta iota.
  unfold document_name. rewrite Run.bind_run. unfold write_file.
  destruct (disk_error _); reflexivity.
Qed.

Lemma main_generate_pdf_run employee_name record_date notes ai_response output_dir w :
  exists w',
    fs w' = fs w /\ sent w' = sent w
    /\ Main.generate_pdf employee_name record_date notes ai_response output_dir w
       = match employee_name with
         | Str name =>
             let path := path_join output_dir
                                   (document_name (main_date_part record_date) name) in
             match disk_error path with
             | None =>
                 (Ok tt,
                  mkWorld (<[path := Pdf (page employee_name record_date notes ai_response)]>
                             (fs w'))
                          (dirs w') (logs w' ++ [(INFO, "PDF generated: " +:+ path)]) (sent w'))
             | Some msg => (Raise (mkExn OSError msg), w')
             end
         | _ => (Raise (mkExn AttributeError "'float' object has no attribute 'replace'"), w')
         end.
Proof.
  unfold Main.generate_pdf.
  erewrite Run.bind_step by reflexivity. cbv beta iota zeta.
  match goal with |- context [try_except ?b ?c ?h ≫= _] =>
    match goal with |- context [(_ ≫= _) ?w0] =>
      destruct (main_date_part_run employee_name record_date w0)
        as (w1 & Hd & Hfs & Hs & _) end end.
  exists w1. split; [exact Hfs|]. split; [exact Hs|].
  erewrite Run.bind_step by exact Hd. cbv beta iota.
  destruct employee_name as [| |name|d]; try reflexivity.
  cbn [replace_spaces]. erewrite Run.bind_step by reflexivity. cbv beta iota.
  unfold document_name. rewrite Run.bind_run. unfold write_file.
  destruct (disk_error _); reflexivity.
Qed.

End documents.

Section document_claim.
Context `{Env}.

(** C7. In both workflows, whenever [generate_pdf] produces a document, the
    employee name is a text and the document is written at
    [{date part}-{name with every space replaced by an underscore}-CD.PDF] in
    the output directory.  The date part is the row's date in [%m-%d-%Y]
    (two digits, two digits, four digits: ten characters that parse back to
    the same date) when the variant's parser accepts it ([%Y-%m-%d] in
    [gemini_process.py], [dateutil] in [main.py]), and the literal
    "Unknown_Date" otherwise; with a text for a name and a disk that takes
    the file, the document is produced whatever the date. *)
Theorem document_is_named_by_date_and_employee :
  (forall employee_name record_date notes ai_response output_dir w w',
      Gemini.generate_pdf employee_name record_date notes ai_response output_dir w
      = (Ok tt, w') ->
      exists name,
        employee_name = Str name
        /\ fs w' = <[path_join output_dir (document_name (gemini_date_part record_date) name)
                     := Pdf (page employee_name record_date notes ai_response)]> (fs w))
  /\ (forall name record_date notes ai_response output_dir w,
        disk_error (path_join output_dir (document_name (gemini_date_part record_date) name))
        = None ->
        exists w',
          Gemini.generate_pdf (Str name) record_date notes ai_response output_dir w
          = (Ok tt, w'))
  /\ (forall employee_name record_date notes ai_response output_dir w w',
        Main.generate_pdf employee_name record_date notes ai_response output_dir w
        = (Ok tt, w') ->
        exists name,
          employee_name = Str name
          /\ fs w' = <[path_join output_dir (document_name (main_date_part record_date) name)
                       := Pdf (page employee_name record_date notes ai_response)]> (fs w))
  /\ (forall name record_date notes ai_response output_dir w,
        disk_error (path_join output_dir (document_name (main_date_part record_date) name))
        = None ->
        exists w',
          Main.generate_pdf (Str name) record_date notes ai_response output_dir w
          = (Ok tt, w'))
  /\ (forall name n,
        String.get n (Text.replace " " "_" name)
        = (fun c => if Ascii.eqb c " " then "_"%char else c) <$> String.get n name)
  /\ (forall text d,
        Calendar.strptime_Ymd text = Some d ->
        gemini_date_part (Str text) = Calendar.strftime_mdY d
        /\ Calendar.strptime_mdY (Calendar.strftime_mdY d) = Some d
        /\ String.length (Calendar.strftime_mdY d) = 10)
  /\ (forall record_date,
        (forall text, record_date = Str text -> Calendar.strptime_Ymd text = None) ->
        gemini_date_part record_date = "Unknown_Date")
  /\ (forall text d,
        dateutil_parse text = Some d ->
        main_date_part (Str text) = Calendar.strftime_mdY d
        /\ String.length (Calendar.strftime_mdY d) = 10
        /\ (Calendar.valid d = true ->
            Calendar.strptime_mdY (Calendar.strftime_mdY d) = Some d))
  /\ (forall record_date,
        (forall text, record_date = Str text -> dateutil_parse text = None) ->
        main_date_part record_date = "Unknown_Date").
Proof.
  split; [|split; [|split; [|split; [|split; [|split; [|split; [|split]]]]]]].
  - intros name rd notes resp dir w w' Hrun.
    destruct (gemini_generate_pdf_run name rd notes resp dir w) as (w1 & Hfs & _ & Heq).
    rewrite Heq in Hrun. destruct name as [| |s|d]; try discriminate.
    cbv zeta in Hrun. destruct (disk_error _); [discriminate|].
    injection Hrun as <-. exists s. split; [reflexivity|]. cbn [fs]. rewrite Hfs. reflexivity.
  - intros name rd notes resp dir w Hdisk.
    destruct (gemini_generate_pdf_run (Str name) rd notes resp dir w) as (w1 & _ & _ & Heq).
    rewrite Heq. cbv zeta. rewrite Hdisk. eexists. reflexivity.
  - intros name rd notes resp dir w w' Hrun.
    destruct (main_generate_pdf_run name rd notes resp dir w) as (w1 & Hfs & _ & Heq).
    rewrite Heq in Hrun. destruct name as [| |s|d]; try discriminate.
    cbv zeta in Hrun. destruct (disk_error _); [discriminate|].
    injection Hrun as <-. exists s. split; [reflexivity|]. cbn [fs]. rewrite Hfs. reflexivity.
  - intros name rd notes resp dir w Hdisk.
    destruct (main_generate_pdf_run (Str name) rd notes resp dir w) as (w1 & _ & _ & Heq).
    rewrite Heq. cbv zeta. rewrite Hdisk. eexists. reflexivity.
  - intros name n. apply TextFacts.replace_get.
  - intros text d Hp. unfold gemini_date_part. rewrite Hp.
    split; [reflexivity|]. split; [|reflexivity].
    apply CalendarFacts.strptime_strftime_mdY. eapply strptime_Ymd_valid. exact Hp.
  - intros rd Hnone. unfold gemini_date_part. destruct rd as [| |s|d]; try reflexivity.
    rewrite (Hnone s eq_refl). reflexivity.
  - intros text d Hp. unfold main_date_part. rewrite Hp.
    split; [reflexivity|]. split; [reflexivity|].
    apply CalendarFacts.strptime_strftime_mdY.
  - intros rd Hnone. unfold main_date_part. destruct rd as [| |s|d]; try reflexivity.
    rewrite (Hnone s eq_refl). reflexivity.
Qed.

End document_claim.

(** A document for "Jo Doe", with a date that parses and with one that does
    not. *)
Lemma document_is_named_by_date_and_employee_witness :
  (exists w',
      @Gemini.generate_pdf Sample.answers (Str "Jo Doe") (Str "2024-03-02") (Str "mug")
                           "Fail" "pdf_reports" Sample.world = (Ok tt, w')
      /\ fs w' = <[ "pdf_reports/03-02-2024-Jo_Doe-CD.PDF"
                    := Pdf (page (Str "Jo Doe") (Str "2024-03-02") (Str "mug") "Fail") ]>
                   (fs Sample.world))
  /\ (exists w',
      @Gemini.generate_pdf Sample.answers (Str "Jo Doe") (Str "03/02/2024") (Str "mug")
                           "Fail" "pdf_reports" Sample.world = (Ok tt, w')
      /\ fs w' = <[ "pdf_reports/Unknown_Date-Jo_Doe-CD.PDF"
                    := Pdf (page (Str "Jo Doe") (Str "03/02/2024") (Str "mug") "Fail") ]>
                   (fs Sample.world)).
Proof.
  pose proof (@document_is_named_by_date_and_employee Sample.answers) as (Hg & Hgo & _).
  split.
  - destruct (Hgo "Jo Doe" (Str "2024-03-02") (Str "mug") "Fail" "pdf_reports" Sample.world
                eq_refl) as (w' & Hrun).
    exists w'. split; [exact Hrun|].
    destruct (Hg _ _ _ _ _ _ _ Hrun) as (name & [= <-] & Hfs). exact Hfs.
  - destruct (Hgo "Jo Doe" (Str "03/02/2024") (Str "mug") "Fail" "pdf_reports" Sample.world
                eq_refl) as (w' & Hrun).
    exists w'. split; [exact Hrun|].
    destruct (Hg _ _ _ _ _ _ _ Hrun) as (name & [= <-] & Hfs). exact Hfs.
Defined.

(** ** A document that cannot be written *)

Section write_errors.
Context `{Env}.
Import FrameFacts.

(** In [main.py], the pass over a FAILED row whose document the disk refuses
    raises the [OSError]: nothing catches it in the loop body. *)
Lemma main_classify_row_disk e m col dir cols k row d w reply name msg :
  col ∈ cols ->
  ollama_reply e m col cols (length (sent w)) row = Ok reply ->
  Text.truthy (default EmptyString reply) = true ->
  Main.pass_fail_of (default EmptyString reply) = "FAILED" ->
  Frame.row_get cols row "Employee Name" (Str "Unknown") = Str name ->
  disk_error (path_join dir
                (document_name
                   (main_date_part (Frame.row_get cols row "Record Date" (Str "Unknown")))
                   name)) = Some msg ->
  exists w',
    Main.classify_row e m col dir cols k row d w = (Raise (mkExn OSError msg), w')
    /\ fs w' = fs w
    /\ length (sent w') = S (length (sent w)).
Proof.
  intros Hcol Hreply Htruthy Hfailed Hname Hdisk. unfold Main.classify_row.
  destruct (index_of_is_Some _ _ Hcol) as [j Hj].
  assert (record_of col cols row = Frame.cell_at row j) as Hrec
    by (unfold record_of, Frame.row_get; rewrite Hj; reflexivity).
  rewrite Hj. simpl or_key_error.
  erewrite Run.bind_step by reflexivity.
  erewrite Run.bind_step by reflexivity.
  erewrite Run.bind_step by reflexivity.
  rewrite Run.bind_run.
  match goal with |- context [Main.query_ollama ?a ?b ?c ?w0] =>
    destruct (query_ollama_run a b c w0) as (w4 & Hq & Hs4 & Hf4); rewrite Hq end.
  unfold ollama_reply in Hreply. rewrite Hrec in Hreply.
  match goal with |- context [ollama_answer ?r] =>
    replace (ollama_answer r) with (@Ok (option string) reply)
      by (symmetry; exact Hreply) end.
  cbv zeta. rewrite Htruthy, Hfailed.
  change (bool_decide ("FAILED" = "FAILED")) with true. cbv iota. rewrite Hname.
  match goal with |- context [Main.generate_pdf ?a ?b ?c ?r ?o] =>
    destruct (main_generate_pdf_run a b c r o w4) as (w5 & Hf5 & Hs5 & Hpdf) end.
  cbv zeta in Hpdf. rewrite Hdisk in Hpdf.
  exists w5. split; [apply Run.bind_raise; exact Hpdf|].
  split; [rewrite Hf5; exact Hf4|].
  rewrite Hs5, Hs4, length_app. simpl. lia.
Qed.

Lemma gemini_classify_row_disk e m col dir key cols k row d w reply name msg :
  col ∈ cols ->
  gemini_reply e key m col cols (length (sent w)) row = Ok reply ->
  Text.truthy (default EmptyString reply) = true ->
  Gemini.pass_fail_of (default EmptyString reply) = ("FAILED", "NO") ->
  Frame.row_get cols row "Employee Name" (Str "Unknown") = Str name ->
  disk_error (path_join dir
                (document_name
                   (gemini_date_part (Frame.row_get cols row "Record Date" (Str "Unknown")))
                   name)) = Some msg ->
  exists w',
    Gemini.classify_row e m col dir true key cols k row d w = (Raise (mkExn OSError msg), w')
    /\ fs w' = fs w
    /\ length (sent w') = S (length (sent w)).
Proof.
  intros Hcol Hreply Htruthy Hfailed Hname Hdisk. unfold Gemini.classify_row.
  destruct (index_of_is_Some _ _ Hcol) as [j Hj].
  assert (record_of col cols row = Frame.cell_at row j) as Hrec
    by (unfold record_of, Frame.row_get; rewrite Hj; reflexivity).
  rewrite Hj. simpl or_key_error.
  erewrite Run.bind_step by reflexivity.
  erewrite Run.bind_step by reflexivity.
  erewrite Run.bind_step by reflexivity.
  rewrite Run.bind_run.
  match goal with |- context [Gemini.query_gemini ?a ?b ?c ?p ?w0] =>
    destruct (query_gemini_run a b c p w0) as (w4 & Hq & Hs4 & Hf4); rewrite Hq end.
  unfold gemini_reply in Hreply. rewrite Hrec in Hreply.
  match goal with |- context [gemini_answer ?r] =>
    replace (gemini_answer r) with (@Ok (option string) reply)
      by (symmetry; exact Hreply) end.
  cbv zeta. rewrite Htruthy, Hfailed.
  change (bool_decide ("FAILED" = "FAILED") && true) with true. cbv iota. rewrite Hname.
  match goal with |- context [Gemini.generate_pdf ?a ?b ?c ?r ?o] =>
    destruct (gemini_generate_pdf_run a b c r o w4) as (w5 & Hf5 & Hs5 & Hpdf) end.
  cbv zeta in Hpdf. rewrite Hdisk in Hpdf.
  exists w5. split; [apply Run.bind_raise; exact Hpdf|].
  split; [rewrite Hf5; exact Hf4|].
  rewrite Hs5, Hs4, length_app. simpl. lia.
Qed.

(** An exception in a pass ends the loop. *)
Lemma iterrows_raise body k row rest d w e w' :
  body k row d w = (Raise e, w') ->
  iterrows body k (row :: rest) d w = (Raise e, w').
Proof. intros Hb. simpl. apply Run.bind_raise. exact Hb. Qed.

(** What [process_csv_for_pass_fail_and_generate_pdfs] of [main.py] does
    before and after its loop: an exception in the loop leaves through it,
    and the report is not written. *)
Lemma main_process_raise csv_path e m col out dir w df exc w2 :
  fs w !! csv_path = Some (Csv df) ->
  Frame.has_column col (loaded df) = true ->
  Main.classify_rows e m col dir (Main.with_result_columns (loaded df))
    (logged [ (INFO, "Available columns in the CSV: " +:+ Text.repr_list (columns df));
              (CONSOLE, "Available columns in the CSV: " +:+ Text.repr_list (columns df));
              (CONSOLE, "Processing "
                        +:+ pretty (Frame.len (Main.with_result_columns (loaded df)))
                        +:+ " records...") ] w)
  = (Raise exc, w2) ->
  Main.process_csv_for_pass_fail_and_generate_pdfs csv_path e m col out dir w
  = (Raise exc, w2).
Proof.
  intros Hf Hcol Hloop. unfold Main.process_csv_for_pass_fail_and_generate_pdfs.
  erewrite Run.bind_step by (apply read_csv_run; exact Hf). cbv beta iota.
  erewrite Run.bind_step by apply logging_run. cbv beta iota.
  erewrite Run.bind_step by apply log_to_console_run. cbv beta iota.
  rewrite Hcol. cbn [negb]. cbv zeta.
  erewrite Run.bind_step by apply log_to_console_run. cbv beta iota.
  rewrite !logged_logged. cbn [app].
  apply Run.bind_raise. exact Hloop.
Qed.

(** [run_ai_on_csv] never raises: its handler catches everything and only
    logs. *)
Lemma try_logs_total (body : M unit) (handler : exn -> M unit) w :
  (forall e w1, exists w2, handler e w1 = (Ok tt, w2)) ->
  exists w', try_except body Exception handler w = (Ok tt, w').
Proof.
  intros Hh. unfold try_except. destruct (body w) as [[[]|e] w1]; [eauto|].
  cbn [Exception]. apply Hh.
Qed.

Lemma try_caught (body : M unit) (handler : exn -> M unit) w e w1 :
  body w = (Raise e, w1) -> try_except body Exception handler w = handler e w1.
Proof. intros Hb. unfold try_except. rewrite Hb. reflexivity. Qed.

End write_errors.

Section write_error_claim.
Context `{Env}.

(** [run_ai_on_csv] of [main.py] up to its call of the classifier, with a row
    in range: what the classifier raises is logged by the handler, and the
    run returns. *)
Lemma main_run_process_raise input_csv start_date end_date w df s e j exc w2 :
  fs w !! input_csv = Some (Csv df) ->
  Frame.index_of "Record Date" (columns df) = Some j ->
  Calendar.strptime_mdY start_date = Some s ->
  Calendar.strptime_mdY end_date = Some e ->
  List.filter (fun row => dated_within s e (Frame.cell_at row j)) (rows (loaded df)) <> [] ->
  disk_error "ai_processed_data.csv" = None ->
  Main.process_csv_for_pass_fail_and_generate_pdfs
    "ai_processed_data.csv" "http://172.16.2.222:11434" "llama3.2-vision" "Note"
    "output_with_ai.csv" "pdf_reports"
    (mkWorld
       (<[ "ai_processed_data.csv" :=
             Csv (mkDataFrame (columns df)
                    (map (stamp j)
                       (List.filter (fun row => dated_within s e (Frame.cell_at row j))
                                    (rows (loaded df))))) ]> (fs w))
       (dirs w)
       (logs w ++ [ (CONSOLE, "Loaded data from " +:+ input_csv);
                    (INFO, "Loaded data from " +:+ input_csv);
                    (CONSOLE, "Filtered data to "
                              +:+ pretty (length
                                    (List.filter
                                       (fun row => dated_within s e (Frame.cell_at row j))
                                       (rows (loaded df))))
                              +:+ " records within date range.");
                    (INFO, "Filtered data to "
                           +:+ pretty (length
                                 (List.filter
                                    (fun row => dated_within s e (Frame.cell_at row j))
                                    (rows (loaded df))))
                           +:+ " records within date range.") ])
       (sent w))
  = (Raise exc, w2) ->
  Main.run_ai_on_csv input_csv start_date end_date w
  = (Ok tt, logged [ (CONSOLE, "Error: " +:+ exn_msg exc);
                     (ERROR, "Error: " +:+ exn_msg exc) ] w2).
Proof.
  intros Hf Hj Hs He Hsome Hdisk Hproc. unfold Main.run_ai_on_csv.
  erewrite try_caught.
  - erewrite Run.bind_step by apply log_to_console_run. cbv beta iota.
    rewrite logging_run, logged_logged. reflexivity.
  - erewrite Run.bind_step by (apply read_csv_run; exact Hf). cbv beta iota.
    erewrite Run.bind_step by apply log_to_console_run. cbv beta iota.
    erewrite Run.bind_step by apply logging_run. cbv beta iota.
    erewrite Run.bind_step by (apply (filter_by_date_run (loaded df)); eassumption).
    cbv beta iota.
    assert (Frame.empty
              (mkDataFrame (columns (loaded df))
                 (map (stamp j)
                    (List.filter (fun row => dated_within s e (Frame.cell_at row j))
                                 (rows (loaded df))))) = false) as ->.
    { unfold Frame.empty. cbn [rows columns loaded].
      destruct (List.filter _ _) as [|row rest]; [congruence|]. cbn [map].
      destruct (columns df); [discriminate Hj|reflexivity]. }
    erewrite Run.bind_step by apply log_to_console_run. cbv beta iota.
    erewrite Run.bind_step by apply logging_run. cbv beta iota. cbv zeta.
    erewrite Run.bind_step; cycle 1.
    { unfold to_csv, write_file. rewrite Hdisk. reflexivity. }
    cbv beta iota. rewrite !logged_logged.
    unfold Frame.len, logged. cbn [fs dirs logs sent rows columns loaded app].
    rewrite length_map.
    unfold loaded in Hproc. cbn [rows columns] in Hproc. exact Hproc.
Qed.

(** C6, as the code has it.  A document that cannot be written ends the run:
    the pass over the FAILED row raises the [OSError] after its one request,
    the loop of [main.py] and that of [gemini_process.py] with document
    generation enabled stop there with the rows after it untouched, the
    classifier leaves without writing its report, and [run_ai_on_csv], which
    never raises, logs the error to the console and at level ERROR and
    returns. *)
Theorem document_write_error_ends_the_run :
  (forall input_csv start_date end_date w,
      exists w', Main.run_ai_on_csv input_csv start_date end_date w = (Ok tt, w'))
  /\ (forall input_csv start_date end_date flag endpoint model key w,
         exists w', Gemini.run_ai_on_csv input_csv start_date end_date flag endpoint model key w
                    = (Ok tt, w'))
  /\ (forall e m col dir cols k row rest d w reply name msg,
         col ∈ cols ->
         ollama_reply e m col cols (length (sent w)) row = Ok reply ->
         Text.truthy (default EmptyString reply) = true ->
         Main.pass_fail_of (default EmptyString reply) = "FAILED" ->
         Frame.row_get cols row "Employee Name" (Str "Unknown") = Str name ->
         disk_error (path_join dir
                       (document_name
                          (main_date_part
                             (Frame.row_get cols row "Record Date" (Str "Unknown")))
                          name)) = Some msg ->
         exists w',
           iterrows (Main.classify_row e m col dir cols) k (row :: rest) d w
           = (Raise (mkExn OSError msg), w')
           /\ fs w' = fs w
           /\ length (sent w') = S (length (sent w)))
  /\ (forall e m col dir key cols k row rest d w reply name msg,
         col ∈ cols ->
         gemini_reply e key m col cols (length (sent w)) row = Ok reply ->
         Text.truthy (default EmptyString reply) = true ->
         Gemini.pass_fail_of (default EmptyString reply) = ("FAILED", "NO") ->
         Frame.row_get cols row "Employee Name" (Str "Unknown") = Str name ->
         disk_error (path_join dir
                       (document_name
                          (gemini_date_part
                             (Frame.row_get cols row "Record Date" (Str "Unknown")))
                          name)) = Some msg ->
         exists w',
           iterrows (Gemini.classify_row e m col dir true key cols) k (row :: rest) d w
           = (Raise (mkExn OSError msg), w')
           /\ fs w' = fs w
           /\ length (sent w') = S (length (sent w)))
  /\ (forall csv_path e m col out dir w df exc w2,
         fs w !! csv_path = Some (Csv df) ->
         Frame.has_column col (loaded df) = true ->
         Main.classify_rows e m col dir (Main.with_result_columns (loaded df))
           (logged [ (INFO, "Available columns in the CSV: " +:+ Text.repr_list (columns df));
                     (CONSOLE, "Available columns in the CSV: "
                               +:+ Text.repr_list (columns df));
                     (CONSOLE, "Processing "
                               +:+ pretty (Frame.len (Main.with_result_columns (loaded df)))
                               +:+ " records...") ] w)
         = (Raise exc, w2) ->
         Main.process_csv_for_pass_fail_and_generate_pdfs csv_path e m col out dir w
         = (Raise exc, w2))
  /\ (forall input_csv start_date end_date w df s e j exc w2,
         fs w !! input_csv = Some (Csv df) ->
         Frame.index_of "Record Date" (columns df) = Some j ->
         Calendar.strptime_mdY start_date = Some s ->
         Calendar.strptime_mdY end_date = Some e ->
         List.filter (fun row => dated_within s e (Frame.cell_at row j)) (rows (loaded df))
         <> [] ->
         disk_error "ai_processed_data.csv" = None ->
         Main.process_csv_for_pass_fail_and_generate_pdfs
           "ai_processed_data.csv" "http://172.16.2.222:11434" "llama3.2-vision" "Note"
           "output_with_ai.csv" "pdf_reports"
           (mkWorld
              (<[ "ai_processed_data.csv" :=
                    Csv (mkDataFrame (columns df)
                           (map (stamp j)
                              (List.filter
                                 (fun row => dated_within s e (Frame.cell_at row j))
                                 (rows (loaded df))))) ]> (fs w))
              (dirs w)
              (logs w ++ [ (CONSOLE, "Loaded data from " +:+ input_csv);
                           (INFO, "Loaded data from " +:+ input_csv);
                           (CONSOLE, "Filtered data to "
                                     +:+ pretty (length
                                           (List.filter
                                              (fun row =>
                                                 dated_within s e (Frame.cell_at row j))
                                              (rows (loaded df))))
                                     +:+ " records within date range.");
                           (INFO, "Filtered data to "
                                  +:+ pretty (length
                                        (List.filter
                                           (fun row =>
                                              dated_within s e (Frame.cell_at row j))
                                           (rows (loaded df))))
                                  +:+ " records within date range.") ])
              (sent w))
         = (Raise exc, w2) ->
         Main.run_ai_on_csv input_csv start_date end_date w
         = (Ok tt, logged [ (CONSOLE, "Error: " +:+ exn_msg exc);
                            (ERROR, "Error: " +:+ exn_msg exc) ] w2)).
Proof.
  split; [|split; [|split; [|split; [|split]]]].
  - intros. apply try_logs_total. intros exc w1. eexists.
    erewrite Run.bind_step by apply log_to_console_run. cbv beta iota.
    apply logging_run.
  - intros. apply try_logs_total. intros exc w1. eexists.
    erewrite Run.bind_step by apply log_to_console_run. cbv beta iota.
    apply logging_run.
  - intros e m col dir cols k row rest d w reply name msg Hcol Hreply Ht Hf Hname Hdisk.
    destruct (main_classify_row_disk e m col dir cols k row d w reply name msg
                Hcol Hreply Ht Hf Hname Hdisk) as (w' & Hrun & Hfs & Hsent).
    exists w'. split; [apply iterrows_raise; exact Hrun|]. split; assumption.
  - intros e m col dir key cols k row rest d w reply name msg Hcol Hreply Ht Hf Hname Hdisk.
    destruct (gemini_classify_row_disk e m col dir key cols k row d w reply name msg
                Hcol Hreply Ht Hf Hname Hdisk) as (w' & Hrun & Hfs & Hsent).
    exists w'. split; [apply iterrows_raise; exact Hrun|]. split; assumption.
  - intros. eapply main_process_raise; eassumption.
  - intros. eapply main_run_process_raise; eassumption.
Qed.

End write_error_claim.

Lemma document_write_error_ends_the_run_witness :
  (exists w',
      iterrows (@Main.classify_row Sample.full_disk "http://172.16.2.222:11434"
                  "llama3.2-vision" "Note" "pdf_reports"
                  ["Employee Name"; "Record Date"; "Note"; "AI_Response"; "AI_P_F"])
        0
        [ [Str "Acme"; Str "2024-03-01"; Str "pens on desk"; Str ""; Str ""];
          [Str "Jo Doe"; Str "2024-03-02"; Str "mug"; Str ""; Str ""] ]
        (Main.with_result_columns (@loaded Sample.full_disk Sample.march))
        Sample.world
      = (Raise (mkExn OSError "No space left on device"), w')
      /\ fs w' = fs Sample.world
      /\ length (sent w') = 1)
  /\ (exists w2,
         @Main.run_ai_on_csv Sample.full_disk "consolidated_cdnotes.csv"
           "03-01-2024" "03-02-2024" Sample.filed
         = (Ok tt, logged [ (CONSOLE, "Error: No space left on device");
                            (ERROR, "Error: No space left on device") ] w2)).
Proof.
  pose proof (@document_write_error_ends_the_run Sample.full_disk)
    as (_ & _ & Hloop & _ & _ & Hrun).
  split.
  - apply (Hloop "http://172.16.2.222:11434" "llama3.2-vision" "Note" "pdf_reports"
             ["Employee Name"; "Record Date"; "Note"; "AI_Response"; "AI_P_F"] 0
             [Str "Acme"; Str "2024-03-01"; Str "pens on desk"; Str ""; Str ""]
             [ [Str "Jo Doe"; Str "2024-03-02"; Str "mug"; Str ""; Str ""] ]
             (Main.with_result_columns (@loaded Sample.full_disk Sample.march))
             Sample.world (Some "Fail, items present") "Acme" "No space left on device").
    + apply (bool_decide_unpack _). reflexivity.
    + vm_compute; reflexivity.
    + reflexivity.
    + vm_compute; reflexivity.
    + reflexivity.
    + vm_compute; reflexivity.
  - eexists.
    apply (Hrun "consolidated_cdnotes.csv" "03-01-2024" "03-02-2024" Sample.filed
             Sample.march (mkDate 2024 3 1) (mkDate 2024 3 2) 1
             (mkExn OSError "No space left on device")).
    + reflexivity.
    + reflexivity.
    + vm_compute; reflexivity.
    + vm_compute; reflexivity.
    + vm_compute. discriminate.
    + reflexivity.
    + match goal with |- ?lhs = _ =>
        let v := eval vm_compute in lhs in
        transitivity v; [vm_compute; reflexivity | reflexivity] end.
Defined.

(** With two records in range, both to be marked FAILED, and a disk that
    takes no document, the run of [main.py] sends one request only: the
    second record is never classified, no report is written, and the last
    two log records are the error.  So a document that cannot be written for
    one row does stop the rows after it. *)
Lemma document_write_error_stops_later_rows :
  fst Sample.halted = Ok tt
  /\ length (rows Sample.march) = 2
  /\ forallb (fun row => @dated_within Sample.full_disk (mkDate 2024 3 1) (mkDate 2024 3 2)
                           (Frame.cell_at row 1))
             (rows Sample.march) = true
  /\ length (sent (snd Sample.halted)) = 1
  /\ fs (snd Sample.halted) !! "output_with_ai.csv" = None
  /\ fs (snd Sample.halted) !! "pdf_reports/03-02-2024-Jo_Doe-CD.PDF" = None
  /\ drop 9 (logs (snd Sample.halted)) = [ (CONSOLE, "Error: No space left on device");
                                           (ERROR, "Error: No space left on device") ].
Proof. repeat split; vm_compute; reflexivity. Qed.

(** ** The projection onto the report schema *)

Module ProjectionFacts.
Import FrameFacts.

Lemma lookup_map {A B} (f : A -> B) (l : list A) i : map f l !! i = f <$> l !! i.
Proof. exact (list_lookup_fmap f l i). Qed.

Lemma positions_from_shift k c cols :
  Frame.positions_from k c cols = map (Nat.add k) (Frame.positions_from 0 c cols).
Proof.
  revert k. induction cols as [|h t IH]; intros k; simpl; [reflexivity|].
  rewrite (IH (S k)), (IH 1).
  destruct (decide (h = c)); cbn [map]; rewrite map_map, ?Nat.add_0_r;
    [f_equal|]; apply map_ext; intros; lia.
Qed.

Lemma positions_cons c h t :
  Frame.positions c (h :: t)
  = if decide (h = c) then 0 :: map S (Frame.positions c t) else map S (Frame.positions c t).
Proof. unfold Frame.positions. simpl. rewrite (positions_from_shift 1). reflexivity. Qed.

Lemma positions_nil c cols : Frame.positions c cols = [] <-> c ∉ cols.
Proof.
  induction cols as [|h t IH]; [split; [intros _; apply not_elem_of_nil|reflexivity]|].
  rewrite positions_cons, not_elem_of_cons, <- IH.
  destruct (decide (h = c)) as [->|Hne].
  - split; [discriminate|intros [Hc _]; congruence].
  - destruct (Frame.positions c t); simpl; split; try discriminate; intuition congruence.
Qed.

Lemma positions_head c cols : head (Frame.positions c cols) = Frame.index_of c cols.
Proof.
  induction cols as [|h t IH]; [reflexivity|].
  rewrite positions_cons. simpl. destruct (decide (h = c)); [reflexivity|].
  rewrite <- IH. destruct (Frame.positions c t); reflexivity.
Qed.

Lemma positions_label c cols j : In j (Frame.positions c cols) -> cols !! j = Some c.
Proof.
  revert j. induction cols as [|h t IH]; intros j; [intros []|].
  rewrite positions_cons.
  assert (In j (map S (Frame.positions c t)) -> (h :: t) !! j = Some c) as Htail.
  { rewrite in_map_iff. intros (q & <- & Hq). simpl. apply IH. exact Hq. }
  destruct (decide (h = c)) as [->|Hne]; [|exact Htail].
  intros [<-|Hin]; [reflexivity|auto].
Qed.

Lemma positions_nodup c cols :
  NoDup cols -> c ∈ cols -> exists j, Frame.positions c cols = [j].
Proof.
  induction 1 as [|h t Hh Ht IH]; [intros Hin; inversion Hin|].
  rewrite positions_cons, elem_of_cons. intros Hin.
  destruct (decide (h = c)) as [->|Hne].
  - apply positions_nil in Hh. rewrite Hh. eauto.
  - destruct Hin as [->|Hin]; [congruence|].
    destruct (IH Hin) as [j ->]. eauto.
Qed.

Lemma index_of_app_r c xs ys :
  c ∉ xs -> Frame.index_of c (xs ++ ys) = Nat.add (length xs) <$> Frame.index_of c ys.
Proof.
  induction xs as [|h t IH]; simpl; intros Hn.
  - destruct (Frame.index_of c ys); reflexivity.
  - apply not_elem_of_cons in Hn as [Hne Hn].
    destruct (decide (h = c)); [congruence|]. rewrite (IH Hn).
    destruct (Frame.index_of c ys); reflexivity.
Qed.

(** The positions [df[labels]] takes: every label has its own, each carries
    one of the labels, and the first one with label [l] is the first column
    of the table with that label. *)
Lemma select_positions_total labels cols :
  (forall l, l ∈ labels -> l ∈ cols) -> is_Some (Frame.select_positions labels cols).
Proof.
  induction labels as [|a rest IH]; simpl; intros Hall; [eauto|].
  destruct (Frame.positions a cols) as [|p pl] eqn:Ep.
  - apply positions_nil in Ep. destruct Ep. apply Hall. left.
  - destruct IH as [ps ->]; [intros l Hl; apply Hall; right; exact Hl|]. simpl. eauto.
Qed.

Lemma select_positions_names labels cols ps q :
  Frame.select_positions labels cols = Some ps -> In q ps ->
  exists l, l ∈ labels /\ cols !! q = Some l.
Proof.
  revert ps. induction labels as [|a rest IH]; simpl; intros ps.
  - intros [= <-] [].
  - destruct (Frame.positions a cols) as [|p pl] eqn:Ep; [discriminate|].
    destruct (Frame.select_positions rest cols) as [ps'|]; simpl; [|discriminate].
    intros [= <-] Hin. apply (in_app_or (p :: pl) ps') in Hin as [Hin|Hin].
    + exists a. split; [left|]. apply positions_label. rewrite Ep. exact Hin.
    + destruct (IH ps' eq_refl Hin) as (l & Hl & Hq). exists l. split; [right|]; assumption.
Qed.

Lemma select_positions_first labels cols ps l :
  Frame.select_positions labels cols = Some ps -> l ∈ labels ->
  exists k j,
    Frame.index_of l (map (fun j => default EmptyString (cols !! j)) ps) = Some k
    /\ ps !! k = Some j
    /\ Frame.index_of l cols = Some j.
Proof.
  revert ps. induction labels as [|a rest IH]; simpl; intros ps; [intros _ Hin; inversion Hin|].
  destruct (Frame.positions a cols) as [|p pl] eqn:Ep; [discriminate|].
  destruct (Frame.select_positions rest cols) as [ps'|]; simpl; [|discriminate].
  intros [= <-] Hin.
  destruct (decide (a = l)) as [->|Hne].
  - exists 0, p. pose proof (positions_head l cols) as Hh. rewrite Ep in Hh. simpl in Hh.
    symmetry in Hh. split; [|split; [reflexivity|exact Hh]].
    simpl. rewrite (index_of_Some _ _ _ Hh). simpl.
    destruct (decide (l = l)); congruence.
  - apply elem_of_cons in Hin as [->|Hin]; [congruence|].
    destruct (IH ps' eq_refl Hin) as (k & j & Hk & Hj & Hi).
    exists (length (p :: pl) + k), j. split; [|split; [|exact Hi]].
    + change (p :: pl ++ ps')%list with ((p :: pl) ++ ps')%list.
      rewrite map_app, index_of_app_r, Hk, length_map; [reflexivity|].
      rewrite list_elem_of_In, in_map_iff. intros (q & Hq & Hin').
      rewrite <- Ep in Hin'. apply positions_label in Hin'. rewrite Hin' in Hq.
      simpl in Hq. congruence.
    + change (p :: pl ++ ps')%list with ((p :: pl) ++ ps')%list.
      rewrite lookup_app_r by lia. rewrite <- Hj. f_equal. lia.
Qed.

Lemma remove_dups_block (a : string) xs ys :
  xs <> [] -> Forall (eq a) xs -> a ∉ ys -> remove_dups (xs ++ ys) = a :: remove_dups ys.
Proof.
  induction xs as [|x xs IH]; [congruence|]. intros _ Hall Hn.
  apply Forall_cons in Hall as [Hx Hall']. subst x. cbn [app remove_dups].
  destruct xs as [|x' xs'].
  - cbn [app]. destruct (decide_rel elem_of a ys) as [Hin|]; [contradiction|reflexivity].
  - destruct (decide_rel elem_of a ((x' :: xs') ++ ys)%list) as [|Hout].
    + apply IH; [discriminate|exact Hall'|exact Hn].
    + destruct Hout. apply Forall_cons in Hall' as [<- _]. left.
Qed.

(** The labels of [df[labels]], without repetitions, are [labels]. *)
Lemma select_positions_labels labels cols ps :
  NoDup labels -> Frame.select_positions labels cols = Some ps ->
  remove_dups (map (fun j => default EmptyString (cols !! j)) ps) = labels.
Proof.
  intros Hnd. revert ps. induction Hnd as [|a rest Ha Hrest IH]; simpl; intros ps.
  - intros [= <-]. reflexivity.
  - destruct (Frame.positions a cols) as [|p pl] eqn:Ep; [discriminate|].
    destruct (Frame.select_positions rest cols) as [ps'|] eqn:Es; simpl; [|discriminate].
    intros [= <-]. change (p :: pl ++ ps')%list with ((p :: pl) ++ ps')%list. rewrite map_app.
    rewrite (remove_dups_block a), (IH ps' eq_refl); [reflexivity|discriminate| |].
    + apply Forall_forall. intros x. rewrite list_elem_of_In, in_map_iff.
      intros (q & <- & Hq).
      rewrite <- Ep in Hq. apply positions_label in Hq. rewrite Hq. reflexivity.
    + rewrite list_elem_of_In, in_map_iff. intros (q & Hq & Hin).
      destruct (select_positions_names _ _ _ _ Es Hin) as (l & Hl & Hlq).
      rewrite Hlq in Hq. simpl in Hq. congruence.
Qed.

(** In a table whose labels are distinct they are [labels] themselves. *)
Lemma select_positions_exact labels cols ps :
  NoDup cols -> Frame.select_positions labels cols = Some ps ->
  map (fun j => default EmptyString (cols !! j)) ps = labels.
Proof.
  intros Hnd. revert ps. induction labels as [|a rest IH]; simpl; intros ps.
  - intros [= <-]. reflexivity.
  - destruct (Frame.positions a cols) as [|p pl] eqn:Ep; [discriminate|].
    destruct (Frame.select_positions rest cols) as [ps'|] eqn:Es; simpl; [|discriminate].
    intros [= <-].
    assert (a ∈ cols) as Hin.
    { destruct (decide (a ∈ cols)) as [|Hn]; [assumption|].
      apply positions_nil in Hn. congruence. }
    destruct (positions_nodup a cols Hnd Hin) as [j Hj].
    rewrite Hj in Ep. injection Ep as <- <-. simpl.
    rewrite (IH ps' eq_refl).
    rewrite (positions_label a cols j) by (rewrite Hj; left; reflexivity). reflexivity.
Qed.

Lemma len_select labels df out :
  Frame.select labels df = Some out -> Frame.len out = Frame.len df.
Proof.
  unfold Frame.select, Frame.len.
  destruct (Frame.select_positions labels (columns df)); simpl; [|discriminate].
  intros [= <-]. simpl. apply length_map.
Qed.

Lemma get_at_select labels df out i l :
  Frame.select labels df = Some out -> l ∈ labels ->
  Frame.get_at i l out = Frame.get_at i l df.
Proof.
  unfold Frame.select.
  destruct (Frame.select_positions labels (columns df)) as [ps|] eqn:Es; simpl; [|discriminate].
  intros [= <-] Hl. unfold Frame.get_at. cbn [rows columns].
  rewrite lookup_map. destruct (rows df !! i) as [row|]; simpl; [|reflexivity].
  destruct (select_positions_first _ _ _ _ Es Hl) as (k & j & Hk & Hj & Hi).
  rewrite Hk, Hi. simpl. f_equal. unfold Frame.cell_at at 1.
  rewrite lookup_map, Hj. reflexivity.
Qed.

(** One turn of the loop that adds the missing columns. *)
Lemma fill_step c v data :
  let data' := if Frame.has_column c data then data else Frame.assign c v data in
  Frame.len data' = Frame.len data
  /\ c ∈ columns data'
  /\ (forall c', c' ∈ columns data -> c' ∈ columns data')
  /\ (forall c', c' ∈ columns data' -> c' ∈ columns data \/ c' = c)
  /\ (forall i c', c' ∈ columns data -> Frame.get_at i c' data' = Frame.get_at i c' data)
  /\ (c ∉ columns data -> forall i, i < Frame.len data -> Frame.get_at i c data' = Some v)
  /\ (NoDup (columns data) -> NoDup (columns data')).
Proof.
  unfold Frame.has_column. case_bool_decide as Hin; cbv zeta.
  - repeat split; auto. intros Hn. contradiction.
  - assert (Frame.assign c v data
            = mkDataFrame (columns data ++ [c])
                (map (Frame.row_set (length (columns data)) v) (rows data))) as ->.
    { unfold Frame.assign. apply positions_nil in Hin. rewrite Hin. reflexivity. }
    unfold Frame.len, Frame.get_at. cbn [rows columns].
    split; [apply length_map|]. split; [apply elem_of_app; right; left|].
    split; [intros c' Hc'; apply elem_of_app; left; exact Hc'|].
    split.
    { intros c' Hc'. apply elem_of_app in Hc' as [Hc'|Hc']; [left; exact Hc'|].
      right. apply list_elem_of_singleton in Hc'. exact Hc'. }
    split.
    { intros i c' Hc'. rewrite lookup_map.
      destruct (rows data !! i) as [row|]; simpl; [|reflexivity].
      destruct (index_of_is_Some _ _ Hc') as [j Hj].
      rewrite (index_of_app_l _ _ _ _ Hj), Hj. simpl. rewrite cell_at_row_set.
      case_decide as Hjn; [|reflexivity].
      apply index_of_Some, lookup_lt_Some in Hj. lia. }
    split.
    { intros _ i Hi. rewrite lookup_map.
      destruct (lookup_lt_is_Some_2 _ _ Hi) as [row ->]. simpl.
      rewrite index_of_app_fresh by exact Hin. simpl. rewrite cell_at_row_set.
      case_decide; congruence. }
    intros Hnd. apply NoDup_app. split; [exact Hnd|]. split; [|apply NoDup_singleton].
    intros x Hx Hx'. apply list_elem_of_singleton in Hx'. congruence.
Qed.

Lemma fill_missing_spec ph required data :
  let out := Gemini.fill_missing ph required data in
  Frame.len out = Frame.len data
  /\ (forall c, c ∈ required -> c ∈ columns out)
  /\ (forall c, c ∈ columns data -> c ∈ columns out)
  /\ (forall i c, c ∈ columns data -> Frame.get_at i c out = Frame.get_at i c data)
  /\ (forall i c, c ∈ required -> c ∉ columns data -> i < Frame.len data ->
        Frame.get_at i c out = Some (Str (ph c)))
  /\ (NoDup (columns data) -> NoDup (columns out)).
Proof.
  cbv zeta. revert data. induction required as [|a rest IH]; intros data.
  - simpl. repeat split; auto; intros; exfalso; eapply not_elem_of_nil; eassumption.
  - cbn [Gemini.fill_missing].
    destruct (fill_step a (Str (ph a)) data) as (Hlen & Ha & Hkeep & Hnew & Hval & Hfresh & Hnd).
    cbv zeta in Hlen, Ha, Hkeep, Hnew, Hval, Hfresh, Hnd.
    destruct (IH (if Frame.has_column a data then data
                  else Frame.assign a (Str (ph a)) data))
      as (Hlen' & Hreq' & Hkeep' & Hval' & Hfresh' & Hnd').
    split; [congruence|]. split.
    { intros c Hc. apply elem_of_cons in Hc as [->|Hc]; auto. }
    split; [auto|]. split.
    { intros i c Hc. rewrite Hval' by auto. apply Hval. exact Hc. }
    split; [|auto].
    intros i c Hc Hn Hi. destruct (decide (c = a)) as [->|Hne].
    + rewrite Hval' by exact Ha. apply Hfresh; assumption.
    + apply elem_of_cons in Hc as [->|Hc]; [congruence|].
      apply Hfresh'; [exact Hc| |congruence].
      intros Hin. destruct (Hnew _ Hin); contradiction.
Qed.

Lemma fill_missing_present ph required data :
  (forall c, c ∈ required -> c ∈ columns data) ->
  Gemini.fill_missing ph required data = data.
Proof.
  induction required as [|a rest IH]; intros Hall; [reflexivity|].
  cbn [Gemini.fill_missing]. unfold Frame.has_column.
  rewrite bool_decide_eq_true_2 by (apply Hall; left).
  apply IH. intros c Hc. apply Hall. right. exact Hc.
Qed.

(** Renaming the date column. *)
Lemma rename_elem old new data c :
  c ∈ columns (Frame.rename old new data)
  <-> (c = new /\ old ∈ columns data) \/ (c <> old /\ c ∈ columns data).
Proof.
  unfold Frame.rename. cbn [columns]. rewrite list_elem_of_In, in_map_iff. split.
  - intros (x & Hx & Hin). apply list_elem_of_In in Hin.
    destruct (decide (x = old)) as [->|Hne]; subst; auto.
  - intros [[-> Hin]|[Hne Hin]].
    + exists old. split; [|apply list_elem_of_In; exact Hin].
      destruct (decide (old = old)); congruence.
    + exists c. split; [|apply list_elem_of_In; exact Hin].
      destruct (decide (c = old)); congruence.
Qed.

Lemma rename_index_new (old new : string) cols :
  new ∉ cols ->
  Frame.index_of new (map (fun c => if decide (c = old) then new else c) cols)
  = Frame.index_of old cols.
Proof.
  induction cols as [|h t IH]; [reflexivity|]. intros Hn.
  apply not_elem_of_cons in Hn as [Hne Hn]. simpl. rewrite (IH Hn).
  destruct (decide (h = old)) as [->|Hho].
  - destruct (decide (new = new)); congruence.
  - destruct (decide (h = new)); congruence.
Qed.

Lemma rename_index_other (old new : string) cols c :
  c <> old -> c <> new ->
  Frame.index_of c (map (fun c => if decide (c = old) then new else c) cols)
  = Frame.index_of c cols.
Proof.
  intros Ho Hn. induction cols as [|h t IH]; [reflexivity|]. simpl. rewrite IH.
  destruct (decide (h = old)) as [->|Hho].
  - destruct (decide (new = c)), (decide (old = c)); congruence.
  - reflexivity.
Qed.

Lemma rename_nodup (old new : string) cols :
  NoDup cols -> old ∉ cols \/ new ∉ cols ->
  NoDup (map (fun c => if decide (c = old) then new else c) cols).
Proof.
  intros Hnd [Hold|Hnew].
  - erewrite map_ext_in; [rewrite map_id; exact Hnd|].
    intros c Hc. apply list_elem_of_In in Hc.
    destruct (decide (c = old)); congruence.
  - induction Hnd as [|h t Hh Ht IH]; [constructor|].
    apply not_elem_of_cons in Hnew as [Hne Hnew]. simpl. constructor; [|auto].
    rewrite list_elem_of_In, in_map_iff. intros (x & Hx & Hin).
    apply list_elem_of_In in Hin.
    destruct (decide (x = old)) as [->|Hxo], (decide (h = old)) as [->|Hho]; congruence.
Qed.

End ProjectionFacts.

Section projection.
Context `{Env}.
Import FrameFacts ProjectionFacts.

Lemma required_columns_nodup : NoDup Gemini.required_columns.
Proof. apply (bool_decide_unpack _). reflexivity. Qed.

(** Adding the missing columns and then taking the required ones never
    raises, and gives a table in the report schema. *)
Lemma projection_run ph source (w : World) :
  exists out,
    or_key_error "required_columns"
      (Frame.select Gemini.required_columns
         (Gemini.fill_missing ph Gemini.required_columns source)) w = (Ok out, w)
    /\ Frame.select Gemini.required_columns
         (Gemini.fill_missing ph Gemini.required_columns source) = Some out
    /\ report_of ph source out.
Proof.
  destruct (fill_missing_spec ph Gemini.required_columns source)
    as (Hlen & Hreq & Hkeep & Hval & Hfresh & Hnd). cbv zeta in *.
  destruct (select_positions_total Gemini.required_columns _ Hreq) as [ps Hps].
  assert (exists out, Frame.select Gemini.required_columns
                        (Gemini.fill_missing ph Gemini.required_columns source) = Some out)
    as [out Hout] by (unfold Frame.select; rewrite Hps; simpl; eauto).
  exists out. rewrite Hout. split; [reflexivity|]. split; [reflexivity|].
  assert (columns out = map (fun j => default EmptyString
                                (columns (Gemini.fill_missing ph Gemini.required_columns source)
                                 !! j)) ps) as Hcols.
  { unfold Frame.select in Hout. rewrite Hps in Hout. simpl in Hout.
    injection Hout as <-. reflexivity. }
  unfold report_of. split; [rewrite (len_select _ _ _ Hout); exact Hlen|].
  split.
  { intros c Hc. destruct (select_positions_first _ _ _ _ Hps Hc) as (k & j & Hk & _).
    rewrite <- Hcols in Hk. destruct (decide (c ∈ columns out)) as [|Hn]; [assumption|].
    apply index_of_None in Hn. congruence. }
  split; [rewrite Hcols; apply select_positions_labels;
          [apply required_columns_nodup|exact Hps]|].
  split; [intros Hs; rewrite Hcols; apply select_positions_exact; auto|].
  split.
  - intros i c Hc Hin. rewrite (get_at_select _ _ _ _ _ Hout Hc). apply Hval. exact Hin.
  - intros i c Hc Hn Hi. rewrite (get_at_select _ _ _ _ _ Hout Hc). apply Hfresh; assumption.
Qed.

(** Taking the required columns of a table that is such a selection already
    and has no label twice gives the table back. *)
Lemma select_again df out :
  Frame.select Gemini.required_columns df = Some out ->
  columns out = Gemini.required_columns ->
  Frame.select Gemini.required_columns out = Some out.
Proof.
  unfold Frame.select at 1.
  destruct (Frame.select_positions Gemini.required_columns (columns df)) as [ps|];
    simpl; [|discriminate].
  intros [= <-]. cbn [columns]. intros Hcols.
  assert (length ps = 6) as Hlen
    by (rewrite <- (length_map (fun j => default EmptyString (columns df !! j))), Hcols;
        reflexivity).
  destruct ps as [|p0 [|p1 [|p2 [|p3 [|p4 [|p5 [|]]]]]]]; try discriminate Hlen.
  unfold Frame.select. cbn [columns rows]. rewrite Hcols.
  assert (Frame.select_positions Gemini.required_columns Gemini.required_columns
          = Some [0; 1; 2; 3; 4; 5]) as -> by (vm_compute; reflexivity).
  cbn [mbind option_bind]. f_equal. f_equal.
  rewrite map_map. apply map_ext. intros row. reflexivity.
Qed.

Lemma first_projection_run data (w : World) :
  exists out,
    Gemini.first_projection data w = (Ok out, w)
    /\ Frame.select Gemini.required_columns
         (Gemini.fill_missing (fun _ => "Unknown") Gemini.required_columns
            (Frame.rename "Record Date" "Last Clean Desk Date" data)) = Some out
    /\ report_of (fun _ => "Unknown")
                 (Frame.rename "Record Date" "Last Clean Desk Date" data) out.
Proof. unfold Gemini.first_projection. cbv zeta. apply projection_run. Qed.

Lemma second_projection_run out (w : World) :
  remove_dups (columns out) = Gemini.required_columns ->
  exists out',
    Gemini.second_projection out w = (Ok out', w)
    /\ Frame.select Gemini.required_columns out = Some out'
    /\ report_of (fun column => if bool_decide (column ∈ ["Location"; "Compliant"])
                                then "Unknown" else EmptyString) out out'
    /\ (forall i c, c ∈ Gemini.required_columns ->
          Frame.get_at i c out' = Frame.get_at i c out).
Proof.
  intros Hcols. unfold Gemini.second_projection.
  assert (forall c, c ∈ columns out <-> c ∈ Gemini.required_columns) as Hiff
    by (intros c; rewrite <- Hcols; symmetry; apply elem_of_remove_dups).
  assert (Frame.has_column "Record Date" out = false) as ->.
  { unfold Frame.has_column. apply bool_decide_eq_false_2. rewrite Hiff.
    apply (bool_decide_unpack _). reflexivity. }
  cbv zeta.
  destruct (projection_run
              (fun column => if bool_decide (column ∈ ["Location"; "Compliant"])
                             then "Unknown" else EmptyString) out w)
    as (out' & Hrun & Hsel & Hrep).
  exists out'. split; [exact Hrun|].
  rewrite fill_missing_present in Hsel by (intros c Hc; apply Hiff; exact Hc).
  split; [exact Hsel|]. split; [exact Hrep|].
  intros i c Hc. destruct Hrep as (_ & _ & _ & _ & Hval & _).
  apply Hval; [exact Hc|]. apply Hiff. exact Hc.
Qed.

Lemma to_csv_run df path (w : World) :
  disk_error path = None ->
  to_csv df path w = (Ok tt, mkWorld (<[path := Csv df]> (fs w)) (dirs w) (logs w) (sent w)).
Proof. intros Hd. unfold to_csv, write_file. rewrite Hd. reflexivity. Qed.

(** [process_csv_for_pass_fail_and_generate_pdfs] of [gemini_process.py]
    around its loop: when the loop completes and the disk takes the report,
    the report on file is the projection of the classified table. *)
Lemma gemini_process_report csv_path e m col output_path dir flag key w df data w1 :
  fs w !! csv_path = Some (Csv df) ->
  Frame.has_column col (loaded df) = true ->
  Gemini.classify_rows e m col dir flag key (Gemini.with_result_columns (loaded df))
    (logged [ (INFO, "Available columns in the CSV: " +:+ Text.repr_list (columns df));
              (CONSOLE, "Available columns in the CSV: " +:+ Text.repr_list (columns df));
              (CONSOLE, "Processing "
                        +:+ pretty (Frame.len (Gemini.with_result_columns (loaded df)))
                        +:+ " records...") ] w)
  = (Ok data, w1) ->
  disk_error output_path = None ->
  exists out out' w',
    Gemini.first_projection data w1 = (Ok out, w1)
    /\ Gemini.second_projection out w1 = (Ok out', w1)
    /\ Gemini.process_csv_for_pass_fail_and_generate_pdfs
         csv_path e m col output_path dir flag key w = (Ok tt, w')
    /\ fs w' = <[output_path := Csv out']> (<[output_path := Csv out]> (fs w1)).
Proof.
  intros Hf Hcol Hloop Hdisk.
  destruct (first_projection_run data w1) as (out & Hfirst & _ & Hrep).
  destruct Hrep as (_ & _ & Hcols & _).
  destruct (second_projection_run out w1 Hcols) as (out' & Hsecond & _).
  exists out, out'. eexists. split; [exact Hfirst|]. split; [exact Hsecond|].
  unfold Gemini.process_csv_for_pass_fail_and_generate_pdfs.
  erewrite Run.bind_step by (apply read_csv_run; exact Hf). cbv beta iota.
  erewrite Run.bind_step by apply logging_run. cbv beta iota.
  erewrite Run.bind_step by apply log_to_console_run. cbv beta iota.
  rewrite Hcol. cbn [negb]. cbv zeta.
  erewrite Run.bind_step by apply log_to_console_run. cbv beta iota.
  rewrite !logged_logged. cbn [app].
  erewrite Run.bind_step by exact Hloop. cbv beta iota.
  erewrite Run.bind_step by exact Hfirst. cbv beta iota.
  erewrite Run.bind_step; cycle 1.
  { apply try_ok.
    erewrite Run.bind_step by (apply to_csv_run; exact Hdisk). cbv beta iota.
    erewrite Run.bind_step by apply logging_run. cbv beta iota.
    apply log_to_console_run. }
  cbv beta iota.
  destruct (second_projection_run out
              (logged [(CONSOLE, "Results saved to " +:+ output_path)]
                 (logged [(INFO, "Results saved to " +:+ output_path)]
                    (mkWorld (<[output_path := Csv out]> (fs w1)) (dirs w1) (logs w1)
                             (sent w1)))) Hcols) as (out2 & Hsecond2 & Hsel2 & _).
  destruct (second_projection_run out w1 Hcols) as (out3 & Hsecond3 & Hsel3 & _).
  assert (out2 = out') as -> by congruence.
  erewrite Run.bind_step by exact Hsecond2. cbv beta iota.
  split.
  - apply try_ok.
    erewrite Run.bind_step by (apply to_csv_run; exact Hdisk). cbv beta iota.
    erewrite Run.bind_step by apply logging_run. cbv beta iota.
    apply log_to_console_run.
  - reflexivity.
Qed.

End projection.

Section projection_claim.
Context `{Env}.
Import FrameFacts ProjectionFacts.

(** C8.  Both projections of [gemini_process.py] onto the report schema
    return for every table and change nothing but the table.  The first
    one gives a table with the rows of its input whose labels, repetitions
    left out, are the required columns in their order (and exactly these
    when the renamed input has no label twice); a required column of the
    renamed input keeps its values and one the input lacks reads "Unknown"
    in every row.  The second projection of that table has the same labels
    and values, and is that very table when no label is repeated.  The
    date column is the input's "Record Date" under its new name.  When the
    loop completes and the disk takes the file, the report on file is the
    second projection. *)
Theorem report_has_required_columns :
  (forall data (w : World), exists out out',
      Gemini.first_projection data w = (Ok out, w)
      /\ report_of (fun _ => "Unknown")
                   (Frame.rename "Record Date" "Last Clean Desk Date" data) out
      /\ Gemini.second_projection out w = (Ok out', w)
      /\ Frame.len out' = Frame.len out
      /\ remove_dups (columns out') = Gemini.required_columns
      /\ (forall i c, c ∈ Gemini.required_columns ->
            Frame.get_at i c out' = Frame.get_at i c out)
      /\ (columns out = Gemini.required_columns -> out' = out))
  /\ (forall data,
        ("Record Date" ∉ columns (Frame.rename "Record Date" "Last Clean Desk Date" data))
        /\ ("Last Clean Desk Date"
              ∈ columns (Frame.rename "Record Date" "Last Clean Desk Date" data)
            <-> "Record Date" ∈ columns data \/ "Last Clean Desk Date" ∈ columns data)
        /\ ("Last Clean Desk Date" ∉ columns data ->
            forall i,
              Frame.get_at i "Last Clean Desk Date"
                (Frame.rename "Record Date" "Last Clean Desk Date" data)
              = Frame.get_at i "Record Date" data)
        /\ (forall i c, c <> "Record Date" -> c <> "Last Clean Desk Date" ->
              (c ∈ columns (Frame.rename "Record Date" "Last Clean Desk Date" data)
               <-> c ∈ columns data)
              /\ Frame.get_at i c (Frame.rename "Record Date" "Last Clean Desk Date" data)
                 = Frame.get_at i c data)
        /\ (NoDup (columns data) ->
            "Record Date" ∉ columns data \/ "Last Clean Desk Date" ∉ columns data ->
            NoDup (columns (Frame.rename "Record Date" "Last Clean Desk Date" data))))
  /\ (forall csv_path e m col output_path dir flag key w df data w1,
        fs w !! csv_path = Some (Csv df) ->
        Frame.has_column col (loaded df) = true ->
        Gemini.classify_rows e m col dir flag key (Gemini.with_result_columns (loaded df))
          (logged [ (INFO, "Available columns in the CSV: " +:+ Text.repr_list (columns df));
                    (CONSOLE, "Available columns in the CSV: "
                              +:+ Text.repr_list (columns df));
                    (CONSOLE, "Processing "
                              +:+ pretty (Frame.len (Gemini.with_result_columns (loaded df)))
                              +:+ " records...") ] w)
        = (Ok data, w1) ->
        disk_error output_path = None ->
        exists out out' w',
          Gemini.first_projection data w1 = (Ok out, w1)
          /\ Gemini.second_projection out w1 = (Ok out', w1)
          /\ Gemini.process_csv_for_pass_fail_and_generate_pdfs
               csv_path e m col output_path dir flag key w = (Ok tt, w')
          /\ fs w' !! output_path = Some (Csv out')).
Proof.
  split; [|split].
  - intros data w.
    destruct (first_projection_run data w) as (out & Hfirst & Hsel & Hrep).
    pose proof Hrep as (_ & _ & Hcols & _).
    destruct (second_projection_run out w Hcols) as (out' & Hsecond & Hsel' & Hrep' & Hval').
    exists out, out'. split; [exact Hfirst|]. split; [exact Hrep|]. split; [exact Hsecond|].
    destruct Hrep' as (Hlen' & _ & Hcols' & _).
    split; [exact Hlen'|]. split; [exact Hcols'|]. split; [exact Hval'|].
    intros Hexact. pose proof (select_again _ _ Hsel Hexact). congruence.
  - intros data. split; [|split; [|split; [|split]]].
    + rewrite rename_elem. intros [[? _]|[? _]]; congruence.
    + rewrite rename_elem. split.
      * intros [[_ ?]|[_ ?]]; auto.
      * intros [?|?]; [left; auto|right; split; [discriminate|assumption]].
    + intros Hn i. unfold Frame.get_at, Frame.rename. cbn [rows columns].
      rewrite rename_index_new by exact Hn. reflexivity.
    + intros i c Ho Hn. split.
      * rewrite rename_elem. split; [intros [[? _]|[_ ?]]; [congruence|assumption]|].
        intros ?. right. auto.
      * unfold Frame.get_at, Frame.rename. cbn [rows columns].
        rewrite rename_index_other by assumption. reflexivity.
    + intros Hnd Hor. apply rename_nodup; assumption.
  - intros csv_path e m col output_path dir flag key w df data w1 Hf Hcol Hloop Hdisk.
    destruct (gemini_process_report csv_path e m col output_path dir flag key w df data w1
                Hf Hcol Hloop Hdisk) as (out & out' & w' & Hfirst & Hsecond & Hrun & Hfs).
    exists out, out', w'. split; [exact Hfirst|]. split; [exact Hsecond|].
    split; [exact Hrun|]. rewrite Hfs. apply lookup_insert_eq.
Qed.

End projection_claim.

Lemma report_has_required_columns_witness :
  exists out,
    Gemini.first_projection Sample.table Sample.world = (Ok out, Sample.world)
    /\ columns out = Gemini.required_columns
    /\ Frame.get_at 0 "Last Clean Desk Date" out = Some (Str "2024-03-01")
    /\ Frame.get_at 0 "Location" out = Some (Str "Unknown")
    /\ Gemini.second_projection out Sample.world = (Ok out, Sample.world)
    /\ exists out' w',
         @Gemini.process_csv_for_pass_fail_and_generate_pdfs Sample.answers
           "consolidated_cdnotes.csv" "endpoint" "gemini" "Note" "output_with_ai.csv"
           "pdf_reports" true "key" Sample.stocked = (Ok tt, w')
         /\ fs w' !! "output_with_ai.csv" = Some (Csv out').
Proof.
  pose proof (@report_has_required_columns Sample.answers) as (Hproj & Hname & Hfile).
  destruct (Hproj Sample.table Sample.world)
    as (out & out' & Hfirst & Hrep & Hsecond & _ & _ & _ & Hsame).
  destruct Hrep as (_ & _ & _ & Hexact & Hval & Hfresh).
  destruct (Hname Sample.table) as (_ & _ & Hdate & _).
  assert (columns out = Gemini.required_columns) as Hcols
    by (apply Hexact, (bool_decide_unpack _); reflexivity).
  exists out. split; [exact Hfirst|]. split; [exact Hcols|]. split; [|split; [|split]].
  - rewrite Hval, Hdate; [reflexivity| | |]; apply (bool_decide_unpack _); reflexivity.
  - apply Hfresh; [apply (bool_decide_unpack _); reflexivity
                  |apply (bool_decide_unpack _); reflexivity
                  |vm_compute; lia].
  - rewrite <- (Hsame Hcols) at 2. exact Hsecond.
  - edestruct (Hfile "consolidated_cdnotes.csv" "endpoint" "gemini" "Note"
                 "output_with_ai.csv" "pdf_reports" true "key" Sample.stocked
                 Sample.consolidated)
      as (report & report' & w' & _ & _ & Hrun & Hfs).
    + reflexivity.
    + vm_compute; reflexivity.
    + match goal with |- ?lhs = _ =>
        let v := eval vm_compute in lhs in
        transitivity v; [vm_compute; reflexivity | reflexivity] end.
    + reflexivity.
    + exists report', w'. split; [exact Hrun | exact Hfs].
Defined.

(** Where the input has the date under both names, the renaming makes two
    columns with the new one, and the report has both, side by side. *)
Lemma twice_dated_report :
  fst (Gemini.first_projection Sample.twice_dated Sample.world)
  = Ok (mkDataFrame
          ["Employee Name"; "Last Clean Desk Date"; "Last Clean Desk Date"; "Location";
           "Compliant"; "Note"; "AI_Response"]
          [ [Str "Acme"; Str "2024-03-01"; Str "2024-02-01"; Str "Unknown"; Str "Unknown";
             Str "pens on desk"; Str "Unknown"] ]).
Proof. vm_compute. reflexivity. Qed.

(** * Further properties of the code *)

Section consolidation_errors.
Context `{Env}.

(** X1. A consolidated file the disk refuses is reported, not raised: with
    rows to save and a disk that refuses the output path,
    [consolidate_cdnotes] of [main.py] and of [gemini_process.py] return
    normally, no file is written or changed, and the last log record is the
    ERROR line ["Error saving the consolidated file: "] with the message of
    the disk. *)
Theorem refused_consolidated_file_is_logged :
  forall root_directory output_csv w entries msg,
    listdir root_directory = Some entries ->
    flat_map contribution entries <> [] ->
    disk_error output_csv = Some msg ->
    (exists w',
        Main.consolidate_cdnotes root_directory output_csv w = (Ok tt, w')
        /\ fs w' = fs w
        /\ last (logs w') = Some (ERROR, "Error saving the consolidated file: " +:+ msg))
    /\ (exists w',
           Gemini.consolidate_cdnotes root_directory output_csv w = (Ok tt, w')
           /\ fs w' = fs w
           /\ last (logs w') = Some (ERROR, "Error saving the consolidated file: " +:+ msg)).
Proof.
  intros root out w entries msg Hls Hrows Hdisk. split.
  - destruct (main_consolidate_run root out w entries Hls) as (w1 & _ & Hfs & _ & Hrun).
    rewrite Hrun, Hdisk. destruct (flat_map contribution entries); [congruence|].
    eexists. split; [reflexivity|]. split; [exact Hfs|]. cbn [logs]. apply last_snoc.
  - destruct (gemini_consolidate_run root out w entries Hls) as (w1 & _ & Hfs & _ & Hrun).
    rewrite Hrun, Hdisk.
    assert (flat_map gemini_contribution entries <> []) as Hg.
    { intros Hnil. apply Hrows. clear -Hnil.
      induction entries as [|entry rest IH]; [reflexivity|]. simpl in *.
      apply app_eq_nil in Hnil as [Hhd Htl]. rewrite (IH Htl), app_nil_r.
      unfold contribution, gemini_contribution in *.
      destruct (entry_kind_of entry) as [|[[e|records]|] wf]; try reflexivity.
      apply fmap_nil_inv in Hhd. rewrite Hhd. reflexivity. }
    destruct (flat_map gemini_contribution entries); [congruence|].
    eexists. split; [reflexivity|]. split; [exact Hfs|]. cbn [logs]. apply last_snoc.
Qed.

End consolidation_errors.

Lemma refused_consolidated_file_is_logged_witness :
  exists w',
    @Main.consolidate_cdnotes Fixtures.locked "root" "consolidated_cdnotes.csv" Sample.world
    = (Ok tt, w')
    /\ fs w' = fs Sample.world
    /\ last (logs w') = Some (ERROR, "Error saving the consolidated file: Permission denied").
Proof.
  apply (@refused_consolidated_file_is_logged Fixtures.locked "root"
           "consolidated_cdnotes.csv" Sample.world Sample.folders "Permission denied").
  - reflexivity.
  - vm_compute. discriminate.
  - reflexivity.
Defined.

Section consolidation_errors.
Context `{Env}.

(** X2. A root directory that cannot be listed is not handled: after its
    one start line [consolidate_cdnotes] raises, in [main.py],
    [gemini_process.py] and [dsa.py] alike, and so does the form's
    [consolidate_and_log] of [main.py] when its fixed directory is the
    missing one, having written no file and sent no request. *)
Theorem missing_root_directory_raises :
  forall root_directory output_csv w,
    listdir root_directory = None ->
    (exists e,
        Main.consolidate_cdnotes root_directory output_csv w
        = (Raise e, logged [(INFO, "Starting to process the root directory: "
                                   +:+ root_directory)] w))
    /\ (exists e,
           Gemini.consolidate_cdnotes root_directory output_csv w
           = (Raise e, logged [(INFO, "Starting to process the root directory: "
                                      +:+ root_directory)] w))
    /\ (exists e,
           Dsa.consolidate_cdnotes root_directory output_csv w
           = (Raise e, logged [(CONSOLE, "Starting to process the root directory: "
                                         +:+ root_directory)] w))
    /\ (root_directory
        = "M:\\IT\\IT - Ramez -\\00 - Sam\\Compliance Tool\\Database\\Templates" ->
        exists e w', Main.consolidate_and_log w = (Raise e, w')
                     /\ fs w' = fs w /\ sent w' = sent w).
Proof.
  intros root out w Hls. split; [|split; [|split]].
  - unfold Main.consolidate_cdnotes. cbv zeta.
    erewrite Run.bind_step by apply logging_run. cbv beta iota.
    eexists. apply Run.bind_raise. unfold os_listdir. rewrite Hls. reflexivity.
  - unfold Gemini.consolidate_cdnotes. cbv zeta.
    erewrite Run.bind_step by apply logging_run. cbv beta iota.
    eexists. apply Run.bind_raise. unfold os_listdir. rewrite Hls. reflexivity.
  - unfold Dsa.consolidate_cdnotes. cbv zeta.
    erewrite Run.bind_step by apply logging_run. cbv beta iota.
    eexists. apply Run.bind_raise. unfold os_listdir. rewrite Hls. reflexivity.
  - intros ->. unfold Main.consolidate_and_log, Main.consolidate_cdnotes. cbv zeta.
    erewrite Run.bind_step by apply log_to_console_run. cbv beta iota.
    erewrite Run.bind_step by apply logging_run. cbv beta iota.
    erewrite Run.bind_step by apply logging_run. cbv beta iota.
    eexists _, _. split; [apply Run.bind_raise; unfold os_listdir; rewrite Hls; reflexivity|].
    split; reflexivity.
Qed.

End consolidation_errors.

Lemma missing_root_directory_raises_witness :
  exists e,
    @Main.consolidate_cdnotes Sample.answers "elsewhere" "consolidated_cdnotes.csv" Sample.world
    = (Raise e, logged [(INFO, "Starting to process the root directory: elsewhere")]
                       Sample.world).
Proof.
  apply (@missing_root_directory_raises Sample.answers "elsewhere"
           "consolidated_cdnotes.csv" Sample.world).
  reflexivity.
Defined.

Section locations.
Context `{Env}.

Lemma gemini_contribution_take entry :
  map (take 3) (gemini_contribution entry) = contribution entry.
Proof.
  unfold contribution, gemini_contribution.
  destruct (entry_kind_of entry) as [|[[e|records]|] wf]; try reflexivity.
  rewrite map_map. reflexivity.
Qed.

Lemma gemini_contributions_take entries :
  map (take 3) (flat_map gemini_contribution entries) = flat_map contribution entries.
Proof.
  induction entries as [|entry rest IH]; [reflexivity|]. simpl.
  rewrite map_app, IH, gemini_contribution_take. reflexivity.
Qed.

Lemma gemini_contribution_row entry row :
  row ∈ gemini_contribution entry ->
  exists f wf, entry_kind_of entry = Directory (Some f) wf
               /\ length row = 4
               /\ row !! 0 = Some (Str (entry_name entry))
               /\ row !! 3 = Some (Str (location_of wf)).
Proof.
  unfold gemini_contribution.
  destruct (entry_kind_of entry) as [|[[e|records]|] wf];
    try (intros Hin; apply elem_of_nil in Hin as []).
  intros Hin. apply list_elem_of_fmap in Hin as (x & -> & _).
  exists (Lines records), wf. repeat split.
Qed.

(** X3. The table [gemini_process.py] consolidates has the columns
    Employee Name, Record Date, Note, Location.  Its rows are the rows of
    [main.py] with a fourth value: the stripped text of the folder's
    [wfboxfile.txt], or ["Unknown Location"] when that file is missing or
    cannot be read; every row carries the name of its folder, and this table
    is what a disk that takes the output path has on file afterwards. *)
Theorem gemini_rows_carry_location :
  forall root_directory output_csv w entries,
    listdir root_directory = Some entries ->
    exists table w1,
      Gemini.walk root_directory entries (Frame.new gemini_columns)
                  (start_of root_directory w) = (Ok table, w1)
      /\ columns table = ["Employee Name"; "Record Date"; "Note"; "Location"]
      /\ rows table = flat_map gemini_contribution entries
      /\ map (take 3) (rows table) = flat_map contribution entries
      /\ (forall row, row ∈ rows table ->
            exists entry f wfboxfile,
              entry ∈ entries
              /\ entry_kind_of entry = Directory (Some f) wfboxfile
              /\ length row = 4
              /\ row !! 0 = Some (Str (entry_name entry))
              /\ row !! 3 = Some (Str match wfboxfile with
                                      | Some (Ok text) => Text.strip text
                                      | _ => "Unknown Location"
                                      end))
      /\ (rows table <> [] -> disk_error output_csv = None ->
          exists w', Gemini.consolidate_cdnotes root_directory output_csv w = (Ok tt, w')
                     /\ fs w' = <[output_csv := Csv table]> (fs w)).
Proof.
  intros root out w entries Hls.
  destruct (gemini_consolidate_run root out w entries Hls) as (w1 & Hwalk & Hfs & Hs & Hrun).
  eexists _, w1. split; [exact Hwalk|]. cbn [columns rows].
  split; [reflexivity|]. split; [reflexivity|].
  split; [apply gemini_contributions_take|]. split.
  - intros row Hin. apply list_elem_of_In, in_flat_map in Hin as (entry & Hentry & Hrow).
    apply list_elem_of_In in Hentry, Hrow.
    destruct (gemini_contribution_row entry row Hrow) as (f & wf & Hk & Hl & H0 & H3).
    exists entry, f, wf. repeat split; assumption.
  - intros Hne Hdisk. rewrite Hrun, Hdisk.
    destruct (flat_map gemini_contribution entries) as [|r rs]; [congruence|].
    eexists. split; [reflexivity|]. cbn [fs]. rewrite Hfs. reflexivity.
Qed.

End locations.

Lemma gemini_rows_carry_location_witness :
  exists table w1,
    @Gemini.walk Sample.answers "root" Sample.folders (Frame.new gemini_columns)
                 (start_of "root" Sample.world) = (Ok table, w1)
    /\ rows table
       = [ [Str "Acme"; Str "03-01-2024"; Str "pens on desk"; Str "Unknown Location"];
           [Str "Acme"; Str "03-02-2024"; Str "Desk clean - meets compliance";
            Str "Unknown Location"];
           [Str "Jo Doe"; Str "03-02-2024"; Str "mug"; Str "Annex"] ].
Proof.
  destruct (@gemini_rows_carry_location Sample.answers "root" "consolidated_cdnotes.csv"
              Sample.world Sample.folders eq_refl)
    as (table & w1 & Hwalk & _ & Hrows & _).
  exists table, w1. split; [exact Hwalk|]. rewrite Hrows. vm_compute. reflexivity.
Defined.

Section unreadable.
Context `{Env}.

Lemma flat_map_without {X Y} (g : X -> list Y) before x after :
  g x = [] -> flat_map g (before ++ x :: after) = flat_map g (before ++ after).
Proof. intros Hx. rewrite !flat_map_app. simpl. rewrite Hx. reflexivity. Qed.

(** X4. A note file that cannot be read is skipped: the walk goes on and
    the consolidated table is the one the walk builds without that folder,
    in [main.py] and in [gemini_process.py]; [main.py] logs
    ["Processing file: ..."] and then the ERROR line
    ["Error reading <path>: <message>"]. *)
Theorem unreadable_note_file_is_skipped :
  forall root_directory before after name e wfboxfile w,
    (exists table w1 w2,
        Main.walk root_directory
          (before ++ mkEntry name (Directory (Some (Unreadable e)) wfboxfile) :: after)
          (Frame.new main_columns) w = (Ok table, w1)
        /\ Main.walk root_directory (before ++ after) (Frame.new main_columns) w
           = (Ok table, w2))
    /\ (exists table w1 w2,
           Gemini.walk root_directory
             (before ++ mkEntry name (Directory (Some (Unreadable e)) wfboxfile) :: after)
             (Frame.new gemini_columns) w = (Ok table, w1)
           /\ Gemini.walk root_directory (before ++ after) (Frame.new gemini_columns) w
              = (Ok table, w2))
    /\ Main.walk root_directory [mkEntry name (Directory (Some (Unreadable e)) wfboxfile)]
         (Frame.new main_columns) w
       = (Ok (Frame.new main_columns),
          logged [ (INFO, "Processing file: "
                          +:+ path_join (path_join root_directory name) "cdnotes.csv");
                   (ERROR, "Error reading "
                           +:+ path_join (path_join root_directory name) "cdnotes.csv"
                           +:+ ": " +:+ exn_msg e) ] w).
Proof.
  intros root before after name e wf w. split; [|split].
  - destruct (main_walk_spec root
                (before ++ mkEntry name (Directory (Some (Unreadable e)) wf) :: after)
                (Frame.new main_columns) w) as (w1 & H1 & _); [reflexivity|constructor|].
    destruct (main_walk_spec root (before ++ after) (Frame.new main_columns) w)
      as (w2 & H2 & _); [reflexivity|constructor|].
    eexists _, w1, w2. split; [exact H1|]. rewrite H2.
    rewrite (flat_map_without contribution) by reflexivity. reflexivity.
  - destruct (gemini_walk_spec root
                (before ++ mkEntry name (Directory (Some (Unreadable e)) wf) :: after)
                (Frame.new gemini_columns) w) as (w1 & H1 & _); [reflexivity|constructor|].
    destruct (gemini_walk_spec root (before ++ after) (Frame.new gemini_columns) w)
      as (w2 & H2 & _); [reflexivity|constructor|].
    eexists _, w1, w2. split; [exact H1|]. rewrite H2.
    rewrite (flat_map_without gemini_contribution) by reflexivity. reflexivity.
  - cbn [Main.walk entry_name entry_kind_of].
    erewrite Run.bind_step; cycle 1.
    { unfold try_except.
      erewrite Run.bind_step by apply logging_run. cbv beta iota.
      rewrite Run.bind_run. unfold read_csv_notes, raise. cbv beta iota.
      unfold Exception. cbv iota.
      erewrite Run.bind_step by apply logging_run. cbv beta iota. reflexivity. }
    cbv beta iota. rewrite logged_logged. reflexivity.
Qed.

End unreadable.

Section bad_inputs.
Context `{Env}.
Import FrameFacts.

(** The filter raises where the table has no date column or a bound is not
    a date. *)
Lemma filter_by_date_raise data start_date end_date :
  "Record Date" ∉ columns data
  \/ Calendar.strptime_mdY start_date = None
  \/ Calendar.strptime_mdY end_date = None ->
  exists e, forall w, filter_by_date data start_date end_date w = (Raise e, w).
Proof.
  intros Hbad. unfold filter_by_date, Frame.map_column.
  destruct (Frame.index_of "Record Date" (columns data)) as [j|] eqn:Ej; cycle 1.
  { eexists. intros w. reflexivity. }
  cbn [mbind option_bind or_key_error].
  destruct Hbad as [Hcol|[Hs|He]].
  - apply index_of_None in Hcol. congruence.
  - unfold strptime. rewrite Hs. eexists. intros w.
    erewrite Run.bind_step by reflexivity. cbv beta iota. reflexivity.
  - unfold strptime. destruct (Calendar.strptime_mdY start_date) as [s|].
    + rewrite He. eexists. intros w.
      erewrite Run.bind_step by reflexivity. cbv beta iota.
      erewrite Run.bind_step by reflexivity. cbv beta iota. reflexivity.
    + eexists. intros w.
      erewrite Run.bind_step by reflexivity. cbv beta iota. reflexivity.
Qed.

(** X5. [run_ai_on_csv] reports bad input and returns: when the input file
    is missing, or has no ["Record Date"] column, or a bound of the range is
    no [%m-%d-%Y] date, the run returns normally and has done nothing but
    log, after the lines on the loaded file if it was there, the line
    ["Error: <message>"]: on the console and at level ERROR in [main.py]
    and [gemini_process.py], which behave alike here, on the console only
    in [dsa.py]. *)
Theorem bad_input_is_reported :
  forall input_csv start_date end_date w,
    (fs w !! input_csv = None
     \/ exists df, fs w !! input_csv = Some (Csv df)
                   /\ ("Record Date" ∉ columns df
                       \/ Calendar.strptime_mdY start_date = None
                       \/ Calendar.strptime_mdY end_date = None)) ->
    exists msg,
      Main.run_ai_on_csv input_csv start_date end_date w
      = (Ok tt,
         logged (match fs w !! input_csv with
                 | Some _ => [ (CONSOLE, "Loaded data from " +:+ input_csv);
                               (INFO, "Loaded data from " +:+ input_csv) ]
                 | None => []
                 end ++ [(CONSOLE, "Error: " +:+ msg); (ERROR, "Error: " +:+ msg)]) w)
      /\ (forall generate_pdfs gemini_endpoint gemini_model api_key,
            Gemini.run_ai_on_csv input_csv start_date end_date generate_pdfs
                                 gemini_endpoint gemini_model api_key w
            = Main.run_ai_on_csv input_csv start_date end_date w)
      /\ Dsa.run_ai_on_csv input_csv start_date end_date w
         = (Ok tt,
            logged (match fs w !! input_csv with
                    | Some _ => [(CONSOLE, "Loaded data from " +:+ input_csv)]
                    | None => []
                    end ++ [(CONSOLE, "Error: " +:+ msg)]) w).
Proof.
  intros input start_date end_date w [Hnone|(df & Hf & Hbad)].
  - exists input. rewrite Hnone.
    assert (read_csv input w = (Raise (mkExn FileNotFoundError input), w)) as Hread
      by (unfold read_csv; rewrite Hnone; reflexivity).
    assert (Main.run_ai_on_csv input start_date end_date w
            = (Ok tt, logged ([] ++ [(CONSOLE, "Error: " +:+ input);
                                     (ERROR, "Error: " +:+ input)]) w)) as Hmain.
    { unfold Main.run_ai_on_csv. erewrite try_caught by (apply Run.bind_raise; exact Hread).
      erewrite Run.bind_step by apply log_to_console_run. cbv beta iota.
      rewrite logging_run, logged_logged. reflexivity. }
    split; [exact Hmain|]. split.
    + intros flag ep model key. rewrite Hmain. unfold Gemini.run_ai_on_csv.
      erewrite try_caught by (apply Run.bind_raise; exact Hread).
      erewrite Run.bind_step by apply log_to_console_run. cbv beta iota.
      rewrite logging_run, logged_logged. reflexivity.
    + unfold Dsa.run_ai_on_csv.
      erewrite try_caught by (apply Run.bind_raise; exact Hread).
      apply log_to_console_run.
  - rewrite Hf. destruct (filter_by_date_raise (loaded df) start_date end_date Hbad) as [e He].
    exists (exn_msg e).
    assert (Main.run_ai_on_csv input start_date end_date w
            = (Ok tt, logged ([ (CONSOLE, "Loaded data from " +:+ input);
                                (INFO, "Loaded data from " +:+ input) ]
                              ++ [(CONSOLE, "Error: " +:+ exn_msg e);
                                  (ERROR, "Error: " +:+ exn_msg e)]) w)) as Hmain.
    { unfold Main.run_ai_on_csv. erewrite try_caught; cycle 1.
      { erewrite Run.bind_step by (apply read_csv_run; exact Hf). cbv beta iota.
        erewrite Run.bind_step by apply log_to_console_run. cbv beta iota.
        erewrite Run.bind_step by apply logging_run. cbv beta iota.
        apply Run.bind_raise. apply He. }
      erewrite Run.bind_step by apply log_to_console_run. cbv beta iota.
      rewrite logging_run, !logged_logged. reflexivity. }
    split; [exact Hmain|]. split.
    + intros flag ep model key. rewrite Hmain. unfold Gemini.run_ai_on_csv.
      erewrite try_caught; cycle 1.
      { erewrite Run.bind_step by (apply read_csv_run; exact Hf). cbv beta iota.
        erewrite Run.bind_step by apply log_to_console_run. cbv beta iota.
        erewrite Run.bind_step by apply logging_run. cbv beta iota.
        apply Run.bind_raise. apply He. }
      erewrite Run.bind_step by apply log_to_console_run. cbv beta iota.
      rewrite logging_run, !logged_logged. reflexivity.
    + unfold Dsa.run_ai_on_csv. erewrite try_caught; cycle 1.
      { erewrite Run.bind_step by (apply read_csv_run; exact Hf). cbv beta iota.
        erewrite Run.bind_step by apply log_to_console_run. cbv beta iota.
        apply Run.bind_raise. apply He. }
      rewrite log_to_console_run, !logged_logged. reflexivity.
Qed.

End bad_inputs.

Lemma bad_input_is_reported_witness :
  exists msg,
    @Main.run_ai_on_csv Sample.answers "consolidated_cdnotes.csv" "2024-03-01" "03-02-2024"
      Sample.stocked
    = (Ok tt,
       logged [ (CONSOLE, "Loaded data from consolidated_cdnotes.csv");
                (INFO, "Loaded data from consolidated_cdnotes.csv");
                (CONSOLE, "Error: " +:+ msg); (ERROR, "Error: " +:+ msg) ] Sample.stocked).
Proof.
  destruct (@bad_input_is_reported Sample.answers "consolidated_cdnotes.csv" "2024-03-01"
              "03-02-2024" Sample.stocked) as (msg & Hrun & _).
  - right. exists Sample.consolidated. split; [reflexivity|]. right. left. reflexivity.
  - exists msg. exact Hrun.
Defined.

Section filtered_dates.
Context `{Env}.
Import FrameFacts.

Lemma loaded_cell df row j :
  row ∈ rows (loaded df) ->
  Frame.cell_at row j = NaN \/ exists text, Frame.cell_at row j = Str text.
Proof.
  unfold loaded. cbn [rows]. intros Hin.
  apply list_elem_of_In, in_map_iff in Hin as (r & <- & _).
  unfold Frame.cell_at. rewrite ProjectionFacts.lookup_map.
  destruct (r !! j) as [[| |s|d]|]; simpl; eauto.
  destruct (na_value s); eauto.
Qed.

Lemma strptime_mdY_valid s d :
  Calendar.strptime_mdY s = Some d -> Calendar.valid d = true.
Proof.
  unfold Calendar.strptime_mdY.
  destruct (Text.split "-" s) as [|a [|b [|c [|? ?]]]]; try discriminate.
  destruct (Calendar.directive_m a); [|discriminate].
  destruct (Calendar.directive_d b); [|discriminate].
  destruct (Calendar.directive_Y c); [|discriminate].
  cbn [mbind option_bind]. apply checked_valid.
Qed.

(** X6. The date of a row the filter keeps makes its way into the
    document's name: the row's date is a text that reads as a [%m-%d-%Y]
    date [d]; the filter stores the timestamp [d], the filtered file gives
    it back as the [%Y-%m-%d] text of [d], the Gemini workflow reads that
    text back as [d] written [%m-%d-%Y], which parses to [d] again, and
    [generate_pdf] of [gemini_process.py] writes the document under that
    name when the disk takes it. *)
Theorem filtered_date_names_document :
  forall df j s e row,
    row ∈ rows (loaded df) ->
    dated_within s e (Frame.cell_at row j) = true ->
    exists text d,
      Frame.cell_at row j = Str text
      /\ Calendar.strptime_mdY text = Some d
      /\ Frame.cell_at (stamp j row) j = Timestamp d
      /\ reload (Frame.cell_at (stamp j row) j) = Str (Calendar.isoformat d)
      /\ gemini_date_part (Str (Calendar.isoformat d)) = Calendar.strftime_mdY d
      /\ Calendar.strptime_mdY (Calendar.strftime_mdY d) = Some d
      /\ forall name notes ai_response output_dir w,
           disk_error (path_join output_dir (document_name (Calendar.strftime_mdY d) name))
           = None ->
           exists w',
             Gemini.generate_pdf (Str name) (Str (Calendar.isoformat d)) notes ai_response
                                 output_dir w = (Ok tt, w')
             /\ fs w' !! path_join output_dir (document_name (Calendar.strftime_mdY d) name)
                = Some (Pdf (page (Str name) (Str (Calendar.isoformat d)) notes ai_response)).
Proof.
  intros df j s e row Hrow Hin.
  apply dated_within_spec in Hin as (d & Hd & _).
  destruct (loaded_cell df row j Hrow) as [Hnan|[text Htext]].
  { rewrite Hnan in Hd. discriminate. }
  rewrite Htext in Hd. pose proof Hd as Hparse. apply to_datetime_text in Hparse as [Hp Hr].
  pose proof (strptime_mdY_valid _ _ Hp) as Hv.
  assert (gemini_date_part (Str (Calendar.isoformat d)) = Calendar.strftime_mdY d) as Hpart
    by (unfold gemini_date_part; rewrite (CalendarFacts.strptime_isoformat d Hv); reflexivity).
  exists text, d. split; [exact Htext|]. split; [exact Hp|].
  assert (Frame.cell_at (stamp j row) j = Timestamp d) as Hst.
  { unfold stamp. rewrite cell_at_row_set, Htext, Hd. destruct (decide (j = j)); congruence. }
  split; [exact Hst|]. split; [rewrite Hst; reflexivity|]. split; [exact Hpart|].
  split; [apply CalendarFacts.strptime_strftime_mdY; exact Hv|].
  intros name notes resp dir w Hdisk.
  destruct (gemini_generate_pdf_run (Str name) (Str (Calendar.isoformat d)) notes resp dir w)
    as (w1 & _ & _ & Heq).
  rewrite Heq. cbv zeta. rewrite Hpart, Hdisk. eexists. split; [reflexivity|].
  cbn [fs]. apply lookup_insert_eq.
Qed.

End filtered_dates.

Lemma filtered_date_names_document_witness :
  exists w',
    @Gemini.generate_pdf Sample.answers (Str "Acme") (Str "2024-03-01") (Str "pens on desk")
      "Fail" "pdf_reports" Sample.world = (Ok tt, w')
    /\ fs w' !! "pdf_reports/03-01-2024-Acme-CD.PDF"
       = Some (Pdf (page (Str "Acme") (Str "2024-03-01") (Str "pens on desk") "Fail")).
Proof.
  destruct (@filtered_date_names_document Sample.answers Sample.consolidated 1
              (mkDate 2024 3 1) (mkDate 2024 3 2)
              [Str "Acme"; Str "03-01-2024"; Str "pens on desk"])
    as (text & d & Htext & Hp & _ & _ & _ & _ & Hdoc).
  - apply (bool_decide_unpack _). vm_compute. reflexivity.
  - vm_compute. reflexivity.
  - injection Htext as <-. vm_compute in Hp. injection Hp as <-.
    apply (Hdoc "Acme" (Str "pens on desk") "Fail" "pdf_reports" Sample.world).
    reflexivity.
Defined.

Section missing_column.
Context `{Env}.
Import FrameFacts.

(** X7. A table without the analysis column is refused before any work:
    [process_csv_for_pass_fail_and_generate_pdfs] raises the [KeyError]
    ["The specified column '<c>' does not exist in the CSV."] right after
    reporting the columns it found, with no request sent and no file
    written, in [main.py], in [gemini_process.py] (which behaves as
    [main.py]) and in [Main2.py] (which prints the columns only). *)
Theorem missing_analysis_column_raises :
  forall csv_path endpoint model analysis_column output_path pdf_output_dir w df,
    fs w !! csv_path = Some (Csv df) ->
    analysis_column ∉ columns df ->
    Main.process_csv_for_pass_fail_and_generate_pdfs
      csv_path endpoint model analysis_column output_path pdf_output_dir w
    = (Raise (mkExn KeyError ("The specified column '" +:+ analysis_column
                              +:+ "' does not exist in the CSV.")),
       logged [ (INFO, "Available columns in the CSV: " +:+ Text.repr_list (columns df));
                (CONSOLE, "Available columns in the CSV: " +:+ Text.repr_list (columns df)) ]
              w)
    /\ (forall generate_pdfs api_key,
          Gemini.process_csv_for_pass_fail_and_generate_pdfs
            csv_path endpoint model analysis_column output_path pdf_output_dir
            generate_pdfs api_key w
          = Main.process_csv_for_pass_fail_and_generate_pdfs
              csv_path endpoint model analysis_column output_path pdf_output_dir w)
    /\ Main2.process_csv_for_pass_fail_and_generate_pdfs
         csv_path endpoint model analysis_column output_path pdf_output_dir w
       = (Raise (mkExn KeyError ("The specified column '" +:+ analysis_column
                                 +:+ "' does not exist in the CSV.")),
          logged [(CONSOLE, "Available columns in the CSV: "
                            +:+ Text.repr_list (columns df))] w).
Proof.
  intros csv e m col out dir w df Hf Hcol.
  assert (Frame.has_column col (loaded df) = false) as Hhas
    by (unfold Frame.has_column; apply bool_decide_eq_false_2; exact Hcol).
  assert (Main.process_csv_for_pass_fail_and_generate_pdfs csv e m col out dir w
          = (Raise (mkExn KeyError ("The specified column '" +:+ col
                                    +:+ "' does not exist in the CSV.")),
             logged [ (INFO, "Available columns in the CSV: " +:+ Text.repr_list (columns df));
                      (CONSOLE, "Available columns in the CSV: "
                                +:+ Text.repr_list (columns df)) ] w)) as Hmain.
  { unfold Main.process_csv_for_pass_fail_and_generate_pdfs.
    erewrite Run.bind_step by (apply read_csv_run; exact Hf). cbv beta iota.
    erewrite Run.bind_step by apply logging_run. cbv beta iota.
    erewrite Run.bind_step by apply log_to_console_run. cbv beta iota.
    rewrite Hhas, logged_logged. reflexivity. }
  split; [exact Hmain|]. split.
  - intros flag key. rewrite Hmain.
    unfold Gemini.process_csv_for_pass_fail_and_generate_pdfs.
    erewrite Run.bind_step by (apply read_csv_run; exact Hf). cbv beta iota.
    erewrite Run.bind_step by apply logging_run. cbv beta iota.
    erewrite Run.bind_step by apply log_to_console_run. cbv beta iota.
    rewrite Hhas, logged_logged. reflexivity.
  - unfold Main2.process_csv_for_pass_fail_and_generate_pdfs.
    erewrite Run.bind_step by (apply read_csv_run; exact Hf). cbv beta iota.
    erewrite Run.bind_step by apply logging_run. cbv beta iota.
    rewrite Hhas. reflexivity.
Qed.

End missing_column.

Lemma missing_analysis_column_raises_witness :
  @Main.process_csv_for_pass_fail_and_generate_pdfs Sample.answers
    "consolidated_cdnotes.csv" "endpoint" "model" "Notes" "output_with_ai.csv" "pdf_reports"
    Sample.stocked
  = (Raise (mkExn KeyError "The specified column 'Notes' does not exist in the CSV."),
     logged [ (INFO, "Available columns in the CSV: ['Employee Name', 'Record Date', 'Note']");
              (CONSOLE,
               "Available columns in the CSV: ['Employee Name', 'Record Date', 'Note']") ]
            Sample.stocked).
Proof.
  apply (@missing_analysis_column_raises Sample.answers "consolidated_cdnotes.csv"
           "endpoint" "model" "Notes" "output_with_ai.csv" "pdf_reports" Sample.stocked
           Sample.consolidated).
  - reflexivity.
  - apply (bool_decide_unpack _). reflexivity.
Defined.

Section clients.
Context `{Env}.
Import TextFacts.

Lemma append_assoc (a b c : string) : (a +:+ b) +:+ c = a +:+ (b +:+ c).
Proof.
  induction a as [|x a IH]; [reflexivity|]. rewrite !app_cons. f_equal. exact IH.
Qed.

Lemma append_nil_r (a : string) : a +:+ EmptyString = a.
Proof. induction a as [|x a IH]; [reflexivity|]. rewrite app_cons. f_equal. exact IH. Qed.

Lemma read_stream_texts lines texts acc :
  mapM line_text lines = Some texts ->
  Main.read_stream lines acc = Ok (acc +:+ String.concat EmptyString texts).
Proof.
  revert texts acc. induction lines as [|line rest IH]; intros texts acc.
  - intros [= <-]. simpl. rewrite append_nil_r. reflexivity.
  - cbn [mapM]. destruct (line_text line) as [t|] eqn:Et; [|discriminate].
    cbn [mbind option_bind]. destruct (mapM line_text rest) as [ts|]; [|discriminate].
    cbn [mbind option_bind mret option_ret]. intros [= <-].
    assert (String.concat EmptyString (t :: ts) = t +:+ String.concat EmptyString ts) as ->.
    { destruct ts; simpl; [rewrite append_nil_r|]; reflexivity. }
    destruct line as [| |[[s|]|]]; simpl in Et; try discriminate; injection Et as <-;
      simpl; rewrite (IH ts _ eq_refl), ?append_nil_r, ?append_assoc; reflexivity.
Qed.

Lemma read_stream_malformed lines acc :
  mapM line_text lines = None ->
  exists exc, Main.read_stream lines acc = Raise exc
              /\ exn_kind exc ∈ [AttributeError; TypeError].
Proof.
  revert acc. induction lines as [|line rest IH]; intros acc; [discriminate|].
  cbn [mapM]. destruct (line_text line) as [t|] eqn:Et.
  - cbn [mbind option_bind]. destruct (mapM line_text rest) as [ts|] eqn:Er; [discriminate|].
    intros _. destruct line as [| |[[s|]|]]; simpl in Et; try discriminate; simpl; apply IH;
      reflexivity.
  - intros _. destruct line as [| |[[s|]|]]; simpl in Et; try discriminate; simpl;
      eexists; (split; [reflexivity|]); set_solver.
Qed.

Lemma query_ollama_exact endpoint model prompt w :
  Main.query_ollama endpoint model prompt w
  = (ollama_answer (ollama_post (length (sent w))
                      (Main.ollama_request endpoint model prompt)),
     mkWorld (fs w) (dirs w)
       (logs w ++ match ollama_post (length (sent w))
                          (Main.ollama_request endpoint model prompt) with
                  | OllamaFailed msg => [(ERROR, "An error occurred: " +:+ msg)]
                  | OllamaStream _ => []
                  end)
       (sent w ++ [Main.ollama_request endpoint model prompt])).
Proof.
  unfold Main.query_ollama, try_except. rewrite Run.bind_run.
  unfold Main.requests_post, ollama_answer.
  destruct (ollama_post _ _) as [msg|lines]; simpl.
  - reflexivity.
  - rewrite Run.bind_run. unfold from_result. rewrite app_nil_r.
    destruct (Main.read_stream lines "") as [full|e] eqn:E; simpl; [reflexivity|].
    rewrite (read_stream_raise _ _ _ E). reflexivity.
Qed.

Lemma query_gemini_exact endpoint api_key model prompt w :
  Gemini.query_gemini endpoint api_key model prompt w
  = (gemini_answer (gemini_post (length (sent w))
                      (Gemini.gemini_request endpoint api_key model prompt)),
     mkWorld (fs w) (dirs w)
       (logs w ++ match gemini_post (length (sent w))
                          (Gemini.gemini_request endpoint api_key model prompt) with
                  | GeminiFailed msg => [(ERROR, "Error querying Gemini: " +:+ msg)]
                  | GeminiJson _ => []
                  end)
       (sent w ++ [Gemini.gemini_request endpoint api_key model prompt])).
Proof.
  unfold Gemini.query_gemini, try_except. rewrite Run.bind_run.
  unfold Gemini.requests_post, gemini_answer.
  destruct (gemini_post _ _) as [msg|candidates]; simpl.
  - reflexivity.
  - rewrite Run.bind_run. unfold from_result. rewrite app_nil_r.
    destruct (Gemini.first_content candidates) as [text|e] eqn:E; simpl; [reflexivity|].
    rewrite (first_content_raise _ _ E). reflexivity.
Qed.

(** X8. What [query_ollama] of [main.py] returns.  One request is sent.
    When the service fails, the result is [None] and one ERROR line is
    logged.  When it streams, the result is the stripped concatenation of
    the ["response"] texts of the lines, a line that is no JSON or has no
    ["response"] adding nothing, and nothing is logged; a line that is JSON
    but no object, or whose ["response"] is no text, makes the call raise
    an [AttributeError] or a [TypeError], which the function does not
    catch. *)
Theorem ollama_reply_is_the_stream_text :
  forall endpoint model prompt w,
    (forall msg,
        ollama_post (length (sent w)) (mkRequest (endpoint +:+ "/api/generate") None
                                         [("model", model); ("prompt", prompt)])
        = OllamaFailed msg ->
        Main.query_ollama endpoint model prompt w
        = (Ok None,
           mkWorld (fs w) (dirs w) (logs w ++ [(ERROR, "An error occurred: " +:+ msg)])
                   (sent w ++ [mkRequest (endpoint +:+ "/api/generate") None
                                 [("model", model); ("prompt", prompt)]])))
    /\ (forall lines,
          ollama_post (length (sent w)) (mkRequest (endpoint +:+ "/api/generate") None
                                           [("model", model); ("prompt", prompt)])
          = OllamaStream lines ->
          exists reply,
            Main.query_ollama endpoint model prompt w
            = (reply,
               mkWorld (fs w) (dirs w) (logs w)
                       (sent w ++ [mkRequest (endpoint +:+ "/api/generate") None
                                     [("model", model); ("prompt", prompt)]]))
            /\ match mapM line_text lines with
               | Some texts => reply = Ok (Some (Text.strip (String.concat EmptyString texts)))
               | None => exists exc, reply = Raise exc
                                     /\ exn_kind exc ∈ [AttributeError; TypeError]
               end).
Proof.
  intros e m p w. split.
  - intros msg Hpost. rewrite query_ollama_exact. unfold Main.ollama_request. cbv zeta.
    rewrite Hpost. reflexivity.
  - intros lines Hpost. rewrite query_ollama_exact. unfold Main.ollama_request. cbv zeta.
    rewrite Hpost, app_nil_r. eexists. split; [reflexivity|]. unfold ollama_answer.
    destruct (mapM line_text lines) as [texts|] eqn:E.
    + rewrite (read_stream_texts _ _ _ E). reflexivity.
    + destruct (read_stream_malformed lines "" E) as (exc & -> & Hk). eauto.
Qed.

End clients.

Section passes.
Context `{Env}.
Import FrameFacts.

(** One pass of the loop of [main.py], case by case. *)
Lemma main_classify_row_run e m col dir cols k row d w :
  col ∈ cols ->
  exists w3,
    sent w3 = sent w ++ [Main.ollama_request e m (prompt_of (record_of col cols row))]
    /\ fs w3 = fs w /\ dirs w3 = dirs w
    /\ Main.classify_row e m col dir cols k row d w
       = match ollama_reply e m col cols (length (sent w)) row with
         | Raise exc => (Raise exc, w3)
         | Ok reply =>
             let d' := Frame.set_at k "AI_P_F" (Str (main_verdict reply))
                         (Frame.set_at k "AI_Response" (Str (stored_response reply)) d) in
             if Text.truthy (default EmptyString reply) then
               if bool_decide (main_verdict reply = "FAILED") then
                 match Main.generate_pdf
                         (Frame.row_get cols row "Employee Name" (Str "Unknown"))
                         (Frame.row_get cols row "Record Date" (Str "Unknown"))
                         (Frame.row_get cols row "Note" (Str "No Notes"))
                         (Text.strip (default EmptyString reply)) dir w3 with
                 | (Ok _, w4) =>
                     (Ok d',
                      logged [ (INFO, "Response for row " +:+ pretty (k + 1) +:+ ": "
                                      +:+ default EmptyString reply +:+ " (Determined: "
                                      +:+ main_verdict reply +:+ ")");
                               (CONSOLE, "Response for row " +:+ pretty (k + 1) +:+ ": "
                                         +:+ main_verdict reply) ] w4)
                 | (Raise exc, w4) => (Raise exc, w4)
                 end
               else
                 (Ok d',
                  logged [ (INFO, "Response for row " +:+ pretty (k + 1) +:+ ": "
                                  +:+ default EmptyString reply +:+ " (Determined: "
                                  +:+ main_verdict reply +:+ ")");
                           (CONSOLE, "Response for row " +:+ pretty (k + 1) +:+ ": "
                                     +:+ main_verdict reply) ] w3)
             else
               (Ok d',
                logged [ (WARNING, "No valid response for row " +:+ pretty (k + 1));
                         (CONSOLE, "No valid response for row " +:+ pretty (k + 1)) ] w3)
         end.
Proof.
  intros Hcol. unfold Main.classify_row.
  destruct (index_of_is_Some _ _ Hcol) as [j Hj].
  assert (record_of col cols row = Frame.cell_at row j) as Hrec
    by (unfold record_of, Frame.row_get; rewrite Hj; reflexivity).
  rewrite Hj. simpl or_key_error.
  erewrite Run.bind_step by reflexivity.
  erewrite Run.bind_step by reflexivity.
  erewrite Run.bind_step by reflexivity.
  rewrite Run.bind_run, query_ollama_exact. cbn [sent].
  unfold ollama_reply. rewrite Hrec.
  eexists. split; [|split; [|split]]; cycle 3.
  - destruct (ollama_answer _) as [reply|exc]; [|reflexivity].
    unfold main_verdict, stored_response. cbv zeta.
    destruct (Text.truthy (default EmptyString reply)).
    + destruct (bool_decide _).
      * rewrite Run.bind_run. destruct (Main.generate_pdf _ _ _ _ _ _) as [[[]|exc] w4];
          [|reflexivity].
        erewrite Run.bind_step by apply logging_run. cbv beta iota.
        erewrite Run.bind_step by apply log_to_console_run. cbv beta iota.
        rewrite logged_logged. reflexivity.
      * erewrite Run.bind_step by reflexivity. cbv beta iota.
        erewrite Run.bind_step by apply logging_run. cbv beta iota.
        erewrite Run.bind_step by apply log_to_console_run. cbv beta iota.
        rewrite logged_logged. reflexivity.
    + erewrite Run.bind_step by apply logging_run. cbv beta iota.
      erewrite Run.bind_step by apply log_to_console_run. cbv beta iota.
      rewrite logged_logged. reflexivity.
  - reflexivity.
  - reflexivity.
  - reflexivity.
Qed.


(** One pass of the loop of [gemini_process.py], case by case. *)
Lemma gemini_classify_row_run e m col dir flag key cols k row d w :
  col ∈ cols ->
  exists w3,
    sent w3 = sent w ++ [Gemini.gemini_request e key m (prompt_of (record_of col cols row))]
    /\ fs w3 = fs w /\ dirs w3 = dirs w
    /\ Gemini.classify_row e m col dir flag key cols k row d w
       = match gemini_reply e key m col cols (length (sent w)) row with
         | Raise exc => (Raise exc, w3)
         | Ok reply =>
             let d' := Frame.set_at k "Compliant" (Str (gemini_compliant reply))
                         (Frame.set_at k "AI_P_F" (Str (gemini_verdict reply))
                            (Frame.set_at k "AI_Response" (Str (stored_response reply)) d)) in
             if Text.truthy (default EmptyString reply) then
               if bool_decide (gemini_verdict reply = "FAILED") && flag then
                 match Gemini.generate_pdf
                         (Frame.row_get cols row "Employee Name" (Str "Unknown"))
                         (Frame.row_get cols row "Record Date" (Str "Unknown"))
                         (Frame.row_get cols row "Note" (Str "No Notes"))
                         (Text.strip (default EmptyString reply)) dir w3 with
                 | (Ok _, w4) =>
                     (Ok d',
                      logged [ (CONSOLE, "Response for record " +:+ pretty (k + 1) +:+ ": "
                                         +:+ default EmptyString reply +:+ " (Determined: "
                                         +:+ gemini_verdict reply +:+ ")") ] w4)
                 | (Raise exc, w4) => (Raise exc, w4)
                 end
               else
                 (Ok d',
                  logged [ (CONSOLE, "Response for record " +:+ pretty (k + 1) +:+ ": "
                                     +:+ default EmptyString reply +:+ " (Determined: "
                                     +:+ gemini_verdict reply +:+ ")") ] w3)
             else
               (Ok d',
                logged [(CONSOLE, "No valid response for record " +:+ pretty (k + 1))] w3)
         end.
Proof.
  intros Hcol. unfold Gemini.classify_row.
  destruct (index_of_is_Some _ _ Hcol) as [j Hj].
  assert (record_of col cols row = Frame.cell_at row j) as Hrec
    by (unfold record_of, Frame.row_get; rewrite Hj; reflexivity).
  rewrite Hj. simpl or_key_error.
  erewrite Run.bind_step by reflexivity.
  erewrite Run.bind_step by reflexivity.
  erewrite Run.bind_step by reflexivity.
  rewrite Run.bind_run, query_gemini_exact. cbn [sent].
  unfold gemini_reply. rewrite Hrec.
  eexists. split; [|split; [|split]]; cycle 3.
  - destruct (gemini_answer _) as [reply|exc]; [|reflexivity].
    unfold gemini_verdict, gemini_compliant, stored_response. cbv zeta.
    destruct (Text.truthy (default EmptyString reply)).
    + destruct (Gemini.pass_fail_of (default EmptyString reply)) as [pass_fail compliant].
      cbn [fst snd].
      destruct (bool_decide _ && flag).
      * rewrite Run.bind_run. destruct (Gemini.generate_pdf _ _ _ _ _ _) as [[[]|exc] w4];
          [|reflexivity].
        erewrite Run.bind_step by apply log_to_console_run. cbv beta iota. reflexivity.
      * erewrite Run.bind_step by reflexivity. cbv beta iota.
        erewrite Run.bind_step by apply log_to_console_run. cbv beta iota. reflexivity.
    + erewrite Run.bind_step by apply log_to_console_run. cbv beta iota. reflexivity.
  - reflexivity.
  - reflexivity.
  - reflexivity.
Qed.

(** Without its column, a pass raises before anything else. *)
Lemma main_classify_row_key e m col dir cols k row d w :
  col ∉ cols -> Main.classify_row e m col dir cols k row d w = (Raise (mkExn KeyError col), w).
Proof.
  intros Hcol. unfold Main.classify_row. apply index_of_None in Hcol. rewrite Hcol.
  reflexivity.
Qed.

Lemma gemini_classify_row_key e m col dir flag key cols k row d w :
  col ∉ cols ->
  Gemini.classify_row e m col dir flag key cols k row d w = (Raise (mkExn KeyError col), w).
Proof.
  intros Hcol. unfold Gemini.classify_row. apply index_of_None in Hcol. rewrite Hcol.
  reflexivity.
Qed.

(** What [generate_pdf] leaves behind, whatever its outcome. *)
Lemma main_generate_pdf_facts name date notes resp dir w r w' :
  Main.generate_pdf name date notes resp dir w = (r, w') ->
  sent w' = sent w
  /\ match r with
     | Ok _ => exists text,
         name = Str text
         /\ fs w' = <[path_join dir (document_name (main_date_part date) text)
                      := Pdf (page name date notes resp)]> (fs w)
     | Raise _ => fs w' = fs w
     end.
Proof.
  destruct (main_generate_pdf_run name date notes resp dir w) as (w1 & Hfs & Hs & ->).
  destruct name as [| |text|dd]; try (intros [= <- <-]; split; assumption).
  cbv zeta. destruct (disk_error _); intros [= <- <-]; (split; [assumption|]);
    [assumption|].
  exists text. split; [reflexivity|]. cbn [fs]. rewrite Hfs. reflexivity.
Qed.

Lemma gemini_generate_pdf_facts name date notes resp dir w r w' :
  Gemini.generate_pdf name date notes resp dir w = (r, w') ->
  sent w' = sent w
  /\ match r with
     | Ok _ => exists text,
         name = Str text
         /\ fs w' = <[path_join dir (document_name (gemini_date_part date) text)
                      := Pdf (page name date notes resp)]> (fs w)
     | Raise _ => fs w' = fs w
     end.
Proof.
  destruct (gemini_generate_pdf_run name date notes resp dir w) as (w1 & Hfs & Hs & ->).
  destruct name as [| |text|dd]; try (intros [= <- <-]; split; assumption).
  cbv zeta. destruct (disk_error _); intros [= <- <-]; (split; [assumption|]);
    [assumption|].
  exists text. split; [reflexivity|]. cbn [fs]. rewrite Hfs. reflexivity.
Qed.

(** A pass that completes: its request, its stores and its document. *)
Lemma main_classify_row_done e m col dir cols k row d w d' w' :
  Main.classify_row e m col dir cols k row d w = (Ok d', w') ->
  col ∈ cols
  /\ exists reply,
       ollama_reply e m col cols (length (sent w)) row = Ok reply
       /\ d' = Frame.set_at k "AI_P_F" (Str (main_verdict reply))
                 (Frame.set_at k "AI_Response" (Str (stored_response reply)) d)
       /\ sent w' = sent w ++ [main_request e m col cols row]
       /\ fs w' = written (document main_date_part main_verdict dir cols row reply) (fs w).
Proof.
  intros Hrun.
  destruct (decide (col ∈ cols)) as [Hcol|Hcol];
    [|rewrite main_classify_row_key in Hrun by exact Hcol; discriminate].
  split; [exact Hcol|].
  destruct (main_classify_row_run e m col dir cols k row d w Hcol)
    as (w3 & Hs3 & Hf3 & _ & Heq).
  rewrite Heq in Hrun. clear Heq.
  destruct (ollama_reply e m col cols (length (sent w)) row) as [reply|exc]; [|discriminate].
  exists reply. split; [reflexivity|]. cbv zeta in Hrun. unfold document.
  assert (Text.truthy (default EmptyString reply) = false -> main_verdict reply <> "FAILED")
    as Hfalsy by (unfold main_verdict; cbv zeta; intros ->; discriminate).
  destruct (Text.truthy (default EmptyString reply)).
  - case_bool_decide as Hv.
    + destruct (Main.generate_pdf _ _ _ _ _ _) as [[[]|exc] w4] eqn:Hpdf; [|discriminate].
      apply main_generate_pdf_facts in Hpdf as (Hs4 & text & Hname & Hf4).
      injection Hrun as <- <-. split; [reflexivity|]. cbn [sent fs logged].
      split; [rewrite Hs4; exact Hs3|]. rewrite Hname in *. rewrite Hf4, Hf3. reflexivity.
    + injection Hrun as <- <-. split; [reflexivity|]. cbn [sent fs logged].
      split; [exact Hs3|exact Hf3].
  - rewrite bool_decide_eq_false_2 by (apply Hfalsy; reflexivity).
    injection Hrun as <- <-. split; [reflexivity|]. cbn [sent fs logged].
    split; [exact Hs3|exact Hf3].
Qed.

Lemma gemini_classify_row_done e m col dir flag key cols k row d w d' w' :
  Gemini.classify_row e m col dir flag key cols k row d w = (Ok d', w') ->
  col ∈ cols
  /\ exists reply,
       gemini_reply e key m col cols (length (sent w)) row = Ok reply
       /\ d' = Frame.set_at k "Compliant" (Str (gemini_compliant reply))
                 (Frame.set_at k "AI_P_F" (Str (gemini_verdict reply))
                    (Frame.set_at k "AI_Response" (Str (stored_response reply)) d))
       /\ sent w' = sent w ++ [gemini_row_request e key m col cols row]
       /\ fs w' = written (if flag
                           then document gemini_date_part gemini_verdict dir cols row reply
                           else []) (fs w).
Proof.
  intros Hrun.
  destruct (decide (col ∈ cols)) as [Hcol|Hcol];
    [|rewrite gemini_classify_row_key in Hrun by exact Hcol; discriminate].
  split; [exact Hcol|].
  destruct (gemini_classify_row_run e m col dir flag key cols k row d w Hcol)
    as (w3 & Hs3 & Hf3 & _ & Heq).
  rewrite Heq in Hrun. clear Heq.
  destruct (gemini_reply e key m col cols (length (sent w)) row) as [reply|exc];
    [|discriminate].
  exists reply. split; [reflexivity|]. cbv zeta in Hrun. unfold document.
  assert (Text.truthy (default EmptyString reply) = false -> gemini_verdict reply <> "FAILED")
    as Hfalsy by (unfold gemini_verdict; cbv zeta; intros ->; discriminate).
  destruct (Text.truthy (default EmptyString reply)).
  - destruct flag; rewrite ?andb_true_r, ?andb_false_r in Hrun.
    + case_bool_decide as Hv.
      * destruct (Gemini.generate_pdf _ _ _ _ _ _) as [[[]|exc] w4] eqn:Hpdf; [|discriminate].
        apply gemini_generate_pdf_facts in Hpdf as (Hs4 & text & Hname & Hf4).
        injection Hrun as <- <-. split; [reflexivity|]. cbn [sent fs logged].
        split; [rewrite Hs4; exact Hs3|]. rewrite Hname in *. rewrite Hf4, Hf3. reflexivity.
      * injection Hrun as <- <-. split; [reflexivity|]. cbn [sent fs logged].
        split; [exact Hs3|exact Hf3].
    + injection Hrun as <- <-. split; [reflexivity|]. cbn [sent fs logged].
      split; [exact Hs3|exact Hf3].
  - injection Hrun as <- <-. split; [reflexivity|]. cbn [sent fs logged].
    split; [exact Hs3|].
    destruct flag; [rewrite bool_decide_eq_false_2 by (apply Hfalsy; reflexivity)|];
      exact Hf3.
Qed.

End passes.

(** ** What the loops send and write *)

Section written_facts.

Lemma written_app docs docs' files :
  written (docs ++ docs') files = written docs' (written docs files).
Proof. unfold written. apply foldl_app. Qed.

Lemma written_other docs files p :
  p ∉ map fst docs -> written docs files !! p = files !! p.
Proof.
  revert files. induction docs as [|[q f] docs IH]; intros files Hp; [reflexivity|].
  cbn [map fst] in Hp. apply not_elem_of_cons in Hp as [Hne Hp].
  unfold written in *. cbn [foldl fst snd]. rewrite IH by exact Hp.
  apply lookup_insert_ne. congruence.
Qed.

Lemma written_last before p f after files :
  p ∉ map fst after -> written (before ++ (p, f) :: after) files !! p = Some f.
Proof.
  intros Hp. rewrite written_app. change ((p, f) :: after) with ([(p, f)] ++ after).
  rewrite written_app, written_other by exact Hp.
  unfold written at 1. cbn [foldl fst snd]. apply lookup_insert_eq.
Qed.

End written_facts.

Section loops.
Context `{Env}.
Import FrameFacts.

Lemma main_loop_done e m col dir cols snapshot :
  forall k d w d' w',
    iterrows (Main.classify_row e m col dir cols) k snapshot d w = (Ok d', w') ->
    sent w' = sent w ++ map (main_request e m col cols) snapshot
    /\ fs w' = written (main_documents e m col dir cols (length (sent w)) snapshot) (fs w).
Proof.
  induction snapshot as [|row rest IH]; intros k d w d' w' Hrun; simpl in Hrun.
  - injection Hrun as <- <-. simpl. rewrite app_nil_r. split; reflexivity.
  - apply Run.bind_ok in Hrun as (d1 & w1 & Hpass & Hrun).
    apply main_classify_row_done in Hpass as (_ & reply & Hreply & _ & Hs1 & Hf1).
    destruct (IH _ _ _ _ _ Hrun) as (Hs & Hf).
    cbn [map main_documents]. rewrite Hreply, written_app, <- Hf1.
    split; [rewrite Hs, Hs1, <- app_assoc; reflexivity|].
    rewrite Hf, Hs1, length_app. cbn [length]. rewrite Nat.add_1_r. reflexivity.
Qed.

Lemma gemini_loop_done e m col dir flag key cols snapshot :
  forall k d w d' w',
    iterrows (Gemini.classify_row e m col dir flag key cols) k snapshot d w = (Ok d', w') ->
    sent w' = sent w ++ map (gemini_row_request e key m col cols) snapshot
    /\ fs w' = written (gemini_documents e key m col dir flag cols (length (sent w)) snapshot)
                       (fs w).
Proof.
  induction snapshot as [|row rest IH]; intros k d w d' w' Hrun; simpl in Hrun.
  - injection Hrun as <- <-. simpl. rewrite app_nil_r. split; reflexivity.
  - apply Run.bind_ok in Hrun as (d1 & w1 & Hpass & Hrun).
    apply gemini_classify_row_done in Hpass as (_ & reply & Hreply & _ & Hs1 & Hf1).
    destruct (IH _ _ _ _ _ Hrun) as (Hs & Hf).
    cbn [map gemini_documents]. rewrite Hreply, written_app, <- Hf1.
    split; [rewrite Hs, Hs1, <- app_assoc; reflexivity|].
    rewrite Hf, Hs1, length_app. cbn [length]. rewrite Nat.add_1_r. reflexivity.
Qed.

(** A loop that stops early has sent the requests of the rows it reached. *)
Lemma main_loop_sent e m col dir cols snapshot :
  forall k d w r w',
    iterrows (Main.classify_row e m col dir cols) k snapshot d w = (r, w') ->
    exists n, n <= length snapshot
              /\ sent w' = sent w ++ map (main_request e m col cols) (take n snapshot).
Proof.
  induction snapshot as [|row rest IH]; intros k d w r w' Hrun; simpl in Hrun.
  - injection Hrun as <- <-. exists 0. simpl. rewrite app_nil_r. split; [lia|reflexivity].
  - rewrite Run.bind_run in Hrun.
    destruct (decide (col ∈ cols)) as [Hcol|Hcol]; cycle 1.
    { rewrite main_classify_row_key in Hrun by exact Hcol. injection Hrun as <- <-.
      exists 0. simpl. rewrite app_nil_r. split; [lia|reflexivity]. }
    destruct (Main.classify_row e m col dir cols k row d w) as [[d1|exc] w1] eqn:Hpass.
    + apply main_classify_row_done in Hpass as (_ & reply & _ & _ & Hs1 & _).
      destruct (IH _ _ _ _ _ Hrun) as (n & Hn & Hs).
      exists (S n). split; [simpl; lia|]. cbn [take map].
      rewrite Hs, Hs1, <- app_assoc. reflexivity.
    + injection Hrun as <- <-.
      destruct (main_classify_row_run e m col dir cols k row d w Hcol)
        as (w3 & Hs3 & _ & _ & Heq).
      rewrite Heq in Hpass. exists 1. split; [simpl; lia|]. cbn [take map].
      destruct (ollama_reply _ _ _ _ _ _) as [reply|exc'].
      * cbv zeta in Hpass. destruct (Text.truthy _); [|discriminate].
        destruct (bool_decide _); [|discriminate].
        destruct (Main.generate_pdf _ _ _ _ _ _) as [[[]|exc'] w4] eqn:Hpdf; [discriminate|].
        apply main_generate_pdf_facts in Hpdf as (Hs4 & _).
        injection Hpass as _ <-. rewrite Hs4. exact Hs3.
      * injection Hpass as _ <-. exact Hs3.
Qed.

Lemma gemini_loop_sent e m col dir flag key cols snapshot :
  forall k d w r w',
    iterrows (Gemini.classify_row e m col dir flag key cols) k snapshot d w = (r, w') ->
    exists n, n <= length snapshot
              /\ sent w' = sent w ++ map (gemini_row_request e key m col cols)
                                         (take n snapshot).
Proof.
  induction snapshot as [|row rest IH]; intros k d w r w' Hrun; simpl in Hrun.
  - injection Hrun as <- <-. exists 0. simpl. rewrite app_nil_r. split; [lia|reflexivity].
  - rewrite Run.bind_run in Hrun.
    destruct (decide (col ∈ cols)) as [Hcol|Hcol]; cycle 1.
    { rewrite gemini_classify_row_key in Hrun by exact Hcol. injection Hrun as <- <-.
      exists 0. simpl. rewrite app_nil_r. split; [lia|reflexivity]. }
    destruct (Gemini.classify_row e m col dir flag key cols k row d w)
      as [[d1|exc] w1] eqn:Hpass.
    + apply gemini_classify_row_done in Hpass as (_ & reply & _ & _ & Hs1 & _).
      destruct (IH _ _ _ _ _ Hrun) as (n & Hn & Hs).
      exists (S n). split; [simpl; lia|]. cbn [take map].
      rewrite Hs, Hs1, <- app_assoc. reflexivity.
    + injection Hrun as <- <-.
      destruct (gemini_classify_row_run e m col dir flag key cols k row d w Hcol)
        as (w3 & Hs3 & _ & _ & Heq).
      rewrite Heq in Hpass. exists 1. split; [simpl; lia|]. cbn [take map].
      destruct (gemini_reply _ _ _ _ _ _ _) as [reply|exc'].
      * cbv zeta in Hpass. destruct (Text.truthy _); [|discriminate].
        destruct (bool_decide _ && flag); [|discriminate].
        destruct (Gemini.generate_pdf _ _ _ _ _ _) as [[[]|exc'] w4] eqn:Hpdf; [discriminate|].
        apply gemini_generate_pdf_facts in Hpdf as (Hs4 & _).
        injection Hpass as _ <-. rewrite Hs4. exact Hs3.
      * injection Hpass as _ <-. exact Hs3.
Qed.

(** X9. The row loop asks once per row, in row order: however the loop of
    [main.py] or of [gemini_process.py] ends, the requests it has sent are
    those of the first [n] rows, each with the prompt of its row's record
    (and, for Gemini, the bearer key), and a loop that completes has asked
    for every row. *)
Theorem requests_follow_the_rows :
  (forall endpoint model analysis_column pdf_output_dir data w r w',
      Main.classify_rows endpoint model analysis_column pdf_output_dir data w = (r, w') ->
      exists n,
        n <= Frame.len data
        /\ sent w' = sent w
                     ++ map (fun row =>
                               mkRequest (endpoint +:+ "/api/generate") None
                                 [ ("model", model);
                                   ("prompt",
                                    prompt_of (record_of analysis_column (columns data) row)) ])
                            (take n (rows data))
        /\ (forall data', r = Ok data' -> n = Frame.len data))
  /\ (forall endpoint model analysis_column pdf_output_dir generate_pdfs api_key data w r w',
        Gemini.classify_rows endpoint model analysis_column pdf_output_dir generate_pdfs
                             api_key data w = (r, w') ->
        exists n,
          n <= Frame.len data
          /\ sent w' = sent w
                       ++ map (fun row =>
                                 mkRequest (endpoint +:+ "/v1beta/models/" +:+ model
                                            +:+ ":generateContent")
                                   (Some ("Bearer " +:+ api_key))
                                   [ ("prompt",
                                      prompt_of
                                        (record_of analysis_column (columns data) row)) ])
                              (take n (rows data))
          /\ (forall data', r = Ok data' -> n = Frame.len data)).
Proof.
  split.
  - intros e m col dir data w r w' Hrun. unfold Main.classify_rows in Hrun.
    destruct r as [data'|exc].
    + exists (Frame.len data). split; [lia|].
      destruct (main_loop_done _ _ _ _ _ _ _ _ _ _ _ Hrun) as (Hs & _).
      unfold Frame.len. rewrite firstn_all. split; [exact Hs|reflexivity].
    + destruct (main_loop_sent _ _ _ _ _ _ _ _ _ _ _ Hrun) as (n & Hn & Hs).
      exists n. split; [exact Hn|]. split; [exact Hs|discriminate].
  - intros e m col dir flag key data w r w' Hrun. unfold Gemini.classify_rows in Hrun.
    destruct r as [data'|exc].
    + exists (Frame.len data). split; [lia|].
      destruct (gemini_loop_done _ _ _ _ _ _ _ _ _ _ _ _ _ Hrun) as (Hs & _).
      unfold Frame.len. rewrite firstn_all. split; [exact Hs|reflexivity].
    + destruct (gemini_loop_sent _ _ _ _ _ _ _ _ _ _ _ _ _ Hrun) as (n & Hn & Hs).
      exists n. split; [exact Hn|]. split; [exact Hs|discriminate].
Qed.

(** X10. After a loop that completes, the files are the files before it
    with the documents of the FAILED rows written over them in row order:
    a path that is no document's is untouched, the last document written
    at a path is the one on file, and the Gemini loop with document
    generation switched off leaves the files as they were. *)
Theorem documents_are_written_in_row_order :
  (forall endpoint model analysis_column pdf_output_dir data w data' w',
      Main.classify_rows endpoint model analysis_column pdf_output_dir data w
      = (Ok data', w') ->
      let docs := main_documents endpoint model analysis_column pdf_output_dir
                    (columns data) (length (sent w)) (rows data) in
      fs w' = written docs (fs w)
      /\ (forall p, p ∉ map fst docs -> fs w' !! p = fs w !! p)
      /\ (forall before p f after,
            docs = before ++ (p, f) :: after -> p ∉ map fst after -> fs w' !! p = Some f))
  /\ (forall endpoint model analysis_column pdf_output_dir generate_pdfs api_key
             data w data' w',
        Gemini.classify_rows endpoint model analysis_column pdf_output_dir generate_pdfs
                             api_key data w = (Ok data', w') ->
        let docs := gemini_documents endpoint api_key model analysis_column pdf_output_dir
                      generate_pdfs (columns data) (length (sent w)) (rows data) in
        fs w' = written docs (fs w)
        /\ (forall p, p ∉ map fst docs -> fs w' !! p = fs w !! p)
        /\ (forall before p f after,
              docs = before ++ (p, f) :: after -> p ∉ map fst after -> fs w' !! p = Some f)
        /\ (generate_pdfs = false -> fs w' = fs w)).
Proof.
  split.
  - intros e m col dir data w data' w' Hrun. cbv zeta. unfold Main.classify_rows in Hrun.
    destruct (main_loop_done _ _ _ _ _ _ _ _ _ _ _ Hrun) as (_ & Hf).
    split; [exact Hf|]. rewrite Hf. split.
    + intros p Hp. apply written_other. exact Hp.
    + intros before p f after -> Hp. apply written_last. exact Hp.
  - intros e m col dir flag key data w data' w' Hrun. cbv zeta.
    unfold Gemini.classify_rows in Hrun.
    destruct (gemini_loop_done _ _ _ _ _ _ _ _ _ _ _ _ _ Hrun) as (_ & Hf).
    split; [exact Hf|]. rewrite Hf. split; [|split].
    + intros p Hp. apply written_other. exact Hp.
    + intros before p f after -> Hp. apply written_last. exact Hp.
    + intros ->. clear.
      generalize (length (sent w)) as n. induction (rows data) as [|row rest IH]; intros n;
        [reflexivity|].
      cbn [gemini_documents]. destruct (gemini_reply _ _ _ _ _ _ _); cbn [app]; apply IH.
Qed.

End loops.

Ltac other_label :=
  let Hin := fresh "Hin" in
  intros Hin; repeat (apply elem_of_cons in Hin as [?|Hin]; [congruence|]);
  apply elem_of_nil in Hin as [].

Ltac these_labels :=
  let c := fresh "c" in let Hin := fresh "Hin" in
  intros c Hin; repeat (apply elem_of_cons in Hin as [->|Hin]; [assumption|]);
  apply elem_of_nil in Hin as [].

Section input_columns.
Context `{Env}.
Import FrameFacts.

Lemma columns_set_at_present i c v df :
  c ∈ columns df -> columns (Frame.set_at i c v df) = columns df.
Proof. intros Hin. rewrite columns_set_at, bool_decide_eq_true_2 by exact Hin. reflexivity. Qed.

Lemma get_at_store_other k f labels d i c :
  c ∉ labels -> Frame.get_at i c (store k f labels d) = Frame.get_at i c d.
Proof.
  induction labels as [|l ls IH]; intros Hc; [reflexivity|].
  apply not_elem_of_cons in Hc as [Hne Hc]. cbn [store foldr].
  rewrite get_at_set_at_column by exact Hne. apply IH. exact Hc.
Qed.

Lemma columns_store_present k f labels d :
  (forall c, c ∈ labels -> c ∈ columns d) -> columns (store k f labels d) = columns d.
Proof.
  induction labels as [|l ls IH]; intros Hls; [reflexivity|]. cbn [store foldr].
  rewrite columns_set_at_present.
  - apply IH. intros c Hc. apply Hls. right. exact Hc.
  - apply Loop.columns_store_mono. apply Hls. left.
Qed.

(** The stores of a loop leave every other column as it was. *)
Lemma iterrows_other_columns body labels snapshot :
  (forall k row d w d' w',
      body k row d w = (Ok d', w') -> exists f, d' = store k f labels d) ->
  forall k d w d' w',
    iterrows body k snapshot d w = (Ok d', w') ->
    Frame.len d' = Frame.len d
    /\ (forall c, c ∈ columns d -> c ∈ columns d')
    /\ (forall i c, c ∉ labels -> Frame.get_at i c d' = Frame.get_at i c d)
    /\ ((forall c, c ∈ labels -> c ∈ columns d) -> columns d' = columns d).
Proof.
  intros Hbody. induction snapshot as [|row rest IH]; intros k d w d' w' Hrun; simpl in Hrun.
  - injection Hrun as <- <-. repeat split; auto.
  - apply Run.bind_ok in Hrun as (d1 & w1 & Hpass & Hrun).
    destruct (Hbody _ _ _ _ _ _ Hpass) as [f ->].
    destruct (IH _ _ _ _ _ Hrun) as (Hlen & Hmono & Hval & Hcols).
    split; [rewrite Hlen; apply Loop.len_store|].
    split; [intros c Hc; apply Hmono, Loop.columns_store_mono; exact Hc|].
    split.
    + intros i c Hc. rewrite (Hval i c Hc). apply get_at_store_other. exact Hc.
    + intros Hin. rewrite Hcols.
      * apply columns_store_present. exact Hin.
      * intros c Hc. rewrite columns_store_present by exact Hin. apply Hin. exact Hc.
Qed.

(** X11. A loop that completes keeps the table's shape: the number of rows
    and every column label are kept, no value outside the result columns
    ([AI_P_F] and [AI_Response], and [Compliant] in [gemini_process.py])
    changes, and no column is added when the result columns are there
    already. *)
Theorem classification_keeps_the_input_columns :
  (forall endpoint model analysis_column pdf_output_dir data w data' w',
      Main.classify_rows endpoint model analysis_column pdf_output_dir data w
      = (Ok data', w') ->
      Frame.len data' = Frame.len data
      /\ (forall c, c ∈ columns data -> c ∈ columns data')
      /\ (forall i c, c <> "AI_P_F" -> c <> "AI_Response" ->
            Frame.get_at i c data' = Frame.get_at i c data)
      /\ ("AI_P_F" ∈ columns data -> "AI_Response" ∈ columns data ->
          columns data' = columns data))
  /\ (forall endpoint model analysis_column pdf_output_dir generate_pdfs api_key
             data w data' w',
        Gemini.classify_rows endpoint model analysis_column pdf_output_dir generate_pdfs
                             api_key data w = (Ok data', w') ->
        Frame.len data' = Frame.len data
        /\ (forall c, c ∈ columns data -> c ∈ columns data')
        /\ (forall i c, c <> "Compliant" -> c <> "AI_P_F" -> c <> "AI_Response" ->
              Frame.get_at i c data' = Frame.get_at i c data)
        /\ ("Compliant" ∈ columns data -> "AI_P_F" ∈ columns data ->
            "AI_Response" ∈ columns data -> columns data' = columns data)).
Proof.
  split.
  - intros e m col dir data w data' w' Hrun. unfold Main.classify_rows in Hrun.
    assert (forall k row d w1 d1 w2,
               Main.classify_row e m col dir (columns data) k row d w1 = (Ok d1, w2) ->
               exists f, d1 = store k f ["AI_P_F"; "AI_Response"] d) as Hbody.
    { intros k row d w1 d1 w2 Hpass.
      apply main_classify_row_done in Hpass as (_ & reply & _ & -> & _).
      exists (fun c => if decide (c = "AI_P_F") then Str (main_verdict reply)
                       else Str (stored_response reply)). reflexivity. }
    destruct (iterrows_other_columns _ _ _ Hbody _ _ _ _ _ Hrun)
      as (Hlen & Hmono & Hval & Hcols).
    split; [exact Hlen|]. split; [exact Hmono|]. split.
    + intros i c H1 H2. apply Hval. other_label.
    + intros H1 H2. apply Hcols. these_labels.
  - intros e m col dir flag key data w data' w' Hrun. unfold Gemini.classify_rows in Hrun.
    assert (forall k row d w1 d1 w2,
               Gemini.classify_row e m col dir flag key (columns data) k row d w1
               = (Ok d1, w2) ->
               exists f, d1 = store k f ["Compliant"; "AI_P_F"; "AI_Response"] d) as Hbody.
    { intros k row d w1 d1 w2 Hpass.
      apply gemini_classify_row_done in Hpass as (_ & reply & _ & -> & _).
      exists (fun c => if decide (c = "AI_P_F") then Str (gemini_verdict reply)
                       else if decide (c = "Compliant") then Str (gemini_compliant reply)
                       else Str (stored_response reply)). reflexivity. }
    destruct (iterrows_other_columns _ _ _ Hbody _ _ _ _ _ Hrun)
      as (Hlen & Hmono & Hval & Hcols).
    split; [exact Hlen|]. split; [exact Hmono|]. split.
    + intros i c H1 H2 H3. apply Hval. other_label.
    + intros H1 H2 H3. apply Hcols. these_labels.
Qed.

End input_columns.

Section malformed.
Context `{Env}.
Import FrameFacts.

(** X13. A reply of an unexpected shape ends the loop: the exception
    raised while the reply is read leaves the row loop at that row, after
    the row's one request and with no file written, in both workflows.  For
    Ollama this happens exactly when a line of the stream is JSON but no
    object or has a ["response"] that is no text; for Gemini an empty
    ["candidates"] list raises the [IndexError], while a reply without
    ["candidates"] reads as the empty text. *)
Theorem malformed_reply_ends_the_loop :
  (forall endpoint model analysis_column pdf_output_dir cols index row rest data w exc,
      analysis_column ∈ cols ->
      ollama_reply endpoint model analysis_column cols (length (sent w)) row = Raise exc ->
      exists w',
        iterrows (Main.classify_row endpoint model analysis_column pdf_output_dir cols)
                 index (row :: rest) data w = (Raise exc, w')
        /\ fs w' = fs w
        /\ sent w' = sent w ++ [main_request endpoint model analysis_column cols row])
  /\ (forall endpoint model analysis_column pdf_output_dir generate_pdfs api_key cols
             index row rest data w exc,
        analysis_column ∈ cols ->
        gemini_reply endpoint api_key model analysis_column cols (length (sent w)) row
        = Raise exc ->
        exists w',
          iterrows (Gemini.classify_row endpoint model analysis_column pdf_output_dir
                      generate_pdfs api_key cols) index (row :: rest) data w
          = (Raise exc, w')
          /\ fs w' = fs w
          /\ sent w' = sent w
                       ++ [gemini_row_request endpoint api_key model analysis_column cols row])
  /\ (forall endpoint model analysis_column cols n row,
        (exists exc, ollama_reply endpoint model analysis_column cols n row = Raise exc)
        <-> exists lines,
              ollama_post n (main_request endpoint model analysis_column cols row)
              = OllamaStream lines
              /\ mapM line_text lines = None)
  /\ (forall endpoint api_key model analysis_column cols n row,
        (gemini_post n (gemini_row_request endpoint api_key model analysis_column cols row)
         = GeminiJson (Some []) ->
         gemini_reply endpoint api_key model analysis_column cols n row
         = Raise (mkExn IndexError "list index out of range"))
        /\ (gemini_post n (gemini_row_request endpoint api_key model analysis_column cols row)
            = GeminiJson None ->
            gemini_reply endpoint api_key model analysis_column cols n row
            = Ok (Some EmptyString))).
Proof.
  split; [|split; [|split]].
  - intros e m col dir cols k row rest d w exc Hcol Hreply.
    destruct (main_classify_row_run e m col dir cols k row d w Hcol)
      as (w3 & Hs3 & Hf3 & _ & Heq).
    rewrite Hreply in Heq. exists w3. split; [|split; assumption].
    simpl. apply Run.bind_raise. exact Heq.
  - intros e m col dir flag key cols k row rest d w exc Hcol Hreply.
    destruct (gemini_classify_row_run e m col dir flag key cols k row d w Hcol)
      as (w3 & Hs3 & Hf3 & _ & Heq).
    rewrite Hreply in Heq. exists w3. split; [|split; assumption].
    simpl. apply Run.bind_raise. exact Heq.
  - intros e m col cols n row. unfold ollama_reply, ollama_answer.
    change (Main.ollama_request e m (prompt_of (record_of col cols row)))
      with (main_request e m col cols row).
    destruct (ollama_post n (main_request e m col cols row)) as [msg|lines].
    + split; [intros [exc Hexc]; discriminate|intros (lines & Hl & _); discriminate].
    + destruct (mapM line_text lines) as [texts|] eqn:E.
      * rewrite (read_stream_texts _ _ _ E). split; [intros [exc Hexc]; discriminate|].
        intros (lines' & [= <-] & Hnone). congruence.
      * destruct (read_stream_malformed lines "" E) as (exc & -> & _).
        split; [intros _; exists lines; split; [reflexivity|exact E]|eauto].
  - intros e key m col cols n row. unfold gemini_reply, gemini_answer.
    change (Gemini.gemini_request e key m (prompt_of (record_of col cols row)))
      with (gemini_row_request e key m col cols row).
    split; intros ->; reflexivity.
Qed.

End malformed.

Section main_report.
Context `{Env}.
Import FrameFacts ProjectionFacts.

Lemma with_result_columns_spec data :
  Frame.len (Main.with_result_columns data) = Frame.len data
  /\ "AI_P_F" ∈ columns (Main.with_result_columns data)
  /\ "AI_Response" ∈ columns (Main.with_result_columns data)
  /\ (forall c, c ∈ columns data -> c ∈ columns (Main.with_result_columns data))
  /\ (forall c, c ∈ columns (Main.with_result_columns data) ->
        c ∈ columns data \/ c = "AI_P_F" \/ c = "AI_Response")
  /\ (forall i c, c ∈ columns data ->
        Frame.get_at i c (Main.with_result_columns data) = Frame.get_at i c data)
  /\ (NoDup (columns data) -> NoDup (columns (Main.with_result_columns data)))
  /\ List.filter (fun c => negb (bool_decide (c ∈ ["AI_P_F"; "AI_Response"])))
                 (columns (Main.with_result_columns data))
     = List.filter (fun c => negb (bool_decide (c ∈ ["AI_P_F"; "AI_Response"])))
                   (columns data).
Proof.
  unfold Main.with_result_columns.
  destruct (fill_step "AI_P_F" (Str "") data) as (Hl1 & Hin1 & Hk1 & Hn1 & Hv1 & _ & Hd1).
  cbv zeta in *.
  set (data1 := if Frame.has_column "AI_P_F" data then data
                else Frame.assign "AI_P_F" (Str "") data) in *.
  destruct (fill_step "AI_Response" (Str "") data1)
    as (Hl2 & Hin2 & Hk2 & Hn2 & Hv2 & _ & Hd2).
  cbv zeta in *.
  set (data2 := if Frame.has_column "AI_Response" data1 then data1
                else Frame.assign "AI_Response" (Str "") data1) in *.
  split; [congruence|]. split; [auto|]. split; [auto|]. split; [auto|].
  split; [intros c Hc; destruct (Hn2 c Hc) as [Hc1| ->]; [destruct (Hn1 c Hc1); auto|auto]|].
  split; [intros i c Hc; rewrite Hv2 by auto; apply Hv1; exact Hc|].
  split; [auto|].
  assert (forall (c : string) d, columns (if Frame.has_column c d then d
                                          else Frame.assign c (Str "") d)
                                 = columns d ++ (if Frame.has_column c d then [] else [c]))
    as Hcols.
  { intros c d. unfold Frame.has_column. case_bool_decide as Hin.
    - rewrite app_nil_r. reflexivity.
    - unfold Frame.assign. apply positions_nil in Hin. rewrite Hin. reflexivity. }
  subst data2 data1. rewrite !Hcols, !List.filter_app.
  destruct (Frame.has_column "AI_P_F" data), (Frame.has_column "AI_Response" _);
    cbn [List.filter]; rewrite ?app_nil_r; reflexivity.
Qed.

End main_report.

Section progress.
Context `{Env}.
Import FrameFacts.

(** A pass completes when the reply is read without error and no document
    is due. *)
Lemma main_classify_row_quiet e m col dir cols k row d w reply :
  col ∈ cols ->
  ollama_reply e m col cols (length (sent w)) row = Ok reply ->
  main_verdict reply <> "FAILED" ->
  exists d' w', Main.classify_row e m col dir cols k row d w = (Ok d', w').
Proof.
  intros Hcol Hreply Hquiet.
  destruct (main_classify_row_run e m col dir cols k row d w Hcol)
    as (w3 & _ & _ & _ & ->).
  rewrite Hreply. cbv zeta.
  destruct (Text.truthy (default EmptyString reply)); [|eauto].
  case_bool_decide as Hv; [contradiction|eauto].
Qed.

Lemma gemini_classify_row_quiet e m col dir flag key cols k row d w reply :
  col ∈ cols ->
  gemini_reply e key m col cols (length (sent w)) row = Ok reply ->
  flag = false \/ gemini_verdict reply <> "FAILED" ->
  exists d' w', Gemini.classify_row e m col dir flag key cols k row d w = (Ok d', w').
Proof.
  intros Hcol Hreply Hquiet.
  destruct (gemini_classify_row_run e m col dir flag key cols k row d w Hcol)
    as (w3 & _ & _ & _ & ->).
  rewrite Hreply. cbv zeta.
  destruct (Text.truthy (default EmptyString reply)); [|eauto].
  destruct flag; rewrite ?andb_true_r, ?andb_false_r; [|eauto].
  case_bool_decide as Hv; [|eauto].
  destruct Hquiet as [Hoff|Hquiet]; [discriminate Hoff|contradiction].
Qed.

Lemma main_loop_quiet e m col dir cols :
  col ∈ cols ->
  (forall n req, exists reply,
      ollama_answer (ollama_post n req) = Ok reply /\ main_verdict reply <> "FAILED") ->
  forall snapshot k d w, exists d' w',
    iterrows (Main.classify_row e m col dir cols) k snapshot d w = (Ok d', w').
Proof.
  intros Hcol Hsvc. induction snapshot as [|row rest IH]; intros k d w; [simpl; eauto|].
  destruct (Hsvc (length (sent w)) (Main.ollama_request e m (prompt_of (record_of col cols row))))
    as (reply & Hreply & Hquiet).
  destruct (main_classify_row_quiet e m col dir cols k row d w reply Hcol Hreply Hquiet)
    as (d1 & w1 & Hpass).
  destruct (IH (S k) d1 w1) as (d' & w' & Hrest).
  exists d', w'. simpl. rewrite (Run.bind_step _ _ _ _ _ Hpass). exact Hrest.
Qed.

Lemma gemini_loop_quiet e m col dir flag key cols :
  col ∈ cols ->
  (forall n req, exists reply,
      gemini_answer (gemini_post n req) = Ok reply
      /\ (flag = false \/ gemini_verdict reply <> "FAILED")) ->
  forall snapshot k d w, exists d' w',
    iterrows (Gemini.classify_row e m col dir flag key cols) k snapshot d w = (Ok d', w').
Proof.
  intros Hcol Hsvc. induction snapshot as [|row rest IH]; intros k d w; [simpl; eauto|].
  destruct (Hsvc (length (sent w))
              (Gemini.gemini_request e key m (prompt_of (record_of col cols row))))
    as (reply & Hreply & Hquiet).
  destruct (gemini_classify_row_quiet e m col dir flag key cols k row d w reply Hcol Hreply
              Hquiet) as (d1 & w1 & Hpass).
  destruct (IH (S k) d1 w1) as (d' & w' & Hrest).
  exists d', w'. simpl. rewrite (Run.bind_step _ _ _ _ _ Hpass). exact Hrest.
Qed.

(** X12. When no document is due, the loop cannot fail.  For an input
    that has the analysis column and none of the result columns, so that
    the loop stores only in columns it made itself, and a service whose
    every reply is read without error (a transport failure included): the
    loop of [gemini_process.py] with document generation off completes, and
    so do that loop with documents and the loop of [main.py] when no reply
    reads as FAILED. *)
Theorem classification_without_documents_completes :
  forall endpoint model analysis_column pdf_output_dir api_key df w,
    analysis_column ∈ columns df ->
    "AI_P_F" ∉ columns df -> "AI_Response" ∉ columns df -> "Compliant" ∉ columns df ->
    ((forall n req, exists reply, gemini_answer (gemini_post n req) = Ok reply) ->
     exists data' w',
       Gemini.classify_rows endpoint model analysis_column pdf_output_dir false api_key
                            (Gemini.with_result_columns (loaded df)) w = (Ok data', w'))
    /\ ((forall n req, exists reply,
            gemini_answer (gemini_post n req) = Ok reply
            /\ gemini_verdict reply <> "FAILED") ->
        exists data' w',
          Gemini.classify_rows endpoint model analysis_column pdf_output_dir true api_key
                               (Gemini.with_result_columns (loaded df)) w = (Ok data', w'))
    /\ ((forall n req, exists reply,
            ollama_answer (ollama_post n req) = Ok reply
            /\ main_verdict reply <> "FAILED") ->
        exists data' w',
          Main.classify_rows endpoint model analysis_column pdf_output_dir
                             (Main.with_result_columns (loaded df)) w = (Ok data', w')).
Proof.
  intros e m col dir key df w Hcol _ _ _.
  assert (col ∈ columns (Main.with_result_columns (loaded df))) as Hcol'
    by (apply with_result_columns_spec; exact Hcol).
  split; [|split].
  - intros Hsvc. unfold Gemini.classify_rows. apply gemini_loop_quiet; [exact Hcol'|].
    intros n req. destruct (Hsvc n req) as [reply Hreply]. exists reply. auto.
  - intros Hsvc. unfold Gemini.classify_rows. apply gemini_loop_quiet; [exact Hcol'|].
    intros n req. destruct (Hsvc n req) as (reply & Hreply & Hquiet). exists reply. auto.
  - intros Hsvc. unfold Main.classify_rows. apply main_loop_quiet; assumption.
Qed.

End progress.

Section main_report.
Context `{Env}.
Import FrameFacts ProjectionFacts.

Lemma main_loop_columns e m col dir data w data' w' :
  Main.classify_rows e m col dir data w = (Ok data', w') ->
  Frame.len data' = Frame.len data
  /\ (forall c, c ∈ columns data -> c ∈ columns data')
  /\ (forall i c, c ∉ ["AI_P_F"; "AI_Response"] ->
        Frame.get_at i c data' = Frame.get_at i c data)
  /\ ((forall c, c ∈ ["AI_P_F"; "AI_Response"] -> c ∈ columns data) ->
      columns data' = columns data).
Proof.
  unfold Main.classify_rows. apply iterrows_other_columns.
  intros k row d w1 d1 w2 Hpass.
  apply main_classify_row_done in Hpass as (_ & reply & _ & -> & _).
  exists (fun c => if decide (c = "AI_P_F") then Str (main_verdict reply)
                   else Str (stored_response reply)). reflexivity.
Qed.

Lemma select_run labels df :
  NoDup (columns df) -> (forall l, l ∈ labels -> l ∈ columns df) ->
  exists out, Frame.select labels df = Some out
              /\ columns out = labels
              /\ Frame.len out = Frame.len df
              /\ forall i c, c ∈ labels -> Frame.get_at i c out = Frame.get_at i c df.
Proof.
  intros Hnd Hall. destruct (select_positions_total labels (columns df) Hall) as [ps Hps].
  assert (exists out, Frame.select labels df = Some out) as [out Hout]
    by (unfold Frame.select; rewrite Hps; simpl; eauto).
  exists out. split; [exact Hout|]. split.
  - unfold Frame.select in Hout. rewrite Hps in Hout. simpl in Hout. injection Hout as <-.
    cbn [columns]. apply select_positions_exact; assumption.
  - split; [eapply len_select; exact Hout|].
    intros i c Hc. eapply get_at_select; eassumption.
Qed.

(** X14. The report of [main.py]: for an input table with distinct column
    labels that has the analysis column, when the loop completes the report
    has the columns [AI_P_F], [AI_Response] and then the input's other
    columns in their order, one row per input row, the values of the
    classified table, and the input's own values in the input's columns.
    It is written to the output path and two lines are logged; when the
    disk refuses the output path, the [OSError] leaves the function. *)
Theorem main_report_layout :
  forall csv_path endpoint model analysis_column output_path pdf_output_dir w df data' w1,
    fs w !! csv_path = Some (Csv df) ->
    NoDup (columns df) ->
    analysis_column ∈ columns df ->
    Main.classify_rows endpoint model analysis_column pdf_output_dir
      (Main.with_result_columns (loaded df))
      (logged [ (INFO, "Available columns in the CSV: " +:+ Text.repr_list (columns df));
                (CONSOLE, "Available columns in the CSV: " +:+ Text.repr_list (columns df));
                (CONSOLE, "Processing "
                          +:+ pretty (Frame.len (Main.with_result_columns (loaded df)))
                          +:+ " records...") ] w)
    = (Ok data', w1) ->
    exists report,
      columns report
      = "AI_P_F" :: "AI_Response"
        :: List.filter (fun c => negb (bool_decide (c ∈ ["AI_P_F"; "AI_Response"])))
                       (columns df)
      /\ Frame.len report = length (rows df)
      /\ (forall i c, c ∈ columns report -> Frame.get_at i c report = Frame.get_at i c data')
      /\ (forall i c, c ∈ columns df -> c <> "AI_P_F" -> c <> "AI_Response" ->
            Frame.get_at i c report = Frame.get_at i c (loaded df))
      /\ match disk_error output_path with
         | None =>
             Main.process_csv_for_pass_fail_and_generate_pdfs
               csv_path endpoint model analysis_column output_path pdf_output_dir w
             = (Ok tt,
                logged [ (INFO, "Results saved to " +:+ output_path);
                         (CONSOLE, "Results saved to " +:+ output_path) ]
                       (mkWorld (<[output_path := Csv report]> (fs w1)) (dirs w1) (logs w1)
                                (sent w1)))
         | Some msg =>
             Main.process_csv_for_pass_fail_and_generate_pdfs
               csv_path endpoint model analysis_column output_path pdf_output_dir w
             = (Raise (mkExn OSError msg), w1)
         end.
Proof.
  intros csv e m col out dir w df data' w1 Hf Hnd Hcol Hloop.
  destruct (with_result_columns_spec (loaded df))
    as (Hl0 & Hpf & Hresp & Hmono0 & _ & Hv0 & Hnd0 & Hfilter).
  destruct (main_loop_columns _ _ _ _ _ _ _ _ Hloop) as (Hlen & _ & Hval & Hc).
  assert (columns data' = columns (Main.with_result_columns (loaded df))) as Hcols
    by (apply Hc; these_labels).
  clear Hc.
  set (others := List.filter (fun c => negb (bool_decide (c ∈ ["AI_P_F"; "AI_Response"])))
                             (columns df)).
  destruct (select_run (["AI_P_F"; "AI_Response"] ++ others) data')
    as (report & Hsel & Hrc & Hrl & Hrv).
  { rewrite Hcols. apply Hnd0. exact Hnd. }
  { intros l Hl. rewrite Hcols. apply elem_of_app in Hl as [Hl|Hl].
    - revert l Hl. these_labels.
    - apply Hmono0. apply list_elem_of_In in Hl. apply filter_In in Hl as [Hl _].
      apply list_elem_of_In. exact Hl. }
  exists report. split; [exact Hrc|].
  split; [rewrite Hrl, Hlen, Hl0; unfold Frame.len, loaded; cbn [rows]; apply length_map|].
  split; [intros i c Hc; apply Hrv; rewrite <- Hrc; exact Hc|].
  split.
  { intros i c Hc H1 H2. rewrite Hrv, Hval, Hv0; [reflexivity|exact Hc|other_label|].
    apply elem_of_app. right. apply list_elem_of_In, filter_In.
    split; [apply list_elem_of_In; exact Hc|].
    apply negb_true_iff, bool_decide_eq_false_2. other_label. }
  assert (Frame.has_column col (loaded df) = true) as Hhas
    by (unfold Frame.has_column; apply bool_decide_eq_true_2; exact Hcol).
  assert (Main.process_csv_for_pass_fail_and_generate_pdfs csv e m col out dir w
            = (to_csv report out;;
               logging INFO ("Results saved to " +:+ out);;
               log_to_console ("Results saved to " +:+ out)) w1) as Hproc.
  { unfold Main.process_csv_for_pass_fail_and_generate_pdfs.
    erewrite Run.bind_step by (apply read_csv_run; exact Hf). cbv beta iota.
    erewrite Run.bind_step by apply logging_run. cbv beta iota.
    erewrite Run.bind_step by apply log_to_console_run. cbv beta iota.
    rewrite Hhas. cbn [negb]. cbv zeta.
    erewrite Run.bind_step by apply log_to_console_run. cbv beta iota.
    rewrite !logged_logged. cbn [app].
    erewrite Run.bind_step by exact Hloop. cbv beta iota zeta.
    rewrite Hcols, Hfilter. change (columns (loaded df)) with (columns df). fold others.
    change ("AI_P_F" :: "AI_Response" :: others) with (["AI_P_F"; "AI_Response"] ++ others).
    rewrite Hsel. cbn [or_key_error].
    erewrite Run.bind_step by reflexivity. cbv beta iota. reflexivity. }
  rewrite Hproc. clear Hproc.
  destruct (disk_error out) as [msg|] eqn:Hdisk.
  - apply Run.bind_raise. unfold to_csv, write_file. rewrite Hdisk. reflexivity.
  - erewrite Run.bind_step by (unfold to_csv, write_file; rewrite Hdisk; reflexivity).
    cbv beta iota.
    erewrite Run.bind_step by apply logging_run. cbv beta iota.
    rewrite log_to_console_run, logged_logged. reflexivity.
Qed.

End main_report.

(** ** What a run leaves alone *)

Module Within.

Lemma of_keeps {A} P (m : M A) : keeps fs m -> writes_within P m.
Proof. intros Hk w r w' Hrun p _. rewrite (Hk _ _ _ Hrun). reflexivity. Qed.

Lemma bind {A B} P (m : M A) (f : A -> M B) :
  writes_within P m -> (forall a, writes_within P (f a)) -> writes_within P (m ≫= f).
Proof.
  intros Hm Hf w r w'. rewrite Run.bind_run.
  destruct (m w) as [[a|e] w1] eqn:E.
  - intros Hk p Hp. rewrite (Hf _ _ _ _ Hk p Hp). eapply Hm; eassumption.
  - intros [= _ <-]. eapply Hm; eassumption.
Qed.

Lemma try {A} P (m : M A) catches handler :
  writes_within P m -> (forall e, writes_within P (handler e)) ->
  writes_within P (try_except m catches handler).
Proof.
  intros Hm Hh w r w'. unfold try_except.
  destruct (m w) as [[a|e] w1] eqn:E.
  - intros [= _ <-]. eapply Hm; eassumption.
  - destruct (catches e).
    + intros Hk p Hp. rewrite (Hh _ _ _ _ Hk p Hp). eapply Hm; eassumption.
    + intros [= _ <-]. eapply Hm; eassumption.
Qed.

Lemma write_file `{Env} (P : string -> Prop) path f : P path -> writes_within P (write_file path f).
Proof.
  intros HP w r w'. unfold write_file.
  destruct (disk_error path); intros [= _ <-] p Hp; [reflexivity|].
  cbn [fs]. apply lookup_insert_ne. intros ->. contradiction.
Qed.

Lemma iterrows P body snapshot :
  (forall k row d, writes_within P (body k row d)) ->
  forall k d, writes_within P (iterrows body k snapshot d).
Proof.
  intros Hbody. induction snapshot as [|row rest IH]; intros k d; simpl.
  - apply of_keeps, Run.keeps_ret.
  - apply bind; [apply Hbody|]. intros d1. apply IH.
Qed.

Lemma read_csv `{Env} path : keeps fs (read_csv path).
Proof.
  intros w r w'. unfold read_csv.
  destruct (fs w !! path) as [[df|cells]|]; intros [= _ <-]; reflexivity.
Qed.

Lemma requests_post_main `{Env} req : keeps fs (Main.requests_post req).
Proof.
  intros w r w'. unfold Main.requests_post.
  destruct (ollama_post _ _); intros [= _ <-]; reflexivity.
Qed.

Lemma requests_post_gemini `{Env} req : keeps fs (Gemini.requests_post req).
Proof.
  intros w r w'. unfold Gemini.requests_post.
  destruct (gemini_post _ _); intros [= _ <-]; reflexivity.
Qed.

Lemma os_path_exists d : keeps fs (os_path_exists d).
Proof. intros w r w' [= _ <-]. reflexivity. Qed.

End Within.

Ltac within_step :=
first
  [ apply Within.bind; [|intros ?]
  | apply Within.try; [|intros ?]
  | apply Within.of_keeps;
    first [ apply Run.keeps_ret | apply Run.keeps_raise | apply Run.keeps_from_result
          | apply Run.keeps_or_key_error | apply Run.keeps_or_value_error
          | apply Run.logging_fs | apply Run.makedirs_fs | apply Within.read_csv
          | apply Within.requests_post_main | apply Within.requests_post_gemini
          | apply Within.os_path_exists ] ].

Section frames.
Context `{Env}.
Import TextFacts.

Lemma startswith_app p s : Text.startswith p (p +:+ s) = true.
Proof.
  induction p as [|c p IH]; [reflexivity|]. rewrite app_cons. simpl.
  rewrite Ascii.eqb_refl. exact IH.
Qed.

Lemma under_path_join dir name : under dir (path_join dir name).
Proof.
  unfold under, path_join. rewrite <- append_assoc. apply startswith_app.
Qed.

Lemma filter_by_date_within P data s e : writes_within P (filter_by_date data s e).
Proof.
  unfold filter_by_date, strptime. repeat within_step.
Qed.

Lemma main_generate_pdf_within name date notes resp dir :
  writes_within (under dir) (Main.generate_pdf name date notes resp dir).
Proof.
  unfold Main.generate_pdf, Main.parse, replace_spaces.
  repeat within_step.
  - destruct date; repeat within_step.
  - destruct name; repeat within_step.
  - apply Within.write_file, under_path_join.
Qed.

Lemma gemini_generate_pdf_within name date notes resp dir :
  writes_within (under dir) (Gemini.generate_pdf name date notes resp dir).
Proof.
  unfold Gemini.generate_pdf, Gemini.strptime_Ymd, replace_spaces.
  repeat within_step.
  - destruct date; repeat within_step.
  - destruct name; repeat within_step.
  - apply Within.write_file, under_path_join.
Qed.

Lemma main_classify_row_within e m col dir cols k row d :
  writes_within (under dir) (Main.classify_row e m col dir cols k row d).
Proof.
  unfold Main.classify_row, Main.query_ollama. repeat within_step.
  cbv zeta. destruct (Text.truthy _); repeat within_step.
  destruct (bool_decide _); [apply main_generate_pdf_within|within_step].
Qed.

Lemma gemini_classify_row_within e m col dir flag key cols k row d :
  writes_within (under dir) (Gemini.classify_row e m col dir flag key cols k row d).
Proof.
  unfold Gemini.classify_row, Gemini.query_gemini. repeat within_step.
  cbv zeta. destruct (Text.truthy _); repeat within_step.
  destruct (Gemini.pass_fail_of _) as [pass_fail compliant]. repeat within_step.
  destruct (bool_decide _ && flag); [apply gemini_generate_pdf_within|within_step].
Qed.

Lemma within_weaken {A} (P Q : string -> Prop) (m : M A) :
  (forall p, P p -> Q p) -> writes_within P m -> writes_within Q m.
Proof. intros HPQ Hm w r w' Hrun p Hp. eapply Hm; [exact Hrun|]. auto. Qed.

Lemma main_process_within csv e m col out dir :
  writes_within (fun p => p = out \/ under dir p)
    (Main.process_csv_for_pass_fail_and_generate_pdfs csv e m col out dir).
Proof.
  unfold Main.process_csv_for_pass_fail_and_generate_pdfs. repeat within_step.
  destruct (negb _); repeat within_step.
  - unfold Main.classify_rows. apply Within.iterrows. intros k row d.
    eapply within_weaken; [|apply main_classify_row_within]. auto.
  - apply Within.write_file. left. reflexivity.
Qed.

Lemma gemini_process_within csv e m col out dir flag key :
  writes_within (fun p => p = out \/ under dir p)
    (Gemini.process_csv_for_pass_fail_and_generate_pdfs csv e m col out dir flag key).
Proof.
  unfold Gemini.process_csv_for_pass_fail_and_generate_pdfs, Gemini.first_projection,
    Gemini.second_projection.
  repeat within_step.
  destruct (negb _); repeat within_step.
  - unfold Main.classify_rows. apply Within.iterrows. intros k row d.
    eapply within_weaken; [|apply gemini_classify_row_within]. auto.
  - apply Within.write_file. left. reflexivity.
  - apply Within.write_file. left. reflexivity.
Qed.

End frames.

Section run_frames.
Context `{Env}.

Lemma main_run_within input s e :
  writes_within (fun p => p = "ai_processed_data.csv" \/ p = "output_with_ai.csv"
                          \/ under "pdf_reports" p)
    (Main.run_ai_on_csv input s e).
Proof.
  unfold Main.run_ai_on_csv. repeat first [within_step | apply filter_by_date_within].
  destruct (Frame.empty _); [repeat within_step|]. cbv zeta.
  repeat first
    [ solve [eapply within_weaken; [|apply main_process_within]; intros p [->|Hp]; auto]
    | solve [apply Within.write_file; left; reflexivity]
    | within_step ].
Qed.

Lemma gemini_run_within input s e flag ep model key :
  writes_within (fun p => p = "ai_processed_data.csv" \/ p = "output_with_ai.csv"
                          \/ under "pdf_reports" p)
    (Gemini.run_ai_on_csv input s e flag ep model key).
Proof.
  unfold Gemini.run_ai_on_csv. repeat first [within_step | apply filter_by_date_within].
  destruct (Frame.empty _); [repeat within_step|]. cbv zeta.
  repeat first
    [ solve [eapply within_weaken; [|apply gemini_process_within]; intros p [->|Hp]; auto]
    | solve [apply Within.write_file; left; reflexivity]
    | within_step ].
Qed.

(** X15. [run_ai_on_csv] of [main.py] and of [gemini_process.py], however
    it ends, changes no file other than [ai_processed_data.csv],
    [output_with_ai.csv] and the files under [pdf_reports/]. *)
Theorem run_writes_only_its_outputs :
  (forall input_csv start_date end_date w r w',
      Main.run_ai_on_csv input_csv start_date end_date w = (r, w') ->
      forall p,
        p <> "ai_processed_data.csv" -> p <> "output_with_ai.csv" ->
        Text.startswith "pdf_reports/" p = false ->
        fs w' !! p = fs w !! p)
  /\ (forall input_csv start_date end_date generate_pdfs gemini_endpoint gemini_model api_key
             w r w',
        Gemini.run_ai_on_csv input_csv start_date end_date generate_pdfs gemini_endpoint
                             gemini_model api_key w = (r, w') ->
        forall p,
          p <> "ai_processed_data.csv" -> p <> "output_with_ai.csv" ->
          Text.startswith "pdf_reports/" p = false ->
          fs w' !! p = fs w !! p).
Proof.
  split.
  - intros input s e w r w' Hrun p H1 H2 H3.
    eapply main_run_within; [exact Hrun|]. unfold under.
    change ("pdf_reports" +:+ "/") with "pdf_reports/".
    intros [?|[?|?]]; congruence.
  - intros input s e flag ep model key w r w' Hrun p H1 H2 H3.
    eapply gemini_run_within; [exact Hrun|]. unfold under.
    change ("pdf_reports" +:+ "/") with "pdf_reports/".
    intros [?|[?|?]]; congruence.
Qed.

End run_frames.

Lemma run_writes_only_its_outputs_witness :
  fs (snd Sample.halted) !! "consolidated_cdnotes.csv" = Some (Csv Sample.march).
Proof.
  rewrite (proj1 (@run_writes_only_its_outputs Sample.full_disk)
             "consolidated_cdnotes.csv" "03-01-2024" "03-02-2024" Sample.filed
             (fst Sample.halted) (snd Sample.halted)).
  - reflexivity.
  - unfold Sample.halted. destruct (Main.run_ai_on_csv _ _ _ _). reflexivity.
  - discriminate.
  - discriminate.
  - reflexivity.
Defined.

(** ** [dsa.py] *)

Section dsa.
Context `{Env}.

Lemma dsa_walk_spec root entries :
  forall acc w,
    columns acc = main_columns ->
    Forall (fun r => length r = 3) (rows acc) ->
    exists w',
      Dsa.walk root entries acc w
      = (Ok (mkDataFrame main_columns (rows acc ++ flat_map contribution entries)), w')
      /\ fs w' = fs w /\ sent w' = sent w.
Proof.
  induction entries as [|[name kind] rest IH]; intros acc w Hcols Hrows.
  - exists w. destruct acc as [cols rs]. simpl in *. subst cols. rewrite app_nil_r.
    repeat split; reflexivity.
  - cbn [Dsa.walk entry_name entry_kind_of flat_map].
    destruct kind as [|[[e|records]|] wf].
    + erewrite Run.bind_step by reflexivity.
      edestruct IH as (w' & -> & Hfs & Hs); [exact Hcols | exact Hrows |].
      exists w'. repeat split; assumption.
    + erewrite Run.bind_step by reflexivity.
      edestruct IH as (w' & -> & Hfs & Hs); [exact Hcols | exact Hrows |].
      exists w'. repeat split; assumption.
    + erewrite Run.bind_step by reflexivity. cbv beta iota.
      erewrite Run.bind_step by reflexivity. cbv beta iota.
      erewrite Run.bind_step by reflexivity. cbv beta iota.
      rewrite (main_concat acc name _ Hcols Hrows).
      edestruct IH as (w' & -> & Hfs & Hs); [reflexivity | |].
      * cbn [rows]. apply Forall_app. split; [exact Hrows|].
        apply Forall_forall. intros r Hr.
        apply list_elem_of_fmap in Hr as (x & -> & _). reflexivity.
      * exists w'. split; [|split; assumption].
        cbn [rows]. rewrite <- app_assoc. unfold contribution, kept_lines, nonblank.
        cbn [entry_kind_of entry_name]. rewrite map_map. reflexivity.
    + erewrite Run.bind_step by reflexivity.
      edestruct IH as (w' & -> & Hfs & Hs); [exact Hcols | exact Hrows |].
      exists w'. repeat split; assumption.
Qed.

Lemma dsa_consolidate_run root out w entries :
  listdir root = Some entries ->
  exists w1,
    fs w1 = fs w /\ sent w1 = sent w
    /\ Dsa.consolidate_cdnotes root out w
       = (Ok tt,
          match flat_map contribution entries, disk_error out with
          | [], _ =>
              mkWorld (fs w1) (dirs w1)
                (logs w1 ++ [(CONSOLE, "No data found to consolidate. No file will be generated.")])
                (sent w1)
          | _, None =>
              mkWorld (<[out := Csv (mkDataFrame main_columns (flat_map contribution entries))]>
                         (fs w1)) (dirs w1)
                      (logs w1 ++ [(CONSOLE, "Consolidated data saved to " +:+ out)]) (sent w1)
          | _, Some msg =>
              mkWorld (fs w1) (dirs w1)
                      (logs w1 ++ [(CONSOLE, "Error saving the consolidated file: " +:+ msg)])
                      (sent w1)
          end).
Proof.
  intros Hls.
  destruct (dsa_walk_spec root entries (Frame.new main_columns)
              (logged [(CONSOLE, "Starting to process the root directory: " +:+ root)] w))
    as (w1 & Hwalk & Hfs & Hs); [reflexivity | constructor |].
  exists w1. split; [exact Hfs|]. split; [exact Hs|].
  unfold Dsa.consolidate_cdnotes. cbv zeta.
  erewrite Run.bind_step by reflexivity. cbv beta iota.
  erewrite Run.bind_step by (unfold os_listdir; rewrite Hls; reflexivity). cbv beta iota.
  erewrite Run.bind_step by exact Hwalk. cbv beta iota.
  unfold Frame.new, Frame.empty. cbn [rows columns app].
  destruct (flat_map contribution entries) as [|r rs] eqn:E; [reflexivity|].
  unfold main_columns, try_except. cbv beta. rewrite Run.bind_run.
  unfold to_csv, write_file. destruct (disk_error out) as [msg|]; reflexivity.
Qed.

(** X16. [consolidate_cdnotes] of [dsa.py] is that of [main.py] in all but
    where it reports: the two return the same result and leave the same
    files, neither sends a request, and no file but the output file can
    change. *)
Theorem dsa_consolidates_like_main :
  forall root_directory output_csv w,
    fst (Dsa.consolidate_cdnotes root_directory output_csv w)
    = fst (Main.consolidate_cdnotes root_directory output_csv w)
    /\ fs (snd (Dsa.consolidate_cdnotes root_directory output_csv w))
       = fs (snd (Main.consolidate_cdnotes root_directory output_csv w))
    /\ sent (snd (Dsa.consolidate_cdnotes root_directory output_csv w)) = sent w
    /\ sent (snd (Main.consolidate_cdnotes root_directory output_csv w)) = sent w
    /\ (forall p, p <> output_csv ->
          fs (snd (Main.consolidate_cdnotes root_directory output_csv w)) !! p = fs w !! p).
Proof.
  intros root out w.
  destruct (listdir root) as [entries|] eqn:Hls.
  - destruct (dsa_consolidate_run root out w entries Hls) as (w1 & Hfs & Hs & ->).
    destruct (main_consolidate_run root out w entries Hls) as (w2 & _ & Hfs2 & Hs2 & ->).
    cbn [fst snd].
    split; [reflexivity|].
    destruct (flat_map contribution entries) as [|r rs]; [|destruct (disk_error out)];
      cbn [fs sent]; rewrite ?Hfs, ?Hfs2, ?Hs, ?Hs2; repeat split; try reflexivity;
      intros p Hp; apply lookup_insert_ne; congruence.
  - assert (Dsa.consolidate_cdnotes root out w
            = (Raise (mkExn FileNotFoundError root),
               logged [(CONSOLE, "Starting to process the root directory: " +:+ root)] w))
      as ->.
    { unfold Dsa.consolidate_cdnotes. cbv zeta.
      erewrite Run.bind_step by reflexivity. cbv beta iota.
      apply Run.bind_raise. unfold os_listdir. rewrite Hls. reflexivity. }
    assert (Main.consolidate_cdnotes root out w
            = (Raise (mkExn FileNotFoundError root),
               logged [(INFO, "Starting to process the root directory: " +:+ root)] w))
      as ->.
    { unfold Main.consolidate_cdnotes. cbv zeta.
      erewrite Run.bind_step by reflexivity. cbv beta iota.
      apply Run.bind_raise. unfold os_listdir. rewrite Hls. reflexivity. }
    cbn [fst snd fs sent logged]. repeat split; reflexivity.
Qed.

End dsa.

Section assign.
Import FrameFacts ProjectionFacts.

Lemma cell_at_row_sets v ps row k :
  Frame.cell_at (foldr (fun j r => Frame.row_set j v r) row ps) k
  = if bool_decide (k ∈ ps) then v else Frame.cell_at row k.
Proof.
  induction ps as [|p ps IH]; [reflexivity|]. cbn [foldr].
  rewrite cell_at_row_set. destruct (decide (k = p)) as [->|Hne].
  - rewrite bool_decide_eq_true_2 by left. reflexivity.
  - rewrite IH. case_bool_decide as Hin.
    + rewrite bool_decide_eq_true_2 by (right; exact Hin). reflexivity.
    + rewrite bool_decide_eq_false_2; [reflexivity|].
      intros Hin'. apply elem_of_cons in Hin' as [?|?]; contradiction.
Qed.

Lemma positions_index c cols j :
  Frame.index_of c cols = Some j -> j ∈ Frame.positions c cols.
Proof.
  intros Hj. pose proof (positions_head c cols) as Hh. rewrite Hj in Hh.
  destruct (Frame.positions c cols) as [|p ps]; [discriminate|].
  injection Hh as ->. left.
Qed.

Lemma positions_of_other c c' cols j :
  c' <> c -> Frame.index_of c' cols = Some j -> j ∉ Frame.positions c cols.
Proof.
  intros Hne Hj Hin. apply list_elem_of_In, positions_label in Hin.
  apply index_of_Some in Hj. congruence.
Qed.

(** [df[c] = v] for a scalar: the column reads [v] in every row, the others
    are as before. *)
Lemma assign_spec c v df :
  Frame.len (Frame.assign c v df) = Frame.len df
  /\ columns (Frame.assign c v df)
     = (if bool_decide (c ∈ columns df) then columns df else columns df ++ [c])
  /\ (forall i, i < Frame.len df -> Frame.get_at i c (Frame.assign c v df) = Some v)
  /\ (forall i c', c' <> c ->
        Frame.get_at i c' (Frame.assign c v df) = Frame.get_at i c' df).
Proof.
  case_bool_decide as Hin.
  - assert (exists p ps, Frame.positions c (columns df) = p :: ps) as (p & ps & Hps).
    { destruct (Frame.positions c (columns df)) as [|p ps] eqn:E; [|eauto].
      apply positions_nil in E. contradiction. }
    assert (Frame.assign c v df
            = mkDataFrame (columns df)
                (map (fun row => foldr (fun j r => Frame.row_set j v r) row (p :: ps))
                     (rows df))) as ->
      by (unfold Frame.assign; rewrite Hps; reflexivity).
    unfold Frame.len, Frame.get_at. cbn [rows columns].
    split; [apply length_map|]. split; [reflexivity|]. split.
    + intros i Hi. rewrite lookup_map.
      destruct (lookup_lt_is_Some_2 _ _ Hi) as [row ->]. simpl option_map. cbn [fmap option_fmap option_map mbind option_bind].
      destruct (index_of_is_Some _ _ Hin) as [j Hj]. rewrite Hj. cbn [mbind option_bind].
      rewrite cell_at_row_sets, bool_decide_eq_true_2; [reflexivity|].
      rewrite <- Hps. apply positions_index. exact Hj.
    + intros i c' Hne. rewrite lookup_map.
      destruct (rows df !! i) as [row|]; [|reflexivity].
      cbn [fmap option_fmap option_map mbind option_bind].
      destruct (Frame.index_of c' (columns df)) as [j|] eqn:Hj; [|reflexivity].
      cbn [mbind option_bind].
      rewrite cell_at_row_sets, bool_decide_eq_false_2; [reflexivity|].
      rewrite <- Hps. eapply positions_of_other; eassumption.
  - destruct (fill_step c v df) as (Hlen & _ & _ & _ & Hval & Hfresh & _).
    unfold Frame.has_column in *. rewrite bool_decide_eq_false_2 in * by exact Hin.
    cbv zeta in *. split; [exact Hlen|]. split.
    + unfold Frame.assign. apply positions_nil in Hin. rewrite Hin. reflexivity.
    + split; [apply Hfresh; exact Hin|].
      intros i c' Hne. destruct (decide (c' ∈ columns df)) as [Hc'|Hc']; [auto|].
      unfold Frame.assign. pose proof Hin as Hp. apply positions_nil in Hp. rewrite Hp.
      unfold Frame.get_at. cbn [rows columns]. rewrite lookup_map.
      rewrite index_of_app_other by exact Hne.
      apply index_of_None in Hc'. rewrite Hc'.
      destruct (rows df !! i); reflexivity.
Qed.

End assign.

Section dsa_run.
Context `{Env}.
Import FrameFacts.

Lemma read_csv_sent path : keeps sent (read_csv path).
Proof.
  intros w r w'. unfold read_csv.
  destruct (fs w !! path) as [[df|cells]|]; intros [= _ <-]; reflexivity.
Qed.

Lemma filter_by_date_sent data s e : keeps sent (filter_by_date data s e).
Proof. unfold filter_by_date, strptime. repeat keeps_step. Qed.

Lemma dsa_run_sent input s e : keeps sent (Dsa.run_ai_on_csv input s e).
Proof.
  unfold Dsa.run_ai_on_csv, log_to_console, to_csv.
  repeat first [keeps_step | apply read_csv_sent | apply filter_by_date_sent].
  destruct (Frame.empty _); repeat keeps_step.
Qed.

(** X17. [run_ai_on_csv] of [dsa.py], the simulated analysis.  It never
    raises, sends no request and changes no file but
    [ai_processed_data.csv].  When some row is in range and the disk takes
    the file, the file holds the rows in range, in order, with the column
    [AI_Result] reading ["Processed by AI"] in every row (added at the end
    if the input lacks it) and every other value as the filter left it. *)
Theorem dsa_run_marks_rows_in_range :
  (forall input_csv start_date end_date w,
      exists w', Dsa.run_ai_on_csv input_csv start_date end_date w = (Ok tt, w')
                 /\ sent w' = sent w
                 /\ forall p, p <> "ai_processed_data.csv" -> fs w' !! p = fs w !! p)
  /\ (forall input_csv start_date end_date w df s e j row rest,
        fs w !! input_csv = Some (Csv df) ->
        Frame.index_of "Record Date" (columns df) = Some j ->
        Calendar.strptime_mdY start_date = Some s ->
        Calendar.strptime_mdY end_date = Some e ->
        List.filter (fun row => dated_within s e (Frame.cell_at row j)) (rows (loaded df))
        = row :: rest ->
        disk_error "ai_processed_data.csv" = None ->
        exists table w',
          Dsa.run_ai_on_csv input_csv start_date end_date w = (Ok tt, w')
          /\ fs w' = <["ai_processed_data.csv" := Csv table]> (fs w)
          /\ Frame.len table = length (row :: rest)
          /\ columns table = (if bool_decide ("AI_Result" ∈ columns df) then columns df
                              else columns df ++ ["AI_Result"])
          /\ (forall i, i < Frame.len table ->
                Frame.get_at i "AI_Result" table = Some (Str "Processed by AI"))
          /\ (forall i c, c <> "AI_Result" ->
                Frame.get_at i c table
                = Frame.get_at i c (mkDataFrame (columns df) (map (stamp j) (row :: rest))))).
Proof.
  split.
  - intros input s e w.
    destruct (Dsa.run_ai_on_csv input s e w) as [r w'] eqn:Hrun.
    assert (r = Ok tt) as ->.
    { unfold Dsa.run_ai_on_csv in Hrun.
      destruct (try_logs_total
                  (data ← read_csv input;
                   log_to_console ("Loaded data from " +:+ input);;
                   filtered_data ← filter_by_date data s e;
                   if Frame.empty filtered_data
                   then log_to_console "No records found in the specified date range."
                   else
                     log_to_console ("Filtered data to " +:+ pretty (Frame.len filtered_data)
                                     +:+ " records within date range.");;
                     to_csv (Frame.assign "AI_Result" (Str "Processed by AI") filtered_data)
                            "ai_processed_data.csv";;
                     log_to_console ("AI processed data saved to " +:+ "ai_processed_data.csv"))
                  (fun e => log_to_console ("Error: " +:+ exn_msg e)) w) as [w'' Hok].
      { intros exc w1. eexists. apply log_to_console_run. }
      rewrite Hok in Hrun. injection Hrun as <- _. reflexivity. }
    exists w'. split; [reflexivity|]. split; [eapply dsa_run_sent; exact Hrun|].
    revert Hrun. generalize (Ok tt : result unit) as r. intros r Hrun p Hp.
    assert (writes_within (fun p => p = "ai_processed_data.csv")
              (Dsa.run_ai_on_csv input s e)) as Hwithin.
    { unfold Dsa.run_ai_on_csv. repeat first [within_step | apply filter_by_date_within].
      destruct (Frame.empty _); repeat within_step. cbv zeta.
      repeat first [solve [apply Within.write_file; reflexivity] | within_step]. }
    eapply Hwithin; eassumption.
  - intros input start_date end_date w df s e j row rest Hf Hj Hs He Hkept Hdisk.
    destruct (assign_spec "AI_Result" (Str "Processed by AI")
                (mkDataFrame (columns df) (map (stamp j) (row :: rest))))
      as (Hlen & Hcols & Hval & Hother).
    assert (exists c0 cs, columns df = c0 :: cs) as (c0 & cs & Ecols)
      by (destruct (columns df); [discriminate Hj|eauto]).
    eexists _, _. split.
    { unfold Dsa.run_ai_on_csv. apply try_ok.
      erewrite Run.bind_step by (apply read_csv_run; exact Hf). cbv beta iota.
      erewrite Run.bind_step by apply log_to_console_run. cbv beta iota.
      erewrite Run.bind_step by (apply (filter_by_date_run (loaded df)); eassumption).
      cbv beta iota. rewrite Hkept.
      assert (Frame.empty (mkDataFrame (columns (loaded df)) (map (stamp j) (row :: rest)))
              = false) as -> by (cbn [loaded columns]; rewrite Ecols; reflexivity).
      erewrite Run.bind_step by apply log_to_console_run. cbv beta iota zeta.
      erewrite Run.bind_step by (apply to_csv_run; exact Hdisk). cbv beta iota.
      rewrite log_to_console_run. reflexivity. }
    split; [reflexivity|].
    cbn [map] in *. split; [etransitivity; [exact Hlen|]; unfold Frame.len; cbn [rows length];
            rewrite length_map; reflexivity|].
    split; [exact Hcols|]. split; [|exact Hother].
    intros i Hi. apply Hval. erewrite <- Hlen. exact Hi.
Qed.

End dsa_run.

Ltac run_by_evaluation :=
  match goal with
  | |- ?lhs = _ =>
      let v := eval vm_compute in lhs in
      transitivity v; [vm_compute; reflexivity | reflexivity]
  end.

Lemma ollama_reply_is_the_stream_text_witness :
  exists w',
    @Main.query_ollama Sample.answers "ep" "m" "p" Sample.world
    = (Ok (Some "Fail, items present"), w').
Proof.
  destruct (proj2 (@ollama_reply_is_the_stream_text Sample.answers "ep" "m" "p" Sample.world)
              _ eq_refl) as (reply & Hrun & Hreply).
  vm_compute in Hreply. subst reply. eexists. exact Hrun.
Defined.

Lemma requests_follow_the_rows_witness :
  exists n,
    n <= 3
    /\ length (sent (snd (@Main.classify_rows Sample.answers "ep" "m" "Note" "pdf_reports"
                            Sample.table Sample.world))) = n.
Proof.
  destruct (proj1 (@requests_follow_the_rows Sample.answers) "ep" "m" "Note" "pdf_reports"
              Sample.table Sample.world _ _ (surjective_pairing _)) as (n & Hn & Hsent & _).
  change (Frame.len Sample.table) with 3 in Hn.
  exists n. split; [exact Hn|]. rewrite Hsent.
  rewrite length_app, length_map, length_take.
  change (length (rows Sample.table)) with 3. change (length (sent Sample.world)) with 0.
  lia.
Defined.

Lemma documents_are_written_in_row_order_witness :
  exists data' w',
    @Main.classify_rows Sample.answers "ep" "m" "Note" "pdf_reports" Sample.table Sample.world
    = (Ok data', w')
    /\ fs w' !! "pdf_reports/03-01-2024-Acme-CD.PDF"
       = Some (Pdf (page (Str "Acme") (Str "2024-03-01") (Str "pens on desk")
                         "Fail, items present"))
    /\ fs w' !! "output_with_ai.csv" = None.
Proof.
  eassert (@Main.classify_rows Sample.answers "ep" "m" "Note" "pdf_reports" Sample.table
             Sample.world = (Ok _, _)) as Hrun by run_by_evaluation.
  destruct (proj1 (@documents_are_written_in_row_order Sample.answers) _ _ _ _ _ _ _ _ Hrun)
    as (_ & Hother & Hlast).
  eexists _, _. split; [exact Hrun|]. split.
  - apply (Hlast [] _ _ []); [vm_compute; reflexivity|]. apply not_elem_of_nil.
  - rewrite Hother; [reflexivity|]. apply (bool_decide_unpack _). vm_compute. reflexivity.
Defined.

Lemma classification_keeps_the_input_columns_witness :
  exists data' w',
    @Main.classify_rows Sample.answers "ep" "m" "Note" "pdf_reports"
      (Main.with_result_columns Sample.table) Sample.world
    = (Ok data', w')
    /\ Frame.len data' = 3
    /\ columns data' = ["Employee Name"; "Record Date"; "Note"; "AI_P_F"; "AI_Response"]
    /\ Frame.get_at 2 "Note" data' = Some (Str "mug").
Proof.
  eassert (@Main.classify_rows Sample.answers "ep" "m" "Note" "pdf_reports"
             (Main.with_result_columns Sample.table)
             Sample.world = (Ok _, _)) as Hrun by run_by_evaluation.
  destruct (proj1 (@classification_keeps_the_input_columns Sample.answers)
              _ _ _ _ _ _ _ _ Hrun) as (Hlen & _ & Hval & Hcols).
  eexists _, _. split; [exact Hrun|]. split; [rewrite Hlen; reflexivity|]. split.
  - rewrite Hcols; [reflexivity| |]; apply (bool_decide_unpack _); reflexivity.
  - rewrite Hval; [reflexivity| |]; discriminate.
Defined.

Lemma classification_without_documents_completes_witness :
  (exists data' w',
      @Gemini.classify_rows Sample.answers "ep" "m" "Note" "pdf_reports" false "key"
        (Gemini.with_result_columns (@loaded Sample.answers Sample.consolidated)) Sample.world
      = (Ok data', w'))
  /\ (exists data' w',
         @Main.classify_rows Sample.bare "ep" "m" "Note" "pdf_reports"
           (Main.with_result_columns (@loaded Sample.bare Sample.consolidated)) Sample.world
         = (Ok data', w')).
Proof.
  split.
  - apply (@classification_without_documents_completes Sample.answers "ep" "m" "Note"
             "pdf_reports" "key" Sample.consolidated Sample.world);
      try (apply (bool_decide_unpack _); reflexivity).
    intros [|[|n]] req; eexists; reflexivity.
  - apply (@classification_without_documents_completes Sample.bare "ep" "m" "Note"
             "pdf_reports" "key" Sample.consolidated Sample.world);
      try (apply (bool_decide_unpack _); reflexivity).
    intros n req. exists None. split; [reflexivity|discriminate].
Defined.

Lemma malformed_reply_ends_the_loop_witness :
  exists w',
    iterrows (@Main.classify_row Fixtures.garbled "ep" "m" "Note" "pdf_reports"
                ["Employee Name"; "Record Date"; "Note"])
             0 [ [Str "Acme"; Str "2024-03-01"; Str "pens on desk"];
                 [Str "Jo Doe"; Str "2024-03-02"; Str "mug"] ]
             Sample.table Sample.world
    = (Raise (mkExn AttributeError "object has no attribute 'get'"), w')
    /\ fs w' = fs Sample.world
    /\ length (sent w') = 1.
Proof.
  destruct (proj1 (@malformed_reply_ends_the_loop Fixtures.garbled) "ep" "m" "Note"
              "pdf_reports" ["Employee Name"; "Record Date"; "Note"] 0
              [Str "Acme"; Str "2024-03-01"; Str "pens on desk"]
              [ [Str "Jo Doe"; Str "2024-03-02"; Str "mug"] ]
              Sample.table Sample.world
              (mkExn AttributeError "object has no attribute 'get'"))
    as (w' & Hrun & Hfs & Hsent).
  - apply (bool_decide_unpack _). reflexivity.
  - reflexivity.
  - exists w'. split; [exact Hrun|]. split; [exact Hfs|]. rewrite Hsent. reflexivity.
Defined.

Lemma main_report_layout_witness :
  exists report,
    columns report = ["AI_P_F"; "AI_Response"; "Employee Name"; "Record Date"; "Note"]
    /\ Frame.len report = 3
    /\ (forall i, Frame.get_at i "Note" report
                  = Frame.get_at i "Note" (@loaded Sample.answers Sample.consolidated))
    /\ exists w',
         @Main.process_csv_for_pass_fail_and_generate_pdfs Sample.answers
           "consolidated_cdnotes.csv" "ep" "m" "Note" "out.csv" "pdf_reports" Sample.stocked
         = (Ok tt, w')
         /\ fs w' !! "out.csv" = Some (Csv report).
Proof.
  eassert (@Main.classify_rows Sample.answers "ep" "m" "Note" "pdf_reports"
             (Main.with_result_columns (@loaded Sample.answers Sample.consolidated))
             (logged [ (INFO, "Available columns in the CSV: "
                              +:+ Text.repr_list (columns Sample.consolidated));
                       (CONSOLE, "Available columns in the CSV: "
                                 +:+ Text.repr_list (columns Sample.consolidated));
                       (CONSOLE, "Processing "
                                 +:+ pretty (Frame.len (Main.with_result_columns
                                                          (@loaded Sample.answers
                                                             Sample.consolidated)))
                                 +:+ " records...") ] Sample.stocked)
           = (Ok _, _)) as Hrun by run_by_evaluation.
  assert (fs Sample.stocked !! "consolidated_cdnotes.csv" = Some (Csv Sample.consolidated))
    as Hfile by (vm_compute; reflexivity).
  assert (NoDup (columns Sample.consolidated)) as Hnodup
    by (apply (bool_decide_unpack _); reflexivity).
  assert ("Note" ∈ columns Sample.consolidated) as Hcol
    by (apply (bool_decide_unpack _); reflexivity).
  destruct (@main_report_layout Sample.answers "consolidated_cdnotes.csv" "ep" "m" "Note"
              "out.csv" "pdf_reports" Sample.stocked Sample.consolidated _ _
              Hfile Hnodup Hcol Hrun) as (report & Hcols & Hlen & _ & Hval & Hsave).
  exists report. split; [exact Hcols|]. split; [exact Hlen|]. split.
  - intros i. apply Hval; [apply (bool_decide_unpack _); reflexivity | discriminate ..].
  - cbn [disk_error Sample.answers] in Hsave. eexists. split; [exact Hsave|].
    cbn [fs logged]. apply lookup_insert_eq.
Defined.

Lemma dsa_run_marks_rows_in_range_witness :
  exists table w',
    @Dsa.run_ai_on_csv Sample.answers "consolidated_cdnotes.csv" "03-01-2024" "03-02-2024"
      Sample.filed = (Ok tt, w')
    /\ fs w' !! "ai_processed_data.csv" = Some (Csv table)
    /\ Frame.len table = 2
    /\ columns table = ["Employee Name"; "Record Date"; "Note"; "AI_Result"]
    /\ Frame.get_at 1 "AI_Result" table = Some (Str "Processed by AI")
    /\ sent w' = [].
Proof.
  destruct (proj2 (@dsa_run_marks_rows_in_range Sample.answers)
              "consolidated_cdnotes.csv" "03-01-2024" "03-02-2024" Sample.filed Sample.march
              (mkDate 2024 3 1) (mkDate 2024 3 2) 1
              [Str "Acme"; Str "03-01-2024"; Str "pens on desk"]
              [ [Str "Jo Doe"; Str "03-02-2024"; Str "mug"] ])
    as (table & w' & Hrun & Hfs & Hlen & Hcols & Hval & _);
    try (vm_compute; reflexivity).
  destruct (proj1 (@dsa_run_marks_rows_in_range Sample.answers)
              "consolidated_cdnotes.csv" "03-01-2024" "03-02-2024" Sample.filed)
    as (w'' & Hrun' & Hsent & _).
  rewrite Hrun in Hrun'. injection Hrun' as <-.
  exists table, w'. split; [exact Hrun|]. split; [rewrite Hfs; apply lookup_insert_eq|].
  split; [exact Hlen|]. split; [exact Hcols|]. split; [|exact Hsent].
  apply Hval. rewrite Hlen. simpl. lia.
Defined.

(** ** The copy of the report *)

Section save_report.
Context `{Env}.
Variable subprocess_run : list string -> option exn.

Lemma save_csv_report_total data start_date end_date open_file w :
  exists w', Gemini.save_csv_report subprocess_run data start_date end_date open_file w
             = (Ok tt, w').
Proof.
  unfold Gemini.save_csv_report. apply try_logs_total.
  intros e w1. eexists. apply log_to_console_run.
Qed.

Lemma save_csv_report_sent data start_date end_date open_file :
  keeps sent (Gemini.save_csv_report subprocess_run data start_date end_date open_file).
Proof.
  unfold Gemini.save_csv_report, log_to_console, to_csv.
  repeat first [keeps_step | apply read_csv_sent].
  destruct open_file; [destruct (subprocess_run _)|]; repeat keeps_step.
Qed.

Lemma save_csv_report_within data start_date end_date open_file :
  writes_within (fun p => p = report_name start_date end_date)
    (Gemini.save_csv_report subprocess_run data start_date end_date open_file).
Proof.
  unfold Gemini.save_csv_report, to_csv.
  repeat first [solve [apply Within.write_file; reflexivity] | within_step].
  destruct open_file; [destruct (subprocess_run _)|]; repeat within_step.
Qed.

End save_report.

(** X18. [save_csv_report] of [gemini_process.py] never raises, sends no
    request and changes no file but the copy, whose name is
    [Clean_Desk_Report-<start>-<end>.csv] with the slashes of the dates
    turned into dashes.  Whatever [data] is, the copy holds the table read
    from [output_with_ai.csv], and it stays on file when the viewer cannot
    be started, which is reported on the console; when there is no
    [output_with_ai.csv], or the disk refuses the copy, nothing is written
    and one console line reports the error. *)
Theorem saved_report_is_a_copy_of_the_output :
  forall `{Env} (subprocess_run : list string -> option exn) data start_date end_date
         open_file w,
    exists w',
      Gemini.save_csv_report subprocess_run data start_date end_date open_file w
      = (Ok tt, w')
      /\ sent w' = sent w
      /\ (forall p, p <> report_name start_date end_date -> fs w' !! p = fs w !! p)
      /\ match fs w !! "output_with_ai.csv" with
         | Some (Csv df) =>
             match disk_error (report_name start_date end_date) with
             | None =>
                 fs w' = <[report_name start_date end_date := Csv (loaded df)]> (fs w)
                 /\ logs w'
                    = logs w
                      ++ (CONSOLE, "Results saved to " +:+ report_name start_date end_date)
                         :: (if open_file then
                               [ match subprocess_run
                                         ["start"; report_name start_date end_date] with
                                 | Some e => (CONSOLE, "Error saving or opening the file: "
                                                       +:+ exn_msg e)
                                 | None => (CONSOLE, "Opening file: "
                                                     +:+ report_name start_date end_date)
                                 end ]
                             else [])
             | Some msg =>
                 fs w' = fs w
                 /\ logs w' = logs w ++ [(CONSOLE, "Error saving or opening the file: "
                                                   +:+ msg)]
             end
         | _ =>
             fs w' = fs w
             /\ exists msg, logs w' = logs w ++ [(CONSOLE, "Error saving or opening the file: "
                                                           +:+ msg)]
         end.
Proof.
  intros H run data s e open_file w.
  destruct (save_csv_report_total run data s e open_file w) as [w' Hrun].
  exists w'. split; [exact Hrun|].
  split; [eapply save_csv_report_sent; exact Hrun|].
  split; [intros p Hp; eapply save_csv_report_within; eauto|].
  revert Hrun. unfold Gemini.save_csv_report. cbv zeta. fold (report_name s e).
  destruct (fs w !! "output_with_ai.csv") as [[df|cells]|] eqn:Hf.
  - destruct (disk_error (report_name s e)) as [msg|] eqn:Hd.
    + erewrite try_caught.
      2:{ erewrite Run.bind_step by (apply read_csv_run; exact Hf). cbv beta iota.
          apply Run.bind_raise. unfold to_csv, write_file. rewrite Hd. reflexivity. }
      rewrite log_to_console_run. intros [= <-]. split; reflexivity.
    + destruct open_file; [destruct (run ["start"; report_name s e]) as [exc|] eqn:Hv|].
      * erewrite try_caught.
        2:{ erewrite Run.bind_step by (apply read_csv_run; exact Hf). cbv beta iota.
            erewrite Run.bind_step by (apply to_csv_run; exact Hd). cbv beta iota.
            erewrite Run.bind_step by apply log_to_console_run. cbv beta iota.
            try rewrite Hv. destruct exc. reflexivity. }
        rewrite log_to_console_run. intros [= <-].
        cbn [fs logs logged]. rewrite <- app_assoc. split; reflexivity.
      * erewrite try_ok.
        2:{ erewrite Run.bind_step by (apply read_csv_run; exact Hf). cbv beta iota.
            erewrite Run.bind_step by (apply to_csv_run; exact Hd). cbv beta iota.
            erewrite Run.bind_step by apply log_to_console_run. cbv beta iota.
            try rewrite Hv. apply log_to_console_run. }
        intros [= <-]. cbn [fs logs logged]. rewrite <- app_assoc. split; reflexivity.
      * erewrite try_ok.
        2:{ erewrite Run.bind_step by (apply read_csv_run; exact Hf). cbv beta iota.
            erewrite Run.bind_step by (apply to_csv_run; exact Hd). cbv beta iota.
            erewrite Run.bind_step by apply log_to_console_run. cbv beta iota.
            reflexivity. }
        intros [= <-]. cbn [fs logs logged]. split; reflexivity.
  - erewrite try_caught.
    2:{ apply Run.bind_raise. unfold read_csv. rewrite Hf. reflexivity. }
    rewrite log_to_console_run. intros [= <-]. split; [reflexivity|]. eexists. reflexivity.
  - erewrite try_caught.
    2:{ apply Run.bind_raise. unfold read_csv. rewrite Hf. reflexivity. }
    rewrite log_to_console_run. intros [= <-]. split; [reflexivity|]. eexists. reflexivity.
Qed.

(** ** The two date formats *)

Section date_formats.

Lemma split_tokens sep c s :
  c <> sep -> In c (list_ascii_of_string s) ->
  exists tok, In tok (Text.split sep s) /\ In c (list_ascii_of_string tok).
Proof.
  intros Hne. induction s as [|a t IH]; [intros []|].
  cbn [list_ascii_of_string Text.split]. intros [->|Hin].
  - rewrite (proj2 (Ascii.eqb_neq _ _) Hne).
    destruct (Text.split sep t) as [|h r]; eexists; (split; [left; reflexivity|]); left;
      reflexivity.
  - destruct (IH Hin) as (tok & Htok & Hc).
    destruct (Ascii.eqb a sep); [exists tok; split; [right; exact Htok|exact Hc]|].
    destruct (Text.split sep t) as [|h r]; [destruct Htok|].
    destruct Htok as [->|Htok].
    + exists (String a tok). split; [left; reflexivity|]. right. exact Hc.
    + exists tok. split; [right; exact Htok|exact Hc].
Qed.

Lemma split_without sep s :
  ~ In sep (list_ascii_of_string s) -> Text.split sep s = [s].
Proof.
  induction s as [|a t IH]; [reflexivity|].
  cbn [list_ascii_of_string Text.split]. intros Hnot.
  destruct (Ascii.eqb_spec a sep) as [->|Hne]; [exfalso; apply Hnot; left; reflexivity|].
  rewrite IH by (intros Hin; apply Hnot; right; exact Hin). reflexivity.
Qed.

Lemma digit_slash : Calendar.digit "/" = None.
Proof. reflexivity. Qed.

Lemma directive_m_no_slash tok n :
  Calendar.directive_m tok = Some n -> ~ In "/"%char (list_ascii_of_string tok).
Proof.
  destruct tok as [|a [|b [|c t]]]; try discriminate; cbn [list_ascii_of_string];
    intros Hd Hin.
  - destruct Hin as [->|[]]. discriminate Hd.
  - destruct Hin as [->|[->|[]]]; [discriminate Hd|].
    unfold Calendar.directive_m in Hd. rewrite digit_slash in Hd.
    destruct (Calendar.digit a); discriminate Hd.
Qed.

Lemma directive_d_no_slash tok n :
  Calendar.directive_d tok = Some n -> ~ In "/"%char (list_ascii_of_string tok).
Proof.
  destruct tok as [|a [|b [|c t]]]; try discriminate; cbn [list_ascii_of_string];
    intros Hd Hin.
  - destruct Hin as [->|[]]. discriminate Hd.
  - unfold Calendar.directive_d in Hd. destruct Hin as [->|[->|[]]]; [discriminate Hd|].
    rewrite digit_slash in Hd.
    destruct (Ascii.eqb a " "); [discriminate Hd|].
    destruct (Calendar.digit a); discriminate Hd.
Qed.

Lemma directive_Y_no_slash tok n :
  Calendar.directive_Y tok = Some n -> ~ In "/"%char (list_ascii_of_string tok).
Proof.
  destruct tok as [|a [|b [|c [|d [|x t]]]]]; try discriminate; cbn [list_ascii_of_string].
  unfold Calendar.directive_Y. intros Hd Hin.
  destruct Hin as [->|[->|[->|[->|[]]]]]; rewrite ?digit_slash in Hd;
    repeat (match type of Hd with
            | context [Calendar.digit ?x] =>
                lazymatch x with
                | "/"%char => fail
                | _ => destruct (Calendar.digit x)
                end
            end; cbn [mbind option_bind] in Hd); discriminate Hd.
Qed.

(** A date text of the consolidated file is none for [Main2.py]. *)
Lemma dash_date_is_no_slash_date text d :
  Calendar.strptime_mdY text = Some d -> Calendar.strptime_dmY text = None.
Proof.
  intros Hd. unfold Calendar.strptime_dmY. rewrite split_without; [reflexivity|].
  intros Hin. destruct (split_tokens "-" "/" text) as (tok & Htok & Hc);
    [discriminate | exact Hin |].
  unfold Calendar.strptime_mdY in Hd.
  destruct (Text.split "-" text) as [|m [|dd [|y [|]]]]; try discriminate Hd.
  destruct (Calendar.directive_m m) as [vm|] eqn:Em; [|discriminate Hd].
  destruct (Calendar.directive_d dd) as [vd|] eqn:Ed; [|discriminate Hd].
  destruct (Calendar.directive_Y y) as [vy|] eqn:Ey; [|discriminate Hd].
  destruct Htok as [<-|[<-|[<-|[]]]].
  - eapply directive_m_no_slash; eassumption.
  - eapply directive_d_no_slash; eassumption.
  - eapply directive_Y_no_slash; eassumption.
Qed.

End date_formats.

Section main2_documents.
Context `{Env}.

(** X19. [generate_pdf] of [Main2.py].  For a text employee name and a text
    date it creates the output directory if it is missing and writes the
    document, twice at the same path, under the name
    [<date>-<name_with_underscores>-CD.PDF], where the date is the
    [%d/%m/%Y] reading of the record date written [%m-%d-%Y] and
    ["Unknown_Date"] when the text does not read so; a disk that refuses
    the path makes it raise the [OSError], the directory created.  Every
    text that reads as a [%m-%d-%Y] date, the form of the consolidated
    file, gives ["Unknown_Date"].  A record date that is no text raises a
    [TypeError], which is not caught, before anything is written. *)
Theorem main2_document_is_named_day_first :
  forall name record_date notes ai_response output_dir w,
    (forall text,
        record_date = Str text ->
        match disk_error (path_join output_dir
                            (document_name (main2_date_part text) name)) with
        | None =>
            Main2.generate_pdf (Str name) record_date notes ai_response output_dir w
            = (Ok tt,
               logged [ (CONSOLE, "PDF generated: "
                                  +:+ path_join output_dir
                                        (document_name (main2_date_part text) name));
                        (CONSOLE, "PDF generated: "
                                  +:+ path_join output_dir
                                        (document_name (main2_date_part text) name)) ]
                      (mkWorld (<[path_join output_dir
                                    (document_name (main2_date_part text) name)
                                  := Pdf (page (Str name) record_date notes ai_response)]>
                                  (fs w))
                               (if bool_decide (output_dir ∈ dirs w) then dirs w
                                else dirs w ++ [output_dir])
                               (logs w) (sent w)))
        | Some msg =>
            Main2.generate_pdf (Str name) record_date notes ai_response output_dir w
            = (Raise (mkExn OSError msg),
               mkWorld (fs w)
                       (if bool_decide (output_dir ∈ dirs w) then dirs w
                        else dirs w ++ [output_dir])
                       (logs w) (sent w))
        end)
    /\ (forall text d,
          Calendar.strptime_mdY text = Some d -> main2_date_part text = "Unknown_Date")
    /\ ((forall text, record_date <> Str text) ->
        exists e w',
          Main2.generate_pdf (Str name) record_date notes ai_response output_dir w
          = (Raise e, w')
          /\ exn_kind e = TypeError /\ fs w' = fs w /\ logs w' = logs w).
Proof.
  intros name record_date notes ai dir w.
  assert (forall (k : M unit),
             ((there ← os_path_exists dir;
               (if negb there then os_makedirs dir else mret tt);; k) w
              = k (mkWorld (fs w) (if bool_decide (dir ∈ dirs w) then dirs w
                                   else dirs w ++ [dir]) (logs w) (sent w)))) as Hdir.
  { intros k. erewrite Run.bind_step by reflexivity. cbv beta iota.
    destruct (bool_decide (dir ∈ dirs w)) eqn:E; cbn [negb].
    - erewrite Run.bind_step by reflexivity. destruct w; reflexivity.
    - erewrite Run.bind_step by reflexivity. unfold os_makedirs. cbv beta.
      rewrite E. reflexivity. }
  split; [|split].
  - intros text ->. unfold Main2.generate_pdf. rewrite Hdir. cbv zeta.
    set (w1 := mkWorld _ _ _ _).
    assert (try_except
              (d ← Main2.strptime_dmY (Str text); mret (Calendar.strftime_mdY d))
              (is_class [ValueError]) (fun _ => mret "Unknown_Date") w1
            = (Ok (main2_date_part text), w1)) as Hpart.
    { unfold try_except, Main2.strptime_dmY, main2_date_part.
      destruct (Calendar.strptime_dmY text) as [d|]; reflexivity. }
    erewrite Run.bind_step by exact Hpart. cbv beta iota.
    erewrite Run.bind_step by reflexivity. cbv beta iota.
    fold (document_name (main2_date_part text) name).
    destruct (disk_error _) as [msg|] eqn:Hd.
    + apply Run.bind_raise. unfold write_file. rewrite Hd. reflexivity.
    + erewrite Run.bind_step by (unfold write_file; rewrite Hd; reflexivity). cbv beta iota.
      erewrite Run.bind_step by reflexivity. cbv beta iota.
      erewrite Run.bind_step by (unfold write_file; rewrite Hd; reflexivity). cbv beta iota.
      unfold print, logging, logged. cbn [fs dirs logs sent].
      rewrite insert_insert_eq, <- app_assoc. reflexivity.
  - intros text d Hd. unfold main2_date_part.
    rewrite (dash_date_is_no_slash_date _ _ Hd). reflexivity.
  - intros Hnot. unfold Main2.generate_pdf. rewrite Hdir. cbv zeta.
    assert (exists msg, forall w1,
               Main2.strptime_dmY record_date w1 = (Raise (mkExn TypeError msg), w1))
      as [msg Hraise].
    { destruct record_date as [| |text|d]; [| |destruct (Hnot text eq_refl)|];
        eexists; intros w1; reflexivity. }
    eexists _, _. split.
    { apply Run.bind_raise. unfold try_except.
      rewrite (Run.bind_raise _ _ _ _ _ (Hraise _)). reflexivity. }
    repeat split; reflexivity.
Qed.

End main2_documents.

Lemma main2_document_is_named_day_first_witness :
  exists w',
    @Main2.generate_pdf Sample.answers (Str "Jo Doe") (Str "01/03/2024") (Str "mug") "Fail"
      "pdf_reports" Sample.world = (Ok tt, w')
    /\ fs w' !! "pdf_reports/03-01-2024-Jo_Doe-CD.PDF"
       = Some (Pdf (page (Str "Jo Doe") (Str "01/03/2024") (Str "mug") "Fail"))
    /\ dirs w' = ["pdf_reports"].
Proof.
  pose proof (proj1 (@main2_document_is_named_day_first Sample.answers "Jo Doe"
                       (Str "01/03/2024") (Str "mug") "Fail" "pdf_reports" Sample.world)
                "01/03/2024" eq_refl) as Hrun.
  cbn [disk_error Sample.answers] in Hrun.
  eexists. split; [exact Hrun|]. split; [|reflexivity].
  cbn [fs logged]. vm_compute. reflexivity.
Defined.

(** ** Consolidation, then the run *)

Section pipeline.
Context `{Env}.

Lemma main_run_total input_csv start_date end_date w :
  exists w', Main.run_ai_on_csv input_csv start_date end_date w = (Ok tt, w').
Proof.
  unfold Main.run_ai_on_csv. apply try_logs_total. intros exc w1.
  erewrite Run.bind_step by apply log_to_console_run. cbv beta iota.
  rewrite logging_run. eauto.
Qed.

(** The rows in range are on file as the classifier's input when the run
    ends, however the classifier ends. *)
Lemma main_run_filtered_file input_csv start_date end_date w df s e j r w2 :
  fs w !! input_csv = Some (Csv df) ->
  Frame.index_of "Record Date" (columns df) = Some j ->
  Calendar.strptime_mdY start_date = Some s ->
  Calendar.strptime_mdY end_date = Some e ->
  List.filter (fun row => dated_within s e (Frame.cell_at row j)) (rows (loaded df)) <> [] ->
  disk_error "ai_processed_data.csv" = None ->
  Main.run_ai_on_csv input_csv start_date end_date w = (r, w2) ->
  fs w2 !! "ai_processed_data.csv"
  = Some (Csv (mkDataFrame (columns df)
                 (map (stamp j)
                    (List.filter (fun row => dated_within s e (Frame.cell_at row j))
                                 (rows (loaded df)))))).
Proof.
  intros Hf Hj Hs He Hsome Hdisk.
  unfold Main.run_ai_on_csv, try_except.
  erewrite Run.bind_step by (apply read_csv_run; exact Hf). cbv beta iota.
  erewrite Run.bind_step by apply log_to_console_run. cbv beta iota.
  erewrite Run.bind_step by apply logging_run. cbv beta iota.
  erewrite Run.bind_step by (apply (filter_by_date_run (loaded df)); eassumption).
  cbv beta iota.
  assert (Frame.empty
            (mkDataFrame (columns (loaded df))
               (map (stamp j)
                  (List.filter (fun row => dated_within s e (Frame.cell_at row j))
                               (rows (loaded df))))) = false) as ->.
  { unfold Frame.empty. cbn [rows columns loaded].
    destruct (List.filter _ _) as [|row rest]; [congruence|]. cbn [map].
    destruct (columns df); [discriminate Hj|reflexivity]. }
  erewrite Run.bind_step by apply log_to_console_run. cbv beta iota.
  erewrite Run.bind_step by apply logging_run. cbv beta iota. cbv zeta.
  erewrite Run.bind_step by (apply to_csv_run; exact Hdisk). cbv beta iota.
  match goal with
  | |- context [Main.process_csv_for_pass_fail_and_generate_pdfs ?a ?b ?c ?d ?o ?p ?w0] =>
      destruct (Main.process_csv_for_pass_fail_and_generate_pdfs a b c d o p w0)
        as [[u|exc] w3] eqn:Hproc;
      pose proof (main_process_within a b c d o p _ _ _ Hproc "ai_processed_data.csv")
        as Hkeep
  end.
  all: rewrite !logged_logged in Hkeep; cbn [fs logged] in Hkeep;
    rewrite lookup_insert_eq in Hkeep.
  - intros [= _ <-]. apply Hkeep. intros [Hp|Hp]; discriminate Hp.
  - cbn [Exception].
    erewrite Run.bind_step by apply log_to_console_run. cbv beta iota.
    rewrite logging_run. intros [= _ <-]. cbn [fs logged].
    apply Hkeep. intros [Hp|Hp]; discriminate Hp.
Qed.

(** X20. Consolidation, then the run of [main.py] over the file it wrote:
    both return normally.  With no consolidated row in the date range the
    run only logs that it loaded the file and found no records; otherwise,
    the disk taking it, [ai_processed_data.csv] holds when the run ends the
    consolidated rows as read back whose date is in range, in order and
    with the date parsed, however the classification went. *)
Theorem consolidated_file_feeds_the_run :
  forall root_directory output_csv start_date end_date w entries s e,
    listdir root_directory = Some entries ->
    flat_map contribution entries <> [] ->
    disk_error output_csv = None ->
    Calendar.strptime_mdY start_date = Some s ->
    Calendar.strptime_mdY end_date = Some e ->
    exists w1 w2,
      Main.consolidate_cdnotes root_directory output_csv w = (Ok tt, w1)
      /\ Main.run_ai_on_csv output_csv start_date end_date w1 = (Ok tt, w2)
      /\ match List.filter (fun row => dated_within s e (Frame.cell_at row 1))
                 (map (map reload) (flat_map contribution entries)) with
         | [] =>
             w2 = logged [ (CONSOLE, "Loaded data from " +:+ output_csv);
                           (INFO, "Loaded data from " +:+ output_csv);
                           (CONSOLE, "No records found in the specified date range.");
                           (INFO, "No records found in the specified date range.") ] w1
         | kept =>
             disk_error "ai_processed_data.csv" = None ->
             fs w2 !! "ai_processed_data.csv"
             = Some (Csv (mkDataFrame ["Employee Name"; "Record Date"; "Note"]
                            (map (stamp 1) kept)))
         end.
Proof.
  intros root out start_date end_date w entries s e Hls Hrows Hdisk Hs He.
  destruct (main_consolidate_run root out w entries Hls) as (w0 & _ & Hfs & _ & Hrun).
  cbv zeta in Hrun. rewrite Hdisk in Hrun.
  destruct (flat_map contribution entries) as [|r0 rs] eqn:Hc; [congruence|].
  rewrite <- Hc in *. clear r0 rs Hc.
  set (table := mkDataFrame main_columns (flat_map contribution entries)) in *.
  set (w1 := mkWorld _ _ _ _) in Hrun.
  assert (fs w1 !! out = Some (Csv table)) as Hfile by apply lookup_insert_eq.
  destruct (main_run_total out start_date end_date w1) as [w2 Hrun2].
  exists w1, w2. split; [exact Hrun|]. split; [exact Hrun2|].
  change (map (map reload) (flat_map contribution entries)) with (rows (loaded table)).
  destruct (List.filter _ (rows (loaded table))) as [|row rest] eqn:Hkept.
  - rewrite (main_run_empty out start_date end_date w1 table s e 1 Hfile eq_refl Hs He Hkept)
      in Hrun2. injection Hrun2 as <-. reflexivity.
  - intros Hd. rewrite <- Hkept.
    eapply (main_run_filtered_file out start_date end_date w1 table s e 1);
      try eassumption; [reflexivity|]. rewrite Hkept. discriminate.
Qed.

End pipeline.

Lemma consolidated_file_feeds_the_run_witness :
  exists w1 w2,
    @Main.consolidate_cdnotes Sample.answers "root" "consolidated_cdnotes.csv" Sample.world
    = (Ok tt, w1)
    /\ @Main.run_ai_on_csv Sample.answers "consolidated_cdnotes.csv" "03-02-2024" "03-31-2024"
         w1 = (Ok tt, w2)
    /\ fs w2 !! "ai_processed_data.csv"
       = Some (Csv (mkDataFrame ["Employee Name"; "Record Date"; "Note"]
                      [ [Str "Acme"; Timestamp (mkDate 2024 3 2);
                         Str "Desk clean - meets compliance"];
                        [Str "Jo Doe"; Timestamp (mkDate 2024 3 2); Str "mug"] ])).
Proof.
  destruct (@consolidated_file_feeds_the_run Sample.answers "root" "consolidated_cdnotes.csv"
              "03-02-2024" "03-31-2024" Sample.world Sample.folders
              (mkDate 2024 3 2) (mkDate 2024 3 31))
    as (w1 & w2 & Hrun1 & Hrun2 & Hfile); try (vm_compute; reflexivity).
  - vm_compute. discriminate.
  - exists w1, w2. split; [exact Hrun1|]. split; [exact Hrun2|].
    match type of Hfile with
    | match ?kept with _ => _ end =>
        let v := eval vm_compute in kept in change kept with v in Hfile
    end.
    cbv beta iota in Hfile. rewrite (Hfile eq_refl). vm_compute. reflexivity.
Defined.
